(** * Risk scoring and enforcement engine of the chat bot

    A shallow embedding of the policy layer of the bot (anti_spam.py,
    rate_limiter.py, moderation.py, security.py, bot_data.py, config.py)
    and the properties its specification states about it.

    Conventions of the embedding.
    - A Python [int] is a [Z]; a [datetime] is a [Z] counting microseconds
      (naive datetimes, as the program uses them); a [timedelta] is a number
      of microseconds.
    - A [str] is a [string], its bytes in UTF-8.  [Str] reads the
      characters off the bytes, computes the [str] methods for ASCII
      characters and takes Python's answer for a character beyond ASCII
      from the environment; the spam scorer, the account check and the
      text helpers are written with it.  [Py] has the methods on ASCII
      text, a character a byte; the input validation is written with them,
      for ASCII text.
    - A [dict] is a [gmap], a [set] a [gset], a [list] a [list].
    - Every method is a state transformer over the object it mutates and the
      outside world ([World]): the clock it reads, the random numbers it
      draws, the calls it makes to the chat transport.  What the outside
      world answers is given by an environment [Env].
    - An exception raised by a call is a result [None], or a boolean for a
      call made inside [try].  Coroutines are run to completion one at a
      time. *)

(** The development goes on, after the properties the specification
    states, with the rest of the code those properties rest on: the
    remaining methods of the rate limiter, the moderation and the security
    system, the cleaning and saving of the registry (bot_data.py), the reset
    and the frequency check of the scorer (anti_spam.py), the text helpers
    (utils.py), the access check of the handlers (handlers.py) and the
    command that grants access (main.py).  There a reply to the user is
    recorded with whether it was delivered, a coroutine that raises is told
    from one that returns, and writes to the data file are taken to
    succeed. *)

From Stdlib Require Import ZArith QArith String Ascii List.
From Stdlib Require Import DecimalString DecimalZ DecimalPos.
From stdpp Require Import gmap strings list fin_maps.

Local Open Scope string_scope.
Local Open Scope Z_scope.

(** ** Python built-ins *)

Module Py.

(** [str.isupper], [str.isdigit], ... on one ASCII character. *)
Definition code (c : ascii) : Z := Z.of_nat (nat_of_ascii c).
Definition between (lo hi : Z) (c : ascii) : bool :=
  (lo <=? code c) && (code c <=? hi).
Definition isupper (c : ascii) : bool := between 65 90 c.
Definition islower (c : ascii) : bool := between 97 122 c.
Definition isdigit (c : ascii) : bool := between 48 57 c.
Definition isalnum (c : ascii) : bool := isupper c || islower c || isdigit c.
Definition isspace (c : ascii) : bool :=
  between 9 13 c || between 28 32 c.

Definition lower_char (c : ascii) : ascii :=
  if isupper c then ascii_of_nat (nat_of_ascii c + 32) else c.

(** [s.lower()] of an ASCII text. *)
Fixpoint lower (s : string) : string :=
  match s with
  | EmptyString => EmptyString
  | String c s' => String (lower_char c) (lower s')
  end.

(** [len(s)] of an ASCII text. *)
Definition len (s : string) : Z := Z.of_nat (String.length s).

(** [pat in s] *)
Fixpoint contains (pat s : string) : bool :=
  String.prefix pat s ||
  match s with
  | EmptyString => false
  | String _ s' => contains pat s'
  end.

(** [", ".join(l)] *)
Fixpoint join (sep : string) (l : list string) : string :=
  match l with
  | [] => ""
  | [x] => x
  | x :: l' => x ++ sep ++ join sep l'
  end.

(** [str(n)] for an [int]. *)
Definition str (n : Z) : string := NilZero.string_of_int (Z.to_int n).

(** [a / b > r] on the floats [a / b] and [r], for integers [a], [b > 0]
    and a decimal constant [r]: the quotient is compared exactly, which is
    what the rounded comparison gives for every length a message can
    have. *)
Definition ratio_gt (a b : Z) (r : Q) : bool :=
  negb (Qle_bool (inject_Z a / inject_Z b) r).

(** [timedelta(...)] in microseconds. *)
Definition seconds (n : Z) : Z := n * 1000000.
Definition minutes (n : Z) : Z := seconds (n * 60).
Definition hours (n : Z) : Z := minutes (n * 60).
Definition days (n : Z) : Z := hours (n * 24).

(** [len(l)] *)
Definition len_list {A} (l : list A) : Z := Z.of_nat (length l).

(** [l[-n:]] for [n > 0] *)
Definition last_n {A} (n : nat) (l : list A) : list A :=
  drop (length l - n)%nat l.

(** [d[k]] on a [defaultdict]: a missing key is first bound to the
    default. *)
Definition dd_get `{Countable K} {V} (d : V) (k : K) (m : gmap K V)
  : V * gmap K V :=
  match m !! k with
  | Some v => (v, m)
  | None => (d, <[k := d]> m)
  end.

End Py.

(** ** config.py *)

Module BotConfig.

(** The settings the policy layer reads.  [SPAM_PATTERNS] are regular
    expressions; the compiled patterns are part of the environment. *)
Record t := {
  OWNER_ID : Z;
  MAX_MESSAGES_PER_MINUTE : Z;
  MAX_MESSAGES_PER_HOUR : Z;
  MAX_API_CALLS_PER_MINUTE : Z;
  MAX_MESSAGE_LENGTH : Z;
  MAX_IDENTICAL_MESSAGES : Z;
  SPAM_SCORE_THRESHOLD : Z;
  AUTO_BAN_SPAM_SCORE : Z;
  ENABLE_PROFANITY_FILTER : bool;
  ENABLE_LINK_FILTER : bool;
  ENABLE_CAPS_FILTER : bool;
  MAX_CAPS_PERCENTAGE : Q;
  ENABLE_USER_VERIFICATION : bool;
  MIN_ACCOUNT_AGE_DAYS : Z;
  PROFANITY_WORDS : list string;
  DATA_FILE : string
}.

(** The class defaults; the owner id has no usable default. *)
Definition defaults (owner : Z) : t := {|
  OWNER_ID := owner;
  MAX_MESSAGES_PER_MINUTE := 10;
  MAX_MESSAGES_PER_HOUR := 100;
  MAX_API_CALLS_PER_MINUTE := 5;
  MAX_MESSAGE_LENGTH := 4000;
  MAX_IDENTICAL_MESSAGES := 3;
  SPAM_SCORE_THRESHOLD := 5;
  AUTO_BAN_SPAM_SCORE := 10;
  ENABLE_PROFANITY_FILTER := true;
  ENABLE_LINK_FILTER := true;
  ENABLE_CAPS_FILTER := true;
  MAX_CAPS_PERCENTAGE := 7 # 10;
  ENABLE_USER_VERIFICATION := true;
  MIN_ACCOUNT_AGE_DAYS := 7;
  PROFANITY_WORDS := ["spam"; "scam"; "fake"];
  DATA_FILE := "alya_data.json"
|}.

(** The integer settings the process environment can override. *)
Record environ := {
  env_OWNER_ID : Z;
  env_MAX_MESSAGES_PER_MINUTE : option Z;
  env_MAX_MESSAGES_PER_HOUR : option Z;
  env_MIN_ACCOUNT_AGE_DAYS : option Z
}.

Definition load_from_env (e : environ) : t :=
  let config := defaults (env_OWNER_ID e) in
  {|
    OWNER_ID := OWNER_ID config;
    MAX_MESSAGES_PER_MINUTE :=
      default (MAX_MESSAGES_PER_MINUTE config) (env_MAX_MESSAGES_PER_MINUTE e);
    MAX_MESSAGES_PER_HOUR :=
      default (MAX_MESSAGES_PER_HOUR config) (env_MAX_MESSAGES_PER_HOUR e);
    MAX_API_CALLS_PER_MINUTE := MAX_API_CALLS_PER_MINUTE config;
    MAX_MESSAGE_LENGTH := MAX_MESSAGE_LENGTH config;
    MAX_IDENTICAL_MESSAGES := MAX_IDENTICAL_MESSAGES config;
    SPAM_SCORE_THRESHOLD := SPAM_SCORE_THRESHOLD config;
    AUTO_BAN_SPAM_SCORE := AUTO_BAN_SPAM_SCORE config;
    ENABLE_PROFANITY_FILTER := ENABLE_PROFANITY_FILTER config;
    ENABLE_LINK_FILTER := ENABLE_LINK_FILTER config;
    ENABLE_CAPS_FILTER := ENABLE_CAPS_FILTER config;
    MAX_CAPS_PERCENTAGE := MAX_CAPS_PERCENTAGE config;
    ENABLE_USER_VERIFICATION := ENABLE_USER_VERIFICATION config;
    MIN_ACCOUNT_AGE_DAYS :=
      default (MIN_ACCOUNT_AGE_DAYS config) (env_MIN_ACCOUNT_AGE_DAYS e);
    PROFANITY_WORDS := PROFANITY_WORDS config;
    DATA_FILE := DATA_FILE config
  |}.

End BotConfig.

(** ** The outside world *)

(** A call to the chat transport. *)
Inductive Notice :=
  | WarningNotice (warning_count user_id : Z) (reason : string)
  | MuteNotice (user_id minutes : Z) (reason : string)
  | BanNotice (user_id : Z) (reason : string).

Inductive Action :=
  | restrict_chat_member (chat_id user_id : Z) (can_send : bool)
      (until_date : option Z)
  | ban_chat_member (chat_id user_id : Z)
  | unban_chat_member (chat_id user_id : Z)
  | send_message (chat_id : Z) (text : Notice)
  | delete_message (chat_id message_id : Z).

(** What the program finds outside: the configuration it was started with,
    the readings of the clock and the random draws in the order they are
    asked for, whether the n-th transport call goes through, and the library
    functions it calls on text.  The last six are Python's tables for the
    characters beyond ASCII: [str.isupper], [str.isdigit], [str.isalnum]
    and [str.isspace] of one such character, [str.lower] of a text that
    holds one, and the search of the short-link pattern
    [https?://(?:bit\.ly|tinyurl|t\.co|short\.link|goo\.gl)/], ignoring
    case, in such a text. *)
Record Env := {
  config : BotConfig.t;
  clock : nat -> Z;
  randint : nat -> Z;
  transport_ok : nat -> bool;
  md5_hexdigest : string -> string;
  spam_patterns : list (string -> bool);
  int_of_str : string -> option Z;
  isoformat : Z -> string;
  fromisoformat : string -> option Z;
  unicode_isupper : string -> bool;
  unicode_isdigit : string -> bool;
  unicode_isalnum : string -> bool;
  unicode_isspace : string -> bool;
  unicode_lower : string -> string;
  unicode_search_links : string -> bool
}.

Record World := {
  reads : nat;
  draws : nat;
  calls : list (Action * bool)
}.

(** The world after one reading of the clock. *)
Definition tick (w : World) : World :=
  {| reads := S (reads w); draws := draws w; calls := calls w |}.

(** The state monad the methods run in. *)
Definition M (S A : Type) : Type := S -> A * S.

#[export] Instance M_ret {S} : MRet (M S) := fun A x s => (x, s).
#[export] Instance M_bind {S} : MBind (M S) :=
  fun A B f m s => let '(a, s') := m s in f a s'.

Definition gets {S A} (f : S -> A) : M S A := fun s => (f s, s).
Definition modify {S} (f : S -> S) : M S unit := fun s => (tt, f s).

(** Run a computation on a part of the state. *)
Definition zoom {S T A} (get : S -> T) (set : T -> S -> S) (m : M T A)
  : M S A :=
  fun s => let '(a, t) := m (get s) in (a, set t s).

Definition in_world {X A} (m : M World A) : M (X * World) A :=
  zoom snd (fun w s => (s.1, w)) m.
Definition on_self {X A} (m : M X A) : M (X * World) A :=
  zoom fst (fun x s => (x, s.2)) m.

Section Effects.
Context (E : Env).

(** [datetime.now()] *)
Definition datetime_now : M World Z := fun w =>
  (clock E (reads w),
   {| reads := S (reads w); draws := draws w; calls := calls w |}).

(** [random.randint(100000, 999999)] *)
Definition random_randint : M World Z := fun w =>
  (randint E (draws w),
   {| reads := reads w; draws := S (draws w); calls := calls w |}).

(** An awaited transport call; [false] when it raises. *)
Definition transport (a : Action) : M World bool := fun w =>
  let ok := transport_ok E (length (calls w)) in
  (ok, {| reads := reads w; draws := draws w;
          calls := calls w ++ [(a, ok)] |}).
End Effects.

(** ** Text beyond ASCII

    A [str] is written in UTF-8: a character is one byte below 128 or a
    leading byte followed by continuation bytes (128 to 191).  Equality,
    concatenation and [pat in s] are those of the bytes.  The methods that
    depend on the character are computed for ASCII characters and read
    from the environment for the others. *)

Module Str.

Definition continues (b : ascii) : bool := Py.between 128 191 b.

(** [list(s)]: the characters of a text, each as a text. *)
Fixpoint chars_from (cur : string) (s : string) : list string :=
  match s with
  | EmptyString => if String.eqb cur "" then [] else [cur]
  | String b s' =>
      if continues b then chars_from (cur ++ String b "") s'
      else ((if String.eqb cur "" then [] else [cur])
            ++ chars_from (String b "") s')%list
  end.
Definition chars (s : string) : list string := chars_from "" s.

(** ["".join(cs)] *)
Definition join (cs : list string) : string := foldr String.append "" cs.

(** [len(s)] *)
Definition len (s : string) : Z := Py.len_list (chars s).

(** [sum(1 for c in s if p(c))] *)
Definition count (p : string -> bool) (s : string) : Z :=
  Py.len_list (List.filter p (chars s)).

Fixpoint is_ascii (s : string) : bool :=
  match s with
  | EmptyString => true
  | String b s' => (Py.code b <? 128) && is_ascii s'
  end.

(** A method of one character: the table for ASCII, the environment's
    beyond. *)
Definition by_char (ascii_table : ascii -> bool)
  (unicode_table : string -> bool) (c : string) : bool :=
  match c with
  | String b EmptyString =>
      if Py.code b <? 128 then ascii_table b else unicode_table c
  | _ => unicode_table c
  end.

Section Methods.
Context (E : Env).

Definition isupper : string -> bool := by_char Py.isupper (unicode_isupper E).
Definition isdigit : string -> bool := by_char Py.isdigit (unicode_isdigit E).
Definition isalnum : string -> bool := by_char Py.isalnum (unicode_isalnum E).
Definition isspace : string -> bool := by_char Py.isspace (unicode_isspace E).

(** [s.lower()] *)
Definition lower (s : string) : string :=
  if is_ascii s then Py.lower s else unicode_lower E s.

(** [s.split()]: the maximal runs of characters that are not white space. *)
Fixpoint split_from (cur : string) (cs : list string) : list string :=
  match cs with
  | [] => if String.eqb cur "" then [] else [cur]
  | c :: cs' =>
      if isspace c
      then (if String.eqb cur "" then split_from "" cs'
            else cur :: split_from "" cs')
      else split_from (cur ++ c) cs'
  end.
Definition split (s : string) : list string := split_from "" (chars s).

(** [re.search(suspicious_url_pattern, text, re.IGNORECASE)]: on ASCII
    text, one of the hosts after [http://] or [https://] and before [/],
    in any letter case. *)
Definition search_links (hosts : list string) (text : string) : bool :=
  if is_ascii text then
    existsb (fun scheme =>
      existsb (fun host =>
        Py.contains (scheme ++ host ++ "/") (Py.lower text)) hosts)
      ["http://"; "https://"]
  else unicode_search_links E text.
End Methods.
End Str.

(** ** rate_limiter.py *)

Module RateLimiter.

Record t := {
  user_requests : gmap Z (list Z);
  api_requests : gmap Z (list Z);
  cooldown_users : gmap Z Z;
  warning_counts : gmap Z Z
}.

Definition __init__ : t := {|
  user_requests := ∅; api_requests := ∅;
  cooldown_users := ∅; warning_counts := ∅
|}.

Definition set_user_requests (v : gmap Z (list Z)) (self : t) : t :=
  {| user_requests := v; api_requests := api_requests self;
     cooldown_users := cooldown_users self;
     warning_counts := warning_counts self |}.
Definition set_api_requests (v : gmap Z (list Z)) (self : t) : t :=
  {| user_requests := user_requests self; api_requests := v;
     cooldown_users := cooldown_users self;
     warning_counts := warning_counts self |}.
Definition set_cooldown_users (v : gmap Z Z) (self : t) : t :=
  {| user_requests := user_requests self;
     api_requests := api_requests self;
     cooldown_users := v; warning_counts := warning_counts self |}.
Definition set_warning_counts (v : gmap Z Z) (self : t) : t :=
  {| user_requests := user_requests self;
     api_requests := api_requests self;
     cooldown_users := cooldown_users self; warning_counts := v |}.

(** [[x for x in l if x > bound]] *)
Definition newer_than (bound : Z) (l : list Z) : list Z :=
  List.filter (fun x => bound <? x) l.

(** [min(self.warning_counts[user_id] * 5, 60)] *)
Definition cooldown_minutes (count : Z) : Z := Z.min (count * 5) 60.

Section Methods.
Context (E : Env).

Definition _clean_old_requests (user_id now : Z) : M t unit :=
  let hour_ago := now - Py.hours 1 in
  modify (fun self =>
    let '(reqs, d) := Py.dd_get [] user_id (user_requests self) in
    set_user_requests (<[user_id := newer_than hour_ago reqs]> d) self);;
  let minute_ago := now - Py.minutes 1 in
  modify (fun self =>
    let '(reqs, d) := Py.dd_get [] user_id (api_requests self) in
    set_api_requests (<[user_id := newer_than minute_ago reqs]> d) self).

Definition _apply_cooldown (user_id : Z) (violation_type : string)
  : M (t * World) unit :=
  now ← in_world (datetime_now E);
  on_self (modify (fun self =>
    let '(n, d) := Py.dd_get 0 user_id (warning_counts self) in
    set_warning_counts (<[user_id := n + 1]> d) self));;
  count ← on_self (fun self =>
    let '(n, d) := Py.dd_get 0 user_id (warning_counts self) in
    (n, set_warning_counts d self));
  on_self (modify (fun self =>
    set_cooldown_users
      (<[user_id := now + Py.minutes (cooldown_minutes count)]>
         (cooldown_users self)) self)).

Definition _check_message_rate_limit (user_id now : Z)
  : M (t * World) bool :=
  let minute_ago := now - Py.minutes 1 in
  reqs ← on_self (fun self =>
    let '(reqs, d) := Py.dd_get [] user_id (user_requests self) in
    (reqs, set_user_requests d self));
  let recent_messages := newer_than minute_ago reqs in
  if BotConfig.MAX_MESSAGES_PER_MINUTE (config E) <=? Py.len_list recent_messages
  then _apply_cooldown user_id "message_flood";; mret true
  else
    let hour_ago := now - Py.hours 1 in
    reqs ← on_self (fun self =>
      let '(reqs, d) := Py.dd_get [] user_id (user_requests self) in
      (reqs, set_user_requests d self));
    let hourly_messages := newer_than hour_ago reqs in
    if BotConfig.MAX_MESSAGES_PER_HOUR (config E) <=? Py.len_list hourly_messages
    then _apply_cooldown user_id "message_abuse";; mret true
    else mret false.

Definition _check_api_rate_limit (user_id now : Z)
  : M (t * World) bool :=
  let minute_ago := now - Py.minutes 1 in
  reqs ← on_self (fun self =>
    let '(reqs, d) := Py.dd_get [] user_id (api_requests self) in
    (reqs, set_api_requests d self));
  let recent_api_calls := newer_than minute_ago reqs in
  if BotConfig.MAX_API_CALLS_PER_MINUTE (config E) <=? Py.len_list recent_api_calls
  then _apply_cooldown user_id "api_abuse";; mret true
  else mret false.

Definition is_rate_limited (user_id : Z) (request_type : string)
  : M (t * World) bool :=
  now ← in_world (datetime_now E);
  cooldown ← gets (fun s => cooldown_users s.1 !! user_id);
  let go : M (t * World) bool :=
    on_self (_clean_old_requests user_id now);;
    if String.eqb request_type "message"
    then _check_message_rate_limit user_id now
    else if String.eqb request_type "api"
    then _check_api_rate_limit user_id now
    else mret false in
  match cooldown with
  | Some until =>
      if now <? until then mret true
      else
        on_self (modify (fun self =>
          set_cooldown_users (delete user_id (cooldown_users self)) self));;
        go
  | None => go
  end.

Definition add_request (user_id : Z) (request_type : string)
  : M (t * World) unit :=
  now ← in_world (datetime_now E);
  if String.eqb request_type "message" then
    on_self (modify (fun self =>
      let '(reqs, d) := Py.dd_get [] user_id (user_requests self) in
      set_user_requests (<[user_id := (reqs ++ [now])%list]> d) self))
  else if String.eqb request_type "api" then
    on_self (modify (fun self =>
      let '(reqs, d) := Py.dd_get [] user_id (api_requests self) in
      set_api_requests (<[user_id := (reqs ++ [now])%list]> d) self))
  else mret tt.

(** [int(x)] of a float number of seconds: truncation toward zero. *)
Definition get_cooldown_remaining (user_id : Z)
  : M (t * World) (option Z) :=
  cooldown ← gets (fun s => cooldown_users s.1 !! user_id);
  match cooldown with
  | None => mret None
  | Some until =>
      now ← in_world (datetime_now E);
      mret (Some (Z.max 0 (Z.quot (until - now) 1000000)))
  end.

Definition reset_user_limits (user_id : Z) : M (t * World) unit :=
  on_self (modify (fun self =>
    set_user_requests (<[user_id := []]> (user_requests self)) self));;
  on_self (modify (fun self =>
    set_api_requests (<[user_id := []]> (api_requests self)) self));;
  on_self (modify (fun self =>
    set_cooldown_users (delete user_id (cooldown_users self)) self));;
  on_self (modify (fun self =>
    set_warning_counts (<[user_id := 0]> (warning_counts self)) self)).

(** The dictionary [get_user_stats] returns, as a record. *)
Record user_stats := {
  messages_last_minute : Z;
  messages_last_hour : Z;
  api_calls_last_minute : Z;
  warning_count : Z;
  cooldown_remaining : Z
}.

Definition get_user_stats (user_id : Z) : M (t * World) user_stats :=
  now ← in_world (datetime_now E);
  let minute_ago := now - Py.minutes 1 in
  let hour_ago := now - Py.hours 1 in
  reqs1 ← on_self (fun self =>
    let '(reqs, d) := Py.dd_get [] user_id (user_requests self) in
    (reqs, set_user_requests d self));
  reqs2 ← on_self (fun self =>
    let '(reqs, d) := Py.dd_get [] user_id (user_requests self) in
    (reqs, set_user_requests d self));
  reqs3 ← on_self (fun self =>
    let '(reqs, d) := Py.dd_get [] user_id (api_requests self) in
    (reqs, set_api_requests d self));
  count ← on_self (fun self =>
    let '(n, d) := Py.dd_get 0 user_id (warning_counts self) in
    (n, set_warning_counts d self));
  remaining ← get_cooldown_remaining user_id;
  mret {|
    messages_last_minute := Py.len_list (newer_than minute_ago reqs1);
    messages_last_hour := Py.len_list (newer_than hour_ago reqs2);
    api_calls_last_minute := Py.len_list (newer_than minute_ago reqs3);
    warning_count := count;
    cooldown_remaining := default 0 remaining
  |}.

(** [n] breaches in a row for one user, nothing in between. *)
Fixpoint breaches (n : nat) (user_id : Z) : M (t * World) unit :=
  match n with
  | O => mret tt
  | S k => breaches k user_id;; _apply_cooldown user_id "message_flood"
  end.

(** The public methods, as the calls a client can make. *)
Inductive method :=
  | IsRateLimited (user_id : Z) (request_type : string)
  | AddRequest (user_id : Z) (request_type : string)
  | GetCooldownRemaining (user_id : Z)
  | ResetUserLimits (user_id : Z)
  | GetUserStats (user_id : Z).

Definition invoke (m : method) : M (t * World) unit :=
  match m with
  | IsRateLimited user_id request_type =>
      is_rate_limited user_id request_type;; mret tt
  | AddRequest user_id request_type => add_request user_id request_type
  | GetCooldownRemaining user_id =>
      get_cooldown_remaining user_id;; mret tt
  | ResetUserLimits user_id => reset_user_limits user_id
  | GetUserStats user_id => get_user_stats user_id;; mret tt
  end.
End Methods.
End RateLimiter.

(** The effect of one breach on the counter and the cooldown of a user. *)
Definition breached (user_id : Z) (before : RateLimiter.t) (now : Z)
  (after : RateLimiter.t) : Prop :=
  let n := default 0 (RateLimiter.warning_counts before !! user_id) + 1 in
  RateLimiter.warning_counts after !! user_id = Some n /\
  RateLimiter.cooldown_users after !! user_id =
    Some (now + Py.minutes (RateLimiter.cooldown_minutes n)) /\
  (forall u, u <> user_id ->
     RateLimiter.cooldown_users after !! u =
     RateLimiter.cooldown_users before !! u).

(** What [is_rate_limited] does once the cooldown entry is out of the
    way. *)
Definition window_check (E : Env) (user_id : Z) (request_type : string)
  (now : Z) : M (RateLimiter.t * World) bool :=
  on_self (RateLimiter._clean_old_requests user_id now);;
  if String.eqb request_type "message"
  then RateLimiter._check_message_rate_limit E user_id now
  else if String.eqb request_type "api"
  then RateLimiter._check_api_rate_limit E user_id now
  else mret false.

(** ** The inbound event *)

Module User.
Record t := { id : Z; username : option string; first_name : string }.
End User.

Module Chat.
Record t := { id : Z; type : string }.
End Chat.

Module Message.
Record t := { message_id : Z; text : option string }.
End Message.

Module Update.
Record t := {
  message : option Message.t;
  effective_user : User.t;
  effective_chat : Chat.t
}.
End Update.

(** ** moderation.py *)

Module ModerationSystem.

Record t := {
  auto_moderation_actions : gmap Z (list string);
  warning_counts : gmap (Z * Z) Z;
  muted_users : gmap (Z * Z) Z
}.

Definition __init__ : t := {|
  auto_moderation_actions := ∅; warning_counts := ∅; muted_users := ∅
|}.

Definition set_warning_counts (v : gmap (Z * Z) Z) (self : t) : t :=
  {| auto_moderation_actions := auto_moderation_actions self;
     warning_counts := v; muted_users := muted_users self |}.
Definition set_muted_users (v : gmap (Z * Z) Z) (self : t) : t :=
  {| auto_moderation_actions := auto_moderation_actions self;
     warning_counts := warning_counts self; muted_users := v |}.

Section Methods.
Context (E : Env).

Definition _mute_user (update : Update.t) (user_id minutes : Z)
  (reason : string) : M (t * World) unit :=
  let chat_id := Chat.id (Update.effective_chat update) in
  let key := (chat_id, user_id) in
  now ← in_world (datetime_now E);
  ok ← in_world (transport E
    (restrict_chat_member chat_id user_id false
       (Some (now + Py.minutes minutes))));
  if (ok : bool) then
    now ← in_world (datetime_now E);
    on_self (modify (fun self =>
      set_muted_users
        (<[key := now + Py.minutes minutes]> (muted_users self)) self));;
    in_world (transport E
      (send_message chat_id (MuteNotice user_id minutes reason)));;
    mret tt
  else mret tt.

Definition _warn_user (update : Update.t) (user_id : Z) (reason : string)
  : M (t * World) unit :=
  let chat_id := Chat.id (Update.effective_chat update) in
  let key := (chat_id, user_id) in
  on_self (modify (fun self =>
    set_warning_counts
      (<[key := default 0 (warning_counts self !! key) + 1]>
         (warning_counts self)) self));;
  warning_count ← gets (fun s => default 0 (warning_counts s.1 !! key));
  ok ← in_world (transport E
    (send_message chat_id (WarningNotice warning_count user_id reason)));
  if (ok : bool) then
    if 3 <=? warning_count
    then _mute_user update user_id 60 "3 peringatan spam"
    else mret tt
  else mret tt.

Definition _ban_user (update : Update.t) (user_id : Z) (reason : string)
  : M (t * World) unit :=
  let chat_id := Chat.id (Update.effective_chat update) in
  ok ← in_world (transport E (ban_chat_member chat_id user_id));
  if (ok : bool) then
    in_world (transport E
      (send_message chat_id (BanNotice user_id reason)));;
    mret tt
  else mret tt.

Definition handle_spam_violation (update : Update.t) (spam_score : Z)
  (reason : string) : M (t * World) unit :=
  let user := Update.effective_user update in
  let chat := Update.effective_chat update in
  if String.eqb (Chat.type chat) "private" then mret tt
  else
    (if BotConfig.AUTO_BAN_SPAM_SCORE (config E) <=? spam_score then
       _ban_user update (User.id user) reason
     else if BotConfig.SPAM_SCORE_THRESHOLD (config E) + 2 <=? spam_score
     then _mute_user update (User.id user) 30 reason
     else if BotConfig.SPAM_SCORE_THRESHOLD (config E) <=? spam_score
     then _warn_user update (User.id user) reason
     else mret tt);;
    match Update.message update with
    | Some m =>
        in_world (transport E
          (delete_message (Chat.id chat) (Message.message_id m)));;
        mret tt
    | None => mret tt
    end.

Definition unmute_user (update : Update.t) (user_id : Z)
  : M (t * World) bool :=
  let chat_id := Chat.id (Update.effective_chat update) in
  let key := (chat_id, user_id) in
  ok ← in_world (transport E
    (restrict_chat_member chat_id user_id true None));
  if (ok : bool) then
    on_self (modify (fun self =>
      set_muted_users (delete key (muted_users self)) self));;
    mret true
  else mret false.

Definition unban_user (update : Update.t) (user_id : Z)
  : M (t * World) bool :=
  let chat_id := Chat.id (Update.effective_chat update) in
  in_world (transport E (unban_chat_member chat_id user_id)).

Definition clear_user_warnings (chat_id user_id : Z)
  : M (t * World) unit :=
  let key := (chat_id, user_id) in
  on_self (modify (fun self =>
    set_warning_counts (delete key (warning_counts self)) self)).

Definition get_user_warnings (chat_id user_id : Z) : M (t * World) Z :=
  let key := (chat_id, user_id) in
  gets (fun s => default 0 (warning_counts s.1 !! key)).

Definition is_user_muted (chat_id user_id : Z) : M (t * World) bool :=
  let key := (chat_id, user_id) in
  muted ← gets (fun s => muted_users s.1 !! key);
  match muted with
  | None => mret false
  | Some unmute_time =>
      now ← in_world (datetime_now E);
      if unmute_time <=? now then
        on_self (modify (fun self =>
          set_muted_users (delete key (muted_users self)) self));;
        mret false
      else mret true
  end.

Definition get_mute_remaining (chat_id user_id : Z)
  : M (t * World) (option Z) :=
  let key := (chat_id, user_id) in
  muted ← gets (fun s => muted_users s.1 !! key);
  match muted with
  | None => mret None
  | Some unmute_time =>
      now ← in_world (datetime_now E);
      mret (Some (Z.max 0 (Z.quot (unmute_time - now) 1000000)))
  end.

Fixpoint unmute_all (expired_mutes : list (Z * Z)) : M (t * World) unit :=
  match expired_mutes with
  | [] => mret tt
  | (chat_id, user_id) :: rest =>
      ok ← in_world (transport E
        (restrict_chat_member chat_id user_id true None));
      (if (ok : bool) then
         on_self (modify (fun self =>
           set_muted_users
             (delete (chat_id, user_id) (muted_users self)) self))
       else mret tt);;
      unmute_all rest
  end.

Definition cleanup_expired_restrictions : M (t * World) unit :=
  now ← in_world (datetime_now E);
  expired_mutes ← gets (fun s =>
    (List.filter (fun kv => kv.2 <=? now)
       (map_to_list (muted_users s.1))).*1);
  unmute_all expired_mutes.

(** The methods, as the calls a client can make. *)
Inductive method :=
  | HandleSpamViolation (update : Update.t) (spam_score : Z)
      (reason : string)
  | WarnUser (update : Update.t) (user_id : Z) (reason : string)
  | MuteUser (update : Update.t) (user_id minutes : Z) (reason : string)
  | BanUser (update : Update.t) (user_id : Z) (reason : string)
  | UnmuteUser (update : Update.t) (user_id : Z)
  | UnbanUser (update : Update.t) (user_id : Z)
  | ClearUserWarnings (chat_id user_id : Z)
  | GetUserWarnings (chat_id user_id : Z)
  | IsUserMuted (chat_id user_id : Z)
  | GetMuteRemaining (chat_id user_id : Z)
  | CleanupExpiredRestrictions.

Definition invoke (m : method) : M (t * World) unit :=
  match m with
  | HandleSpamViolation update spam_score reason =>
      handle_spam_violation update spam_score reason
  | WarnUser update user_id reason => _warn_user update user_id reason
  | MuteUser update user_id minutes reason =>
      _mute_user update user_id minutes reason
  | BanUser update user_id reason => _ban_user update user_id reason
  | UnmuteUser update user_id => unmute_user update user_id;; mret tt
  | UnbanUser update user_id => unban_user update user_id;; mret tt
  | ClearUserWarnings chat_id user_id =>
      clear_user_warnings chat_id user_id
  | GetUserWarnings chat_id user_id =>
      get_user_warnings chat_id user_id;; mret tt
  | IsUserMuted chat_id user_id => is_user_muted chat_id user_id;; mret tt
  | GetMuteRemaining chat_id user_id =>
      get_mute_remaining chat_id user_id;; mret tt
  | CleanupExpiredRestrictions => cleanup_expired_restrictions
  end.
End Methods.
End ModerationSystem.

(** The transport calls made between two worlds, and their kinds. *)
Definition issued (before after : World) : list (Action * bool) :=
  drop (length (calls before)) (calls after).

Definition is_mute (a : Action) : bool :=
  match a with restrict_chat_member _ _ false _ => true | _ => false end.
Definition is_ban (a : Action) : bool :=
  match a with ban_chat_member _ _ => true | _ => false end.
Definition is_warning (a : Action) : bool :=
  match a with send_message _ (WarningNotice _ _ _) => true | _ => false end.

(** ** security.py *)

Module SecuritySystem.

Record t := {
  suspicious_users : gset Z;
  failed_verifications : gmap Z Z;
  user_sessions : gmap Z string;
  session_timestamps : gmap Z Z
}.

Definition __init__ : t := {|
  suspicious_users := ∅; failed_verifications := ∅;
  user_sessions := ∅; session_timestamps := ∅
|}.

Definition set_suspicious_users (v : gset Z) (self : t) : t :=
  {| suspicious_users := v;
     failed_verifications := failed_verifications self;
     user_sessions := user_sessions self;
     session_timestamps := session_timestamps self |}.
Definition set_failed_verifications (v : gmap Z Z) (self : t) : t :=
  {| suspicious_users := suspicious_users self;
     failed_verifications := v;
     user_sessions := user_sessions self;
     session_timestamps := session_timestamps self |}.

Definition suspicious_patterns : list string :=
  ["bot"; "spam"; "fake"; "test"; "promo"; "ad"; "marketing"].

Definition promo_words : list string :=
  ["free"; "win"; "prize"; "money"; "bitcoin"; "crypto"].

(** [not user.username]: the username is missing or empty. *)
Definition no_username (user : User.t) : bool :=
  match User.username user with
  | None => true
  | Some u => String.eqb u ""
  end.

Section Methods.
Context (E : Env).

Definition _is_suspicious_username (username : string) : bool :=
  let username_lower := Str.lower E username in
  if existsb (fun pattern => Py.contains pattern username_lower)
       suspicious_patterns
  then true
  else
    let digit_count := Str.count (Str.isdigit E) username in
    if (0 <? Str.len username)
       && Py.ratio_gt digit_count (Str.len username) (5 # 10)
    then true
    else false.

Definition _is_suspicious_name (name : string) : bool :=
  if String.eqb name "" then true
  else
    let special_char_count :=
      Str.count (fun c => negb (Str.isalnum E c) && negb (Str.isspace E c))
        name in
    if (0 <? Str.len name)
       && Py.ratio_gt special_char_count (Str.len name) (3 # 10)
    then true
    else
      let name_lower := Str.lower E name in
      existsb (fun word => Py.contains word name_lower) promo_words.

Definition verify_user_account (user : User.t) : M t (bool * string) :=
  if negb (BotConfig.ENABLE_USER_VERIFICATION (config E))
  then mret (true, "verification_disabled")
  else
    let verification_score := 0 in
    let issues : list string := [] in
    let '(verification_score, issues) :=
      if no_username user
      then (verification_score + 1, (issues ++ ["no_username"])%list)
      else (verification_score, issues) in
    let '(verification_score, issues) :=
      if 5000000000 <? User.id user
      then (verification_score + 2,
            (issues ++ ["potentially_new_account"])%list)
      else (verification_score, issues) in
    let '(verification_score, issues) :=
      if negb (no_username user)
         && _is_suspicious_username (default "" (User.username user))
      then (verification_score + 2,
            (issues ++ ["suspicious_username"])%list)
      else (verification_score, issues) in
    let '(verification_score, issues) :=
      if _is_suspicious_name (User.first_name user)
      then (verification_score + 1, (issues ++ ["suspicious_name"])%list)
      else (verification_score, issues) in
    let is_verified := verification_score <? 3 in
    let reason :=
      match issues with [] => "verified" | _ => Py.join ", " issues end in
    (if is_verified then mret tt
     else modify (fun self =>
       set_suspicious_users ({[User.id user]} ∪ suspicious_users self)
         self));;
    mret (is_verified, reason).

Definition add_failed_verification (user_id : Z) : M t unit :=
  modify (fun self =>
    set_failed_verifications
      (<[user_id := default 0 (failed_verifications self !! user_id) + 1]>
         (failed_verifications self)) self);;
  n ← gets (fun self => default 0 (failed_verifications self !! user_id));
  if 3 <=? n
  then modify (fun self =>
    set_suspicious_users ({[user_id]} ∪ suspicious_users self) self)
  else mret tt.

Definition is_user_suspicious (user_id : Z) : M t bool :=
  gets (fun self => bool_decide (user_id ∈ suspicious_users self)).

Definition mark_user_safe (user_id : Z) : M t unit :=
  modify (fun self =>
    set_suspicious_users (suspicious_users self ∖ {[user_id]}) self);;
  modify (fun self =>
    set_failed_verifications
      (delete user_id (failed_verifications self)) self).
End Methods.
End SecuritySystem.

(** ** bot_data.py *)

Module UserStats.
Record t := {
  user_id : Z;
  username : string;
  first_seen : Z;
  last_seen : Z;
  message_count : Z;
  spam_score : Z;
  warnings : Z;
  verification_status : string;
  last_spam_check : option Z
}.

Definition set_last_seen (v : Z) (u : t) : t :=
  {| user_id := user_id u; username := username u;
     first_seen := first_seen u; last_seen := v;
     message_count := message_count u; spam_score := spam_score u;
     warnings := warnings u; verification_status := verification_status u;
     last_spam_check := last_spam_check u |}.
Definition set_username (v : string) (u : t) : t :=
  {| user_id := user_id u; username := v;
     first_seen := first_seen u; last_seen := last_seen u;
     message_count := message_count u; spam_score := spam_score u;
     warnings := warnings u; verification_status := verification_status u;
     last_spam_check := last_spam_check u |}.
Definition set_spam_score (v : Z) (u : t) : t :=
  {| user_id := user_id u; username := username u;
     first_seen := first_seen u; last_seen := last_seen u;
     message_count := message_count u; spam_score := v;
     warnings := warnings u; verification_status := verification_status u;
     last_spam_check := last_spam_check u |}.
Definition set_last_spam_check (v : option Z) (u : t) : t :=
  {| user_id := user_id u; username := username u;
     first_seen := first_seen u; last_seen := last_seen u;
     message_count := message_count u; spam_score := spam_score u;
     warnings := warnings u; verification_status := verification_status u;
     last_spam_check := v |}.
End UserStats.

(** One entry of the chat history, as the handlers append it. *)
Module Interaction.
Record t := {
  user_id : Z;
  username : string;
  chat_type : string;
  chat_title : option string;
  timestamp : string;
  message : string;
  spam_score : Z
}.
End Interaction.

(** The dictionaries of a snapshot.  A key that is absent, or bound to
    [None] where the program writes [None], is [None]; a JSON object is the
    list of its items in order. *)
Module StatsDict.
Record t := {
  user_id : option Z;
  username : option string;
  first_seen : option string;
  last_seen : option string;
  message_count : option Z;
  spam_score : option Z;
  warnings : option Z;
  verification_status : option string;
  last_spam_check : option string
}.
End StatsDict.

Module Snapshot.
Record t := {
  session_id : option string;
  owner_id : option Z;
  approved_users : option (list Z);
  banned_users : option (list (string * string));
  group_states : option (list (string * bool));
  chat_history : option (list Interaction.t);
  user_stats : option (list (string * StatsDict.t));
  spam_violations : option (list (string * list string));
  suspicious_users : option (list Z);
  session_start_time : option string;
  last_backup_time : option string
}.

(** The dictionary [{}]. *)
Definition empty : t := {|
  session_id := None; owner_id := None; approved_users := None;
  banned_users := None; group_states := None; chat_history := None;
  user_stats := None; spam_violations := None; suspicious_users := None;
  session_start_time := None; last_backup_time := None
|}.
End Snapshot.

Module BotData.

Record t := {
  session_id : string;
  owner_id : Z;
  approved_users : gset Z;
  banned_users : gmap Z Z;
  group_states : gmap Z bool;
  chat_history : list Interaction.t;
  user_stats : gmap Z UserStats.t;
  spam_violations : gmap Z (list Z);
  message_hashes : gmap string (list Z);
  user_message_counts : gmap Z (list Z);
  rate_limit_violations : gmap Z (list Z);
  api_call_counts : gmap Z (list Z);
  failed_verifications : gmap Z Z;
  suspicious_users : gset Z;
  session_start_time : Z;
  last_backup_time : option Z
}.

Definition set_user_stats (v : gmap Z UserStats.t) (self : t) : t :=
  {| session_id := session_id self; owner_id := owner_id self;
     approved_users := approved_users self;
     banned_users := banned_users self;
     group_states := group_states self;
     chat_history := chat_history self;
     user_stats := v;
     spam_violations := spam_violations self;
     message_hashes := message_hashes self;
     user_message_counts := user_message_counts self;
     rate_limit_violations := rate_limit_violations self;
     api_call_counts := api_call_counts self;
     failed_verifications := failed_verifications self;
     suspicious_users := suspicious_users self;
     session_start_time := session_start_time self;
     last_backup_time := last_backup_time self |}.
Definition set_spam_violations (v : gmap Z (list Z)) (self : t) : t :=
  {| session_id := session_id self; owner_id := owner_id self;
     approved_users := approved_users self;
     banned_users := banned_users self;
     group_states := group_states self;
     chat_history := chat_history self;
     user_stats := user_stats self;
     spam_violations := v;
     message_hashes := message_hashes self;
     user_message_counts := user_message_counts self;
     rate_limit_violations := rate_limit_violations self;
     api_call_counts := api_call_counts self;
     failed_verifications := failed_verifications self;
     suspicious_users := suspicious_users self;
     session_start_time := session_start_time self;
     last_backup_time := last_backup_time self |}.

Section Methods.
Context (E : Env).

(** [BotData()] *)
Definition __init__ : M World t :=
  r ← random_randint E;
  now ← datetime_now E;
  mret {|
    session_id := Py.str r;
    owner_id := BotConfig.OWNER_ID (config E);
    approved_users := ∅; banned_users := ∅; group_states := ∅;
    chat_history := []; user_stats := ∅; spam_violations := ∅;
    message_hashes := ∅; user_message_counts := ∅;
    rate_limit_violations := ∅; api_call_counts := ∅;
    failed_verifications := ∅; suspicious_users := ∅;
    session_start_time := now; last_backup_time := None
  |}.

(** The record is left in [user_stats]; the caller that goes on to
    assign to a field of the returned object updates the entry of the
    map. *)
Definition get_user_stats (user_id : Z) (username : string)
  : M (t * World) unit :=
  known ← gets (fun s => user_stats s.1 !! user_id);
  match known with
  | None =>
      first_seen ← in_world (datetime_now E);
      last_seen ← in_world (datetime_now E);
      on_self (modify (fun self =>
        set_user_stats
          (<[user_id := {|
              UserStats.user_id := user_id;
              UserStats.username := username;
              UserStats.first_seen := first_seen;
              UserStats.last_seen := last_seen;
              UserStats.message_count := 0;
              UserStats.spam_score := 0;
              UserStats.warnings := 0;
              UserStats.verification_status := "unverified";
              UserStats.last_spam_check := None |}]>
             (user_stats self)) self))
  | Some _ =>
      now ← in_world (datetime_now E);
      on_self (modify (fun self =>
        set_user_stats
          (alter (UserStats.set_last_seen now) user_id (user_stats self))
          self));;
      if negb (String.eqb username "unknown") then
        on_self (modify (fun self =>
          set_user_stats
            (alter (UserStats.set_username username) user_id
               (user_stats self)) self))
      else mret tt
  end.

Definition add_spam_violation (user_id : Z) (violation_type : string)
  : M (t * World) unit :=
  now ← in_world (datetime_now E);
  on_self (modify (fun self =>
    set_spam_violations
      (<[user_id :=
           (default [] (spam_violations self !! user_id) ++ [now])%list]>
         (spam_violations self)) self));;
  let day_ago := now - Py.days 1 in
  on_self (modify (fun self =>
    set_spam_violations
      (<[user_id :=
           RateLimiter.newer_than day_ago
             (default [] (spam_violations self !! user_id))]>
         (spam_violations self)) self));;
  get_user_stats user_id "unknown";;
  on_self (modify (fun self =>
    set_user_stats
      (alter (fun u =>
         UserStats.set_spam_score (UserStats.spam_score u + 1) u)
         user_id (user_stats self)) self)).

Definition stats_to_dict (v : UserStats.t) : StatsDict.t := {|
  StatsDict.user_id := Some (UserStats.user_id v);
  StatsDict.username := Some (UserStats.username v);
  StatsDict.first_seen := Some (isoformat E (UserStats.first_seen v));
  StatsDict.last_seen := Some (isoformat E (UserStats.last_seen v));
  StatsDict.message_count := Some (UserStats.message_count v);
  StatsDict.spam_score := Some (UserStats.spam_score v);
  StatsDict.warnings := Some (UserStats.warnings v);
  StatsDict.verification_status := Some (UserStats.verification_status v);
  StatsDict.last_spam_check := isoformat E <$> UserStats.last_spam_check v
|}.

(** [{str(k): f(v) for k, v in d.items()}] *)
Definition dump_items {V W} (f : V -> W) (d : gmap Z V)
  : list (string * W) :=
  (fun kv => (Py.str kv.1, f kv.2)) <$> map_to_list d.

Definition to_dict (self : t) : Snapshot.t := {|
  Snapshot.session_id := Some (session_id self);
  Snapshot.owner_id := Some (owner_id self);
  Snapshot.approved_users := Some (elements (approved_users self));
  Snapshot.banned_users :=
    Some (dump_items (isoformat E) (banned_users self));
  Snapshot.group_states := Some (dump_items id (group_states self));
  Snapshot.chat_history := Some (Py.last_n 100 (chat_history self));
  Snapshot.user_stats := Some (dump_items stats_to_dict (user_stats self));
  Snapshot.spam_violations :=
    Some (dump_items (fmap (isoformat E)) (spam_violations self));
  Snapshot.suspicious_users := Some (elements (suspicious_users self));
  Snapshot.session_start_time :=
    Some (isoformat E (session_start_time self));
  Snapshot.last_backup_time := isoformat E <$> last_backup_time self
|}.

(** [{int(k): f(v) for k, v in items}], and the loops that fill a
    dictionary the same way; [None] when [int] or [f] raises. *)
Fixpoint load_items {V W} (f : V -> option W) (items : list (string * V))
  (acc : gmap Z W) : option (gmap Z W) :=
  match items with
  | [] => Some acc
  | (k, v) :: rest =>
      k' ← int_of_str E k;
      v' ← f v;
      load_items f rest (<[k' := v']> acc)
  end.

(** [datetime.fromisoformat(d[key]) if d.get(key) else None] *)
Definition optional_time (field : option string) : option (option Z) :=
  match field with
  | None => Some None
  | Some s =>
      if String.eqb s "" then Some None else Some <$> fromisoformat E s
  end.

(** [UserStats(...)] from one entry; the first four keys are indexed,
    the others read with a default. *)
Definition stats_of_dict (stats_data : StatsDict.t) : option UserStats.t :=
  user_id ← StatsDict.user_id stats_data;
  username ← StatsDict.username stats_data;
  first_seen ← StatsDict.first_seen stats_data ≫= fromisoformat E;
  last_seen ← StatsDict.last_seen stats_data ≫= fromisoformat E;
  last_spam_check ← optional_time (StatsDict.last_spam_check stats_data);
  Some {|
    UserStats.user_id := user_id;
    UserStats.username := username;
    UserStats.first_seen := first_seen;
    UserStats.last_seen := last_seen;
    UserStats.message_count := default 0 (StatsDict.message_count stats_data);
    UserStats.spam_score := default 0 (StatsDict.spam_score stats_data);
    UserStats.warnings := default 0 (StatsDict.warnings stats_data);
    UserStats.verification_status :=
      default "unverified" (StatsDict.verification_status stats_data);
    UserStats.last_spam_check := last_spam_check
  |}.

(** The assignments of [from_dict] on the fresh object [bot_data], with
    the random number drawn for the default session id. *)
Definition fill (bot_data : t) (r : Z) (data : Snapshot.t) : option t :=
  banned ← load_items (fromisoformat E)
             (default [] (Snapshot.banned_users data)) ∅;
  groups ← load_items Some (default [] (Snapshot.group_states data)) ∅;
  stats ← load_items stats_of_dict
            (default [] (Snapshot.user_stats data)) (user_stats bot_data);
  violations ← load_items (mapM (fromisoformat E))
                 (default [] (Snapshot.spam_violations data))
                 (spam_violations bot_data);
  start ← optional_time (Snapshot.session_start_time data);
  backup ← optional_time (Snapshot.last_backup_time data);
  Some {|
    session_id := default (Py.str r) (Snapshot.session_id data);
    owner_id :=
      default (BotConfig.OWNER_ID (config E)) (Snapshot.owner_id data);
    approved_users :=
      list_to_set (default [] (Snapshot.approved_users data));
    banned_users := banned;
    group_states := groups;
    chat_history := default [] (Snapshot.chat_history data);
    user_stats := stats;
    spam_violations := violations;
    message_hashes := message_hashes bot_data;
    user_message_counts := user_message_counts bot_data;
    rate_limit_violations := rate_limit_violations bot_data;
    api_call_counts := api_call_counts bot_data;
    failed_verifications := failed_verifications bot_data;
    suspicious_users :=
      list_to_set (default [] (Snapshot.suspicious_users data));
    session_start_time := default (session_start_time bot_data) start;
    last_backup_time :=
      match backup with
      | Some b => Some b
      | None => last_backup_time bot_data
      end
  |}.

Definition from_dict (data : Snapshot.t) : M World (option t) :=
  bot_data ← __init__;
  r ← random_randint E;
  mret (fill bot_data r data).
End Methods.

Definition set_chat_history (v : list Interaction.t) (self : t) : t :=
  {| session_id := session_id self; owner_id := owner_id self;
     approved_users := approved_users self;
     banned_users := banned_users self;
     group_states := group_states self;
     chat_history := v;
     user_stats := user_stats self;
     spam_violations := spam_violations self;
     message_hashes := message_hashes self;
     user_message_counts := user_message_counts self;
     rate_limit_violations := rate_limit_violations self;
     api_call_counts := api_call_counts self;
     failed_verifications := failed_verifications self;
     suspicious_users := suspicious_users self;
     session_start_time := session_start_time self;
     last_backup_time := last_backup_time self |}.

(** What a snapshot keeps of a state: every field [to_dict] writes, the
    chat history cut to its last 100 entries, and none of the tracking
    maps [to_dict] leaves out. *)
Definition persisted (self : t) : t :=
  {| session_id := session_id self; owner_id := owner_id self;
     approved_users := approved_users self;
     banned_users := banned_users self;
     group_states := group_states self;
     chat_history := Py.last_n 100 (chat_history self);
     user_stats := user_stats self;
     spam_violations := spam_violations self;
     message_hashes := ∅;
     user_message_counts := ∅;
     rate_limit_violations := ∅;
     api_call_counts := ∅;
     failed_verifications := ∅;
     suspicious_users := suspicious_users self;
     session_start_time := session_start_time self;
     last_backup_time := last_backup_time self |}.
End BotData.

(** The state [BotData()] builds, given its random number and its clock
    reading. *)
Definition fresh_state (E : Env) (r now : Z) : BotData.t := {|
  BotData.session_id := Py.str r;
  BotData.owner_id := BotConfig.OWNER_ID (config E);
  BotData.approved_users := ∅; BotData.banned_users := ∅;
  BotData.group_states := ∅; BotData.chat_history := [];
  BotData.user_stats := ∅; BotData.spam_violations := ∅;
  BotData.message_hashes := ∅; BotData.user_message_counts := ∅;
  BotData.rate_limit_violations := ∅; BotData.api_call_counts := ∅;
  BotData.failed_verifications := ∅; BotData.suspicious_users := ∅;
  BotData.session_start_time := now; BotData.last_backup_time := None
|}.

(** The ways a field that is present can make [from_dict] raise. *)
Definition bad_field (E : Env) (data : Snapshot.t) : Prop :=
  (exists items, Snapshot.banned_users data = Some items /\
     BotData.load_items E (fromisoformat E) items ∅ = None) \/
  (exists items, Snapshot.group_states data = Some items /\
     BotData.load_items E Some items ∅ = None) \/
  (exists items, Snapshot.user_stats data = Some items /\
     BotData.load_items E (BotData.stats_of_dict E) items ∅ = None) \/
  (exists items, Snapshot.spam_violations data = Some items /\
     BotData.load_items E (mapM (fromisoformat E)) items ∅ = None) \/
  (exists s, Snapshot.session_start_time data = Some s /\ s <> "" /\
     fromisoformat E s = None) \/
  (exists s, Snapshot.last_backup_time data = Some s /\ s <> "" /\
     fromisoformat E s = None).

(** What the program relies on from [int], [str] and [datetime]:
    [int(str(k)) == k], [fromisoformat(t.isoformat()) == t], and a printed
    time is never the empty string. *)
Definition codec_laws (E : Env) : Prop :=
  (forall k, int_of_str E (Py.str k) = Some k) /\
  (forall t, fromisoformat E (isoformat E t) = Some t) /\
  (forall t, isoformat E t <> "").

(** [load_data]: the data file on disk is a text; [json_load] is
    [json.load] followed by the reading of the value as a snapshot, [None]
    when either raises; [strftime] prints the time stamp of the name the
    file is moved to. *)
Module Storage.
Section Methods.
Context (E : Env).
Context (json_load : string -> option Snapshot.t).
Context (strftime : Z -> string).

Definition DATA_FILE : string := BotConfig.DATA_FILE (config E).

(** The [except] branch, for a file that is still there. *)
Definition quarantine (content : string)
  : M (gmap string string * World) unit :=
  now ← in_world (datetime_now E);
  let backup_file := DATA_FILE ++ ".error." ++ strftime now in
  on_self (modify (fun files =>
    <[backup_file := content]> (delete DATA_FILE files))).

Definition load_data : M (gmap string string * World) BotData.t :=
  file ← gets (fun s => s.1 !! DATA_FILE);
  match file with
  | Some content =>
      match json_load content with
      | Some data =>
          loaded ← in_world (BotData.from_dict E data);
          match loaded with
          | Some bot_data => mret bot_data
          | None =>
              quarantine content;; in_world (BotData.__init__ E)
          end
      | None => quarantine content;; in_world (BotData.__init__ E)
      end
  | None => in_world (BotData.__init__ E)
  end.
End Methods.
End Storage.

(** The name a file that does not load is moved to. *)
Definition error_file (E : Env) (strftime : Z -> string) (now : Z) : string :=
  Storage.DATA_FILE E ++ ".error." ++ strftime now.

(** ** anti_spam.py *)

Module AntiSpam.

Record t := {
  message_hashes : gmap string (list (Z * Z));
  user_message_intervals : gmap Z (list Z)
}.

Definition __init__ : t :=
  {| message_hashes := ∅; user_message_intervals := ∅ |}.

Definition set_message_hashes (v : gmap string (list (Z * Z))) (self : t)
  : t :=
  {| message_hashes := v;
     user_message_intervals := user_message_intervals self |}.
Definition set_user_message_intervals (v : gmap Z (list Z)) (self : t) : t :=
  {| message_hashes := message_hashes self; user_message_intervals := v |}.

(** The state [check_spam] works on: the scorer, the registry it is
    handed, and the world. *)
Definition with_self {A} (m : M (t * World) A)
  : M (t * BotData.t * World) A :=
  zoom (fun s => (s.1.1, s.2)) (fun r s => ((r.1, s.1.2), r.2)) m.
Definition with_bot_data {A} (m : M (BotData.t * World) A)
  : M (t * BotData.t * World) A :=
  zoom (fun s => (s.1.2, s.2)) (fun r s => ((s.1.1, r.1), r.2)) m.

(** The hosts of the pattern
    [https?://(?:bit\.ly|tinyurl|t\.co|short\.link|goo\.gl)/]. *)
Definition short_link_hosts : list string :=
  ["bit.ly"; "tinyurl"; "t.co"; "short.link"; "goo.gl"].

Section Methods.
Context (E : Env).

(** [self.profanity_words], fixed when the scorer is created. *)
Definition profanity_words : gset string :=
  list_to_set (Str.lower E <$> BotConfig.PROFANITY_WORDS (config E)).

Fixpoint pattern_tags (i : Z) (patterns : list (string -> bool))
  (text : string) : list string :=
  match patterns with
  | [] => []
  | pattern :: rest =>
      let tag := "spam_pattern_" ++ Py.str i in
      ((if pattern text then [tag] else [])
       ++ pattern_tags (i + 1) rest text)%list
  end.

Definition _check_spam_patterns (text : string) : list string :=
  pattern_tags 0 (spam_patterns E) text.

Definition _contains_profanity (text : string) : bool :=
  if negb (BotConfig.ENABLE_PROFANITY_FILTER (config E)) then false
  else
    let words := Str.split E (Str.lower E text) in
    existsb (fun word => bool_decide (word ∈ profanity_words)) words.

Definition _check_excessive_caps (text : string) : bool :=
  if negb (BotConfig.ENABLE_CAPS_FILTER (config E))
     || (Str.len text <? 10)
  then false
  else
    let caps_count := Str.count (Str.isupper E) text in
    Py.ratio_gt caps_count (Str.len text)
      (BotConfig.MAX_CAPS_PERCENTAGE (config E)).

Definition _check_duplicate_message (user_id : Z) (message : string)
  : M (t * World) Z :=
  let message_hash := md5_hexdigest E message in
  now ← in_world (datetime_now E);
  on_self (modify (fun self =>
    match message_hashes self !! message_hash with
    | None => set_message_hashes
                (<[message_hash := []]> (message_hashes self)) self
    | Some _ => self
    end));;
  let hour_ago := now - Py.hours 1 in
  on_self (modify (fun self =>
    set_message_hashes
      (<[message_hash :=
           List.filter (fun e => hour_ago <? e.2)
             (default [] (message_hashes self !! message_hash))]>
         (message_hashes self)) self));;
  user_duplicates ← gets (fun s =>
    (List.filter (fun e => e.1 =? user_id)
       (default [] (message_hashes s.1 !! message_hash))).*2);
  on_self (modify (fun self =>
    set_message_hashes
      (<[message_hash :=
           (default [] (message_hashes self !! message_hash)
            ++ [(user_id, now)])%list]>
         (message_hashes self)) self));;
  if BotConfig.MAX_IDENTICAL_MESSAGES (config E)
       <=? Py.len_list user_duplicates
  then mret (Py.len_list user_duplicates
             - BotConfig.MAX_IDENTICAL_MESSAGES (config E) + 1)
  else mret 0.

Definition _check_suspicious_links (text : string) : bool :=
  if negb (BotConfig.ENABLE_LINK_FILTER (config E)) then false
  else Str.search_links E short_link_hosts text.

Definition _check_rapid_messaging (user_id : Z) : M (t * World) bool :=
  now ← in_world (datetime_now E);
  on_self (modify (fun self =>
    match user_message_intervals self !! user_id with
    | None => set_user_message_intervals
                (<[user_id := []]> (user_message_intervals self)) self
    | Some _ => self
    end));;
  on_self (modify (fun self =>
    set_user_message_intervals
      (<[user_id :=
           (default [] (user_message_intervals self !! user_id)
            ++ [now])%list]>
         (user_message_intervals self)) self));;
  on_self (modify (fun self =>
    set_user_message_intervals
      (<[user_id :=
           Py.last_n 10
             (default [] (user_message_intervals self !! user_id))]>
         (user_message_intervals self)) self));;
  let thirty_seconds_ago := now - Py.seconds 30 in
  recent_messages ← gets (fun s =>
    RateLimiter.newer_than thirty_seconds_ago
      (default [] (user_message_intervals s.1 !! user_id)));
  mret (5 <=? Py.len_list recent_messages).

Definition _check_account_age (user : User.t) : Z :=
  if negb (BotConfig.ENABLE_USER_VERIFICATION (config E)) then 0
  else if 5000000000 <? User.id user then 1
  else 0.

(** [user.username or user.first_name] *)
Definition display_name (user : User.t) : string :=
  match User.username user with
  | Some u => if String.eqb u "" then User.first_name user else u
  | None => User.first_name user
  end.

(** [update.message.text] when there is a message with a text that is
    not empty. *)
Definition message_text (update : Update.t) : option string :=
  match Update.message update with
  | None => None
  | Some m =>
      match Message.text m with
      | None => None
      | Some text => if String.eqb text "" then None else Some text
      end
  end.

Definition check_spam (update : Update.t)
  : M (t * BotData.t * World) (bool * string * Z) :=
  match message_text update with
  | None => mret (false, "", 0)
  | Some message_text =>
      let user := Update.effective_user update in
      let spam_score := 0 in
      let reasons : list string := [] in
      let '(spam_score, reasons) :=
        if BotConfig.MAX_MESSAGE_LENGTH (config E) <? Str.len message_text
        then (spam_score + 2, (reasons ++ ["message_too_long"])%list)
        else (spam_score, reasons) in
      let pattern_matches := _check_spam_patterns message_text in
      let '(spam_score, reasons) :=
        match pattern_matches with
        | [] => (spam_score, reasons)
        | _ => (spam_score + Py.len_list pattern_matches * 2,
                (reasons ++ pattern_matches)%list)
        end in
      let '(spam_score, reasons) :=
        if _contains_profanity message_text
        then (spam_score + 1, (reasons ++ ["profanity"])%list)
        else (spam_score, reasons) in
      let '(spam_score, reasons) :=
        if _check_excessive_caps message_text
        then (spam_score + 1, (reasons ++ ["excessive_caps"])%list)
        else (spam_score, reasons) in
      duplicate_score ←
        with_self (_check_duplicate_message (User.id user) message_text);
      let '(spam_score, reasons) :=
        if 0 <? duplicate_score
        then (spam_score + duplicate_score,
              (reasons ++ ["duplicate_message"])%list)
        else (spam_score, reasons) in
      let '(spam_score, reasons) :=
        if _check_suspicious_links message_text
        then (spam_score + 3, (reasons ++ ["suspicious_links"])%list)
        else (spam_score, reasons) in
      rapid ← with_self (_check_rapid_messaging (User.id user));
      let '(spam_score, reasons) :=
        if (rapid : bool)
        then (spam_score + 2, (reasons ++ ["rapid_messaging"])%list)
        else (spam_score, reasons) in
      let account_age_score := _check_account_age user in
      let '(spam_score, reasons) :=
        if 0 <? account_age_score
        then (spam_score + account_age_score,
              (reasons ++ ["new_account"])%list)
        else (spam_score, reasons) in
      with_bot_data
        (BotData.get_user_stats E (User.id user) (display_name user));;
      now ← in_world (datetime_now E);
      on_self (modify (fun s =>
        (s.1, BotData.set_user_stats
                (alter (UserStats.set_last_spam_check (Some now))
                   (User.id user) (BotData.user_stats s.2)) s.2)));;
      let is_spam :=
        BotConfig.SPAM_SCORE_THRESHOLD (config E) <=? spam_score in
      let reason_str := Py.join ", " reasons in
      (if is_spam
       then with_bot_data
              (BotData.add_spam_violation E (User.id user) reason_str)
       else mret tt);;
      mret (is_spam, reason_str, spam_score)
  end.

(** The penalties of [n] calls in a row of the duplicate check, with
    the same user and text. *)
Fixpoint send_same (n : nat) (user_id : Z) (message : string)
  : M (t * World) (list Z) :=
  match n with
  | O => mret []
  | S k =>
      penalties ← send_same k user_id message;
      penalty ← _check_duplicate_message user_id message;
      mret (penalties ++ [penalty])%list
  end.

Definition should_auto_ban (bot_data : BotData.t) (user_id : Z) : bool :=
  match BotData.user_stats bot_data !! user_id with
  | None => false
  | Some user_stats =>
      BotConfig.AUTO_BAN_SPAM_SCORE (config E)
        <=? UserStats.spam_score user_stats
  end.
End Methods.
End AntiSpam.

(** The entries of a bucket that survive the pruning at [now], those of a
    bucket that are the user's, and the penalty of a call that finds [count]
    earlier entries of the user. *)
Definition kept (now : Z) (bucket : list (Z * Z)) : list (Z * Z) :=
  List.filter (fun e => now - Py.hours 1 <? e.2) bucket.
Definition own (user_id : Z) (bucket : list (Z * Z)) : list (Z * Z) :=
  List.filter (fun e => e.1 =? user_id) bucket.
Definition penalty (E : Env) (count : Z) : Z :=
  if BotConfig.MAX_IDENTICAL_MESSAGES (config E) <=? count
  then count - BotConfig.MAX_IDENTICAL_MESSAGES (config E) + 1 else 0.

(** ** rate_limiter.py, continued *)

Module RateLimiterOps.

(** The user a call is about. *)
Definition method_user (m : RateLimiter.method) : Z :=
  match m with
  | RateLimiter.IsRateLimited user_id _ => user_id
  | RateLimiter.AddRequest user_id _ => user_id
  | RateLimiter.GetCooldownRemaining user_id => user_id
  | RateLimiter.ResetUserLimits user_id => user_id
  | RateLimiter.GetUserStats user_id => user_id
  end.

Section Methods.
Context (E : Env).

(** [n] calls in a row of [add_request] for one user and request type. *)
Fixpoint add_requests (n : nat) (user_id : Z) (request_type : string)
  : M (RateLimiter.t * World) unit :=
  match n with
  | O => mret tt
  | S k =>
      add_requests k user_id request_type;;
      RateLimiter.add_request E user_id request_type
  end.
End Methods.
End RateLimiterOps.

(** The four entries a limiter holds for a user. *)
Definition limiter_view (self : RateLimiter.t) (user_id : Z)
  : option (list Z) * option (list Z) * option Z * option Z :=
  (RateLimiter.user_requests self !! user_id,
   RateLimiter.api_requests self !! user_id,
   RateLimiter.cooldown_users self !! user_id,
   RateLimiter.warning_counts self !! user_id).

(** The requests [cleanup_expired_restrictions] sends: the keys it collects
    and the request for the [i]-th of them. *)
Definition expired_mutes (now : Z) (self : ModerationSystem.t)
  : list (Z * Z) :=
  (List.filter (fun kv => kv.2 <=? now)
     (map_to_list (ModerationSystem.muted_users self))).*1.

Definition restore_request (E : Env) (first : nat) (i : nat) (key : Z * Z)
  : Action * bool :=
  (restrict_chat_member key.1 key.2 true None, transport_ok E (first + i)).

(** ** security.py, continued: sessions, repeated failures and input
    validation *)

Module SecuritySessions.

(** [config.SESSION_TIMEOUT_HOURS]: [load_from_env] never overrides it. *)
Definition SESSION_TIMEOUT_HOURS : Z := 24.

Definition set_user_sessions (v : gmap Z string) (self : SecuritySystem.t)
  : SecuritySystem.t :=
  {| SecuritySystem.suspicious_users := SecuritySystem.suspicious_users self;
     SecuritySystem.failed_verifications :=
       SecuritySystem.failed_verifications self;
     SecuritySystem.user_sessions := v;
     SecuritySystem.session_timestamps :=
       SecuritySystem.session_timestamps self |}.
Definition set_session_timestamps (v : gmap Z Z) (self : SecuritySystem.t)
  : SecuritySystem.t :=
  {| SecuritySystem.suspicious_users := SecuritySystem.suspicious_users self;
     SecuritySystem.failed_verifications :=
       SecuritySystem.failed_verifications self;
     SecuritySystem.user_sessions := SecuritySystem.user_sessions self;
     SecuritySystem.session_timestamps := v |}.

Definition invalidate_session (user_id : Z) : M SecuritySystem.t unit :=
  modify (fun self =>
    set_user_sessions (delete user_id (SecuritySystem.user_sessions self))
      self);;
  modify (fun self =>
    set_session_timestamps
      (delete user_id (SecuritySystem.session_timestamps self)) self).

(** [for user_id in expired_users: self.invalidate_session(user_id)] *)
Fixpoint invalidate_all (expired_users : list Z) : M SecuritySystem.t unit :=
  match expired_users with
  | [] => mret tt
  | user_id :: rest => invalidate_session user_id;; invalidate_all rest
  end.

(** [now - timestamp > timedelta(hours=config.SESSION_TIMEOUT_HOURS)] *)
Definition timed_out (now timestamp : Z) : bool :=
  Py.hours SESSION_TIMEOUT_HOURS <? now - timestamp.

(** [token and stored != token] *)
Definition token_mismatch (stored : string) (token : option string) : bool :=
  match token with
  | Some tok => negb (String.eqb tok "") && negb (String.eqb stored tok)
  | None => false
  end.

Section Methods.
Context (E : Env).
(** [secrets.token_urlsafe(32)], by the number of random draws made so
    far. *)
Context (token_urlsafe : nat -> string).

Definition secrets_token_urlsafe : M World string := fun w =>
  (token_urlsafe (draws w),
   {| reads := reads w; draws := S (draws w); calls := calls w |}).

Definition generate_session_token (user_id : Z)
  : M (SecuritySystem.t * World) string :=
  token ← in_world secrets_token_urlsafe;
  on_self (modify (fun self =>
    set_user_sessions
      (<[user_id := token]> (SecuritySystem.user_sessions self)) self));;
  now ← in_world (datetime_now E);
  on_self (modify (fun self =>
    set_session_timestamps
      (<[user_id := now]> (SecuritySystem.session_timestamps self)) self));;
  mret token.

Definition validate_session (user_id : Z) (token : option string)
  : M (SecuritySystem.t * World) bool :=
  if negb (BotConfig.ENABLE_USER_VERIFICATION (config E)) then mret true
  else
    session ← gets (fun s => SecuritySystem.user_sessions s.1 !! user_id);
    match session with
    | None => mret false
    | Some stored =>
        started ← gets (fun s =>
          SecuritySystem.session_timestamps s.1 !! user_id);
        expired ←
          match started with
          | Some timestamp =>
              now ← in_world (datetime_now E);
              if timed_out now timestamp
              then on_self (invalidate_session user_id);; mret true
              else mret false
          | None => mret false
          end;
        if (expired : bool) then mret false
        else if token_mismatch stored token then mret false
        else mret true
    end.

Definition cleanup_old_sessions : M (SecuritySystem.t * World) unit :=
  now ← in_world (datetime_now E);
  expired_users ← gets (fun s =>
    (List.filter (fun kv => timed_out now kv.2)
       (map_to_list (SecuritySystem.session_timestamps s.1))).*1);
  on_self (invalidate_all expired_users).

(** The session methods, as the calls a client can make. *)
Inductive method :=
  | GenerateSessionToken (user_id : Z)
  | ValidateSession (user_id : Z) (token : option string)
  | InvalidateSession (user_id : Z)
  | CleanupOldSessions.

Definition invoke (m : method) : M (SecuritySystem.t * World) unit :=
  match m with
  | GenerateSessionToken user_id => generate_session_token user_id;; mret tt
  | ValidateSession user_id token => validate_session user_id token;; mret tt
  | InvalidateSession user_id => on_self (invalidate_session user_id)
  | CleanupOldSessions => cleanup_old_sessions
  end.
End Methods.

(** [n] failed verifications of the same user in a row. *)
Fixpoint add_failed_verifications (n : nat) (user_id : Z)
  : M SecuritySystem.t unit :=
  match n with
  | O => mret tt
  | S k =>
      add_failed_verifications k user_id;;
      SecuritySystem.add_failed_verification user_id
  end.



End SecuritySessions.

(** Every session has a start time and every start time a session. *)
Definition sessions_paired (self : SecuritySystem.t) : Prop :=
  forall user_id,
    is_Some (SecuritySystem.user_sessions self !! user_id) <->
    is_Some (SecuritySystem.session_timestamps self !! user_id).

(** ** bot_data.py, continued: message counts, cleaning and saving *)

Module BotDataOps.

Definition set_banned_users (v : gmap Z Z) (self : BotData.t) : BotData.t :=
  {| BotData.session_id := BotData.session_id self;
     BotData.owner_id := BotData.owner_id self;
     BotData.approved_users := BotData.approved_users self;
     BotData.banned_users := v;
     BotData.group_states := BotData.group_states self;
     BotData.chat_history := BotData.chat_history self;
     BotData.user_stats := BotData.user_stats self;
     BotData.spam_violations := BotData.spam_violations self;
     BotData.message_hashes := BotData.message_hashes self;
     BotData.user_message_counts := BotData.user_message_counts self;
     BotData.rate_limit_violations := BotData.rate_limit_violations self;
     BotData.api_call_counts := BotData.api_call_counts self;
     BotData.failed_verifications := BotData.failed_verifications self;
     BotData.suspicious_users := BotData.suspicious_users self;
     BotData.session_start_time := BotData.session_start_time self;
     BotData.last_backup_time := BotData.last_backup_time self |}.
Definition set_message_hashes (v : gmap string (list Z)) (self : BotData.t)
  : BotData.t :=
  {| BotData.session_id := BotData.session_id self;
     BotData.owner_id := BotData.owner_id self;
     BotData.approved_users := BotData.approved_users self;
     BotData.banned_users := BotData.banned_users self;
     BotData.group_states := BotData.group_states self;
     BotData.chat_history := BotData.chat_history self;
     BotData.user_stats := BotData.user_stats self;
     BotData.spam_violations := BotData.spam_violations self;
     BotData.message_hashes := v;
     BotData.user_message_counts := BotData.user_message_counts self;
     BotData.rate_limit_violations := BotData.rate_limit_violations self;
     BotData.api_call_counts := BotData.api_call_counts self;
     BotData.failed_verifications := BotData.failed_verifications self;
     BotData.suspicious_users := BotData.suspicious_users self;
     BotData.session_start_time := BotData.session_start_time self;
     BotData.last_backup_time := BotData.last_backup_time self |}.
Definition set_user_message_counts (v : gmap Z (list Z)) (self : BotData.t)
  : BotData.t :=
  {| BotData.session_id := BotData.session_id self;
     BotData.owner_id := BotData.owner_id self;
     BotData.approved_users := BotData.approved_users self;
     BotData.banned_users := BotData.banned_users self;
     BotData.group_states := BotData.group_states self;
     BotData.chat_history := BotData.chat_history self;
     BotData.user_stats := BotData.user_stats self;
     BotData.spam_violations := BotData.spam_violations self;
     BotData.message_hashes := BotData.message_hashes self;
     BotData.user_message_counts := v;
     BotData.rate_limit_violations := BotData.rate_limit_violations self;
     BotData.api_call_counts := BotData.api_call_counts self;
     BotData.failed_verifications := BotData.failed_verifications self;
     BotData.suspicious_users := BotData.suspicious_users self;
     BotData.session_start_time := BotData.session_start_time self;
     BotData.last_backup_time := BotData.last_backup_time self |}.

(** One round of the loop over [list(self.message_hashes.keys())]. *)
Definition clean_hash (hour_ago : Z) (hashes : gmap string (list Z))
  (msg_hash : string) : gmap string (list Z) :=
  let hashes :=
    <[msg_hash :=
        RateLimiter.newer_than hour_ago (default [] (hashes !! msg_hash))]>
      hashes in
  match default [] (hashes !! msg_hash) with
  | [] => delete msg_hash hashes
  | _ => hashes
  end.

Definition clean_hashes (hour_ago : Z) (hashes : gmap string (list Z))
  : gmap string (list Z) :=
  foldl (clean_hash hour_ago) hashes (map_to_list hashes).*1.

(** The bans collected in [expired_bans], then deleted one by one. *)
Definition expired_bans (now : Z) (banned_users : gmap Z Z) : list Z :=
  (List.filter (fun kv => kv.2 <? now) (map_to_list banned_users)).*1.

Definition clean_bans (now : Z) (banned_users : gmap Z Z) : gmap Z Z :=
  foldl (fun banned user_id => delete user_id banned) banned_users
    (expired_bans now banned_users).

Section Methods.
Context (E : Env).

Definition increment_user_message_count (user_id : Z)
  : M (BotData.t * World) unit :=
  now ← in_world (datetime_now E);
  on_self (modify (fun self =>
    set_user_message_counts
      (<[user_id :=
           (default [] (BotData.user_message_counts self !! user_id)
            ++ [now])%list]>
         (BotData.user_message_counts self)) self));;
  let hour_ago := now - Py.hours 1 in
  on_self (modify (fun self =>
    set_user_message_counts
      (<[user_id :=
           RateLimiter.newer_than hour_ago
             (default [] (BotData.user_message_counts self !! user_id))]>
         (BotData.user_message_counts self)) self)).

Definition is_rate_limited (user_id : Z) : M (BotData.t * World) bool :=
  now ← in_world (datetime_now E);
  counts ← gets (fun s => BotData.user_message_counts s.1 !! user_id);
  match counts with
  | None => mret false
  | Some times =>
      let minute_ago := now - Py.minutes 1 in
      let recent_messages := RateLimiter.newer_than minute_ago times in
      if BotConfig.MAX_MESSAGES_PER_MINUTE (config E)
           <=? Py.len_list recent_messages
      then mret true
      else
        let hour_ago := now - Py.hours 1 in
        let hourly_messages := RateLimiter.newer_than hour_ago times in
        mret (BotConfig.MAX_MESSAGES_PER_HOUR (config E)
                <=? Py.len_list hourly_messages)
  end.

Definition clean_old_data : M (BotData.t * World) unit :=
  now ← in_world (datetime_now E);
  let hour_ago := now - Py.hours 1 in
  on_self (modify (fun self =>
    set_message_hashes (clean_hashes hour_ago (BotData.message_hashes self))
      self));;
  on_self (modify (fun self =>
    set_banned_users (clean_bans now (BotData.banned_users self)) self));;
  on_self (modify (fun self =>
    if 1000 <? Py.len_list (BotData.chat_history self)
    then BotData.set_chat_history
           (Py.last_n 1000 (BotData.chat_history self)) self
    else self)).

(** [save_data], on a file system that takes every write: [json_dumps] is
    the text [json.dump] writes for a snapshot. *)
Context (json_dumps : Snapshot.t -> string).

Definition save_data
  : M ((BotData.t * gmap string string) * World) unit :=
  zoom (fun s => (s.1.1, s.2)) (fun r s => ((r.1, s.1.2), r.2))
    clean_old_data;;
  let DATA_FILE := BotConfig.DATA_FILE (config E) in
  before ← gets (fun s => s.1.2 !! DATA_FILE);
  match before with
  | Some content =>
      modify (fun s =>
        ((s.1.1, <[DATA_FILE ++ ".backup" := content]> s.1.2), s.2))
  | None => mret tt
  end;;
  modify (fun s =>
    ((s.1.1, <[DATA_FILE := json_dumps (BotData.to_dict E s.1.1)]> s.1.2),
     s.2)).
End Methods.

(** [n] spam violations of the same user in a row. *)
Fixpoint add_spam_violations (E : Env) (n : nat) (user_id : Z)
  : M (BotData.t * World) unit :=
  match n with
  | O => mret tt
  | S k =>
      add_spam_violations E k user_id;;
      BotData.add_spam_violation E user_id "general"
  end.

End BotDataOps.

(** What the cleaning leaves of a bucket of send times. *)
Definition fresh_bucket (hour_ago : Z) (bucket : option (list Z))
  : option (list Z) :=
  match bucket with
  | Some times =>
      match RateLimiter.newer_than hour_ago times with
      | [] => None
      | kept => Some kept
      end
  | None => None
  end.

(** ** anti_spam.py, continued: the reset and runs of messages *)

Module AntiSpamOps.

(** One round of the loop over [list(self.message_hashes.keys())]. *)
Definition reset_hash (user_id : Z) (hashes : gmap string (list (Z * Z)))
  (message_hash : string) : gmap string (list (Z * Z)) :=
  let hashes :=
    <[message_hash :=
        List.filter (fun e => negb (e.1 =? user_id))
          (default [] (hashes !! message_hash))]> hashes in
  match default [] (hashes !! message_hash) with
  | [] => delete message_hash hashes
  | _ => hashes
  end.

Definition reset_user_spam_data (user_id : Z) : M AntiSpam.t unit :=
  modify (fun self =>
    AntiSpam.set_user_message_intervals
      (delete user_id (AntiSpam.user_message_intervals self)) self);;
  modify (fun self =>
    AntiSpam.set_message_hashes
      (foldl (reset_hash user_id) (AntiSpam.message_hashes self)
         (map_to_list (AntiSpam.message_hashes self)).*1) self).

(** [n] messages of the same user in a row, as the frequency check sees
    them. *)
Fixpoint rapid_messages (E : Env) (n : nat) (user_id : Z)
  : M (AntiSpam.t * World) unit :=
  match n with
  | O => mret tt
  | S k =>
      rapid_messages E k user_id;;
      AntiSpam._check_rapid_messaging E user_id;;
      mret tt
  end.

(** The last steps of [check_spam], from the look-up of the user's record
    on, for the verdict, reasons and score computed before. *)
Definition record_check (E : Env) (user : User.t) (is_spam : bool)
  (reason_str : string) (spam_score : Z)
  : M (AntiSpam.t * BotData.t * World) (bool * string * Z) :=
  AntiSpam.with_bot_data
    (BotData.get_user_stats E (User.id user) (AntiSpam.display_name user));;
  now ← in_world (datetime_now E);
  on_self (modify (fun s : AntiSpam.t * BotData.t =>
    (s.1, BotData.set_user_stats
            (alter (UserStats.set_last_spam_check (Some now))
               (User.id user) (BotData.user_stats s.2)) s.2)));;
  (if is_spam
   then AntiSpam.with_bot_data
          (BotData.add_spam_violation E (User.id user) reason_str)
   else mret tt);;
  mret (is_spam, reason_str, spam_score).

End AntiSpamOps.

(** What the reset leaves of a bucket. *)
Definition others_of (user_id : Z) (bucket : option (list (Z * Z)))
  : option (list (Z * Z)) :=
  match bucket with
  | Some entries =>
      match List.filter (fun e => negb (e.1 =? user_id)) entries with
      | [] => None
      | remaining => Some remaining
      end
  | None => None
  end.

(** ** utils.py *)

Module Utils.

(** [s[:k]]: the first [k] characters, or all but the last [-k] when [k]
    is negative. *)
Definition slice_to (k : Z) (s : string) : string :=
  if 0 <=? k then Str.join (take (Z.to_nat k) (Str.chars s))
  else Str.join (take (Z.to_nat (Str.len s + k)) (Str.chars s)).

Definition truncate_text (text : string) (max_length : Z) : string :=
  if Str.len text <=? max_length then text
  else slice_to (max_length - 3) text ++ "...".

(** [s.replace(char, by)] for a pattern of one character. *)
Fixpoint replace (char : ascii) (by_ : string) (s : string) : string :=
  match s with
  | EmptyString => EmptyString
  | String c s' =>
      (if Ascii.eqb c char then by_ else String c EmptyString)
      ++ replace char by_ s'
  end.

Definition dangerous_chars : list ascii :=
  ["<"; ">"; "`"; "*"; "_"; "["; "]"; "\"]%char.

Definition sanitize_text (text : string) : string :=
  foldl (fun text char =>
           replace char (String "\" (String char EmptyString)) text)
    text dangerous_chars.

End Utils.

(** What becomes of one character of a sanitized text, and of a text
    character by character. *)
Definition escaped (c : ascii) : string :=
  if existsb (Ascii.eqb c) ["<"; ">"; "`"; "*"; "_"; "["; "]"]%char
  then String "\" (String "\" (String c EmptyString))
  else if Ascii.eqb c "\" then String "\" (String "\" EmptyString)
  else String c EmptyString.

Fixpoint each_char (f : ascii -> string) (s : string) : string :=
  match s with
  | EmptyString => EmptyString
  | String c s' => f c ++ each_char f s'
  end.

(** The bytes of a text that continue a character: whether all do, whether
    a text is one character (a leading byte and the bytes that continue
    it), whether it is one but for its first byte, and the lists of
    characters a text is cut into.  The number of bytes that do not
    continue a character, and whether the first byte does. *)
Fixpoint all_continue (s : string) : bool :=
  match s with
  | EmptyString => true
  | String b s' => Str.continues b && all_continue s'
  end.
Definition leads (c : string) : bool :=
  match c with
  | EmptyString => false
  | String b rest => negb (Str.continues b) && all_continue rest
  end.
Definition trails (c : string) : bool :=
  match c with
  | EmptyString => false
  | String b rest => all_continue rest
  end.
Definition well_formed (cs : list string) : Prop :=
  match cs with
  | [] => True
  | c :: cs' => trails c = true /\ Forall (fun c => leads c = true) cs'
  end.
Fixpoint starts (s : string) : nat :=
  match s with
  | EmptyString => O
  | String b s' => ((if Str.continues b then 0 else 1) + starts s')%nat
  end.
Definition head_continues (s : string) : bool :=
  match s with
  | EmptyString => false
  | String b _ => Str.continues b
  end.

(** ** handlers.py: the access check *)

Module Handlers.

(** The texts [check_access] and the access commands answer with. *)
Inductive Reply :=
  | BannedReply (days hours : Z)
  | RateLimitReply (cooldown : Z)
  | TooFastReply
  | SuspiciousReply
  | VerificationFailedReply (reason : string)
  | AutoVerifiedReply
  | NoAccessReply
  | AdminOnlyReply
  | AccessGrantedReply (user_id : Z)
  | AccessFormatReply.

(** How a coroutine ends: with [return] or with an exception. *)
Inductive outcome :=
  | Returned (allowed : bool)
  | Raised.

(** The module-level objects the handlers work on, the data file, and
    the replies attempted so far, each with whether it was delivered. *)
Record State := {
  bot_data : BotData.t;
  files : gmap string string;
  rate_limiter : RateLimiter.t;
  security : SecuritySystem.t;
  sent : list (Reply * bool);
  world : World
}.

Definition set_bot_data (v : BotData.t) (s : State) : State :=
  {| bot_data := v; files := files s; rate_limiter := rate_limiter s;
     security := security s; sent := sent s; world := world s |}.
Definition set_storage (r : BotData.t * gmap string string * World)
  (s : State) : State :=
  {| bot_data := r.1.1; files := r.1.2; rate_limiter := rate_limiter s;
     security := security s; sent := sent s; world := r.2 |}.
Definition set_limiter (r : RateLimiter.t * World) (s : State) : State :=
  {| bot_data := bot_data s; files := files s; rate_limiter := r.1;
     security := security s; sent := sent s; world := r.2 |}.
Definition set_security (v : SecuritySystem.t) (s : State) : State :=
  {| bot_data := bot_data s; files := files s;
     rate_limiter := rate_limiter s; security := v; sent := sent s;
     world := world s |}.
Definition set_world (v : World) (s : State) : State :=
  {| bot_data := bot_data s; files := files s;
     rate_limiter := rate_limiter s; security := security s;
     sent := sent s; world := v |}.
Definition set_sent (v : list (Reply * bool)) (s : State) : State :=
  {| bot_data := bot_data s; files := files s;
     rate_limiter := rate_limiter s; security := security s;
     sent := v; world := world s |}.

Definition on_storage {A}
  (m : M ((BotData.t * gmap string string) * World) A) : M State A :=
  zoom (fun s => ((bot_data s, files s), world s)) set_storage m.
Definition on_limiter {A} (m : M (RateLimiter.t * World) A) : M State A :=
  zoom (fun s => (rate_limiter s, world s)) set_limiter m.
Definition on_security {A} (m : M SecuritySystem.t A) : M State A :=
  zoom security set_security m.
Definition on_clock {A} (m : M World A) : M State A :=
  zoom world set_world m.
Definition set_approved_users (v : gset Z) (self : BotData.t) : BotData.t :=
  {| BotData.session_id := BotData.session_id self;
     BotData.owner_id := BotData.owner_id self;
     BotData.approved_users := v;
     BotData.banned_users := BotData.banned_users self;
     BotData.group_states := BotData.group_states self;
     BotData.chat_history := BotData.chat_history self;
     BotData.user_stats := BotData.user_stats self;
     BotData.spam_violations := BotData.spam_violations self;
     BotData.message_hashes := BotData.message_hashes self;
     BotData.user_message_counts := BotData.user_message_counts self;
     BotData.rate_limit_violations := BotData.rate_limit_violations self;
     BotData.api_call_counts := BotData.api_call_counts self;
     BotData.failed_verifications := BotData.failed_verifications self;
     BotData.suspicious_users := BotData.suspicious_users self;
     BotData.session_start_time := BotData.session_start_time self;
     BotData.last_backup_time := BotData.last_backup_time self |}.

Section Methods.
Context (E : Env).
Context (json_dumps : Snapshot.t -> string).
(** Whether the n-th reply attempted is delivered. *)
Context (reply_ok : nat -> bool).

(** [await update.message.reply_text(...)] followed by [return allowed]:
    with no message, or a reply that is not delivered, the call raises. *)
Definition reply_and_return (update : Update.t) (text : Reply)
  (allowed : bool) : M State outcome := fun s =>
  match Update.message update with
  | None => (Raised, s)
  | Some _ =>
      let ok := reply_ok (length (sent s)) in
      (if ok then Returned allowed else Raised,
       set_sent (sent s ++ [(text, ok)]) s)
  end.

(** [check_access] from the rate-limit check on. *)
Definition check_standing (update : Update.t) : M State outcome :=
  let user := Update.effective_user update in
  limited ← on_limiter (RateLimiter.is_rate_limited E (User.id user) "message");
  if (limited : bool) then
    cooldown ← on_limiter (RateLimiter.get_cooldown_remaining E (User.id user));
    match cooldown with
    | Some seconds =>
        if seconds =? 0 then reply_and_return update TooFastReply false
        else reply_and_return update (RateLimitReply seconds) false
    | None => reply_and_return update TooFastReply false
    end
  else
    suspicious ← on_security (SecuritySystem.is_user_suspicious (User.id user));
    if (suspicious : bool)
    then reply_and_return update SuspiciousReply false
    else
      approved ← gets (fun s =>
        bool_decide (User.id user ∈ BotData.approved_users (bot_data s)));
      if String.eqb (Chat.type (Update.effective_chat update)) "private"
         && negb approved
      then
        verdict ← on_security (SecuritySystem.verify_user_account E user);
        if negb verdict.1 then
          on_security (SecuritySystem.add_failed_verification (User.id user));;
          reply_and_return update (VerificationFailedReply verdict.2) false
        else if BotConfig.ENABLE_USER_VERIFICATION (config E) then
          modify (fun s =>
            set_bot_data
              (set_approved_users
                 ({[User.id user]} ∪ BotData.approved_users (bot_data s))
                 (bot_data s)) s);;
          on_storage (BotDataOps.save_data E json_dumps);;
          reply_and_return update AutoVerifiedReply true
        else reply_and_return update NoAccessReply false
      else mret (Returned true).

Definition check_access (update : Update.t) : M State outcome :=
  let user := Update.effective_user update in
  if User.id user =? BotConfig.OWNER_ID (config E) then mret (Returned true)
  else
    banned ← gets (fun s =>
      BotData.banned_users (bot_data s) !! User.id user);
    match banned with
    | Some ban_end =>
        now ← on_clock (datetime_now E);
        if now <? ban_end then
          now ← on_clock (datetime_now E);
          let remaining := ban_end - now in
          reply_and_return update
            (BannedReply (remaining / Py.days 1)
               (remaining mod Py.days 1 / Py.hours 1)) false
        else
          modify (fun s =>
            set_bot_data
              (BotDataOps.set_banned_users
                 (delete (User.id user) (BotData.banned_users (bot_data s)))
                 (bot_data s)) s);;
          on_storage (BotDataOps.save_data E json_dumps);;
          check_standing update
    | None => check_standing update
    end.
End Methods.
End Handlers.

(** The reply to a user who is rate limited, by the cooldown reported. *)
Definition limit_reply (cooldown : option Z) : Handlers.Reply :=
  match cooldown with
  | Some seconds =>
      if seconds =? 0 then Handlers.TooFastReply
      else Handlers.RateLimitReply seconds
  | None => Handlers.TooFastReply
  end.

(** The state after the user was approved and the data saved. *)
Definition approve_and_save (E : Env) (json_dumps : Snapshot.t -> string)
  (user_id : Z) (s : Handlers.State) : Handlers.State :=
  let approved :=
    Handlers.set_bot_data
      (Handlers.set_approved_users
         ({[user_id]} ∪ BotData.approved_users (Handlers.bot_data s))
         (Handlers.bot_data s)) s in
  Handlers.set_storage
    (BotDataOps.save_data E json_dumps
       ((Handlers.bot_data approved, Handlers.files approved),
        Handlers.world approved)).2 approved.

(** The state after an expired ban was lifted and the data saved. *)
Definition unban_and_save (E : Env) (json_dumps : Snapshot.t -> string)
  (user_id : Z) (s : Handlers.State) : Handlers.State :=
  let lifted :=
    Handlers.set_bot_data
      (BotDataOps.set_banned_users
         (delete user_id (BotData.banned_users (Handlers.bot_data s)))
         (Handlers.bot_data s)) s in
  Handlers.set_storage
    (BotDataOps.save_data E json_dumps
       ((Handlers.bot_data lifted, Handlers.files lifted),
        Handlers.world lifted)).2 lifted.

(** ** main.py: granting access *)

Module Admin.
Section Methods.
Context (E : Env).
Context (json_dumps : Snapshot.t -> string).
Context (reply_ok : nat -> bool).

(** [await update.message.reply_text(...)] as the last step of a command:
    [true] when the command returns, [false] when the call raises. *)
Definition reply_text (update : Update.t) (text : Handlers.Reply)
  : M Handlers.State bool := fun s =>
  match Update.message update with
  | None => (false, s)
  | Some _ =>
      let ok := reply_ok (length (Handlers.sent s)) in
      (ok, Handlers.set_sent (Handlers.sent s ++ [(text, ok)]) s)
  end.

(** [grant_access] with [context.args]: a missing argument raises
    [IndexError] and one that is not a number [ValueError]. *)
Definition grant_access (update : Update.t) (args : list string)
  : M Handlers.State bool :=
  if negb (User.id (Update.effective_user update)
           =? BotConfig.OWNER_ID (config E))
  then reply_text update Handlers.AdminOnlyReply
  else
    match args with
    | [] => reply_text update Handlers.AccessFormatReply
    | arg :: _ =>
        match int_of_str E arg with
        | None => reply_text update Handlers.AccessFormatReply
        | Some user_id =>
            modify (fun s =>
              Handlers.set_bot_data
                (Handlers.set_approved_users
                   ({[user_id]}
                    ∪ BotData.approved_users (Handlers.bot_data s))
                   (Handlers.bot_data s)) s);;
            modify (fun s =>
              Handlers.set_bot_data
                (BotDataOps.set_banned_users
                   (delete user_id
                      (BotData.banned_users (Handlers.bot_data s)))
                   (Handlers.bot_data s)) s);;
            Handlers.on_security (SecuritySystem.mark_user_safe user_id);;
            Handlers.on_storage (BotDataOps.save_data E json_dumps);;
            reply_text update (Handlers.AccessGrantedReply user_id)
        end
    end.
End Methods.
End Admin.

(** ** A concrete environment

    Used to run the program on examples: the shipped configuration, a clock
    that advances one second per reading, a transport that delivers, decimal
    time stamps, and two of the configured patterns as plain searches. *)

Definition decimal_int (s : string) : option Z :=
  Z.of_int <$> NilZero.int_of_string s.

Definition sample_environ : BotConfig.environ := {|
  BotConfig.env_OWNER_ID := 1;
  BotConfig.env_MAX_MESSAGES_PER_MINUTE := None;
  BotConfig.env_MAX_MESSAGES_PER_HOUR := None;
  BotConfig.env_MIN_ACCOUNT_AGE_DAYS := None
|}.

(** Three characters beyond ASCII, in UTF-8: the capital and the small a
    with a grave accent (U+00C0, U+00E0) and the no-break space (U+00A0).
    Python has the first upper case with the second as its lower case, both
    alphanumeric, and the third white space. *)
Definition capital_a_grave : string :=
  String (ascii_of_nat 195) (String (ascii_of_nat 128) "").
Definition small_a_grave : string :=
  String (ascii_of_nat 195) (String (ascii_of_nat 160) "").
Definition no_break_space : string :=
  String (ascii_of_nat 194) (String (ascii_of_nat 160) "").
Definition sample_lower (s : string) : string :=
  foldr (fun c rest =>
           (if String.eqb c capital_a_grave then small_a_grave
            else Py.lower c) ++ rest) "" (Str.chars s).

Definition sample_env : Env := {|
  config := BotConfig.load_from_env sample_environ;
  clock := fun n => Py.seconds (Z.of_nat n);
  randint := fun n => 100000 + Z.of_nat n;
  transport_ok := fun _ => true;
  md5_hexdigest := fun s => s;
  spam_patterns :=
    [fun s => Py.contains "casino" (Py.lower s);
     fun s => Py.contains "free money" (Py.lower s)];
  int_of_str := decimal_int;
  isoformat := Py.str;
  fromisoformat := decimal_int;
  unicode_isupper := fun c => String.eqb c capital_a_grave;
  unicode_isdigit := fun _ => false;
  unicode_isalnum := fun c =>
    String.eqb c capital_a_grave || String.eqb c small_a_grave;
  unicode_isspace := fun c => String.eqb c no_break_space;
  unicode_lower := sample_lower;
  unicode_search_links := fun s =>
    existsb (fun scheme =>
      existsb (fun host =>
        Py.contains (scheme ++ host ++ "/") (sample_lower s))
        ["bit.ly"; "tinyurl"; "t.co"; "short.link"; "goo.gl"])
      ["http://"; "https://"]
|}.

(** The same environment with a chat transport that refuses every call. *)
Definition deaf_env : Env := {|
  config := config sample_env;
  clock := clock sample_env;
  randint := randint sample_env;
  transport_ok := fun _ => false;
  md5_hexdigest := md5_hexdigest sample_env;
  spam_patterns := spam_patterns sample_env;
  int_of_str := int_of_str sample_env;
  isoformat := isoformat sample_env;
  fromisoformat := fromisoformat sample_env;
  unicode_isupper := unicode_isupper sample_env;
  unicode_isdigit := unicode_isdigit sample_env;
  unicode_isalnum := unicode_isalnum sample_env;
  unicode_isspace := unicode_isspace sample_env;
  unicode_lower := unicode_lower sample_env;
  unicode_search_links := unicode_search_links sample_env
|}.

Definition world0 : World := {| reads := 0; draws := 0; calls := [] |}.

Definition cooling_limiter : RateLimiter.t :=
  RateLimiter.set_cooldown_users {[ 7 := Py.minutes 5 ]} RateLimiter.__init__.

Definition flooded_limiter : RateLimiter.t :=
  RateLimiter.set_user_requests {[ 7 := replicate 10 0 ]}
    RateLimiter.__init__.

Definition group_update : Update.t := {|
  Update.message :=
    Some {| Message.message_id := 1; Message.text := Some "hello" |};
  Update.effective_user :=
    {| User.id := 7; User.username := Some "alice_wong";
       User.first_name := "Alice" |};
  Update.effective_chat := {| Chat.id := -100; Chat.type := "group" |}
|}.

Definition twice_warned : ModerationSystem.t :=
  ModerationSystem.set_warning_counts {[ (-100, 7) := 2 ]}
    ModerationSystem.__init__.

Definition shady_user : User.t :=
  {| User.id := 6000000000; User.username := Some "bot12345";
     User.first_name := "Free prize" |}.

(** An account without a username and with a high id; one whose username
    holds a listed token and whose first name is mostly punctuation; and
    the same with a first name of accented capitals. *)
Definition nameless_newcomer : User.t :=
  {| User.id := 6000000001; User.username := None;
     User.first_name := "Ann" |}.
Definition loud_name : User.t :=
  {| User.id := 8; User.username := Some "test_account";
     User.first_name := "$$$ Ann !!!" |}.
Definition accented_name : User.t :=
  {| User.id := 9; User.username := Some "test_account";
     User.first_name := capital_a_grave ++ capital_a_grave ++ "ngela" |}.

Definition service_update : Update.t := {|
  Update.message := None;
  Update.effective_user := shady_user;
  Update.effective_chat := {| Chat.id := -100; Chat.type := "group" |}
|}.

Definition spam_update : Update.t := {|
  Update.message :=
    Some {| Message.message_id := 2;
            Message.text :=
              Some "FREE MONEY at the CASINO http://bit.ly/x spam" |};
  Update.effective_user := shady_user;
  Update.effective_chat := {| Chat.id := -100; Chat.type := "group" |}
|}.

(** A text beyond ASCII: the word spam, a no-break space and fourteen
    accented capitals. *)
Definition accented_text : string :=
  "spam" ++ no_break_space ++ String.concat "" (replicate 14 capital_a_grave).


Definition fresh_data : BotData.t := (BotData.__init__ sample_env world0).1.


Definition broken_files : gmap string string :=
  {[ "alya_data.json" := "{broken" ]}.

Definition muted_pair : ModerationSystem.t :=
  ModerationSystem.set_muted_users
    {[ (-100, 7) := Py.seconds 0; (-100, 8) := Py.hours 1 ]}
    ModerationSystem.__init__.

Definition stale_sessions : SecuritySystem.t :=
  SecuritySessions.set_session_timestamps {[ 7 := - Py.hours 25; 8 := 0 ]}
    (SecuritySessions.set_user_sessions {[ 7 := "old"; 8 := "new" ]}
       SecuritySystem.__init__).

Definition banned_data : BotData.t :=
  BotDataOps.set_banned_users {[ 7 := -1; 8 := Py.hours 1 ]} fresh_data.

Definition busy_scorer : AntiSpam.t :=
  AntiSpam.set_user_message_intervals {[ 7 := [0; 1; 2; 3; 4] ]}
    (AntiSpam.set_message_hashes {[ "hello" := [(7, 0); (8, 0)] ]}
       AntiSpam.__init__).

Definition sample_state : Handlers.State := {|
  Handlers.bot_data := fresh_data;
  Handlers.files := ∅;
  Handlers.rate_limiter := RateLimiter.__init__;
  Handlers.security := SecuritySystem.__init__;
  Handlers.sent := [];
  Handlers.world := world0
|}.

Definition banned_state : Handlers.State :=
  Handlers.set_bot_data
    (BotDataOps.set_banned_users {[ 7 := Py.days 2 ]} fresh_data)
    sample_state.

Definition private_update : Update.t := {|
  Update.message :=
    Some {| Message.message_id := 3; Message.text := Some "hi" |};
  Update.effective_user :=
    {| User.id := 7; User.username := Some "alice_wong";
       User.first_name := "Alice" |};
  Update.effective_chat := {| Chat.id := 7; Chat.type := "private" |}
|}.

Definition shady_private_update : Update.t := {|
  Update.message :=
    Some {| Message.message_id := 4; Message.text := Some "hi" |};
  Update.effective_user := shady_user;
  Update.effective_chat :=
    {| Chat.id := 6000000000; Chat.type := "private" |}
|}.

Definition owner_update : Update.t := {|
  Update.message :=
    Some {| Message.message_id := 5; Message.text := Some "/akses 7" |};
  Update.effective_user :=
    {| User.id := 1; User.username := Some "owner";
       User.first_name := "Owner" |};
  Update.effective_chat := {| Chat.id := 1; Chat.type := "private" |}
|}.

(** * Properties *)

(** ** Rate limiter *)

Ltac run :=
  unfold in_world, on_self, zoom, modify, gets, datetime_now, random_randint,
    transport, mbind, M_bind, mret, M_ret in *; cbn in *.

Lemma apply_cooldown_state (E : Env) (user_id : Z) (violation_type : string)
  (self : RateLimiter.t) (w : World) :
  let n := default 0 (RateLimiter.warning_counts self !! user_id) + 1 in
  RateLimiter._apply_cooldown E user_id violation_type (self, w) =
  (tt,
   ({| RateLimiter.user_requests := RateLimiter.user_requests self;
       RateLimiter.api_requests := RateLimiter.api_requests self;
       RateLimiter.cooldown_users :=
         <[user_id := clock E (reads w)
                      + Py.minutes (RateLimiter.cooldown_minutes n)]>
           (RateLimiter.cooldown_users self);
       RateLimiter.warning_counts :=
         <[user_id := n]> (RateLimiter.warning_counts self) |},
    {| reads := S (reads w); draws := draws w; calls := calls w |})).
Proof.
  unfold RateLimiter._apply_cooldown. run.
  unfold Py.dd_get.
  destruct (RateLimiter.warning_counts self !! user_id) as [c|] eqn:Hc; cbn.
  - rewrite lookup_insert_eq. cbn.
    unfold RateLimiter.set_cooldown_users, RateLimiter.set_warning_counts.
    reflexivity.
  - rewrite insert_insert_eq, lookup_insert_eq. cbn.
    unfold RateLimiter.set_cooldown_users, RateLimiter.set_warning_counts.
    reflexivity.
Qed.

Lemma clean_old_requests_frame (user_id now : Z) (self : RateLimiter.t) :
  let self' := (RateLimiter._clean_old_requests user_id now self).2 in
  RateLimiter.cooldown_users self' = RateLimiter.cooldown_users self /\
  RateLimiter.warning_counts self' = RateLimiter.warning_counts self.
Proof.
  unfold RateLimiter._clean_old_requests. run.
  destruct (Py.dd_get [] user_id (RateLimiter.user_requests self)).
  cbn. destruct (Py.dd_get [] user_id _). cbn. auto.
Qed.

Lemma apply_cooldown_breached E u vt self w :
  breached u self (clock E (reads w))
    (RateLimiter._apply_cooldown E u vt (self, w)).2.1.
Proof.
  rewrite apply_cooldown_state. cbn. unfold breached. cbn.
  rewrite !lookup_insert_eq. repeat split; auto.
  intros u' Hne. rewrite lookup_insert_ne; congruence.
Qed.

Lemma check_message_outcome E u now self w :
  let r := RateLimiter._check_message_rate_limit E u now (self, w) in
  (r.1 = true /\ breached u self (clock E (reads w)) r.2.1) \/
  (r.1 = false /\
   RateLimiter.cooldown_users r.2.1 = RateLimiter.cooldown_users self /\
   RateLimiter.warning_counts r.2.1 = RateLimiter.warning_counts self).
Proof.
  unfold RateLimiter._check_message_rate_limit. run.
  destruct (Py.dd_get [] u (RateLimiter.user_requests self)) as [reqs d] eqn:Hd.
  cbn.
  destruct (_ <=? _) eqn:Hlim.
  - left.
    pose proof (apply_cooldown_breached E u "message_flood"
                  (RateLimiter.set_user_requests d self) w) as HB.
    destruct (RateLimiter._apply_cooldown _ _ _ _) as [[] s'']. cbn in *.
    split; [reflexivity | exact HB].
  - cbn. destruct (Py.dd_get [] u d) as [reqs' d'] eqn:Hd'. cbn.
    destruct (BotConfig.MAX_MESSAGES_PER_HOUR (config E) <=? _) eqn:Hlim'.
    + left.
      pose proof (apply_cooldown_breached E u "message_abuse"
        (RateLimiter.set_user_requests d'
           (RateLimiter.set_user_requests d self)) w) as HB.
      destruct (RateLimiter._apply_cooldown _ _ _ _) as [[] s'']. cbn in *.
      split; [reflexivity | exact HB].
    + right. cbn. auto.
Qed.

Lemma check_api_outcome E u now self w :
  let r := RateLimiter._check_api_rate_limit E u now (self, w) in
  (r.1 = true /\ breached u self (clock E (reads w)) r.2.1) \/
  (r.1 = false /\
   RateLimiter.cooldown_users r.2.1 = RateLimiter.cooldown_users self /\
   RateLimiter.warning_counts r.2.1 = RateLimiter.warning_counts self).
Proof.
  unfold RateLimiter._check_api_rate_limit. run.
  destruct (Py.dd_get [] u (RateLimiter.api_requests self)) as [reqs d] eqn:Hd.
  cbn.
  destruct (_ <=? _) eqn:Hlim.
  - left.
    pose proof (apply_cooldown_breached E u "api_abuse"
                  (RateLimiter.set_api_requests d self) w) as HB.
    destruct (RateLimiter._apply_cooldown _ _ _ _) as [[] s'']. cbn in *.
    split; [reflexivity | exact HB].
  - right. cbn. auto.
Qed.

Lemma window_check_outcome E u rt now self w :
  let r := window_check E u rt now (self, w) in
  (r.1 = true /\ breached u self (clock E (reads w)) r.2.1) \/
  (r.1 = false /\
   RateLimiter.cooldown_users r.2.1 = RateLimiter.cooldown_users self /\
   RateLimiter.warning_counts r.2.1 = RateLimiter.warning_counts self).
Proof.
  unfold window_check. run.
  pose proof (clean_old_requests_frame u now self) as [Hc Hw].
  destruct (RateLimiter._clean_old_requests u now self) as [[] self1].
  cbn in *.
  assert (Hb : forall t r,
            breached u self1 t r -> breached u self t r).
  { unfold breached. rewrite Hc, Hw. auto. }
  destruct (String.eqb rt "message").
  - pose proof (check_message_outcome E u now self1 w) as H.
    cbn in H. rewrite Hc, Hw in H. destruct H as [[? ?]|?]; auto.
  - destruct (String.eqb rt "api").
    + pose proof (check_api_outcome E u now self1 w) as H.
      cbn in H. rewrite Hc, Hw in H. destruct H as [[? ?]|?]; auto.
    + right. cbn. auto.
Qed.

Lemma is_rate_limited_unfold E u rt self w :
  RateLimiter.is_rate_limited E u rt (self, w) =
  let now := clock E (reads w) in
  match RateLimiter.cooldown_users self !! u with
  | Some until =>
      if now <? until then (true, (self, tick w))
      else window_check E u rt now
             (RateLimiter.set_cooldown_users
                (delete u (RateLimiter.cooldown_users self)) self, tick w)
  | None => window_check E u rt now (self, tick w)
  end.
Proof.
  unfold RateLimiter.is_rate_limited, window_check. run.
  destruct (RateLimiter.cooldown_users self !! u) as [t|]; [|reflexivity].
  destruct (_ <? t); reflexivity.
Qed.

Lemma breaches_count E (n : nat) u self w :
  RateLimiter.warning_counts self !! u = None ->
  (0 < n)%nat ->
  let r := RateLimiter.breaches E n u (self, w) in
  RateLimiter.warning_counts r.2.1 !! u = Some (Z.of_nat n) /\
  RateLimiter.cooldown_users r.2.1 !! u =
    Some (clock E (reads w + n - 1)
          + Py.minutes (RateLimiter.cooldown_minutes (Z.of_nat n))) /\
  reads r.2.2 = (reads w + n)%nat.
Proof.
  intros Hnone. induction n as [|k IH]; [lia|]. intros _.
  cbn [RateLimiter.breaches]. unfold mbind, M_bind.
  destruct (RateLimiter.breaches E k u (self, w)) as [[] [self1 w1]] eqn:Hk.
  rewrite apply_cooldown_state. cbn.
  rewrite !lookup_insert_eq.
  destruct k as [|k'].
  - cbn in Hk. unfold mret, M_ret in Hk. injection Hk as <- <-.
    rewrite Hnone. cbn.
    replace (reads w + 1 - 1)%nat with (reads w) by lia.
    repeat split; auto. clear IH. lia.
  - destruct IH as (Hc & _ & Hr); [lia|]. cbn in Hc, Hr.
    rewrite Hc. cbn [default id]. rewrite Hr.
    replace (Z.of_nat (S k') + 1) with (Z.of_nat (S (S k'))) by lia.
    replace (reads w + S (S k') - 1)%nat with (reads w + S k')%nat by lia.
    repeat split; auto; lia.
Qed.

(** C4, as amended.  Every breach adds one to the violation counter of the
    user and sets a cooldown of min(count * 5, 60) minutes from the time of
    the breach, whether the breach is reached through [_apply_cooldown]
    or through a check that finds no cooldown in force; the first breach
    gives 5 minutes, the fourth 20, the tenth 50, and from the twelfth on
    the cooldown is 60 minutes. *)
Theorem progressive_cooldown (E : Env) (user_id : Z) (self : RateLimiter.t)
  (w : World) :
  let n := default 0 (RateLimiter.warning_counts self !! user_id) + 1 in
  (forall violation_type,
     let after :=
       (RateLimiter._apply_cooldown E user_id violation_type (self, w)).2.1 in
     RateLimiter.warning_counts after !! user_id = Some n /\
     RateLimiter.cooldown_users after !! user_id =
       Some (clock E (reads w) + Py.minutes (Z.min (n * 5) 60))) /\
  (forall request_type after,
     RateLimiter.is_rate_limited E user_id request_type (self, w)
       = (true, after) ->
     (forall expiry, RateLimiter.cooldown_users self !! user_id = Some expiry ->
                    expiry <= clock E (reads w)) ->
     RateLimiter.warning_counts after.1 !! user_id = Some n /\
     RateLimiter.cooldown_users after.1 !! user_id =
       Some (clock E (S (reads w)) + Py.minutes (Z.min (n * 5) 60))) /\
  (forall k : nat,
     RateLimiter.warning_counts self !! user_id = None -> (0 < k)%nat ->
     let after := (RateLimiter.breaches E k user_id (self, w)).2.1 in
     RateLimiter.warning_counts after !! user_id = Some (Z.of_nat k) /\
     RateLimiter.cooldown_users after !! user_id =
       Some (clock E (reads w + k - 1)
             + Py.minutes (Z.min (Z.of_nat k * 5) 60))) /\
  RateLimiter.cooldown_minutes 1 = 5 /\
  RateLimiter.cooldown_minutes 4 = 20 /\
  RateLimiter.cooldown_minutes 10 = 50 /\
  (forall k, 12 <= k -> RateLimiter.cooldown_minutes k = 60).
Proof.
  cbn zeta. split; [|split; [|split]].
  - intros vt. pose proof (apply_cooldown_breached E user_id vt self w) as H.
    destruct H as (H1 & H2 & _). split; assumption.
  - intros rt after Hres Hfree.
    rewrite is_rate_limited_unfold in Hres. cbn zeta in Hres.
    destruct (RateLimiter.cooldown_users self !! user_id) as [t|] eqn:Hcd.
    + specialize (Hfree t eq_refl).
      destruct (Z.ltb_spec (clock E (reads w)) t); [lia|].
      pose proof (window_check_outcome E user_id rt (clock E (reads w))
        (RateLimiter.set_cooldown_users
           (delete user_id (RateLimiter.cooldown_users self)) self) (tick w))
        as Hout.
      cbn zeta in Hout. rewrite Hres in Hout. cbn in Hout.
      destruct Hout as [[_ (H1 & H2 & _)]|[Hf _]]; [|discriminate].
      split; assumption.
    + pose proof (window_check_outcome E user_id rt (clock E (reads w))
        self (tick w)) as Hout.
      cbn zeta in Hout. rewrite Hres in Hout. cbn in Hout.
      destruct Hout as [[_ (H1 & H2 & _)]|[Hf _]]; [|discriminate].
      split; assumption.
  - intros k Hnone Hk.
    destruct (breaches_count E k user_id self w Hnone Hk) as (H1 & H2 & _).
    split; assumption.
  - unfold RateLimiter.cooldown_minutes. repeat split; try reflexivity.
    intros k Hk. lia.
Qed.

Lemma window_check_cooldown_other E u rt now self w u' :
  u' <> u ->
  RateLimiter.cooldown_users (window_check E u rt now (self, w)).2.1 !! u' =
  RateLimiter.cooldown_users self !! u'.
Proof.
  intros Hne.
  destruct (window_check_outcome E u rt now self w) as [[_ (_ & _ & H)]|[_ [H _]]].
  - apply H, Hne.
  - rewrite H. reflexivity.
Qed.

Lemma invoke_is_rate_limited E u rt s :
  (RateLimiter.invoke E (RateLimiter.IsRateLimited u rt) s).2 =
  (RateLimiter.is_rate_limited E u rt s).2.
Proof.
  cbn. unfold mbind, M_bind, mret, M_ret.
  destruct (RateLimiter.is_rate_limited E u rt s). reflexivity.
Qed.

Lemma reset_user_limits_state u self w :
  RateLimiter.reset_user_limits u (self, w) =
  (tt, ({| RateLimiter.user_requests :=
             <[u := []]> (RateLimiter.user_requests self);
           RateLimiter.api_requests :=
             <[u := []]> (RateLimiter.api_requests self);
           RateLimiter.cooldown_users :=
             delete u (RateLimiter.cooldown_users self);
           RateLimiter.warning_counts :=
             <[u := 0]> (RateLimiter.warning_counts self) |}, w)).
Proof. reflexivity. Qed.

Lemma cooldown_removed_only_by E (m : RateLimiter.method) u expiry self w :
  RateLimiter.cooldown_users self !! u = Some expiry ->
  RateLimiter.cooldown_users (RateLimiter.invoke E m (self, w)).2.1 !! u = None ->
  m = RateLimiter.ResetUserLimits u \/
  exists request_type,
    m = RateLimiter.IsRateLimited u request_type /\
    expiry <= clock E (reads w).
Proof.
  intros Hsome Hnone. destruct m as [u' rt|u' rt|u'|u'|u'].
  - right. rewrite invoke_is_rate_limited in Hnone.
    rewrite is_rate_limited_unfold in Hnone. cbn zeta in Hnone.
    destruct (decide (u' = u)) as [->|Hne].
    + exists rt. split; [reflexivity|].
      rewrite Hsome in Hnone.
      destruct (Z.ltb_spec (clock E (reads w)) expiry); [|lia].
      cbn in Hnone. congruence.
    + exfalso.
      destruct (RateLimiter.cooldown_users self !! u') as [t|] eqn:Hcd.
      * destruct (_ <? t).
        -- cbn in Hnone. congruence.
        -- rewrite window_check_cooldown_other in Hnone by congruence.
           cbn in Hnone. rewrite lookup_delete_ne in Hnone by congruence.
           congruence.
      * rewrite window_check_cooldown_other in Hnone by congruence.
        congruence.
  - exfalso. revert Hnone. cbn. unfold RateLimiter.add_request. run.
    destruct (String.eqb rt "message"); cbn.
    + destruct (Py.dd_get _ _ _); cbn. congruence.
    + destruct (String.eqb rt "api"); cbn.
      * destruct (Py.dd_get _ _ _); cbn. congruence.
      * congruence.
  - exfalso. revert Hnone. cbn. unfold RateLimiter.get_cooldown_remaining. run.
    destruct (RateLimiter.cooldown_users self !! u'); cbn; congruence.
  - left. destruct (decide (u' = u)) as [->|Hne]; [reflexivity|].
    exfalso. cbn [RateLimiter.invoke] in Hnone.
    rewrite reset_user_limits_state in Hnone. cbn in Hnone.
    rewrite lookup_delete_ne in Hnone by congruence. congruence.
  - exfalso. revert Hnone. cbn. unfold RateLimiter.get_user_stats,
      RateLimiter.get_cooldown_remaining. run.
    repeat (destruct (Py.dd_get _ _ _); cbn).
    destruct (RateLimiter.cooldown_users self !! u'); cbn; congruence.
Qed.

(** C5.  While the cooldown of a user has not expired, [is_rate_limited]
    answers true whatever the request windows hold and changes nothing; a
    check made once it has expired behaves as if the entry had been
    removed; no public method other than such a check and
    [reset_user_limits] removes the entry; and [reset_user_limits] also
    empties both request windows and sets the violation counter to 0. *)
Theorem cooldown_lifecycle (E : Env) (user_id : Z) (self : RateLimiter.t)
  (w : World) :
  (forall expiry request_type,
     RateLimiter.cooldown_users self !! user_id = Some expiry ->
     clock E (reads w) < expiry ->
     RateLimiter.is_rate_limited E user_id request_type (self, w) =
     (true, (self, tick w))) /\
  (forall expiry request_type,
     RateLimiter.cooldown_users self !! user_id = Some expiry ->
     expiry <= clock E (reads w) ->
     let r := RateLimiter.is_rate_limited E user_id request_type (self, w) in
     r = RateLimiter.is_rate_limited E user_id request_type
           (RateLimiter.set_cooldown_users
              (delete user_id (RateLimiter.cooldown_users self)) self, w) /\
     (r.1 = false -> RateLimiter.cooldown_users r.2.1 !! user_id = None)) /\
  (forall (m : RateLimiter.method) expiry,
     RateLimiter.cooldown_users self !! user_id = Some expiry ->
     RateLimiter.cooldown_users (RateLimiter.invoke E m (self, w)).2.1
       !! user_id = None ->
     m = RateLimiter.ResetUserLimits user_id \/
     exists request_type,
       m = RateLimiter.IsRateLimited user_id request_type /\
       expiry <= clock E (reads w)) /\
  (let after := (RateLimiter.reset_user_limits user_id (self, w)).2.1 in
   RateLimiter.cooldown_users after !! user_id = None /\
   RateLimiter.user_requests after !! user_id = Some [] /\
   RateLimiter.api_requests after !! user_id = Some [] /\
   RateLimiter.warning_counts after !! user_id = Some 0).
Proof.
  split; [|split; [|split]].
  - intros expiry rt Hcd Hact. rewrite is_rate_limited_unfold. cbn zeta.
    rewrite Hcd. destruct (Z.ltb_spec (clock E (reads w)) expiry); [|lia].
    reflexivity.
  - intros expiry rt Hcd Hexp. cbn zeta.
    rewrite !is_rate_limited_unfold. cbn zeta. rewrite Hcd.
    destruct (Z.ltb_spec (clock E (reads w)) expiry); [lia|]. cbn.
    rewrite lookup_delete_eq. split; [reflexivity|].
    intros Hfalse.
    destruct (window_check_outcome E user_id rt (clock E (reads w))
      (RateLimiter.set_cooldown_users
         (delete user_id (RateLimiter.cooldown_users self)) self) (tick w))
      as [[Ht _]|[_ [Hc _]]].
    + congruence.
    + rewrite Hc. cbn. apply lookup_delete_eq.
  - intros m expiry. apply cooldown_removed_only_by.
  - rewrite reset_user_limits_state. cbn.
    rewrite lookup_delete_eq, !lookup_insert_eq. auto.
Qed.

Lemma progressive_cooldown_witness :
  (RateLimiter.warning_counts RateLimiter.__init__ !! 7 = None /\
   (0 < 4)%nat /\
   let after :=
     (RateLimiter.breaches sample_env 4 7 (RateLimiter.__init__, world0)).2.1
   in
   RateLimiter.warning_counts after !! 7 = Some 4 /\
   RateLimiter.cooldown_users after !! 7
     = Some (clock sample_env 3 + Py.minutes 20)) /\
  (let r :=
     RateLimiter.is_rate_limited sample_env 7 "message"
       (flooded_limiter, world0) in
   r.1 = true /\
   RateLimiter.warning_counts r.2.1 !! 7 = Some 1 /\
   RateLimiter.cooldown_users r.2.1 !! 7
     = Some (clock sample_env 1 + Py.minutes 5)).
Proof.
  split.
  - split; [reflexivity|]. split; [lia|].
    apply (proj1 (proj2 (proj2
             (progressive_cooldown sample_env 7 RateLimiter.__init__ world0)))
             4%nat); [reflexivity | lia].
  - cbn zeta. split; [vm_compute; reflexivity|].
    apply (proj1 (proj2
             (progressive_cooldown sample_env 7 flooded_limiter world0))
             "message").
    + vm_compute. reflexivity.
    + intros expiry H. vm_compute in H. discriminate.
Defined.

(** The tenth breach in a row sets a cooldown of 50 minutes, not 60. *)
Lemma tenth_breach_is_50_minutes :
  let after :=
    (RateLimiter.breaches sample_env 10 7 (RateLimiter.__init__, world0)).2.1 in
  RateLimiter.warning_counts after !! 7 = Some 10 /\
  RateLimiter.cooldown_users after !! 7
    = Some (clock sample_env 9 + Py.minutes 50) /\
  RateLimiter.cooldown_users after !! 7
    <> Some (clock sample_env 9 + Py.minutes 60).
Proof.
  cbn zeta. repeat split; try (vm_compute; reflexivity).
  vm_compute. discriminate.
Qed.

Lemma cooldown_lifecycle_witness :
  RateLimiter.cooldown_users cooling_limiter !! 7 = Some (Py.minutes 5) /\
  clock sample_env (reads world0) < Py.minutes 5 /\
  RateLimiter.is_rate_limited sample_env 7 "message" (cooling_limiter, world0)
    = (true, (cooling_limiter, tick world0)).
Proof.
  split; [reflexivity|]. split; [reflexivity|].
  apply (proj1 (cooldown_lifecycle sample_env 7 cooling_limiter world0)
           (Py.minutes 5) "message"); reflexivity.
Defined.

(** ** Moderation *)

Lemma issued_app w w' l : calls w' = (calls w ++ l)%list -> issued w w' = l.
Proof. intros H. unfold issued. rewrite H. apply drop_app_length. Qed.

Section Moderation.
Context (E : Env) (update : Update.t) (user_id : Z) (reason : string).
Let chat_id := Chat.id (Update.effective_chat update).
Let key := (chat_id, user_id).

Lemma mute_user_run minutes why self w :
  let ok := transport_ok E (length (calls w)) in
  let request :=
    (restrict_chat_member chat_id user_id false
       (Some (clock E (reads w) + Py.minutes minutes)), ok) in
  let r := ModerationSystem._mute_user E update user_id minutes why
             (self, w) in
  ModerationSystem.warning_counts r.2.1 = ModerationSystem.warning_counts self /\
  (exists rest, calls r.2.2 = (calls w ++ request :: rest)%list /\
                Forall (fun c => is_ban c.1 = false /\ is_warning c.1 = false)
                  rest) /\
  (if ok
   then ModerationSystem.muted_users r.2.1 =
          <[key := clock E (S (reads w)) + Py.minutes minutes]>
            (ModerationSystem.muted_users self)
   else r.2.1 = self).
Proof.
  unfold ModerationSystem._mute_user. run. fold chat_id. fold key.
  destruct (transport_ok E (length (calls w))) eqn:Hok; cbn.
  - split; [reflexivity|]. split; [|reflexivity].
    eexists. rewrite <- app_assoc. split; [reflexivity|].
    constructor; [split; reflexivity | constructor].
  - split; [reflexivity|]. split; [|reflexivity].
    exists []. split; [reflexivity | constructor].
Qed.

Lemma ban_user_run self w :
  let ok := transport_ok E (length (calls w)) in
  let r := ModerationSystem._ban_user E update user_id reason (self, w) in
  r.2.1 = self /\
  (exists rest, calls r.2.2
                = (calls w ++ (ban_chat_member chat_id user_id, ok) :: rest)%list /\
                Forall (fun c => is_mute c.1 = false /\ is_warning c.1 = false)
                  rest).
Proof.
  unfold ModerationSystem._ban_user. run. fold chat_id.
  destruct (transport_ok E (length (calls w))) eqn:Hok; cbn.
  - split; [reflexivity|].
    eexists. rewrite <- app_assoc. split; [reflexivity|].
    constructor; [split; reflexivity | constructor].
  - split; [reflexivity|].
    exists []. split; [reflexivity | constructor].
Qed.

Lemma warn_user_run self w :
  let n := default 0 (ModerationSystem.warning_counts self !! key) + 1 in
  let ok := transport_ok E (length (calls w)) in
  let notice := (send_message chat_id (WarningNotice n user_id reason), ok) in
  let counted :=
    ModerationSystem.set_warning_counts
      (<[key := n]> (ModerationSystem.warning_counts self)) self in
  let sent :=
    {| reads := reads w; draws := draws w;
       calls := (calls w ++ [notice])%list |} in
  ModerationSystem._warn_user E update user_id reason (self, w) =
  if ok && (3 <=? n)
  then ModerationSystem._mute_user E update user_id 60 "3 peringatan spam"
         (counted, sent)
  else (tt, (counted, sent)).
Proof.
  unfold ModerationSystem._warn_user. run. fold chat_id. fold key.
  rewrite lookup_insert_eq. cbn.
  destruct (transport_ok E (length (calls w))); cbn; [|reflexivity].
  destruct (3 <=? _); reflexivity.
Qed.

Lemma warn_user_outcome self w :
  let n := default 0 (ModerationSystem.warning_counts self !! key) + 1 in
  let ok := transport_ok E (length (calls w)) in
  let notice := (send_message chat_id (WarningNotice n user_id reason), ok) in
  let r := ModerationSystem._warn_user E update user_id reason (self, w) in
  ModerationSystem.warning_counts r.2.1 =
    <[key := n]> (ModerationSystem.warning_counts self) /\
  (exists rest, calls r.2.2 = (calls w ++ notice :: rest)%list /\
                Forall (fun c => is_ban c.1 = false) rest) /\
  (ok = true -> 3 <= n ->
   let ok' := transport_ok E (S (length (calls w))) in
   (exists rest,
      issued w r.2.2 =
        notice ::
        (restrict_chat_member chat_id user_id false
           (Some (clock E (reads w) + Py.minutes 60)), ok') :: rest) /\
   (ok' = true ->
    ModerationSystem.muted_users r.2.1 !! key =
      Some (clock E (S (reads w)) + Py.minutes 60))) /\
  (n < 3 ->
   ModerationSystem.muted_users r.2.1 = ModerationSystem.muted_users self /\
   issued w r.2.2 = [notice]).
Proof.
  cbn zeta. rewrite warn_user_run. cbn zeta.
  set (n := default 0 _ + 1).
  set (ok := transport_ok E (length (calls w))).
  set (counted := ModerationSystem.set_warning_counts _ self).
  set (sent := Build_World _ _ _).
  pose proof (mute_user_run 60 "3 peringatan spam" counted sent) as Hm. cbn zeta in Hm.
  fold chat_id in Hm.
  destruct Hm as (Hwc & (rest & Hcalls & Hrest) & Hmuted).
  assert (Hlen : length (calls sent) = S (length (calls w))).
  { subst sent. cbn. rewrite length_app. cbn. lia. }
  rewrite Hlen in *.
  destruct (ok && (3 <=? n)) eqn:Hgo.
  - apply andb_prop in Hgo as [Hok Hn]. apply Z.leb_le in Hn.
    split; [exact Hwc|]. split.
    + eexists. split.
      * rewrite Hcalls. subst sent. cbn. rewrite <- app_assoc. reflexivity.
      * constructor; [reflexivity|].
        eapply Forall_impl; [exact Hrest|]. cbn. intros ? [? ?]. assumption.
    + split.
      * intros _ _. split.
        -- exists rest. apply issued_app. rewrite Hcalls. subst sent. cbn.
           rewrite <- app_assoc. reflexivity.
        -- intros Hok'. rewrite Hok' in Hmuted. rewrite Hmuted.
           subst sent. cbn. apply lookup_insert_eq.
      * intros Hlt. lia.
  - cbn. split; [reflexivity|]. split.
    + exists []. split; [reflexivity | constructor].
    + split.
      * intros Hok Hn. apply Z.leb_le in Hn. subst ok. rewrite Hok, Hn in Hgo.
        discriminate.
      * intros _. split; [reflexivity|]. apply issued_app. reflexivity.
Qed.

(** The deletion of the message that ends [handle_spam_violation]. *)
Lemma delete_tail (action : M (ModerationSystem.t * World) unit) self w :
  let r :=
    (action;;
     match Update.message update with
     | Some m =>
         in_world (transport E
           (delete_message chat_id (Message.message_id m)));;
         mret tt
     | None => mret tt
     end) (self, w) in
  r.2.1 = (action (self, w)).2.1 /\
  exists tail,
    calls r.2.2 = (calls (action (self, w)).2.2 ++ tail)%list /\
    Forall (fun c => is_mute c.1 = false /\ is_ban c.1 = false /\
                     is_warning c.1 = false) tail.
Proof.
  run. destruct (action (self, w)) as [[] [self1 w1]]. cbn.
  destruct (Update.message update) as [m|]; cbn.
  - split; [reflexivity|]. eexists. split; [reflexivity|].
    constructor; [repeat split | constructor].
  - split; [reflexivity|]. exists []. rewrite app_nil_r.
    split; [reflexivity | constructor].
Qed.
End Moderation.

Lemma handle_spam_violation_unfold E update spam_score reason s :
  Chat.type (Update.effective_chat update) <> "private" ->
  ModerationSystem.handle_spam_violation E update spam_score reason s =
  ((if BotConfig.AUTO_BAN_SPAM_SCORE (config E) <=? spam_score then
      ModerationSystem._ban_user E update
        (User.id (Update.effective_user update)) reason
    else if BotConfig.SPAM_SCORE_THRESHOLD (config E) + 2 <=? spam_score
    then ModerationSystem._mute_user E update
           (User.id (Update.effective_user update)) 30 reason
    else if BotConfig.SPAM_SCORE_THRESHOLD (config E) <=? spam_score
    then ModerationSystem._warn_user E update
           (User.id (Update.effective_user update)) reason
    else mret tt);;
   match Update.message update with
   | Some m =>
       in_world (transport E
         (delete_message (Chat.id (Update.effective_chat update))
            (Message.message_id m)));;
       mret tt
   | None => mret tt
   end) s.
Proof.
  intros Hpriv. unfold ModerationSystem.handle_spam_violation.
  apply String.eqb_neq in Hpriv. rewrite Hpriv. reflexivity.
Qed.

(** C3.  In a chat that is not private, with base threshold T and auto-ban
    threshold B (T + 2 <= B): a score of at least B bans and leaves the
    moderation state as it was, with no mute request and no warning among
    the calls made; a score in [T+2, B) requests a mute until 30 minutes
    from now, records it once the request has gone through, counts no
    warning and bans nobody; a score in [T, T+2) counts a warning and sends
    the warning notice, and bans nobody. *)
Theorem spam_violation_action (E : Env) (update : Update.t) (spam_score : Z)
  (reason : string) (self : ModerationSystem.t) (w : World) :
  let T := BotConfig.SPAM_SCORE_THRESHOLD (config E) in
  let B := BotConfig.AUTO_BAN_SPAM_SCORE (config E) in
  let user_id := User.id (Update.effective_user update) in
  let chat_id := Chat.id (Update.effective_chat update) in
  let key := (chat_id, user_id) in
  let after :=
    (ModerationSystem.handle_spam_violation E update spam_score reason
       (self, w)).2 in
  Chat.type (Update.effective_chat update) <> "private" ->
  T + 2 <= B ->
  (B <= spam_score ->
   after.1 = self /\
   (exists ok rest,
      issued w after.2 = (ban_chat_member chat_id user_id, ok) :: rest) /\
   Forall (fun c => is_mute c.1 = false /\ is_warning c.1 = false)
     (issued w after.2)) /\
  (T + 2 <= spam_score < B ->
   let ok := transport_ok E (length (calls w)) in
   (exists rest,
      issued w after.2 =
        (restrict_chat_member chat_id user_id false
           (Some (clock E (reads w) + Py.minutes 30)), ok) :: rest) /\
   (ok = true ->
    ModerationSystem.muted_users after.1 !! key =
      Some (clock E (S (reads w)) + Py.minutes 30)) /\
   ModerationSystem.warning_counts after.1
     = ModerationSystem.warning_counts self /\
   Forall (fun c => is_ban c.1 = false) (issued w after.2)) /\
  (T <= spam_score < T + 2 ->
   let n := default 0 (ModerationSystem.warning_counts self !! key) + 1 in
   ModerationSystem.warning_counts after.1 !! key = Some n /\
   (exists ok rest,
      issued w after.2 =
        (send_message chat_id (WarningNotice n user_id reason), ok) :: rest) /\
   Forall (fun c => is_ban c.1 = false) (issued w after.2)).
Proof.
  cbn zeta. intros Hpriv Hsane.
  rewrite (handle_spam_violation_unfold _ _ _ _ _ Hpriv).
  set (T := BotConfig.SPAM_SCORE_THRESHOLD (config E)) in *.
  set (B := BotConfig.AUTO_BAN_SPAM_SCORE (config E)) in *.
  set (user_id := User.id (Update.effective_user update)).
  set (chat_id := Chat.id (Update.effective_chat update)).
  split; [|split].
  - intros HB. destruct (Z.leb_spec B spam_score); [|lia].
    destruct (delete_tail E update
                (ModerationSystem._ban_user E update user_id reason) self w)
      as (Hself & tail & Hcalls & Htail).
    destruct (ban_user_run E update user_id reason self w)
      as (Hban & rest & Hbc & Hrest).
    fold chat_id in Hself, Hcalls, Hbc |- *.
    rewrite Hself, Hban. split; [reflexivity|].
    assert (Hiss : issued w
      ((ModerationSystem._ban_user E update user_id reason;;
        match Update.message update with
        | Some m =>
            in_world (transport E
              (delete_message chat_id (Message.message_id m)));; mret tt
        | None => mret tt
        end) (self, w)).2.2
      = (ban_chat_member chat_id user_id,
         transport_ok E (length (calls w))) :: (rest ++ tail)%list).
    { apply issued_app. rewrite Hcalls, Hbc. rewrite <- app_assoc.
      reflexivity. }
    rewrite Hiss. split; [eauto|].
    constructor; [split; reflexivity|].
    apply Forall_app. split; [exact Hrest|].
    eapply Forall_impl; [exact Htail|]. cbn. tauto.
  - intros [HT HB]. destruct (Z.leb_spec B spam_score); [lia|].
    destruct (Z.leb_spec (T + 2) spam_score); [|lia].
    destruct (delete_tail E update
                (ModerationSystem._mute_user E update user_id 30 reason) self w)
      as (Hself & tail & Hcalls & Htail).
    destruct (mute_user_run E update user_id 30 reason self w)
      as (Hwc & (rest & Hmc & Hrest) & Hmuted).
    fold chat_id in Hself, Hcalls, Hmc, Hmuted |- *.
    rewrite Hself.
    assert (Hiss : issued w
      ((ModerationSystem._mute_user E update user_id 30 reason;;
        match Update.message update with
        | Some m =>
            in_world (transport E
              (delete_message chat_id (Message.message_id m)));; mret tt
        | None => mret tt
        end) (self, w)).2.2
      = (restrict_chat_member chat_id user_id false
           (Some (clock E (reads w) + Py.minutes 30)),
         transport_ok E (length (calls w))) :: (rest ++ tail)%list).
    { apply issued_app. rewrite Hcalls, Hmc. rewrite <- app_assoc.
      reflexivity. }
    rewrite Hiss. split; [eauto|]. split.
    + intros Hok. rewrite Hok in Hmuted. rewrite Hmuted.
      apply lookup_insert_eq.
    + split; [exact Hwc|].
      constructor; [reflexivity|].
      apply Forall_app. split.
      * eapply Forall_impl; [exact Hrest|]. cbn. tauto.
      * eapply Forall_impl; [exact Htail|]. cbn. tauto.
  - intros [HT HB]. destruct (Z.leb_spec B spam_score); [lia|].
    destruct (Z.leb_spec (T + 2) spam_score); [lia|].
    destruct (Z.leb_spec T spam_score); [|lia].
    destruct (delete_tail E update
                (ModerationSystem._warn_user E update user_id reason) self w)
      as (Hself & tail & Hcalls & Htail).
    destruct (warn_user_outcome E update user_id reason self w)
      as (Hwc & (rest & Hmc & Hrest) & _).
    fold chat_id in Hself, Hcalls, Hmc, Hwc |- *.
    rewrite Hself, Hwc. split; [apply lookup_insert_eq|].
    assert (Hiss : issued w
      ((ModerationSystem._warn_user E update user_id reason;;
        match Update.message update with
        | Some m =>
            in_world (transport E
              (delete_message chat_id (Message.message_id m)));; mret tt
        | None => mret tt
        end) (self, w)).2.2
      = (send_message chat_id
           (WarningNotice
              (default 0 (ModerationSystem.warning_counts self
                            !! (chat_id, user_id)) + 1) user_id reason),
         transport_ok E (length (calls w))) :: (rest ++ tail)%list).
    { apply issued_app. rewrite Hcalls, Hmc. rewrite <- app_assoc.
      reflexivity. }
    rewrite Hiss. split; [eauto|].
    constructor; [reflexivity|].
    apply Forall_app. split; [exact Hrest|].
    eapply Forall_impl; [exact Htail|]. cbn. tauto.
Qed.

Lemma unmute_all_warning_counts E l self w :
  ModerationSystem.warning_counts (ModerationSystem.unmute_all E l (self, w)).2.1
  = ModerationSystem.warning_counts self.
Proof.
  revert self w. induction l as [|[c u] l IH]; intros self w; [reflexivity|].
  cbn [ModerationSystem.unmute_all]. run.
  destruct (transport_ok E (length (calls w))); cbn; rewrite IH; reflexivity.
Qed.

Lemma warning_counts_kept E (m : ModerationSystem.method) key count self w :
  ModerationSystem.warning_counts self !! key = Some count ->
  m <> ModerationSystem.ClearUserWarnings key.1 key.2 ->
  exists count',
    ModerationSystem.warning_counts (ModerationSystem.invoke E m (self, w)).2.1
      !! key = Some count' /\ count <= count'.
Proof.
  intros Hc Hm.
  assert (Hwarn : forall update user_id reason,
    exists count',
      ModerationSystem.warning_counts
        (ModerationSystem._warn_user E update user_id reason (self, w)).2.1
        !! key = Some count' /\ count <= count').
  { intros update user_id reason.
    destruct (warn_user_outcome E update user_id reason self w) as (Hwc & _).
    rewrite Hwc.
    destruct (decide ((Chat.id (Update.effective_chat update), user_id) = key))
      as [<-|Hne].
    - rewrite lookup_insert_eq, Hc. cbn. eexists. split; [reflexivity|lia].
    - rewrite lookup_insert_ne by exact Hne. exists count. split; [exact Hc|lia]. }
  assert (Hmute : forall update user_id minutes reason,
    ModerationSystem.warning_counts
      (ModerationSystem._mute_user E update user_id minutes reason (self, w)).2.1
    = ModerationSystem.warning_counts self).
  { intros. apply (mute_user_run E update user_id minutes reason self w). }
  assert (Hban : forall update user_id reason,
    ModerationSystem.warning_counts
      (ModerationSystem._ban_user E update user_id reason (self, w)).2.1
    = ModerationSystem.warning_counts self).
  { intros update user_id reason.
    destruct (ban_user_run E update user_id reason self w) as [-> _].
    reflexivity. }
  assert (Hsame : forall self',
    ModerationSystem.warning_counts self' = ModerationSystem.warning_counts self ->
    exists count',
      ModerationSystem.warning_counts self' !! key = Some count' /\
      count <= count').
  { intros self' ->. exists count. split; [exact Hc|lia]. }
  destruct m as [update score reason|update u reason|update u mins reason
                |update u reason|update u|update u|c u|c u|c u|c u|];
    cbn [ModerationSystem.invoke].
  - unfold ModerationSystem.handle_spam_violation.
    destruct (String.eqb _ "private"); [apply Hsame; reflexivity|].
    match goal with
    | |- context [(?a;; ?d) (self, w)] =>
        destruct (delete_tail E update a self w) as [Hself _]
    end.
    rewrite Hself.
    destruct (_ <=? score); [apply Hsame, Hban|].
    destruct (_ <=? score); [apply Hsame, Hmute|].
    destruct (_ <=? score); [apply Hwarn|].
    apply Hsame. reflexivity.
  - apply Hwarn.
  - apply Hsame, Hmute.
  - apply Hsame, Hban.
  - apply Hsame. unfold ModerationSystem.unmute_user. run.
    destruct (transport_ok E _); reflexivity.
  - apply Hsame. reflexivity.
  - unfold ModerationSystem.clear_user_warnings. run.
    destruct (decide ((c, u) = key)) as [<-|Hne].
    + cbn in Hm. congruence.
    + rewrite lookup_delete_ne by exact Hne. exists count.
      split; [exact Hc|lia].
  - apply Hsame. reflexivity.
  - apply Hsame. unfold ModerationSystem.is_user_muted. run.
    destruct (ModerationSystem.muted_users self !! (c, u)) as [t|]; cbn;
      [|reflexivity].
    destruct (t <=? _); reflexivity.
  - apply Hsame. unfold ModerationSystem.get_mute_remaining. run.
    destruct (ModerationSystem.muted_users self !! (c, u)); reflexivity.
  - apply Hsame. unfold ModerationSystem.cleanup_expired_restrictions. run.
    apply unmute_all_warning_counts.
Qed.

(** A warning adds one to the counter of the (chat, user) pair, whatever
    else happens; once the notice is out and the counter has reached 3 the
    next call requests a mute until 60 minutes from now, recorded when the
    request goes through, and the counter keeps its new value; below 3
    nothing is muted; [clear_user_warnings] removes the counter, and no
    other method removes or lowers it. *)
Theorem warning_escalation (E : Env) (update : Update.t) (user_id : Z)
  (reason : string) (self : ModerationSystem.t) (w : World) :
  let chat_id := Chat.id (Update.effective_chat update) in
  let key := (chat_id, user_id) in
  let n := default 0 (ModerationSystem.warning_counts self !! key) + 1 in
  let ok := transport_ok E (length (calls w)) in
  let notice := (send_message chat_id (WarningNotice n user_id reason), ok) in
  let after :=
    (ModerationSystem._warn_user E update user_id reason (self, w)).2 in
  ModerationSystem.warning_counts after.1 !! key = Some n /\
  (ok = true -> 3 <= n ->
   let ok' := transport_ok E (S (length (calls w))) in
   (exists rest,
      issued w after.2 =
        notice ::
        (restrict_chat_member chat_id user_id false
           (Some (clock E (reads w) + Py.minutes 60)), ok') :: rest) /\
   (ok' = true ->
    ModerationSystem.muted_users after.1 !! key =
      Some (clock E (S (reads w)) + Py.minutes 60))) /\
  (n < 3 ->
   ModerationSystem.muted_users after.1 = ModerationSystem.muted_users self /\
   issued w after.2 = [notice]) /\
  ModerationSystem.warning_counts
    (ModerationSystem.clear_user_warnings chat_id user_id after).2.1 !! key
    = None /\
  (forall (m : ModerationSystem.method) count self0 w0,
     ModerationSystem.warning_counts self0 !! key = Some count ->
     m <> ModerationSystem.ClearUserWarnings chat_id user_id ->
     exists count',
       ModerationSystem.warning_counts
         (ModerationSystem.invoke E m (self0, w0)).2.1 !! key = Some count' /\
       count <= count').
Proof.
  cbn zeta.
  destruct (warn_user_outcome E update user_id reason self w)
    as (Hwc & _ & Hmute & Hnone).
  split; [rewrite Hwc; apply lookup_insert_eq|].
  split; [exact Hmute|]. split; [exact Hnone|]. split.
  - unfold ModerationSystem.clear_user_warnings. run. apply lookup_delete_eq.
  - intros m count self0 w0 Hc Hm.
    apply (warning_counts_kept E m _ count self0 w0 Hc Hm).
Qed.

Lemma spam_violation_action_witness :
  Chat.type (Update.effective_chat group_update) <> "private" /\
  BotConfig.SPAM_SCORE_THRESHOLD (config sample_env) + 2
    <= BotConfig.AUTO_BAN_SPAM_SCORE (config sample_env) /\
  BotConfig.AUTO_BAN_SPAM_SCORE (config sample_env) <= 12 /\
  (ModerationSystem.handle_spam_violation sample_env group_update 12 "flood"
     (twice_warned, world0)).2.1 = twice_warned.
Proof.
  assert (H1 : Chat.type (Update.effective_chat group_update) <> "private")
    by discriminate.
  assert (H2 : BotConfig.SPAM_SCORE_THRESHOLD (config sample_env) + 2
               <= BotConfig.AUTO_BAN_SPAM_SCORE (config sample_env))
    by (vm_compute; discriminate).
  assert (H3 : BotConfig.AUTO_BAN_SPAM_SCORE (config sample_env) <= 12)
    by (vm_compute; discriminate).
  split; [exact H1|]. split; [exact H2|]. split; [exact H3|].
  exact (proj1 (proj1 (spam_violation_action sample_env group_update 12
                         "flood" twice_warned world0 H1 H2) H3)).
Defined.

Lemma warning_escalation_witness :
  transport_ok sample_env (length (calls world0)) = true /\
  3 <= default 0 (ModerationSystem.warning_counts twice_warned !! (-100, 7)) + 1 /\
  transport_ok sample_env (S (length (calls world0))) = true /\
  let after :=
    (ModerationSystem._warn_user sample_env group_update 7 "flood"
       (twice_warned, world0)).2 in
  ModerationSystem.warning_counts after.1 !! (-100, 7) = Some 3 /\
  ModerationSystem.muted_users after.1 !! (-100, 7)
    = Some (clock sample_env 1 + Py.minutes 60).
Proof.
  assert (H1 : transport_ok sample_env (length (calls world0)) = true)
    by reflexivity.
  assert (H2 : 3 <= default 0 (ModerationSystem.warning_counts twice_warned
                                 !! (-100, 7)) + 1)
    by (vm_compute; discriminate).
  assert (H3 : transport_ok sample_env (S (length (calls world0))) = true)
    by reflexivity.
  split; [exact H1|]. split; [exact H2|]. split; [exact H3|].
  cbn zeta. split.
  - exact (proj1 (warning_escalation sample_env group_update 7 "flood"
                    twice_warned world0)).
  - exact (proj2 (proj1 (proj2 (warning_escalation sample_env group_update 7
                                  "flood" twice_warned world0)) H1 H2) H3).
Defined.

(** C6.  A warning whose notice cannot be sent still adds one to the
    counter of the (chat, user) pair, and no mute follows, whatever the
    counter has reached: the failed notice is the only call made to the
    transport, no restriction is requested and the table of muted users is
    as it was.  So the third warning of a pair, which the notice says
    brings a mute, can leave the pair with three warnings and no mute. *)
Theorem unsent_warning_skips_mute (E : Env) (update : Update.t)
  (user_id : Z) (reason : string) (self : ModerationSystem.t) (w : World) :
  let chat_id := Chat.id (Update.effective_chat update) in
  let key := (chat_id, user_id) in
  let n := default 0 (ModerationSystem.warning_counts self !! key) + 1 in
  let after :=
    (ModerationSystem._warn_user E update user_id reason (self, w)).2 in
  transport_ok E (length (calls w)) = false ->
  ModerationSystem.warning_counts after.1 !! key = Some n /\
  issued w after.2
    = [(send_message chat_id (WarningNotice n user_id reason), false)] /\
  Forall (fun c => is_mute c.1 = false) (issued w after.2) /\
  ModerationSystem.muted_users after.1 = ModerationSystem.muted_users self.
Proof.
  cbn zeta. intros Hok. rewrite warn_user_run. cbn zeta. rewrite Hok.
  cbn [andb fst snd ModerationSystem.warning_counts
       ModerationSystem.muted_users ModerationSystem.set_warning_counts].
  assert (Hissued :
    issued w
      {| reads := reads w; draws := draws w;
         calls :=
           (calls w
            ++ [(send_message (Chat.id (Update.effective_chat update))
                   (WarningNotice
                      (default 0
                         (ModerationSystem.warning_counts self
                            !! (Chat.id (Update.effective_chat update),
                                user_id)) + 1)
                      user_id reason), false)])%list |}
    = [(send_message (Chat.id (Update.effective_chat update))
          (WarningNotice
             (default 0
                (ModerationSystem.warning_counts self
                   !! (Chat.id (Update.effective_chat update), user_id)) + 1)
             user_id reason), false)])
    by (apply issued_app; reflexivity).
  split; [apply lookup_insert_eq|]. split; [exact Hissued|].
  split; [|reflexivity].
  rewrite Hissued. constructor; [reflexivity|constructor].
Qed.

Lemma unsent_warning_skips_mute_witness :
  transport_ok deaf_env (length (calls world0)) = false /\
  ModerationSystem.warning_counts
    (ModerationSystem._warn_user deaf_env group_update 7 "flood"
       (twice_warned, world0)).2.1 !! (-100, 7) = Some 3 /\
  issued world0
    (ModerationSystem._warn_user deaf_env group_update 7 "flood"
       (twice_warned, world0)).2.2
    = [(send_message (-100) (WarningNotice 3 7 "flood"), false)] /\
  ModerationSystem.muted_users
    (ModerationSystem._warn_user deaf_env group_update 7 "flood"
       (twice_warned, world0)).2.1 = ∅.
Proof.
  assert (H : transport_ok deaf_env (length (calls world0)) = false)
    by reflexivity.
  pose proof (unsent_warning_skips_mute deaf_env group_update 7 "flood"
                twice_warned world0 H) as (Hcount & Hissued & _ & Hmuted).
  split; [exact H|]. split; [exact Hcount|]. split; [exact Hissued|].
  exact Hmuted.
Defined.

(** ** Account trust *)

Lemma ratio_gt_cross (a b p : Z) (q : positive) :
  0 < b ->
  Py.ratio_gt a b (p # q) = true <-> p * b < a * Z.pos q.
Proof.
  intros Hb. unfold Py.ratio_gt.
  destruct b as [|pb|pb]; try lia.
  rewrite negb_true_iff.
  destruct (Qle_bool (inject_Z a / inject_Z (Z.pos pb)) (p # q)) eqn:Hle.
  - apply Qle_bool_iff in Hle. unfold Qle in Hle. cbn in Hle.
    split; [discriminate|]. intros. lia.
  - split; [intros _|reflexivity].
    destruct (Z.lt_ge_cases (p * Z.pos pb) (a * Z.pos q)) as [?|Hge]; [assumption|].
    exfalso. assert (Qle_bool (inject_Z a / inject_Z (Z.pos pb)) (p # q) = true).
    { apply Qle_bool_iff. unfold Qle. cbn. lia. }
    congruence.
Qed.

Lemma existsb_elem_of {A} (f : A -> bool) (l : list A) :
  existsb f l = true <-> exists x, x ∈ l /\ f x = true.
Proof.
  rewrite existsb_exists. split; intros (x & Hx & Hf); exists x;
    (split; [apply list_elem_of_In; exact Hx | exact Hf]).
Qed.

Lemma chars_from_nonempty (s cur : string) :
  cur <> "" -> Str.chars_from cur s <> [].
Proof.
  revert cur. induction s as [|b s IH]; intros cur Hcur; cbn [Str.chars_from].
  - destruct (String.eqb_spec cur ""); [contradiction|discriminate].
  - destruct (Str.continues b).
    + apply IH. destruct cur; discriminate.
    + destruct (String.eqb_spec cur ""); [contradiction|discriminate].
Qed.

Lemma len_positive (s : string) : s <> "" -> 0 < Str.len s.
Proof.
  intros Hs. unfold Str.len, Str.chars, Py.len_list.
  destruct s as [|b s]; [contradiction|]. cbn [Str.chars_from].
  assert (H : Str.chars_from (String b "") s <> [])
    by (apply chars_from_nonempty; discriminate).
  change ("" ++ String b "") with (String b "").
  destruct (Str.continues b); cbn [String.eqb app].
  - destruct (Str.chars_from (String b "") s); [contradiction|].
    cbn [length]. lia.
  - destruct (Str.chars_from (String b "") s); [contradiction|].
    cbn [length]. lia.
Qed.

Lemma ratio_gt_bool (a b p : Z) (q : positive) :
  0 < b -> Py.ratio_gt a b (p # q) = (p * b <? a * Z.pos q).
Proof.
  intros Hb. destruct (Z.ltb_spec (p * b) (a * Z.pos q)) as [Hlt|Hge].
  - apply ratio_gt_cross; assumption.
  - destruct (Py.ratio_gt a b (p # q)) eqn:Hr; [|reflexivity].
    apply ratio_gt_cross in Hr; [lia|assumption].
Qed.

Lemma is_suspicious_username_eq (E : Env) (username : string) :
  SecuritySystem._is_suspicious_username E username
  = existsb (fun token => Py.contains token (Str.lower E username))
      ["bot"; "spam"; "fake"; "test"; "promo"; "ad"; "marketing"]
    || (Str.len username <? 2 * Str.count (Str.isdigit E) username).
Proof.
  unfold SecuritySystem._is_suspicious_username.
  change SecuritySystem.suspicious_patterns
    with ["bot"; "spam"; "fake"; "test"; "promo"; "ad"; "marketing"].
  destruct (existsb _ _); [reflexivity|]. cbn [orb].
  destruct (Z.ltb_spec 0 (Str.len username)) as [Hlen|Hlen]; cbn [andb].
  - rewrite (ratio_gt_bool _ _ 5 10 Hlen).
    destruct (Z.ltb_spec (5 * Str.len username)
                (Str.count (Str.isdigit E) username * 10)),
             (Z.ltb_spec (Str.len username)
                (2 * Str.count (Str.isdigit E) username));
      (reflexivity || lia).
  - assert (Hnil : Str.chars username = []).
    { unfold Str.len, Py.len_list in Hlen.
      destruct (Str.chars username); [reflexivity|cbn [length] in Hlen; lia]. }
    unfold Str.len, Str.count. rewrite Hnil. reflexivity.
Qed.

Lemma is_suspicious_name_eq (E : Env) (name : string) :
  SecuritySystem._is_suspicious_name E name
  = String.eqb name ""
    || (3 * Str.len name
        <? 10 * Str.count (fun c => negb (Str.isalnum E c)
                                    && negb (Str.isspace E c)) name)
    || existsb (fun word => Py.contains word (Str.lower E name))
         ["free"; "win"; "prize"; "money"; "bitcoin"; "crypto"].
Proof.
  unfold SecuritySystem._is_suspicious_name.
  change SecuritySystem.promo_words
    with ["free"; "win"; "prize"; "money"; "bitcoin"; "crypto"].
  destruct (String.eqb_spec name "") as [Hempty|Hname]; [reflexivity|].
  cbn [orb].
  assert (Hlen : 0 < Str.len name) by (apply len_positive; exact Hname).
  destruct (Z.ltb_spec 0 (Str.len name)) as [_|?]; [|lia]. cbn [andb].
  rewrite (ratio_gt_bool _ _ 3 10 Hlen).
  set (specials := Str.count _ name).
  destruct (Z.ltb_spec (3 * Str.len name) (specials * 10)),
           (Z.ltb_spec (3 * Str.len name) (10 * specials));
    (reflexivity || lia).
Qed.

(** C8.  With the configuration the program loads, an account is verified
    exactly when the sum of the weights of the heuristics that fire is
    below 3: 1 when the username is missing or empty; 2 when the id is
    above 5000000000; 2 when the username, lower-cased, contains one of
    bot, spam, fake, test, promo, ad, marketing, or more than half of its
    characters are digits; 1 when the first name is empty, or more than
    three tenths of its characters are neither alphanumeric nor white
    space, or, lower-cased, it contains one of free, win, prize, money,
    bitcoin, crypto.  A failed verification adds the id to the suspicious
    set and a passed one changes nothing.  The username check of the
    program is the one above; it flags bot12345 and not alice_wong. *)
Theorem account_verification (E : Env) (environ : BotConfig.environ)
  (user : User.t) (self : SecuritySystem.t) :
  config E = BotConfig.load_from_env environ ->
  let one_of (tokens : list string) (s : string) : bool :=
    existsb (fun token => Py.contains token (Str.lower E s)) tokens in
  let digits (s : string) : Z := Str.count (Str.isdigit E) s in
  let specials (s : string) : Z :=
    Str.count (fun c => negb (Str.isalnum E c) && negb (Str.isspace E c)) s in
  let suspicious_username (username : string) : bool :=
    one_of ["bot"; "spam"; "fake"; "test"; "promo"; "ad"; "marketing"]
      username
    || (Str.len username <? 2 * digits username) in
  let suspicious_name (name : string) : bool :=
    String.eqb name ""
    || (3 * Str.len name <? 10 * specials name)
    || one_of ["free"; "win"; "prize"; "money"; "bitcoin"; "crypto"] name in
  let score :=
    (match User.username user with
     | None => 1
     | Some username => if String.eqb username "" then 1 else 0
     end)
    + (if 5000000000 <? User.id user then 2 else 0)
    + (match User.username user with
       | None => 0
       | Some username =>
           if negb (String.eqb username "") && suspicious_username username
           then 2 else 0
       end)
    + (if suspicious_name (User.first_name user) then 1 else 0) in
  let r := SecuritySystem.verify_user_account E user self in
  (r.1.1 = true <-> score < 3) /\
  (r.1.1 = false ->
   User.id user ∈ SecuritySystem.suspicious_users r.2 /\
   SecuritySystem.suspicious_users r.2
     = {[User.id user]} ∪ SecuritySystem.suspicious_users self) /\
  (r.1.1 = true -> r.2 = self) /\
  (forall username,
     SecuritySystem._is_suspicious_username E username
     = suspicious_username username) /\
  SecuritySystem._is_suspicious_username E "bot12345" = true /\
  SecuritySystem._is_suspicious_username E "alice_wong" = false.
Proof.
  intros Hcfg. cbn zeta.
  unfold SecuritySystem.verify_user_account. rewrite Hcfg. cbn [negb
    BotConfig.ENABLE_USER_VERIFICATION BotConfig.load_from_env
    BotConfig.defaults].
  rewrite <- is_suspicious_name_eq.
  set (c2 := 5000000000 <? User.id user).
  set (c4 := SecuritySystem._is_suspicious_name E (User.first_name user)).
  unfold SecuritySystem.no_username.
  split; [|split; [|split; [|split; [|split]]]].
  - destruct (User.username user) as [username|];
      cbn [default from_option id negb andb].
    + rewrite <- is_suspicious_username_eq.
      destruct (String.eqb username ""); cbn [negb andb];
        [|destruct (SecuritySystem._is_suspicious_username E username)];
        destruct c2, c4; cbn; split; (lia || discriminate || reflexivity).
    + destruct c2, c4; cbn; split; (lia || discriminate || reflexivity).
  - destruct (User.username user) as [username|];
      cbn [default from_option id negb andb];
      [destruct (String.eqb username ""); cbn [negb andb];
       [|destruct (SecuritySystem._is_suspicious_username E username)]|];
      destruct c2, c4; cbn; try discriminate; intros _;
      (split; [apply elem_of_union_l, elem_of_singleton; reflexivity
              | reflexivity]).
  - destruct (User.username user) as [username|];
      cbn [default from_option id negb andb];
      [destruct (String.eqb username ""); cbn [negb andb];
       [|destruct (SecuritySystem._is_suspicious_username E username)]|];
      destruct c2, c4; cbn; try discriminate; reflexivity.
  - apply is_suspicious_username_eq.
  - rewrite is_suspicious_username_eq. reflexivity.
  - rewrite is_suspicious_username_eq. reflexivity.
Qed.

Lemma account_verification_witness :
  config sample_env = BotConfig.load_from_env sample_environ /\
  ((SecuritySystem.verify_user_account sample_env nameless_newcomer
      SecuritySystem.__init__).1.1 = true <-> 1 + 2 + 0 + 0 < 3) /\
  ((SecuritySystem.verify_user_account sample_env loud_name
      SecuritySystem.__init__).1.1 = true <-> 0 + 0 + 2 + 1 < 3) /\
  ((SecuritySystem.verify_user_account sample_env accented_name
      SecuritySystem.__init__).1.1 = true <-> 0 + 0 + 2 + 0 < 3) /\
  ((SecuritySystem.verify_user_account sample_env shady_user
      SecuritySystem.__init__).1.1 = true <-> 0 + 2 + 2 + 1 < 3) /\
  (SecuritySystem.verify_user_account sample_env shady_user
     SecuritySystem.__init__).1.1 = false /\
  6000000000 ∈ SecuritySystem.suspicious_users
    (SecuritySystem.verify_user_account sample_env shady_user
       SecuritySystem.__init__).2.
Proof.
  assert (H : config sample_env = BotConfig.load_from_env sample_environ)
    by reflexivity.
  assert (Hf : (SecuritySystem.verify_user_account sample_env shady_user
                  SecuritySystem.__init__).1.1 = false)
    by (vm_compute; reflexivity).
  split; [exact H|].
  split; [exact (proj1 (account_verification sample_env sample_environ
                          nameless_newcomer SecuritySystem.__init__ H))|].
  split; [exact (proj1 (account_verification sample_env sample_environ
                          loud_name SecuritySystem.__init__ H))|].
  split; [exact (proj1 (account_verification sample_env sample_environ
                          accented_name SecuritySystem.__init__ H))|].
  split; [exact (proj1 (account_verification sample_env sample_environ
                          shady_user SecuritySystem.__init__ H))|].
  split; [exact Hf|].
  exact (proj1 (proj1 (proj2 (account_verification sample_env sample_environ
                                shady_user SecuritySystem.__init__ H)) Hf)).
Defined.

(** ** Spam scorer *)

Section Duplicates.
Context (E : Env) (user_id : Z) (message : string).
Let message_hash := md5_hexdigest E message.
Let limit := BotConfig.MAX_IDENTICAL_MESSAGES (config E).

Lemma check_duplicate_message_run self w :
  let now := clock E (reads w) in
  let bucket := default [] (AntiSpam.message_hashes self !! message_hash) in
  let count := Py.len_list (own user_id (kept now bucket)) in
  AntiSpam._check_duplicate_message E user_id message (self, w) =
  (if limit <=? count then count - limit + 1 else 0,
   (AntiSpam.set_message_hashes
      (<[message_hash := (kept now bucket ++ [(user_id, now)])%list]>
         (AntiSpam.message_hashes self)) self,
    tick w)).
Proof.
  cbn zeta. unfold AntiSpam._check_duplicate_message. run.
  fold message_hash. fold limit.
  set (now := clock E (reads w)).
  unfold Py.len_list, own, kept.
  destruct (AntiSpam.message_hashes self !! message_hash) as [bucket|] eqn:Hb;
    cbn.
  - rewrite Hb. cbn. rewrite !lookup_insert_eq. cbn.
    rewrite !insert_insert_eq. rewrite length_fmap.
    destruct (limit <=? _); reflexivity.
  - rewrite !lookup_insert_eq. cbn.
    rewrite !insert_insert_eq.
    destruct (limit <=? _); reflexivity.
Qed.
End Duplicates.

Section Repeats.
Context (E : Env) (user_id : Z) (message : string).
Let message_hash := md5_hexdigest E message.
Let limit := BotConfig.MAX_IDENTICAL_MESSAGES (config E).

Lemma own_app l1 l2 :
  own user_id (l1 ++ l2) = (own user_id l1 ++ own user_id l2)%list.
Proof. apply List.filter_app. Qed.

Lemma own_kept_all now l :
  Forall (fun e => now - Py.hours 1 < e.2) (own user_id l) ->
  own user_id (kept now l) = own user_id l.
Proof.
  unfold own, kept. induction l as [|e l IH]; [reflexivity|].
  cbn. destruct (e.1 =? user_id) eqn:He; cbn.
  - intros H. inversion H as [|? ? Ht Hl]; subst.
    apply Z.ltb_lt in Ht. rewrite Ht. cbn. rewrite He. f_equal. auto.
  - intros H. destruct (_ <? e.2); cbn; [rewrite He|]; auto.
Qed.

Lemma send_same_run (n : nat) self w :
  own user_id (default [] (AntiSpam.message_hashes self !! message_hash)) = [] ->
  (forall i j : nat, (i < j < n)%nat ->
     clock E (reads w + j) - Py.hours 1 < clock E (reads w + i)) ->
  let r := AntiSpam.send_same E n user_id message (self, w) in
  r.1 = (fun k : nat => penalty E (Z.of_nat k)) <$> seq 0 n /\
  reads r.2.2 = (reads w + n)%nat /\
  own user_id (default [] (AntiSpam.message_hashes r.2.1 !! message_hash))
  = (fun k : nat => (user_id, clock E (reads w + k))) <$> seq 0 n.
Proof.
  intros Hnone. induction n as [|k IH]; intros Hwin.
  - cbn. rewrite Hnone. repeat split. lia.
  - cbn [AntiSpam.send_same]. unfold mbind, M_bind.
    destruct IH as (Hres & Hreads & Hown).
    { intros i j Hij. apply Hwin. lia. }
    destruct (AntiSpam.send_same E k user_id message (self, w))
      as [penalties [self1 w1]] eqn:Hk.
    cbn in Hres, Hreads, Hown.
    rewrite check_duplicate_message_run. cbn zeta.
    fold message_hash. fold limit. unfold mret, M_ret. cbn [fst snd].
    rewrite own_kept_all.
    2:{ rewrite Hown. apply Forall_fmap, Forall_forall.
        intros i Hi. apply elem_of_seq in Hi. cbn.
        rewrite Hreads. apply Hwin. lia. }
    rewrite Hown. unfold Py.len_list. rewrite length_fmap, length_seq.
    rewrite seq_S, !fmap_app. cbn [fmap list_fmap plus].
    split; [|split].
    + rewrite Hres. reflexivity.
    + cbn. lia.
    + cbn. rewrite lookup_insert_eq. cbn.
      change (List.filter (fun e : Z * Z => e.1 =? user_id)) with (own user_id).
      rewrite own_app, own_kept_all.
      2:{ rewrite Hown. apply Forall_fmap, Forall_forall.
          intros i Hi. apply elem_of_seq in Hi. cbn.
          rewrite Hreads. apply Hwin. lia. }
      rewrite Hown, Hreads. unfold own. cbn. rewrite Z.eqb_refl. reflexivity.
Qed.
End Repeats.

(** C2.  The duplicate check drops from the bucket of the text the entries
    that are an hour old or older, counts the entries of the user among
    those left, appends (user, now) after the count, touches no other
    bucket, and returns count - limit + 1 when the count has reached the
    limit and 0 otherwise; five calls in a row within an hour, with a limit
    of 3 and no earlier entry of the user, return 0, 0, 0, 1, 2. *)
Theorem duplicate_message_penalty (E : Env) (user_id : Z) (message : string)
  (self : AntiSpam.t) (w : World) :
  let message_hash := md5_hexdigest E message in
  let limit := BotConfig.MAX_IDENTICAL_MESSAGES (config E) in
  let now := clock E (reads w) in
  let bucket := default [] (AntiSpam.message_hashes self !! message_hash) in
  let pruned := List.filter (fun e => now - Py.hours 1 <? e.2) bucket in
  let count :=
    Py.len_list (List.filter (fun e => e.1 =? user_id) pruned) in
  let r := AntiSpam._check_duplicate_message E user_id message (self, w) in
  r.1 = (if limit <=? count then count - limit + 1 else 0) /\
  AntiSpam.message_hashes r.2.1 !! message_hash
    = Some (pruned ++ [(user_id, now)])%list /\
  (forall e, e ∈ pruned <-> e ∈ bucket /\ now - Py.hours 1 < e.2) /\
  (forall h, h <> message_hash ->
     AntiSpam.message_hashes r.2.1 !! h = AntiSpam.message_hashes self !! h) /\
  (limit = 3 ->
   List.filter (fun e => e.1 =? user_id) bucket = [] ->
   (forall i j : nat, (i < j < 5)%nat ->
      clock E (reads w + j) - Py.hours 1 < clock E (reads w + i)) ->
   (AntiSpam.send_same E 5 user_id message (self, w)).1 = [0; 0; 0; 1; 2]).
Proof.
  cbn zeta. rewrite check_duplicate_message_run. cbn zeta. cbn [fst snd].
  split; [reflexivity|]. split; [|split; [|split]].
  - cbn. apply lookup_insert_eq.
  - intros e. unfold kept. rewrite !list_elem_of_In, filter_In.
    rewrite Z.ltb_lt. reflexivity.
  - intros h Hne. cbn. apply lookup_insert_ne. congruence.
  - intros Hlimit Hown Hwin.
    destruct (send_same_run E user_id message 5 self w Hown Hwin) as [Hres _].
    rewrite Hres. cbn. unfold penalty. rewrite Hlimit. reflexivity.
Qed.

Lemma duplicate_message_penalty_witness :
  BotConfig.MAX_IDENTICAL_MESSAGES (config sample_env) = 3 /\
  (AntiSpam.send_same sample_env 5 7 "buy now" (AntiSpam.__init__, world0)).1
  = [0; 0; 0; 1; 2].
Proof.
  split; [reflexivity|].
  apply (proj2 (proj2 (proj2 (proj2
           (duplicate_message_penalty sample_env 7 "buy now"
              AntiSpam.__init__ world0))))).
  - reflexivity.
  - reflexivity.
  - intros i j Hij. cbn. unfold Py.hours, Py.minutes, Py.seconds. lia.
Defined.

Lemma check_rapid_messaging_run E user_id self w :
  let now := clock E (reads w) in
  let intervals :=
    Py.last_n 10
      (default [] (AntiSpam.user_message_intervals self !! user_id) ++ [now])
  in
  AntiSpam._check_rapid_messaging E user_id (self, w) =
  (5 <=? Py.len_list (RateLimiter.newer_than (now - Py.seconds 30) intervals),
   (AntiSpam.set_user_message_intervals
      (<[user_id := intervals]> (AntiSpam.user_message_intervals self)) self,
    tick w)).
Proof.
  cbn zeta. unfold AntiSpam._check_rapid_messaging. run.
  destruct (AntiSpam.user_message_intervals self !! user_id) as [l|] eqn:Hl;
    cbn.
  - rewrite Hl. cbn. rewrite !lookup_insert_eq. cbn.
    rewrite !insert_insert_eq. reflexivity.
  - rewrite !lookup_insert_eq. cbn.
    rewrite !insert_insert_eq. reflexivity.
Qed.



Lemma bump (c : bool) (k : Z) (tags : list string) (score : Z)
  (reasons : list string) :
  (if c then (score + k, (reasons ++ tags)%list) else (score, reasons)) =
  (score + (if c then k else 0), (reasons ++ if c then tags else [])%list).
Proof. destruct c; [reflexivity|]. rewrite Z.add_0_r, app_nil_r. reflexivity. Qed.

Lemma bump_list (l : list string) (score : Z) (reasons : list string) :
  match l with
  | [] => (score, reasons)
  | _ :: _ => (score + Py.len_list l * 2, (reasons ++ l)%list)
  end = (score + Py.len_list l * 2, (reasons ++ l)%list).
Proof.
  destruct l; [|reflexivity]. cbn. rewrite Z.add_0_r, app_nil_r. reflexivity.
Qed.


Lemma with_self_duplicate E user_id message self bot_data w :
  AntiSpam.with_self (AntiSpam._check_duplicate_message E user_id message)
    (self, bot_data, w) =
  let now := clock E (reads w) in
  let bucket :=
    default [] (AntiSpam.message_hashes self !! md5_hexdigest E message) in
  (penalty E (Py.len_list (own user_id (kept now bucket))),
   (AntiSpam.set_message_hashes
      (<[md5_hexdigest E message := (kept now bucket ++ [(user_id, now)])%list]>
         (AntiSpam.message_hashes self)) self,
    bot_data, tick w)).
Proof.
  unfold AntiSpam.with_self, zoom. cbn [fst snd].
  rewrite check_duplicate_message_run. reflexivity.
Qed.

Lemma with_self_rapid E user_id self bot_data w :
  AntiSpam.with_self (AntiSpam._check_rapid_messaging E user_id)
    (self, bot_data, w) =
  let now := clock E (reads w) in
  let intervals :=
    Py.last_n 10
      (default [] (AntiSpam.user_message_intervals self !! user_id) ++ [now])
  in
  (5 <=? Py.len_list (RateLimiter.newer_than (now - Py.seconds 30) intervals),
   (AntiSpam.set_user_message_intervals
      (<[user_id := intervals]> (AntiSpam.user_message_intervals self)) self,
    bot_data, tick w)).
Proof.
  unfold AntiSpam.with_self, zoom. cbn [fst snd].
  rewrite check_rapid_messaging_run. reflexivity.
Qed.




(** C10.  An update with no message, or whose message has no text or an
    empty one, is answered (false, empty reason, 0) and the scorer, the
    registry and the world are left exactly as they were. *)
Theorem check_spam_without_text (E : Env) (update : Update.t)
  (s : AntiSpam.t * BotData.t * World) :
  (Update.message update = None \/
   exists m, Update.message update = Some m /\
             (Message.text m = None \/ Message.text m = Some "")) ->
  AntiSpam.check_spam E update s = ((false, "", 0), s).
Proof.
  intros H. unfold AntiSpam.check_spam, AntiSpam.message_text.
  destruct H as [->|(m & -> & [->| ->])]; reflexivity.
Qed.

Lemma check_spam_without_text_witness :
  Update.message service_update = None /\
  AntiSpam.check_spam sample_env service_update
    (AntiSpam.__init__, fresh_data, world0)
  = ((false, "", 0),
     (AntiSpam.__init__, fresh_data, world0)).
Proof.
  split; [reflexivity|].
  apply (check_spam_without_text sample_env service_update). left. reflexivity.
Defined.

(** ** Persistent state *)

Lemma str_nonempty (k : Z) : Py.str k <> "".
Proof.
  unfold Py.str. destruct k as [|p|p]; cbn; try discriminate.
  unfold NilZero.string_of_uint.
  pose proof (Unsigned.to_uint_nonnil p) as Hp.
  destruct (Pos.to_uint p); try congruence; discriminate.
Qed.

Lemma decimal_int_str (k : Z) : decimal_int (Py.str k) = Some k.
Proof.
  unfold decimal_int, Py.str. rewrite NilZero.isi.
  - cbn. f_equal. apply DecimalZ.of_to.
  - destruct k as [|p|p]; cbn; try discriminate.
    intros [= H]. exact (Unsigned.to_uint_nonnil p H).
  - destruct k as [|p|p]; cbn; try discriminate.
    intros [= H]. exact (Unsigned.to_uint_nonnil p H).
Qed.

Lemma sample_codec : codec_laws sample_env.
Proof.
  repeat split.
  - apply decimal_int_str.
  - apply decimal_int_str.
  - apply str_nonempty.
Qed.

Section Snapshots.
Context (E : Env) (Hcodec : codec_laws E).

Lemma load_items_fold {V W} (f : V -> option W) (g : W -> V)
  (l : list (Z * W)) (acc : gmap Z W) :
  (forall v, f (g v) = Some v) ->
  BotData.load_items E f ((fun kv => (Py.str kv.1, g kv.2)) <$> l) acc
  = Some (foldl (fun a kv => <[kv.1 := kv.2]> a) acc l).
Proof.
  intros Hfg. revert acc. induction l as [|[k v] l IH]; intros acc.
  - reflexivity.
  - cbn. destruct Hcodec as [Hint _]. rewrite Hint. cbn.
    rewrite Hfg. cbn. apply IH.
Qed.

Lemma foldl_insert_rev {W} (l : list (Z * W)) :
  foldl (fun a kv => <[kv.1 := kv.2]> a) (∅ : gmap Z W) l
  = list_to_map (reverse l).
Proof.
  induction l as [|[k v] l IH] using rev_ind; [reflexivity|].
  rewrite foldl_app, reverse_snoc. cbn. rewrite IH. reflexivity.
Qed.

Lemma load_dump_items {V W} (f : V -> option W) (g : W -> V)
  (d : gmap Z W) :
  (forall v, f (g v) = Some v) ->
  BotData.load_items E f (BotData.dump_items g d) ∅ = Some d.
Proof.
  intros Hfg. unfold BotData.dump_items.
  rewrite (load_items_fold f g _ _ Hfg), foldl_insert_rev. f_equal.
  rewrite <- (list_to_map_to_list d) at 2.
  apply list_to_map_proper.
  - rewrite fmap_reverse, reverse_Permutation.
    apply NoDup_fst_map_to_list.
  - apply reverse_Permutation.
Qed.

Lemma optional_time_iso (t : option Z) :
  BotData.optional_time E (isoformat E <$> t) = Some t.
Proof.
  destruct Hcodec as (_ & Hiso & Hne).
  destruct t as [t|]; [|reflexivity]. cbn.
  specialize (Hne t). apply String.eqb_neq in Hne. rewrite Hne, Hiso.
  reflexivity.
Qed.

Lemma stats_of_to_dict (v : UserStats.t) :
  BotData.stats_of_dict E (BotData.stats_to_dict E v) = Some v.
Proof.
  destruct Hcodec as (_ & Hiso & Hne).
  unfold BotData.stats_of_dict, BotData.stats_to_dict. cbn.
  rewrite !Hiso. cbn. rewrite optional_time_iso. cbn.
  destruct v; reflexivity.
Qed.

Lemma mapM_iso (l : list Z) :
  mapM (fromisoformat E) (isoformat E <$> l) = Some l.
Proof.
  destruct Hcodec as (_ & Hiso & _).
  induction l as [|t l IH]; [reflexivity|].
  cbn. rewrite Hiso. cbn. rewrite IH. reflexivity.
Qed.

Lemma from_dict_to_dict (self : BotData.t) (w : World) :
  (BotData.from_dict E (BotData.to_dict E self) w).1
  = Some (BotData.persisted self).
Proof.
  unfold BotData.from_dict, BotData.__init__. run.
  unfold BotData.fill, BotData.to_dict. cbn.
  destruct Hcodec as (Hint & Hiso & Hne).
  rewrite (load_dump_items _ _ _ Hiso). cbn.
  rewrite (load_dump_items Some id) by reflexivity. cbn.
  rewrite (load_dump_items _ _ _ stats_of_to_dict). cbn.
  rewrite (load_dump_items _ _ _ mapM_iso). cbn.
  pose proof (Hne (BotData.session_start_time self)) as Hstart.
  apply String.eqb_neq in Hstart. rewrite Hstart, Hiso. cbn.
  rewrite optional_time_iso. cbn.
  rewrite !list_to_set_elements_L.
  unfold BotData.persisted. f_equal. f_equal.
  destruct (BotData.last_backup_time self); reflexivity.
Qed.
End Snapshots.




Lemma from_dict_run E data w :
  BotData.from_dict E data w =
  (BotData.fill E (fresh_state E (randint E (draws w)) (clock E (reads w)))
     (randint E (S (draws w))) data,
   {| reads := S (reads w); draws := S (S (draws w)); calls := calls w |}).
Proof. reflexivity. Qed.

Lemma optional_time_none E field :
  BotData.optional_time E field = None ->
  exists s, field = Some s /\ s <> "" /\ fromisoformat E s = None.
Proof.
  unfold BotData.optional_time. destruct field as [s|]; [|discriminate].
  destruct (String.eqb_spec s ""); [discriminate|].
  destruct (fromisoformat E s) eqn:Hs; [discriminate|]. intros _. eauto.
Qed.

Lemma bind_none {A B} (x : option A) (f : A -> option B) :
  x ≫= f = None -> x = None \/ exists a, x = Some a /\ f a = None.
Proof. destruct x as [a|]; cbn; eauto. Qed.

Lemma load_default_none E {V W} (f : V -> option W) field acc :
  BotData.load_items E f (default [] field) acc = None ->
  exists items, field = Some items /\ BotData.load_items E f items acc = None.
Proof. destruct field as [items|]; cbn; [eauto|discriminate]. Qed.

Lemma from_dict_failure E data w :
  (BotData.from_dict E data w).1 = None -> bad_field E data.
Proof.
  rewrite from_dict_run. cbn [fst]. unfold BotData.fill, bad_field.
  cbn [BotData.user_stats BotData.spam_violations fresh_state].
  intros H.
  apply bind_none in H as [H|(? & _ & H)];
    [left; exact (load_default_none _ _ _ _ H)|right].
  apply bind_none in H as [H|(? & _ & H)];
    [left; exact (load_default_none _ _ _ _ H)|right].
  apply bind_none in H as [H|(? & _ & H)];
    [left; exact (load_default_none _ _ _ _ H)|right].
  apply bind_none in H as [H|(? & _ & H)];
    [left; exact (load_default_none _ _ _ _ H)|right].
  apply bind_none in H as [H|(? & _ & H)];
    [left; exact (optional_time_none _ _ H)|right].
  apply bind_none in H as [H|(? & _ & H)];
    [exact (optional_time_none _ _ H)|discriminate].
Qed.

Lemma bind_some {A B} (x : option A) (f : A -> option B) b :
  x ≫= f = Some b -> exists a, x = Some a /\ f a = Some b.
Proof. destruct x as [a|]; cbn; [eauto|discriminate]. Qed.

Lemma from_dict_defaults E data w bot_data :
  (BotData.from_dict E data w).1 = Some bot_data ->
  (Snapshot.session_id data = None ->
   BotData.session_id bot_data = Py.str (randint E (S (draws w)))) /\
  (Snapshot.owner_id data = None ->
   BotData.owner_id bot_data = BotConfig.OWNER_ID (config E)) /\
  (Snapshot.approved_users data = None -> BotData.approved_users bot_data = ∅) /\
  (Snapshot.banned_users data = None -> BotData.banned_users bot_data = ∅) /\
  (Snapshot.group_states data = None -> BotData.group_states bot_data = ∅) /\
  (Snapshot.chat_history data = None -> BotData.chat_history bot_data = []) /\
  (Snapshot.user_stats data = None -> BotData.user_stats bot_data = ∅) /\
  (Snapshot.spam_violations data = None ->
   BotData.spam_violations bot_data = ∅) /\
  (Snapshot.suspicious_users data = None ->
   BotData.suspicious_users bot_data = ∅) /\
  (Snapshot.session_start_time data = None ->
   BotData.session_start_time bot_data = clock E (reads w)) /\
  (Snapshot.last_backup_time data = None ->
   BotData.last_backup_time bot_data = None).
Proof.
  rewrite from_dict_run. cbn [fst]. unfold BotData.fill.
  cbn [BotData.user_stats BotData.spam_violations BotData.session_start_time
       BotData.last_backup_time BotData.message_hashes fresh_state].
  intros H.
  apply bind_some in H as (banned & Hbanned & H).
  apply bind_some in H as (groups & Hgroups & H).
  apply bind_some in H as (stats & Hstats & H).
  apply bind_some in H as (violations & Hviolations & H).
  apply bind_some in H as (start & Hstart & H).
  apply bind_some in H as (backup & Hbackup & H).
  injection H as <-. cbn.
  repeat split; intros Hmissing; rewrite Hmissing in *; cbn in *;
    try reflexivity; try congruence.
  - injection Hstart as <-. reflexivity.
  - injection Hbackup as <-. reflexivity.
Qed.

Lemma stats_of_dict_defaults E stats_data stats :
  BotData.stats_of_dict E stats_data = Some stats ->
  (StatsDict.message_count stats_data = None ->
   UserStats.message_count stats = 0) /\
  (StatsDict.spam_score stats_data = None -> UserStats.spam_score stats = 0) /\
  (StatsDict.warnings stats_data = None -> UserStats.warnings stats = 0) /\
  (StatsDict.verification_status stats_data = None ->
   UserStats.verification_status stats = "unverified") /\
  (StatsDict.last_spam_check stats_data = None ->
   UserStats.last_spam_check stats = None).
Proof.
  unfold BotData.stats_of_dict. intros H.
  apply bind_some in H as (user_id & _ & H).
  apply bind_some in H as (username & _ & H).
  apply bind_some in H as (first_seen & _ & H).
  apply bind_some in H as (last_seen & _ & H).
  apply bind_some in H as (last_spam_check & Hcheck & H).
  injection H as <-. cbn.
  repeat split; intros Hmissing; rewrite Hmissing in *; cbn in *;
    try reflexivity; congruence.
Qed.

Lemma stats_of_dict_failure E stats_data :
  BotData.stats_of_dict E stats_data = None ->
  StatsDict.user_id stats_data = None \/
  StatsDict.username stats_data = None \/
  StatsDict.first_seen stats_data = None \/
  StatsDict.last_seen stats_data = None \/
  exists s, fromisoformat E s = None /\
    (StatsDict.first_seen stats_data = Some s \/
     StatsDict.last_seen stats_data = Some s \/
     StatsDict.last_spam_check stats_data = Some s).
Proof.
  unfold BotData.stats_of_dict. intros H.
  apply bind_none in H as [H|(? & _ & H)]; [auto|].
  apply bind_none in H as [H|(? & _ & H)]; [auto|].
  apply bind_none in H as [H|(? & _ & H)].
  { destruct (StatsDict.first_seen stats_data) as [s|]; [|auto].
    do 4 right. exists s. auto. }
  apply bind_none in H as [H|(? & _ & H)].
  { destruct (StatsDict.last_seen stats_data) as [s|]; [|auto].
    do 4 right. exists s. auto. }
  apply bind_none in H as [H|(? & _ & H)]; [|discriminate].
  apply optional_time_none in H as (s & Hs & _ & Hbad).
  do 4 right. exists s. auto.
Qed.

Lemma append_fixpoint (s t : string) : s ++ t = s -> t = "".
Proof.
  induction s as [|c s IH]; cbn; [auto|]. intros [= H]. auto.
Qed.

Section Loading.
Context (E : Env) (json_load : string -> option Snapshot.t)
  (strftime : Z -> string).
Let DATA_FILE := Storage.DATA_FILE E.

Lemma error_file_other now : error_file E strftime now <> DATA_FILE.
Proof.
  unfold error_file. intros H. apply append_fixpoint in H. discriminate.
Qed.

Lemma load_data_unparsed files content w :
  files !! DATA_FILE = Some content ->
  json_load content = None ->
  Storage.load_data E json_load strftime (files, w) =
  (fresh_state E (randint E (draws w)) (clock E (S (reads w))),
   (<[error_file E strftime (clock E (reads w)) := content]> (delete DATA_FILE files),
    {| reads := S (S (reads w)); draws := S (draws w);
       calls := calls w |})).
Proof.
  intros Hfile Hjson. unfold Storage.load_data, Storage.quarantine. run.
  fold DATA_FILE. rewrite Hfile, Hjson. reflexivity.
Qed.

Lemma load_data_rejected files content data w :
  files !! DATA_FILE = Some content ->
  json_load content = Some data ->
  (BotData.from_dict E data w).1 = None ->
  Storage.load_data E json_load strftime (files, w) =
  (fresh_state E (randint E (S (S (draws w)))) (clock E (S (S (reads w)))),
   (<[error_file E strftime (clock E (S (reads w))) := content]>
      (delete DATA_FILE files),
    {| reads := S (S (S (reads w))); draws := S (S (S (draws w)));
       calls := calls w |})).
Proof.
  intros Hfile Hjson Hfail. unfold Storage.load_data, Storage.quarantine.
  run. fold DATA_FILE. rewrite Hfile, Hjson.
  rewrite from_dict_run in *. cbn in *. rewrite Hfail. reflexivity.
Qed.

Lemma load_data_absent files w :
  files !! DATA_FILE = None ->
  Storage.load_data E json_load strftime (files, w) =
  (fresh_state E (randint E (draws w)) (clock E (reads w)),
   (files, {| reads := S (reads w); draws := S (draws w);
              calls := calls w |})).
Proof.
  intros Hfile. unfold Storage.load_data. run. fold DATA_FILE.
  rewrite Hfile. reflexivity.
Qed.
End Loading.

(** C9.  [from_dict] of the empty snapshot is the fresh state, with the
    session id drawn for the default and the clock reading of the
    constructor; it fails only on a field that is present and cannot be
    read, and gives every missing optional field, top-level or of a user
    entry, its default, a user entry being unreadable only for want of one
    of its four mandatory keys or for a time that does not parse;
    [load_data] of a file that does not parse, or that [from_dict] rejects,
    moves the file to another name with its content, leaves no data file,
    and returns a fresh state; with no data file it returns a fresh state
    and touches nothing. *)
Theorem snapshot_defaults_and_quarantine (E : Env)
  (json_load : string -> option Snapshot.t) (strftime : Z -> string)
  (data : Snapshot.t) (files : gmap string string) (w : World) :
  (BotData.from_dict E Snapshot.empty w).1
    = Some (fresh_state E (randint E (S (draws w))) (clock E (reads w))) /\
  ((BotData.from_dict E data w).1 = None -> bad_field E data) /\
  (forall bot_data,
     (BotData.from_dict E data w).1 = Some bot_data ->
     (Snapshot.session_id data = None ->
      BotData.session_id bot_data = Py.str (randint E (S (draws w)))) /\
     (Snapshot.owner_id data = None ->
      BotData.owner_id bot_data = BotConfig.OWNER_ID (config E)) /\
     (Snapshot.approved_users data = None ->
      BotData.approved_users bot_data = ∅) /\
     (Snapshot.banned_users data = None -> BotData.banned_users bot_data = ∅) /\
     (Snapshot.group_states data = None -> BotData.group_states bot_data = ∅) /\
     (Snapshot.chat_history data = None -> BotData.chat_history bot_data = []) /\
     (Snapshot.user_stats data = None -> BotData.user_stats bot_data = ∅) /\
     (Snapshot.spam_violations data = None ->
      BotData.spam_violations bot_data = ∅) /\
     (Snapshot.suspicious_users data = None ->
      BotData.suspicious_users bot_data = ∅) /\
     (Snapshot.session_start_time data = None ->
      BotData.session_start_time bot_data = clock E (reads w)) /\
     (Snapshot.last_backup_time data = None ->
      BotData.last_backup_time bot_data = None)) /\
  (forall stats_data stats,
     BotData.stats_of_dict E stats_data = Some stats ->
     (StatsDict.message_count stats_data = None ->
      UserStats.message_count stats = 0) /\
     (StatsDict.spam_score stats_data = None ->
      UserStats.spam_score stats = 0) /\
     (StatsDict.warnings stats_data = None -> UserStats.warnings stats = 0) /\
     (StatsDict.verification_status stats_data = None ->
      UserStats.verification_status stats = "unverified") /\
     (StatsDict.last_spam_check stats_data = None ->
      UserStats.last_spam_check stats = None)) /\
  (forall stats_data,
     BotData.stats_of_dict E stats_data = None ->
     StatsDict.user_id stats_data = None \/
     StatsDict.username stats_data = None \/
     StatsDict.first_seen stats_data = None \/
     StatsDict.last_seen stats_data = None \/
     exists s, fromisoformat E s = None /\
       (StatsDict.first_seen stats_data = Some s \/
        StatsDict.last_seen stats_data = Some s \/
        StatsDict.last_spam_check stats_data = Some s)) /\
  (forall content,
     files !! Storage.DATA_FILE E = Some content ->
     json_load content = None \/
     (exists rejected, json_load content = Some rejected /\
                       (BotData.from_dict E rejected w).1 = None) ->
     let r := Storage.load_data E json_load strftime (files, w) in
     exists moved_to r0 now0,
       moved_to <> Storage.DATA_FILE E /\
       r.2.1 = <[moved_to := content]> (delete (Storage.DATA_FILE E) files) /\
       r.2.1 !! moved_to = Some content /\
       r.2.1 !! Storage.DATA_FILE E = None /\
       r.1 = fresh_state E r0 now0) /\
  (files !! Storage.DATA_FILE E = None ->
   let r := Storage.load_data E json_load strftime (files, w) in
   r.2.1 = files /\
   r.1 = fresh_state E (randint E (draws w)) (clock E (reads w))).
Proof.
  split; [reflexivity|]. split; [apply from_dict_failure|].
  split; [intros bot_data; apply from_dict_defaults|].
  split; [apply stats_of_dict_defaults|].
  split; [apply stats_of_dict_failure|]. split.
  - intros content Hfile [Hjson|(rejected & Hjson & Hfail)]; cbn zeta.
    + rewrite (load_data_unparsed E json_load strftime _ _ _ Hfile Hjson).
      cbn [fst snd]. eexists _, _, _.
      split; [apply (error_file_other E strftime)|].
      split; [reflexivity|]. split; [apply lookup_insert_eq|].
      split; [|reflexivity].
      rewrite lookup_insert_ne by apply (error_file_other E strftime).
      apply lookup_delete_eq.
    + rewrite (load_data_rejected E json_load strftime _ _ _ _ Hfile Hjson
                 Hfail).
      cbn [fst snd]. eexists _, _, _.
      split; [apply (error_file_other E strftime)|].
      split; [reflexivity|]. split; [apply lookup_insert_eq|].
      split; [|reflexivity].
      rewrite lookup_insert_ne by apply (error_file_other E strftime).
      apply lookup_delete_eq.
  - intros Hfile. cbn zeta.
    rewrite (load_data_absent E json_load strftime _ _ Hfile). auto.
Qed.

Lemma snapshot_defaults_and_quarantine_witness :
  broken_files !! Storage.DATA_FILE sample_env = Some "{broken" /\
  exists moved_to r0 now0,
    moved_to <> Storage.DATA_FILE sample_env /\
    (Storage.load_data sample_env (fun _ => None) Py.str
       (broken_files, world0)).2.1
    = <[moved_to := "{broken"]>
        (delete (Storage.DATA_FILE sample_env) broken_files) /\
    (Storage.load_data sample_env (fun _ => None) Py.str
       (broken_files, world0)).2.1 !! moved_to = Some "{broken" /\
    (Storage.load_data sample_env (fun _ => None) Py.str
       (broken_files, world0)).2.1 !! Storage.DATA_FILE sample_env = None /\
    (Storage.load_data sample_env (fun _ => None) Py.str
       (broken_files, world0)).1 = fresh_state sample_env r0 now0.
Proof.
  assert (H : broken_files !! Storage.DATA_FILE sample_env = Some "{broken")
    by reflexivity.
  split; [exact H|].
  exact (proj1 (proj2 (proj2 (proj2 (proj2 (proj2
           (snapshot_defaults_and_quarantine sample_env (fun _ => None)
              Py.str Snapshot.empty broken_files world0))))))
           "{broken" H (or_introl eq_refl)).
Defined.

(** ** Rate limiter, continued *)

Lemma newer_than_newer_than (a b : Z) (l : list Z) :
  b <= a ->
  RateLimiter.newer_than a (RateLimiter.newer_than b l)
  = RateLimiter.newer_than a l.
Proof.
  intros Hba. unfold RateLimiter.newer_than.
  induction l as [|x l IH]; [reflexivity|]. cbn.
  destruct (Z.ltb_spec b x); cbn.
  - rewrite IH. reflexivity.
  - destruct (Z.ltb_spec a x); [lia|]. exact IH.
Qed.

Lemma newer_than_fresh (bound : Z) (l : list Z) :
  Forall (fun x => bound < x) (RateLimiter.newer_than bound l).
Proof.
  unfold RateLimiter.newer_than. apply Forall_forall. intros x Hx.
  apply list_elem_of_In, filter_In in Hx. apply Z.ltb_lt, Hx.
Qed.

Lemma clean_old_requests_state (user_id now : Z) (self : RateLimiter.t) :
  RateLimiter._clean_old_requests user_id now self =
  (tt,
   {| RateLimiter.user_requests :=
        <[user_id :=
            RateLimiter.newer_than (now - Py.hours 1)
              (default [] (RateLimiter.user_requests self !! user_id))]>
          (RateLimiter.user_requests self);
      RateLimiter.api_requests :=
        <[user_id :=
            RateLimiter.newer_than (now - Py.minutes 1)
              (default [] (RateLimiter.api_requests self !! user_id))]>
          (RateLimiter.api_requests self);
      RateLimiter.cooldown_users := RateLimiter.cooldown_users self;
      RateLimiter.warning_counts := RateLimiter.warning_counts self |}).
Proof.
  unfold RateLimiter._clean_old_requests. run. unfold Py.dd_get.
  destruct (RateLimiter.user_requests self !! user_id) eqn:Hu;
    destruct (RateLimiter.api_requests self !! user_id) eqn:Ha; cbn;
    rewrite ?Ha; cbn;
    unfold RateLimiter.set_api_requests, RateLimiter.set_user_requests; cbn;
    rewrite ?insert_insert_eq; reflexivity.
Qed.

Lemma dd_get_present `{Countable K} {V} (d v : V) (k : K) (m : gmap K V) :
  m !! k = Some v -> Py.dd_get d k m = (v, m).
Proof. intros Hk. unfold Py.dd_get. rewrite Hk. reflexivity. Qed.

(** The check of the message windows on a limiter whose window for the
    user is present. *)
Lemma check_message_run E user_id now self w l :
  RateLimiter.user_requests self !! user_id = Some l ->
  RateLimiter._check_message_rate_limit E user_id now (self, w) =
  if BotConfig.MAX_MESSAGES_PER_MINUTE (config E)
       <=? Py.len_list (RateLimiter.newer_than (now - Py.minutes 1) l)
  then (true,
        (RateLimiter._apply_cooldown E user_id "message_flood" (self, w)).2)
  else if BotConfig.MAX_MESSAGES_PER_HOUR (config E)
            <=? Py.len_list (RateLimiter.newer_than (now - Py.hours 1) l)
  then (true,
        (RateLimiter._apply_cooldown E user_id "message_abuse" (self, w)).2)
  else (false, (self, w)).
Proof.
  intros Hl. unfold RateLimiter._check_message_rate_limit. run.
  rewrite (dd_get_present _ _ _ _ Hl). cbn.
  assert (Hself : RateLimiter.set_user_requests
                    (RateLimiter.user_requests self) self = self)
    by (destruct self; reflexivity).
  rewrite Hself.
  destruct (_ <=? _).
  - destruct (RateLimiter._apply_cooldown _ _ _ _) as [[] s]. reflexivity.
  - cbn. rewrite (dd_get_present _ _ _ _ Hl). cbn. rewrite Hself.
    destruct (_ <=? _); [|reflexivity].
    destruct (RateLimiter._apply_cooldown _ _ _ _) as [[] s]. reflexivity.
Qed.

Lemma check_api_run E user_id now self w l :
  RateLimiter.api_requests self !! user_id = Some l ->
  RateLimiter._check_api_rate_limit E user_id now (self, w) =
  if BotConfig.MAX_API_CALLS_PER_MINUTE (config E)
       <=? Py.len_list (RateLimiter.newer_than (now - Py.minutes 1) l)
  then (true,
        (RateLimiter._apply_cooldown E user_id "api_abuse" (self, w)).2)
  else (false, (self, w)).
Proof.
  intros Hl. unfold RateLimiter._check_api_rate_limit. run.
  rewrite (dd_get_present _ _ _ _ Hl). cbn.
  assert (Hself : RateLimiter.set_api_requests
                    (RateLimiter.api_requests self) self = self)
    by (destruct self; reflexivity).
  rewrite Hself.
  destruct (_ <=? _); [|reflexivity].
  destruct (RateLimiter._apply_cooldown _ _ _ _) as [[] s]. reflexivity.
Qed.

Lemma on_self_run {X A} (m : M X A) (x : X) (w : World) :
  on_self m (x, w) = ((m x).1, ((m x).2, w)).
Proof. unfold on_self, zoom. cbn. destruct (m x). reflexivity. Qed.

Lemma window_check_run E user_id request_type now self w :
  let messages := default [] (RateLimiter.user_requests self !! user_id) in
  let api_calls := default [] (RateLimiter.api_requests self !! user_id) in
  let r := window_check E user_id request_type now (self, w) in
  r.1 =
    (if String.eqb request_type "message"
     then (BotConfig.MAX_MESSAGES_PER_MINUTE (config E)
             <=? Py.len_list
                   (RateLimiter.newer_than (now - Py.minutes 1) messages))
          || (BotConfig.MAX_MESSAGES_PER_HOUR (config E)
                <=? Py.len_list
                      (RateLimiter.newer_than (now - Py.hours 1) messages))
     else if String.eqb request_type "api"
     then BotConfig.MAX_API_CALLS_PER_MINUTE (config E)
            <=? Py.len_list
                  (RateLimiter.newer_than (now - Py.minutes 1) api_calls)
     else false) /\
  RateLimiter.user_requests r.2.1 =
    <[user_id := RateLimiter.newer_than (now - Py.hours 1) messages]>
      (RateLimiter.user_requests self) /\
  RateLimiter.api_requests r.2.1 =
    <[user_id := RateLimiter.newer_than (now - Py.minutes 1) api_calls]>
      (RateLimiter.api_requests self) /\
  (if r.1
   then breached user_id self (clock E (reads w)) r.2.1 /\
        (forall u, u <> user_id ->
           RateLimiter.warning_counts r.2.1 !! u
           = RateLimiter.warning_counts self !! u) /\
        r.2.2 = tick w
   else RateLimiter.cooldown_users r.2.1 = RateLimiter.cooldown_users self /\
        RateLimiter.warning_counts r.2.1 = RateLimiter.warning_counts self /\
        r.2.2 = w).
Proof.
  cbn zeta. unfold window_check. unfold mbind, M_bind.
  rewrite on_self_run, clean_old_requests_state. cbn [fst snd].
  set (cleaned := RateLimiter.Build_t _ _ _ _).
  assert (Hm : RateLimiter.user_requests cleaned !! user_id =
               Some (RateLimiter.newer_than (now - Py.hours 1)
                       (default [] (RateLimiter.user_requests self !! user_id))))
    by apply lookup_insert_eq.
  assert (Ha : RateLimiter.api_requests cleaned !! user_id =
               Some (RateLimiter.newer_than (now - Py.minutes 1)
                       (default [] (RateLimiter.api_requests self !! user_id))))
    by apply lookup_insert_eq.
  destruct (String.eqb request_type "message").
  - rewrite (check_message_run _ _ _ _ _ _ Hm).
    rewrite !newer_than_newer_than
      by (unfold Py.hours, Py.minutes, Py.seconds; lia).
    destruct (_ <=? _); [|destruct (_ <=? _)]; cbn;
      rewrite ?apply_cooldown_state; cbn; unfold breached; cbn;
      rewrite ?lookup_insert_eq;
      repeat split; auto; intros; apply lookup_insert_ne; congruence.
  - destruct (String.eqb request_type "api").
    + rewrite (check_api_run _ _ _ _ _ _ Ha).
      rewrite !newer_than_newer_than by lia.
      destruct (_ <=? _); cbn; rewrite ?apply_cooldown_state; cbn;
        unfold breached; cbn; rewrite ?lookup_insert_eq;
        repeat split; auto; intros; apply lookup_insert_ne; congruence.
    + cbn. repeat split.
Qed.

(** X1.  For a user with no cooldown in force, [is_rate_limited] decides a
    "message" request by the pruned windows alone: it answers true exactly
    when the user has at least MAX_MESSAGES_PER_MINUTE requests in the last
    minute or at least MAX_MESSAGES_PER_HOUR in the last hour; an "api"
    request exactly when at least MAX_API_CALLS_PER_MINUTE API calls fall in
    the last minute; and any other request type is never limited. *)
Theorem rate_limit_decision (E : Env) (user_id : Z) (self : RateLimiter.t)
  (w : World) :
  (forall expiry,
     RateLimiter.cooldown_users self !! user_id = Some expiry ->
     expiry <= clock E (reads w)) ->
  let now := clock E (reads w) in
  let messages := default [] (RateLimiter.user_requests self !! user_id) in
  let api_calls := default [] (RateLimiter.api_requests self !! user_id) in
  (RateLimiter.is_rate_limited E user_id "message" (self, w)).1 =
    (BotConfig.MAX_MESSAGES_PER_MINUTE (config E)
       <=? Py.len_list (RateLimiter.newer_than (now - Py.minutes 1) messages))
    || (BotConfig.MAX_MESSAGES_PER_HOUR (config E)
          <=? Py.len_list
                (RateLimiter.newer_than (now - Py.hours 1) messages)) /\
  (RateLimiter.is_rate_limited E user_id "api" (self, w)).1 =
    (BotConfig.MAX_API_CALLS_PER_MINUTE (config E)
       <=? Py.len_list (RateLimiter.newer_than (now - Py.minutes 1) api_calls))
  /\
  (forall request_type,
     request_type <> "message" -> request_type <> "api" ->
     (RateLimiter.is_rate_limited E user_id request_type (self, w)).1 = false).
Proof.
  intros Hfree. cbn zeta.
  assert (Hgo : forall rt,
    (RateLimiter.is_rate_limited E user_id rt (self, w)).1 =
    (window_check E user_id rt (clock E (reads w)) (self, tick w)).1).
  { intros rt. rewrite is_rate_limited_unfold. cbn zeta.
    destruct (RateLimiter.cooldown_users self !! user_id) as [t|] eqn:Hcd;
      [|reflexivity].
    specialize (Hfree t eq_refl).
    destruct (Z.ltb_spec (clock E (reads w)) t); [lia|].
    destruct (window_check_run E user_id rt (clock E (reads w))
      (RateLimiter.set_cooldown_users
         (delete user_id (RateLimiter.cooldown_users self)) self) (tick w))
      as [-> _].
    destruct (window_check_run E user_id rt (clock E (reads w)) self (tick w))
      as [-> _].
    reflexivity. }
  split; [|split].
  - rewrite Hgo.
    destruct (window_check_run E user_id "message" (clock E (reads w)) self
                (tick w)) as [-> _]. reflexivity.
  - rewrite Hgo.
    destruct (window_check_run E user_id "api" (clock E (reads w)) self
                (tick w)) as [-> _]. reflexivity.
  - intros rt Hm Ha. rewrite Hgo.
    destruct (window_check_run E user_id rt (clock E (reads w)) self
                (tick w)) as [-> _].
    apply String.eqb_neq in Hm, Ha. rewrite Hm, Ha. reflexivity.
Qed.

Lemma clean_old_requests_idempotent (user_id now : Z) (self : RateLimiter.t) :
  RateLimiter._clean_old_requests user_id now
    (RateLimiter._clean_old_requests user_id now self).2
  = RateLimiter._clean_old_requests user_id now self.
Proof.
  rewrite (clean_old_requests_state user_id now self). cbn [snd].
  rewrite clean_old_requests_state.
  cbn [RateLimiter.user_requests RateLimiter.api_requests
       RateLimiter.cooldown_users RateLimiter.warning_counts].
  rewrite !lookup_insert_eq. cbn [default from_option id].
  rewrite !insert_insert_eq, !newer_than_newer_than by lia. reflexivity.
Qed.

(** X2.  A check made with no cooldown in force leaves the user's message
    window holding exactly the old entries newer than one hour and the API
    window exactly those newer than one minute, so every entry that
    remains is fresh; pruning a second time at the same instant changes
    nothing. *)
Theorem rate_limit_check_prunes (E : Env) (user_id : Z)
  (request_type : string) (self : RateLimiter.t) (w : World) :
  (forall expiry,
     RateLimiter.cooldown_users self !! user_id = Some expiry ->
     expiry <= clock E (reads w)) ->
  let now := clock E (reads w) in
  let after :=
    (RateLimiter.is_rate_limited E user_id request_type (self, w)).2.1 in
  RateLimiter.user_requests after !! user_id =
    Some (RateLimiter.newer_than (now - Py.hours 1)
            (default [] (RateLimiter.user_requests self !! user_id))) /\
  RateLimiter.api_requests after !! user_id =
    Some (RateLimiter.newer_than (now - Py.minutes 1)
            (default [] (RateLimiter.api_requests self !! user_id))) /\
  Forall (fun t => now - Py.hours 1 < t)
    (default [] (RateLimiter.user_requests after !! user_id)) /\
  Forall (fun t => now - Py.minutes 1 < t)
    (default [] (RateLimiter.api_requests after !! user_id)) /\
  RateLimiter._clean_old_requests user_id now
    (RateLimiter._clean_old_requests user_id now self).2
  = RateLimiter._clean_old_requests user_id now self.
Proof.
  intros Hfree. cbn zeta. rewrite is_rate_limited_unfold. cbn zeta.
  assert (Hwin : forall self0,
    RateLimiter.user_requests self0 = RateLimiter.user_requests self ->
    RateLimiter.api_requests self0 = RateLimiter.api_requests self ->
    let after :=
      (window_check E user_id request_type (clock E (reads w))
         (self0, tick w)).2.1 in
    RateLimiter.user_requests after !! user_id =
      Some (RateLimiter.newer_than (clock E (reads w) - Py.hours 1)
              (default [] (RateLimiter.user_requests self !! user_id))) /\
    RateLimiter.api_requests after !! user_id =
      Some (RateLimiter.newer_than (clock E (reads w) - Py.minutes 1)
              (default [] (RateLimiter.api_requests self !! user_id)))).
  { intros self0 Hu Ha. cbn zeta.
    destruct (window_check_run E user_id request_type (clock E (reads w))
                self0 (tick w)) as (_ & -> & -> & _).
    rewrite Hu, Ha, !lookup_insert_eq. auto. }
  assert (Hboth :
    let after :=
      (match RateLimiter.cooldown_users self !! user_id with
       | Some expiry =>
           if clock E (reads w) <? expiry then (true, (self, tick w))
           else window_check E user_id request_type (clock E (reads w))
                  (RateLimiter.set_cooldown_users
                     (delete user_id (RateLimiter.cooldown_users self)) self,
                   tick w)
       | None => window_check E user_id request_type (clock E (reads w))
                   (self, tick w)
       end).2.1 in
    RateLimiter.user_requests after !! user_id =
      Some (RateLimiter.newer_than (clock E (reads w) - Py.hours 1)
              (default [] (RateLimiter.user_requests self !! user_id))) /\
    RateLimiter.api_requests after !! user_id =
      Some (RateLimiter.newer_than (clock E (reads w) - Py.minutes 1)
              (default [] (RateLimiter.api_requests self !! user_id)))).
  { cbn zeta.
    destruct (RateLimiter.cooldown_users self !! user_id) as [t|] eqn:Hcd.
    - specialize (Hfree t eq_refl).
      destruct (Z.ltb_spec (clock E (reads w)) t); [lia|].
      apply Hwin; reflexivity.
    - apply Hwin; reflexivity. }
  cbn zeta in Hboth. destruct Hboth as [Hu Ha].
  split; [exact Hu|]. split; [exact Ha|].
  rewrite Hu, Ha. cbn.
  split; [apply newer_than_fresh|]. split; [apply newer_than_fresh|].
  apply clean_old_requests_idempotent.
Qed.

Lemma add_request_state E user_id request_type self w :
  RateLimiter.add_request E user_id request_type (self, w) =
  (tt,
   (if String.eqb request_type "message" then
      RateLimiter.set_user_requests
        (<[user_id :=
             (default [] (RateLimiter.user_requests self !! user_id)
              ++ [clock E (reads w)])%list]>
           (RateLimiter.user_requests self)) self
    else if String.eqb request_type "api" then
      RateLimiter.set_api_requests
        (<[user_id :=
             (default [] (RateLimiter.api_requests self !! user_id)
              ++ [clock E (reads w)])%list]>
           (RateLimiter.api_requests self)) self
    else self,
    tick w)).
Proof.
  unfold RateLimiter.add_request. run. unfold Py.dd_get.
  destruct (String.eqb request_type "message"); cbn.
  - destruct (RateLimiter.user_requests self !! user_id); cbn;
      rewrite ?insert_insert_eq; reflexivity.
  - destruct (String.eqb request_type "api"); cbn; [|reflexivity].
    destruct (RateLimiter.api_requests self !! user_id); cbn;
      rewrite ?insert_insert_eq; reflexivity.
Qed.

Lemma dd_get_other `{Countable K} {V} (d : V) (k k' : K) (m : gmap K V) :
  k' <> k -> (Py.dd_get d k m).2 !! k' = m !! k'.
Proof.
  intros Hne. unfold Py.dd_get. destruct (m !! k); cbn; [reflexivity|].
  apply lookup_insert_ne. congruence.
Qed.

(** X3.  No public method of the limiter touches another user's data: the
    message window, API window, cooldown and violation counter of every
    user other than the one the call names are left as they were. *)
Theorem rate_limiter_isolation (E : Env) (m : RateLimiter.method)
  (other : Z) (self : RateLimiter.t) (w : World) :
  other <> RateLimiterOps.method_user m ->
  limiter_view (RateLimiter.invoke E m (self, w)).2.1 other
  = limiter_view self other.
Proof.
  intros Hne. unfold limiter_view.
  destruct m as [u rt|u rt|u|u|u]; cbn [RateLimiterOps.method_user] in Hne.
  - rewrite invoke_is_rate_limited, is_rate_limited_unfold. cbn zeta.
    assert (Hwin : forall self0,
      limiter_view
        (window_check E u rt (clock E (reads w)) (self0, tick w)).2.1 other
      = limiter_view self0 other).
    { intros self0. unfold limiter_view.
      destruct (window_check_run E u rt (clock E (reads w)) self0 (tick w))
        as (_ & Hu & Ha & Hrest).
      rewrite Hu, Ha, !lookup_insert_ne by congruence.
      destruct (window_check _ _ _ _ _).1.
      - destruct Hrest as ((_ & _ & Hcd) & Hwc & _).
        rewrite Hcd, Hwc by congruence. reflexivity.
      - destruct Hrest as (-> & -> & _). reflexivity. }
    unfold limiter_view in Hwin.
    destruct (RateLimiter.cooldown_users self !! u) as [t|] eqn:Hcd.
    + destruct (_ <? t); [reflexivity|].
      rewrite Hwin. cbn. rewrite lookup_delete_ne by congruence. reflexivity.
    + apply Hwin.
  - cbn [RateLimiter.invoke]. rewrite add_request_state. cbn [fst snd].
    destruct (String.eqb rt "message"); cbn;
      [rewrite lookup_insert_ne by congruence; reflexivity|].
    destruct (String.eqb rt "api"); cbn;
      [rewrite lookup_insert_ne by congruence; reflexivity|reflexivity].
  - cbn. unfold RateLimiter.get_cooldown_remaining. run.
    destruct (RateLimiter.cooldown_users self !! u); reflexivity.
  - cbn [RateLimiter.invoke]. rewrite reset_user_limits_state. cbn.
    rewrite !lookup_insert_ne, lookup_delete_ne by congruence. reflexivity.
  - cbn. unfold RateLimiter.get_user_stats, RateLimiter.get_cooldown_remaining.
    run.
    pose proof (dd_get_other (V:=list Z) [] u other
                  (RateLimiter.user_requests self) Hne) as H1.
    destruct (Py.dd_get [] u (RateLimiter.user_requests self)) as [r1 d1].
    cbn in *.
    pose proof (dd_get_other (V:=list Z) [] u other d1 Hne) as H2.
    destruct (Py.dd_get [] u d1) as [r2 d2]. cbn in *.
    pose proof (dd_get_other (V:=list Z) [] u other
                  (RateLimiter.api_requests self) Hne) as H3.
    destruct (Py.dd_get [] u (RateLimiter.api_requests self)) as [r3 d3].
    cbn in *.
    pose proof (dd_get_other 0 u other
                  (RateLimiter.warning_counts self) Hne) as H4.
    destruct (Py.dd_get 0 u (RateLimiter.warning_counts self)) as [r4 d4].
    cbn in *.
    destruct (RateLimiter.cooldown_users self !! u); cbn;
      rewrite H2, H1, H3, H4; reflexivity.
Qed.

(** X4.  With positive limits, a check made right after
    [reset_user_limits] answers false for every request type, leaves no
    cooldown and leaves the violation counter at 0. *)
Theorem reset_lifts_limit (E : Env) (user_id : Z) (request_type : string)
  (self : RateLimiter.t) (w : World) :
  0 < BotConfig.MAX_MESSAGES_PER_MINUTE (config E) ->
  0 < BotConfig.MAX_MESSAGES_PER_HOUR (config E) ->
  0 < BotConfig.MAX_API_CALLS_PER_MINUTE (config E) ->
  let r :=
    RateLimiter.is_rate_limited E user_id request_type
      (RateLimiter.reset_user_limits user_id (self, w)).2 in
  r.1 = false /\
  RateLimiter.cooldown_users r.2.1 !! user_id = None /\
  RateLimiter.warning_counts r.2.1 !! user_id = Some 0.
Proof.
  intros Hm Hh Ha. cbn zeta. rewrite reset_user_limits_state. cbn [snd].
  set (fresh := RateLimiter.Build_t _ _ _ _).
  rewrite is_rate_limited_unfold. cbn zeta.
  assert (Hcd : RateLimiter.cooldown_users fresh !! user_id = None)
    by apply lookup_delete_eq.
  rewrite Hcd.
  destruct (window_check_run E user_id request_type (clock E (reads w))
              fresh (tick w)) as (Hres & _ & _ & Hrest).
  assert (Hfalse :
    (window_check E user_id request_type (clock E (reads w))
       (fresh, tick w)).1 = false).
  { rewrite Hres. subst fresh.
    cbn [RateLimiter.user_requests RateLimiter.api_requests].
    rewrite !lookup_insert_eq. cbn [default from_option id].
    change (RateLimiter.newer_than _ []) with (@nil Z).
    change (Py.len_list (@nil Z)) with 0.
    destruct (String.eqb request_type "message").
    - destruct (Z.leb_spec (BotConfig.MAX_MESSAGES_PER_MINUTE (config E)) 0);
        [lia|].
      destruct (Z.leb_spec (BotConfig.MAX_MESSAGES_PER_HOUR (config E)) 0);
        [lia|]. reflexivity.
    - destruct (String.eqb request_type "api"); [|reflexivity].
      destruct (Z.leb_spec (BotConfig.MAX_API_CALLS_PER_MINUTE (config E)) 0);
        [lia|]. reflexivity. }
  rewrite Hfalse in Hrest. destruct Hrest as (Hc & Hw & _).
  split; [exact Hfalse|]. rewrite Hc, Hw. split; [exact Hcd|].
  subst fresh. cbn. apply lookup_insert_eq.
Qed.

Lemma newer_than_all (bound : Z) (l : list Z) :
  Forall (fun x => bound < x) l -> RateLimiter.newer_than bound l = l.
Proof.
  unfold RateLimiter.newer_than. induction 1 as [|x l Hx _ IH]; [reflexivity|].
  cbn. apply Z.ltb_lt in Hx. rewrite Hx, IH. reflexivity.
Qed.

Lemma add_requests_state E (n : nat) user_id self w :
  let r := RateLimiterOps.add_requests E n user_id "message" (self, w) in
  default [] (RateLimiter.user_requests r.2.1 !! user_id) =
    (default [] (RateLimiter.user_requests self !! user_id)
     ++ ((fun k : nat => clock E (reads w + k)) <$> seq 0 n))%list /\
  RateLimiter.api_requests r.2.1 = RateLimiter.api_requests self /\
  RateLimiter.cooldown_users r.2.1 = RateLimiter.cooldown_users self /\
  RateLimiter.warning_counts r.2.1 = RateLimiter.warning_counts self /\
  r.2.2 = {| reads := reads w + n; draws := draws w; calls := calls w |}.
Proof.
  induction n as [|k IH]; cbn zeta.
  - cbn. rewrite app_nil_r, Nat.add_0_r. destruct w. auto.
  - cbn [RateLimiterOps.add_requests]. unfold mbind, M_bind.
    cbn zeta in IH.
    destruct (RateLimiterOps.add_requests E k user_id "message" (self, w))
      as [[] [self1 w1]]. cbn [fst snd] in IH.
    destruct IH as (Hu & Ha & Hc & Hw & ->).
    rewrite add_request_state.
    cbn [String.eqb Ascii.eqb Bool.eqb fst snd RateLimiter.user_requests
         RateLimiter.api_requests RateLimiter.cooldown_users
         RateLimiter.warning_counts RateLimiter.set_user_requests].
    rewrite lookup_insert_eq. cbn [default from_option id].
    rewrite Hu, seq_S, fmap_app, app_assoc. cbn [fmap list_fmap plus reads].
    repeat split; auto. unfold tick. cbn. f_equal. lia.
Qed.

(** X5.  For a user with no history and no cooldown, after [n] recorded
    "message" requests that all fall within a minute of the check, the
    check answers true exactly when [n] reaches MAX_MESSAGES_PER_MINUTE or
    MAX_MESSAGES_PER_HOUR. *)
Theorem message_burst_is_limited (E : Env) (n : nat) (user_id : Z)
  (self : RateLimiter.t) (w : World) :
  RateLimiter.cooldown_users self !! user_id = None ->
  default [] (RateLimiter.user_requests self !! user_id) = [] ->
  (forall i : nat, (i < n)%nat ->
     clock E (reads w + n) - Py.minutes 1 < clock E (reads w + i)) ->
  (RateLimiter.is_rate_limited E user_id "message"
     (RateLimiterOps.add_requests E n user_id "message" (self, w)).2).1
  = (BotConfig.MAX_MESSAGES_PER_MINUTE (config E) <=? Z.of_nat n)
    || (BotConfig.MAX_MESSAGES_PER_HOUR (config E) <=? Z.of_nat n).
Proof.
  intros Hcd Hnone Hwin.
  destruct (add_requests_state E n user_id self w) as (Hu & _ & Hc & _ & Hw).
  destruct (RateLimiterOps.add_requests E n user_id "message" (self, w))
    as [[] [self1 w1]]. cbn [fst snd] in *.
  rewrite Hnone in Hu. cbn in Hu.
  assert (Hfree : forall expiry,
            RateLimiter.cooldown_users self1 !! user_id = Some expiry ->
            expiry <= clock E (reads w1)).
  { intros expiry H. rewrite Hc, Hcd in H. discriminate. }
  destruct (rate_limit_decision E user_id self1 w1 Hfree) as [Hres _].
  rewrite Hres, Hu, Hw. cbn [reads].
  assert (Hfresh : Forall (fun t => clock E (reads w + n) - Py.minutes 1 < t)
                     ((fun k : nat => clock E (reads w + k)) <$> seq 0 n)).
  { apply Forall_fmap, Forall_forall. intros i Hi. apply elem_of_seq in Hi.
    cbn. apply Hwin. lia. }
  rewrite (newer_than_all _ _ Hfresh).
  rewrite newer_than_all.
  - unfold Py.len_list. rewrite length_fmap, length_seq. reflexivity.
  - eapply Forall_impl; [exact Hfresh|]. cbn. intros t Ht.
    unfold Py.hours, Py.minutes, Py.seconds in *. lia.
Qed.

(** X6.  Whenever [is_rate_limited] answers true, [get_cooldown_remaining]
    asked next reports a remaining time, never negative; when the answer
    came from a fresh breach and the clock does not run backwards, it is at
    most 3600 seconds. *)
Theorem limited_user_has_cooldown (E : Env) (user_id : Z)
  (request_type : string) (self : RateLimiter.t) (w : World) :
  let r := RateLimiter.is_rate_limited E user_id request_type (self, w) in
  r.1 = true ->
  exists remaining,
    (RateLimiter.get_cooldown_remaining E user_id r.2).1 = Some remaining /\
    0 <= remaining /\
    ((forall expiry,
        RateLimiter.cooldown_users self !! user_id = Some expiry ->
        expiry <= clock E (reads w)) ->
     clock E (S (reads w)) <= clock E (S (S (reads w))) ->
     remaining <= 3600).
Proof.
  cbn zeta. intros Htrue.
  assert (Hrem : forall (s : RateLimiter.t * World) t,
    RateLimiter.cooldown_users s.1 !! user_id = Some t ->
    (RateLimiter.get_cooldown_remaining E user_id s).1 =
    Some (Z.max 0 (Z.quot (t - clock E (reads s.2)) 1000000))).
  { intros [s1 w1] t Ht. unfold RateLimiter.get_cooldown_remaining. run.
    rewrite Ht. reflexivity. }
  rewrite is_rate_limited_unfold in Htrue |- *. cbn zeta in Htrue |- *.
  assert (Hwin : forall self0,
    (window_check E user_id request_type (clock E (reads w))
       (self0, tick w)).1 = true ->
    exists remaining,
      (RateLimiter.get_cooldown_remaining E user_id
         (window_check E user_id request_type (clock E (reads w))
            (self0, tick w)).2).1 = Some remaining /\
      0 <= remaining /\
      (clock E (S (reads w)) <= clock E (S (S (reads w))) ->
       remaining <= 3600)).
  { intros self0 Hlim.
    destruct (window_check_run E user_id request_type (clock E (reads w))
                self0 (tick w)) as (_ & _ & _ & Hrest).
    rewrite Hlim in Hrest. destruct Hrest as ((_ & Hcd & _) & _ & Hw).
    eexists. split; [apply (Hrem _ _ Hcd)|]. split; [lia|].
    intros Hmono. rewrite Hw. cbn [reads tick].
    unfold RateLimiter.cooldown_minutes, Py.minutes, Py.seconds.
    apply Z.max_lub; [lia|].
    apply Z.quot_le_upper_bound; lia. }
  destruct (RateLimiter.cooldown_users self !! user_id) as [t|] eqn:Hcd.
  - destruct (Z.ltb_spec (clock E (reads w)) t) as [Hact|Hexp].
    + eexists. split; [apply (Hrem (self, tick w) t Hcd)|]. split; [lia|].
      intros Hfree. specialize (Hfree t eq_refl). lia.
    + destruct (Hwin _ Htrue) as (r & Hr & Hpos & Hle).
      exists r. auto.
  - destruct (Hwin _ Htrue) as (r & Hr & Hpos & Hle).
    exists r. auto.
Qed.

Lemma rate_limit_decision_witness :
  (forall expiry,
     RateLimiter.cooldown_users flooded_limiter !! 7 = Some expiry ->
     expiry <= clock sample_env (reads world0)) /\
  (RateLimiter.is_rate_limited sample_env 7 "message"
     (flooded_limiter, world0)).1 = true /\
  (RateLimiter.is_rate_limited sample_env 7 "api"
     (flooded_limiter, world0)).1 = false.
Proof.
  assert (H : forall expiry,
     RateLimiter.cooldown_users flooded_limiter !! 7 = Some expiry ->
     expiry <= clock sample_env (reads world0))
    by (intros expiry He; vm_compute in He; discriminate).
  split; [exact H|]. split.
  - etransitivity;
      [exact (proj1 (rate_limit_decision sample_env 7 flooded_limiter world0 H))
      |vm_compute; reflexivity].
  - etransitivity;
      [exact (proj1 (proj2 (rate_limit_decision sample_env 7 flooded_limiter
                              world0 H)))
      |vm_compute; reflexivity].
Defined.

Lemma rate_limit_check_prunes_witness :
  (forall expiry,
     RateLimiter.cooldown_users flooded_limiter !! 7 = Some expiry ->
     expiry <= clock sample_env (reads world0)) /\
  RateLimiter.user_requests
    (RateLimiter.is_rate_limited sample_env 7 "api"
       (flooded_limiter, world0)).2.1 !! 7 = Some (replicate 10 0).
Proof.
  assert (H : forall expiry,
     RateLimiter.cooldown_users flooded_limiter !! 7 = Some expiry ->
     expiry <= clock sample_env (reads world0))
    by (intros expiry He; vm_compute in He; discriminate).
  split; [exact H|].
  etransitivity;
    [exact (proj1 (rate_limit_check_prunes sample_env 7 "api" flooded_limiter
                     world0 H))
    |vm_compute; reflexivity].
Defined.

Lemma rate_limiter_isolation_witness :
  8 <> RateLimiterOps.method_user (RateLimiter.IsRateLimited 7 "message") /\
  limiter_view
    (RateLimiter.invoke sample_env (RateLimiter.IsRateLimited 7 "message")
       (flooded_limiter, world0)).2.1 8
  = limiter_view flooded_limiter 8.
Proof.
  assert (H : 8 <> RateLimiterOps.method_user
                     (RateLimiter.IsRateLimited 7 "message"))
    by discriminate.
  split; [exact H|].
  exact (rate_limiter_isolation sample_env
           (RateLimiter.IsRateLimited 7 "message") 8 flooded_limiter world0 H).
Defined.

Lemma reset_lifts_limit_witness :
  0 < BotConfig.MAX_MESSAGES_PER_MINUTE (config sample_env) /\
  0 < BotConfig.MAX_MESSAGES_PER_HOUR (config sample_env) /\
  0 < BotConfig.MAX_API_CALLS_PER_MINUTE (config sample_env) /\
  (RateLimiter.is_rate_limited sample_env 7 "message"
     (RateLimiter.reset_user_limits 7 (flooded_limiter, world0)).2).1 = false.
Proof.
  assert (H1 : 0 < BotConfig.MAX_MESSAGES_PER_MINUTE (config sample_env))
    by reflexivity.
  assert (H2 : 0 < BotConfig.MAX_MESSAGES_PER_HOUR (config sample_env))
    by reflexivity.
  assert (H3 : 0 < BotConfig.MAX_API_CALLS_PER_MINUTE (config sample_env))
    by reflexivity.
  split; [exact H1|]. split; [exact H2|]. split; [exact H3|].
  exact (proj1 (reset_lifts_limit sample_env 7 "message" flooded_limiter
                  world0 H1 H2 H3)).
Defined.

Lemma message_burst_is_limited_witness :
  RateLimiter.cooldown_users RateLimiter.__init__ !! 7 = None /\
  (RateLimiter.is_rate_limited sample_env 7 "message"
     (RateLimiterOps.add_requests sample_env 10 7 "message"
        (RateLimiter.__init__, world0)).2).1 = true /\
  (RateLimiter.is_rate_limited sample_env 7 "message"
     (RateLimiterOps.add_requests sample_env 9 7 "message"
        (RateLimiter.__init__, world0)).2).1 = false.
Proof.
  split; [reflexivity|]. split.
  - etransitivity.
    + apply (message_burst_is_limited sample_env 10 7 RateLimiter.__init__
               world0); [reflexivity|reflexivity|].
      intros i Hi. cbn. unfold Py.minutes, Py.seconds. lia.
    + reflexivity.
  - etransitivity.
    + apply (message_burst_is_limited sample_env 9 7 RateLimiter.__init__
               world0); [reflexivity|reflexivity|].
      intros i Hi. cbn. unfold Py.minutes, Py.seconds. lia.
    + reflexivity.
Defined.

Lemma limited_user_has_cooldown_witness :
  (RateLimiter.is_rate_limited sample_env 7 "message"
     (flooded_limiter, world0)).1 = true /\
  exists remaining,
    (RateLimiter.get_cooldown_remaining sample_env 7
       (RateLimiter.is_rate_limited sample_env 7 "message"
          (flooded_limiter, world0)).2).1 = Some remaining /\
    0 <= remaining.
Proof.
  assert (H : (RateLimiter.is_rate_limited sample_env 7 "message"
                 (flooded_limiter, world0)).1 = true)
    by (vm_compute; reflexivity).
  split; [exact H|].
  destruct (limited_user_has_cooldown sample_env 7 "message" flooded_limiter
              world0 H) as (remaining & Hr & Hpos & _).
  exists remaining. split; [exact Hr | exact Hpos].
Defined.

(** ** Moderation, continued *)

Lemma is_user_muted_run E chat_id user_id self w :
  ModerationSystem.is_user_muted E chat_id user_id (self, w) =
  match ModerationSystem.muted_users self !! (chat_id, user_id) with
  | None => (false, (self, w))
  | Some unmute_time =>
      if unmute_time <=? clock E (reads w)
      then (false,
            (ModerationSystem.set_muted_users
               (delete (chat_id, user_id) (ModerationSystem.muted_users self))
               self, tick w))
      else (true, (self, tick w))
  end.
Proof.
  unfold ModerationSystem.is_user_muted. run.
  destruct (ModerationSystem.muted_users self !! (chat_id, user_id)) as [t|];
    [|reflexivity].
  cbn. destruct (t <=? _); reflexivity.
Qed.



(** X8.  [unmute_user] sends one request restoring the permissions and
    returns whether it was accepted.  When accepted the user's mute entry
    is gone and [is_user_muted] answers false; when refused the state is
    unchanged.  Warnings and the mutes of other users are never touched. *)
Theorem unmute_user_outcome (E : Env) (update : Update.t) (user_id : Z)
  (self : ModerationSystem.t) (w : World) :
  let chat_id := Chat.id (Update.effective_chat update) in
  let key := (chat_id, user_id) in
  let ok := transport_ok E (length (calls w)) in
  let r := ModerationSystem.unmute_user E update user_id (self, w) in
  r.1 = ok /\
  issued w r.2.2 = [(restrict_chat_member chat_id user_id true None, ok)] /\
  ModerationSystem.warning_counts r.2.1
    = ModerationSystem.warning_counts self /\
  (forall other, other <> key ->
     ModerationSystem.muted_users r.2.1 !! other
     = ModerationSystem.muted_users self !! other) /\
  (if ok
   then ModerationSystem.muted_users r.2.1 !! key = None /\
        (ModerationSystem.is_user_muted E chat_id user_id r.2).1 = false
   else r.2.1 = self).
Proof.
  cbn zeta. unfold ModerationSystem.unmute_user. run.
  destruct (transport_ok E (length (calls w))); cbn.
  - split; [reflexivity|]. split; [apply issued_app; reflexivity|].
    split; [reflexivity|].
    split; [intros other Hne; apply lookup_delete_ne; congruence|].
    split; [apply lookup_delete_eq|].
    match goal with
    | |- (ModerationSystem.is_user_muted ?E ?c ?u (?s, ?w0)).1 = false =>
        rewrite (is_user_muted_run E c u s w0)
    end.
    cbn. rewrite lookup_delete_eq. reflexivity.
  - split; [reflexivity|]. split; [apply issued_app; reflexivity|]. auto.
Qed.

Lemma unmute_all_run E l : forall self w,
  let r := ModerationSystem.unmute_all E l (self, w) in
  calls r.2.2 = (calls w ++ imap (restore_request E (length (calls w))) l)%list /\
  reads r.2.2 = reads w /\
  (forall key,
     (exists i, l !! i = Some key /\
                transport_ok E (length (calls w) + i) = true) ->
     ModerationSystem.muted_users r.2.1 !! key = None) /\
  (forall key,
     (forall i, l !! i = Some key ->
                transport_ok E (length (calls w) + i) = false) ->
     ModerationSystem.muted_users r.2.1 !! key
     = ModerationSystem.muted_users self !! key) /\
  (forall key t,
     ModerationSystem.muted_users r.2.1 !! key = Some t ->
     ModerationSystem.muted_users self !! key = Some t).
Proof.
  induction l as [|[c u] l IH]; intros self w; cbn zeta.
  - cbn. rewrite app_nil_r. split; [reflexivity|]. split; [reflexivity|].
    split; [intros key (i & Hi & _); discriminate|]. auto.
  - set (ok := transport_ok E (length (calls w))).
    set (w1 := {| reads := reads w; draws := draws w;
                  calls := calls w ++
                    [(restrict_chat_member c u true None, ok)] |}).
    set (self1 :=
      if ok
      then ModerationSystem.set_muted_users
             (delete (c, u) (ModerationSystem.muted_users self)) self
      else self).
    assert (Hlen : length (calls w1) = S (length (calls w)))
      by (cbn; rewrite length_app; cbn; lia).
    assert (Heq : ModerationSystem.unmute_all E ((c, u) :: l) (self, w)
                  = ModerationSystem.unmute_all E l (self1, w1)).
    { subst self1 w1. cbn [ModerationSystem.unmute_all].
      unfold in_world, on_self, zoom, modify, transport, mbind, M_bind,
        mret, M_ret. cbn [fst snd]. fold ok. destruct ok; reflexivity. }
    assert (Hself1 :
      if ok
      then ModerationSystem.muted_users self1
           = delete (c, u) (ModerationSystem.muted_users self)
      else self1 = self)
      by (subst self1; destruct ok; reflexivity).
    clearbody self1. rewrite Heq.
    destruct (IH self1 w1) as (Hcalls & Hreads & Hgone & Hkept & Hsub).
    rewrite Hlen in *.
    split.
    { rewrite Hcalls. cbn [calls w1]. rewrite <- app_assoc. f_equal. cbn.
      unfold restore_request at 2. cbn. rewrite Nat.add_0_r. f_equal.
      apply imap_ext. intros i key _. unfold restore_request. cbn.
      f_equal. f_equal. lia. }
    split; [exact Hreads|].
    assert (Hself1' : forall key t,
      ModerationSystem.muted_users self1 !! key = Some t ->
      ModerationSystem.muted_users self !! key = Some t).
    { intros key t. destruct ok; [|subst self1; auto].
      rewrite Hself1. intros H. apply lookup_delete_Some in H. tauto. }
    split; [|split].
    + intros key ([|i] & Hi & Hok).
      * cbn in Hi. injection Hi as <-. rewrite Nat.add_0_r in Hok.
        fold ok in Hok. rewrite Hok in Hself1.
        destruct (ModerationSystem.muted_users
                    (ModerationSystem.unmute_all E l (self1, w1)).2.1
                    !! (c, u)) as [t|] eqn:Hl; [|reflexivity].
        apply Hsub in Hl. rewrite Hself1, lookup_delete_eq in Hl.
        discriminate.
      * apply Hgone. exists i. split; [exact Hi|].
        rewrite <- Hok. f_equal. lia.
    + intros key Hall. rewrite Hkept.
      * pose proof (Hall 0%nat) as H0. destruct (decide (key = (c, u))) as [->|Hne].
        -- specialize (H0 eq_refl). rewrite Nat.add_0_r in H0. fold ok in H0.
           rewrite H0 in Hself1. subst self1. reflexivity.
        -- destruct ok; [|subst self1; reflexivity].
           rewrite Hself1. apply lookup_delete_ne. congruence.
      * intros i Hi. specialize (Hall (S i) Hi). rewrite <- Hall.
        f_equal. lia.
    + intros key t H. apply Hself1', Hsub, H.
Qed.

Lemma expired_mutes_spec now self key :
  key ∈ expired_mutes now self <->
  exists t, ModerationSystem.muted_users self !! key = Some t /\ t <= now.
Proof.
  unfold expired_mutes. rewrite list_elem_of_fmap. split.
  - intros ([k t] & -> & Hin). apply list_elem_of_In, filter_In in Hin.
    destruct Hin as [Hin Ht]. apply list_elem_of_In, elem_of_map_to_list in Hin.
    exists t. split; [exact Hin|]. cbn in Ht. lia.
  - intros (t & Hl & Ht). exists (key, t). split; [reflexivity|].
    apply list_elem_of_In, filter_In. split.
    + apply list_elem_of_In, elem_of_map_to_list, Hl.
    + cbn. lia.
Qed.

(** X9.  [cleanup_expired_restrictions] keeps every mute that has not
    expired, adds none and leaves the warnings alone; it sends one
    permission-restoring request per expired mute, removes each entry whose
    request was accepted, and when all are accepted no expired mute is
    left. *)
Theorem cleanup_expired_restrictions_outcome (E : Env)
  (self : ModerationSystem.t) (w : World) :
  let now := clock E (reads w) in
  let r := ModerationSystem.cleanup_expired_restrictions E (self, w) in
  let expired := expired_mutes now self in
  (forall key unmute_time,
     ModerationSystem.muted_users self !! key = Some unmute_time ->
     now < unmute_time ->
     ModerationSystem.muted_users r.2.1 !! key = Some unmute_time) /\
  (forall key unmute_time,
     ModerationSystem.muted_users r.2.1 !! key = Some unmute_time ->
     ModerationSystem.muted_users self !! key = Some unmute_time) /\
  ModerationSystem.warning_counts r.2.1
    = ModerationSystem.warning_counts self /\
  issued w r.2.2 = imap (restore_request E (length (calls w))) expired /\
  (forall i key,
     expired !! i = Some key ->
     transport_ok E (length (calls w) + i) = true ->
     ModerationSystem.muted_users r.2.1 !! key = None) /\
  ((forall i, (i < length expired)%nat ->
              transport_ok E (length (calls w) + i) = true) ->
   forall key unmute_time,
     ModerationSystem.muted_users r.2.1 !! key = Some unmute_time ->
     now < unmute_time).
Proof.
  cbn zeta. unfold ModerationSystem.cleanup_expired_restrictions. run.
  fold (expired_mutes (clock E (reads w)) self).
  set (l := expired_mutes (clock E (reads w)) self).
  destruct (unmute_all_run E l self (tick w))
    as (Hcalls & _ & Hgone & Hkept & Hsub).
  change {| reads := S (reads w); draws := draws w; calls := calls w |}
    with (tick w).
  change (calls (tick w)) with (calls w) in *.
  split; [|split; [|split; [|split; [|split]]]].
  - intros key t Hl Ht. rewrite Hkept; [exact Hl|].
    intros i Hi. exfalso.
    assert (Hin : key ∈ l) by (eapply list_elem_of_lookup_2; exact Hi).
    apply expired_mutes_spec in Hin. destruct Hin as (t' & Hl' & Ht').
    rewrite Hl in Hl'. injection Hl' as <-. lia.
  - exact Hsub.
  - apply unmute_all_warning_counts.
  - apply issued_app. exact Hcalls.
  - intros i key Hi Hok. apply Hgone. eauto.
  - intros Hall key t Hl.
    destruct (Z.lt_ge_cases (clock E (reads w)) t) as [|Hexp]; [assumption|].
    exfalso.
    assert (Hin : key ∈ l).
    { apply expired_mutes_spec. exists t. split; [apply Hsub, Hl | lia]. }
    apply list_elem_of_lookup_1 in Hin. destruct Hin as (i & Hi).
    rewrite (Hgone key) in Hl; [discriminate|].
    exists i. split; [exact Hi|]. apply Hall.
    eapply lookup_lt_Some. exact Hi.
Qed.


Lemma unmute_user_outcome_witness :
  (ModerationSystem.unmute_user sample_env group_update 8
     (muted_pair, world0)).1 = true /\
  ModerationSystem.muted_users
    (ModerationSystem.unmute_user sample_env group_update 8
       (muted_pair, world0)).2.1 !! (-100, 7) = Some (Py.seconds 0).
Proof.
  pose proof (unmute_user_outcome sample_env group_update 8 muted_pair
                world0) as H.
  cbn zeta in H. destruct H as (Hr & _ & _ & Hother & _).
  split; [exact Hr|].
  rewrite (Hother (-100, 7)); [reflexivity | discriminate].
Defined.

Lemma cleanup_expired_restrictions_outcome_witness :
  let after :=
    (ModerationSystem.cleanup_expired_restrictions sample_env
       (muted_pair, world0)).2.1 in
  ModerationSystem.muted_users after !! (-100, 8) = Some (Py.hours 1) /\
  ModerationSystem.muted_users after !! (-100, 7) = None.
Proof.
  pose proof (cleanup_expired_restrictions_outcome sample_env muted_pair
                world0) as H.
  cbn zeta in H. destruct H as (Hkept & _ & _ & _ & Hgone & _).
  cbn zeta. split.
  - apply Hkept; [reflexivity | vm_compute; reflexivity].
  - apply (Hgone 0%nat); [vm_compute; reflexivity | reflexivity].
Defined.

(** ** Account trust, continued *)

Lemma add_failed_verification_run user_id self :
  let count := default 0 (SecuritySystem.failed_verifications self !! user_id)
  in
  (SecuritySystem.add_failed_verification user_id self).2 =
  let counted :=
    SecuritySystem.set_failed_verifications
      (<[user_id := count + 1]> (SecuritySystem.failed_verifications self))
      self in
  if 3 <=? count + 1
  then SecuritySystem.set_suspicious_users
         ({[user_id]} ∪ SecuritySystem.suspicious_users self) counted
  else counted.
Proof.
  cbn zeta. unfold SecuritySystem.add_failed_verification.
  unfold modify, gets, mbind, M_bind, mret, M_ret. cbn [fst snd].
  cbn [SecuritySystem.failed_verifications
         SecuritySystem.set_failed_verifications].
  rewrite lookup_insert_eq. cbn [default from_option id].
  destruct (3 <=? _); reflexivity.
Qed.

Lemma add_failed_verifications_run n user_id self :
  let count := default 0 (SecuritySystem.failed_verifications self !! user_id)
  in
  let after := (SecuritySessions.add_failed_verifications n user_id self).2 in
  default 0 (SecuritySystem.failed_verifications after !! user_id)
    = count + Z.of_nat n /\
  (user_id ∈ SecuritySystem.suspicious_users after <->
   user_id ∈ SecuritySystem.suspicious_users self \/
   (0 < n)%nat /\ 3 <= count + Z.of_nat n) /\
  (forall other, other <> user_id ->
     SecuritySystem.failed_verifications after !! other
       = SecuritySystem.failed_verifications self !! other /\
     (other ∈ SecuritySystem.suspicious_users after <->
      other ∈ SecuritySystem.suspicious_users self)) /\
  SecuritySystem.user_sessions after = SecuritySystem.user_sessions self /\
  SecuritySystem.session_timestamps after
    = SecuritySystem.session_timestamps self.
Proof.
  cbn zeta. induction n as [|n IH].
  - cbn. split; [lia|]. split; [|auto]. split; [auto|]. intros [H|[H _]];
      [exact H | lia].
  - cbn [SecuritySessions.add_failed_verifications].
    unfold mbind, M_bind.
    destruct (SecuritySessions.add_failed_verifications n user_id self)
      as [[] mid]. cbn [snd] in IH.
    destruct IH as (Hcount & Hsusp & Hother & Hsess & Hts).
    rewrite add_failed_verification_run. cbn zeta. rewrite Hcount.
    destruct (Z.leb_spec 3
                (default 0 (SecuritySystem.failed_verifications self
                              !! user_id) + Z.of_nat n + 1)) as [Hge|Hlt];
      cbn [SecuritySystem.failed_verifications
             SecuritySystem.suspicious_users SecuritySystem.user_sessions
             SecuritySystem.session_timestamps
             SecuritySystem.set_failed_verifications
             SecuritySystem.set_suspicious_users];
      rewrite lookup_insert_eq; cbn [default from_option id].
    + split; [lia|]. split; [|split; [|auto]].
      * split; [intros _; right; lia|]. intros _.
        apply elem_of_union_l, elem_of_singleton. reflexivity.
      * intros other Hne. rewrite lookup_insert_ne by congruence.
        split; [apply Hother, Hne|].
        rewrite <- (proj2 (Hother other Hne)).
        rewrite elem_of_union, elem_of_singleton. tauto.
    + split; [lia|]. split; [|split; [|auto]].
      * rewrite Hsusp. split; [intros [H|[_ H]]; [auto | lia]|].
        intros [H|[_ H]]; [auto | lia].
      * intros other Hne. rewrite lookup_insert_ne by congruence.
        apply Hother, Hne.
Qed.

(** X10.  After [n] failed verifications of a user in a row the user's
    failure count has grown by exactly [n]; the user is reported suspicious
    exactly when they already were or the count has reached 3; no other
    user's count or standing changes. *)
Theorem failed_verifications_escalate (n : nat) (user_id : Z)
  (self : SecuritySystem.t) :
  let count := default 0 (SecuritySystem.failed_verifications self !! user_id)
  in
  let after := (SecuritySessions.add_failed_verifications n user_id self).2 in
  default 0 (SecuritySystem.failed_verifications after !! user_id)
    = count + Z.of_nat n /\
  ((SecuritySystem.is_user_suspicious user_id after).1 = true <->
   (SecuritySystem.is_user_suspicious user_id self).1 = true \/
   (0 < n)%nat /\ 3 <= count + Z.of_nat n) /\
  (forall other, other <> user_id ->
     SecuritySystem.failed_verifications after !! other
       = SecuritySystem.failed_verifications self !! other /\
     (SecuritySystem.is_user_suspicious other after).1
       = (SecuritySystem.is_user_suspicious other self).1).
Proof.
  cbn zeta.
  destruct (add_failed_verifications_run n user_id self)
    as (Hcount & Hsusp & Hother & _).
  split; [exact Hcount|]. unfold SecuritySystem.is_user_suspicious, gets.
  cbn [fst]. split.
  - rewrite !bool_decide_eq_true. exact Hsusp.
  - intros other Hne. split; [apply Hother, Hne|].
    apply bool_decide_ext, Hother, Hne.
Qed.

(** X11.  [mark_user_safe] clears the user's suspicion and failure count
    and nobody else's; from there the user is suspicious again after [n]
    failed verifications exactly when [n] is at least 3. *)
Theorem mark_user_safe_resets (n : nat) (user_id : Z)
  (self : SecuritySystem.t) :
  let safe := (SecuritySystem.mark_user_safe user_id self).2 in
  let after := (SecuritySessions.add_failed_verifications n user_id safe).2 in
  (SecuritySystem.is_user_suspicious user_id safe).1 = false /\
  SecuritySystem.failed_verifications safe !! user_id = None /\
  ((SecuritySystem.is_user_suspicious user_id after).1 = true <->
   (3 <= n)%nat) /\
  (forall other, other <> user_id ->
     SecuritySystem.failed_verifications safe !! other
       = SecuritySystem.failed_verifications self !! other /\
     (SecuritySystem.is_user_suspicious other safe).1
       = (SecuritySystem.is_user_suspicious other self).1).
Proof.
  cbn zeta.
  set (safe := (SecuritySystem.mark_user_safe user_id self).2).
  assert (Hsusp : SecuritySystem.suspicious_users safe
                  = SecuritySystem.suspicious_users self ∖ {[user_id]})
    by reflexivity.
  assert (Hfail : SecuritySystem.failed_verifications safe
                  = delete user_id (SecuritySystem.failed_verifications self))
    by reflexivity.
  destruct (add_failed_verifications_run n user_id safe)
    as (_ & Hafter & _).
  unfold SecuritySystem.is_user_suspicious, gets. cbn [fst].
  split; [|split; [|split]].
  - apply bool_decide_eq_false. rewrite Hsusp. intros H.
    apply elem_of_difference in H. destruct H as [_ H].
    apply H, elem_of_singleton. reflexivity.
  - rewrite Hfail. apply lookup_delete_eq.
  - rewrite bool_decide_eq_true, Hafter, Hfail, lookup_delete_eq, Hsusp.
    cbn [default from_option id]. split.
    + intros [H|[_ H]]; [exfalso | lia].
      apply elem_of_difference in H. destruct H as [_ H].
      apply H, elem_of_singleton. reflexivity.
    + intros H. right. lia.
  - intros other Hne. rewrite Hfail, Hsusp.
    split; [apply lookup_delete_ne; congruence|].
    apply bool_decide_ext.
    rewrite elem_of_difference, elem_of_singleton. tauto.
Qed.

Lemma failed_verifications_escalate_witness :
  (SecuritySystem.is_user_suspicious 7
     (SecuritySessions.add_failed_verifications 2 7
        SecuritySystem.__init__).2).1 = false /\
  (SecuritySystem.is_user_suspicious 7
     (SecuritySessions.add_failed_verifications 3 7
        SecuritySystem.__init__).2).1 = true.
Proof.
  split.
  - apply not_true_is_false. intros H.
    apply (proj1 (proj1 (proj2 (failed_verifications_escalate 2 7
                                  SecuritySystem.__init__)))) in H.
    destruct H as [H|[_ H]]; [discriminate H | vm_compute in H; apply H;
      reflexivity].
  - apply (proj2 (proj1 (proj2 (failed_verifications_escalate 3 7
                                  SecuritySystem.__init__)))).
    right. split; [lia | vm_compute; discriminate].
Defined.

Lemma mark_user_safe_resets_witness :
  (SecuritySystem.is_user_suspicious 7
     (SecuritySessions.add_failed_verifications 3 7
        (SecuritySystem.mark_user_safe 7
           (SecuritySystem.set_suspicious_users {[7]}
              SecuritySystem.__init__)).2).2).1 = true.
Proof.
  apply (proj2 (proj1 (proj2 (proj2 (mark_user_safe_resets 3 7
           (SecuritySystem.set_suspicious_users {[7]}
              SecuritySystem.__init__)))))).
  lia.
Defined.

(** ** Sessions *)

Lemma invalidate_session_run user_id self :
  let after := (SecuritySessions.invalidate_session user_id self).2 in
  SecuritySystem.user_sessions after
    = delete user_id (SecuritySystem.user_sessions self) /\
  SecuritySystem.session_timestamps after
    = delete user_id (SecuritySystem.session_timestamps self) /\
  SecuritySystem.suspicious_users after
    = SecuritySystem.suspicious_users self /\
  SecuritySystem.failed_verifications after
    = SecuritySystem.failed_verifications self.
Proof. cbn zeta. repeat split. Qed.

Lemma generate_session_token_run E token_urlsafe user_id self w :
  SecuritySessions.generate_session_token E token_urlsafe user_id (self, w) =
  (token_urlsafe (draws w),
   (SecuritySessions.set_session_timestamps
      (<[user_id := clock E (reads w)]>
         (SecuritySystem.session_timestamps self))
      (SecuritySessions.set_user_sessions
         (<[user_id := token_urlsafe (draws w)]>
            (SecuritySystem.user_sessions self)) self),
    {| reads := S (reads w); draws := S (draws w); calls := calls w |})).
Proof. reflexivity. Qed.

Lemma validate_session_run E user_id token self w :
  BotConfig.ENABLE_USER_VERIFICATION (config E) = true ->
  SecuritySessions.validate_session E user_id token (self, w) =
  match SecuritySystem.user_sessions self !! user_id with
  | None => (false, (self, w))
  | Some stored =>
      match SecuritySystem.session_timestamps self !! user_id with
      | Some timestamp =>
          if SecuritySessions.timed_out (clock E (reads w)) timestamp
          then (false,
                ((SecuritySessions.invalidate_session user_id self).2,
                 tick w))
          else (negb (SecuritySessions.token_mismatch stored token),
                (self, tick w))
      | None =>
          (negb (SecuritySessions.token_mismatch stored token), (self, w))
      end
  end.
Proof.
  intros Hon. unfold SecuritySessions.validate_session. rewrite Hon.
  cbn [negb]. unfold in_world, on_self, zoom, gets, datetime_now, mbind,
    M_bind, mret, M_ret.
  cbn -[lookup SecuritySessions.invalidate_session SecuritySessions.timed_out
        SecuritySessions.token_mismatch].
  destruct (SecuritySystem.user_sessions self !! user_id) as [stored|];
    [|reflexivity].
  cbn -[lookup SecuritySessions.invalidate_session SecuritySessions.timed_out
        SecuritySessions.token_mismatch].
  destruct (SecuritySystem.session_timestamps self !! user_id) as [ts|].
  - cbn -[lookup SecuritySessions.invalidate_session
          SecuritySessions.timed_out SecuritySessions.token_mismatch].
    destruct (SecuritySessions.timed_out (clock E (reads w)) ts).
    + reflexivity.
    + destruct (SecuritySessions.token_mismatch stored token); reflexivity.
  - destruct (SecuritySessions.token_mismatch stored token); reflexivity.
Qed.

Lemma timed_out_spec now timestamp :
  SecuritySessions.timed_out now timestamp = false <->
  now - timestamp <= 86400000000.
Proof.
  unfold SecuritySessions.timed_out, SecuritySessions.SESSION_TIMEOUT_HOURS,
    Py.hours, Py.minutes, Py.seconds.
  rewrite Z.ltb_ge. lia.
Qed.

Lemma token_mismatch_spec stored token :
  SecuritySessions.token_mismatch stored token = false <->
  token = None \/ token = Some "" \/ token = Some stored.
Proof.
  destruct token as [tok|]; cbn; [|tauto].
  destruct (String.eqb_spec tok ""); cbn.
  - subst. tauto.
  - destruct (String.eqb_spec stored tok); cbn.
    + subst. tauto.
    + split; [discriminate|]. intros [H|[H|H]]; congruence.
Qed.

(** X12.  With user verification enabled, a session validated right
    after it was generated is accepted exactly when no more than 24 hours
    have passed on the clock and the token offered is absent, empty or the
    one issued.  An accepted or merely mismatching check changes nothing; a
    check after the timeout deletes the session and its start time, and
    every later validation for that user fails. *)
Theorem session_valid_until_timeout (E : Env) (token_urlsafe : nat -> string)
  (user_id : Z) (token : option string) (self : SecuritySystem.t)
  (w : World) :
  BotConfig.ENABLE_USER_VERIFICATION (config E) = true ->
  let generated :=
    SecuritySessions.generate_session_token E token_urlsafe user_id (self, w)
  in
  let started := clock E (reads w) in
  let now := clock E (S (reads w)) in
  let checked :=
    SecuritySessions.validate_session E user_id token generated.2 in
  (checked.1 = true <->
   now - started <= 86400000000 /\
   (token = None \/ token = Some "" \/ token = Some generated.1)) /\
  (now - started <= 86400000000 -> checked.2.1 = generated.2.1) /\
  (86400000000 < now - started ->
   SecuritySystem.user_sessions checked.2.1 !! user_id = None /\
   SecuritySystem.session_timestamps checked.2.1 !! user_id = None /\
   forall token' w',
     (SecuritySessions.validate_session E user_id token'
        (checked.2.1, w')).1 = false).
Proof.
  intros Hon. cbn zeta. rewrite generate_session_token_run.
  cbn [fst snd]. rewrite validate_session_run by exact Hon.
  cbn [SecuritySystem.user_sessions SecuritySystem.session_timestamps
         SecuritySessions.set_user_sessions
         SecuritySessions.set_session_timestamps reads].
  rewrite !lookup_insert_eq.
  destruct (SecuritySessions.timed_out (clock E (S (reads w)))
              (clock E (reads w))) eqn:Hout.
  - assert (Hlate : 86400000000 < clock E (S (reads w)) - clock E (reads w)).
    { destruct (Z.lt_ge_cases 86400000000
                  (clock E (S (reads w)) - clock E (reads w)));
        [assumption|].
      assert (SecuritySessions.timed_out (clock E (S (reads w)))
                (clock E (reads w)) = false)
        by (apply timed_out_spec; lia).
      congruence. }
    cbn [fst snd]. split; [split; [discriminate | lia]|].
    split; [lia|]. intros _.
    match goal with
    | |- context [SecuritySessions.invalidate_session user_id ?s] =>
        destruct (invalidate_session_run user_id s) as (Hs & Ht & _)
    end.
    cbn zeta in Hs, Ht. rewrite Hs, Ht, !lookup_delete_eq.
    split; [reflexivity|]. split; [reflexivity|]. intros token' w'.
    rewrite validate_session_run by exact Hon.
    rewrite Hs, lookup_delete_eq. reflexivity.
  - apply timed_out_spec in Hout. cbn [fst snd].
    split; [|split; [reflexivity | lia]].
    rewrite negb_true_iff, token_mismatch_spec. tauto.
Qed.

Lemma session_valid_until_timeout_witness :
  BotConfig.ENABLE_USER_VERIFICATION (config sample_env) = true /\
  (SecuritySessions.validate_session sample_env 7 (Some "s3cret")
     (SecuritySessions.generate_session_token sample_env
        (fun _ => "s3cret") 7 (SecuritySystem.__init__, world0)).2).1 = true
  /\
  (SecuritySessions.validate_session sample_env 7 (Some "guess")
     (SecuritySessions.generate_session_token sample_env
        (fun _ => "s3cret") 7 (SecuritySystem.__init__, world0)).2).1
  <> true.
Proof.
  assert (H : BotConfig.ENABLE_USER_VERIFICATION (config sample_env) = true)
    by reflexivity.
  split; [exact H|]. split.
  - apply (proj1 (session_valid_until_timeout sample_env (fun _ => "s3cret")
                    7 (Some "s3cret") SecuritySystem.__init__ world0 H)).
    split; [vm_compute; discriminate|]. right. right. reflexivity.
  - intros Hv.
    apply (proj1 (session_valid_until_timeout sample_env (fun _ => "s3cret")
                    7 (Some "guess") SecuritySystem.__init__ world0 H))
      in Hv.
    destruct Hv as [_ [Hv|[Hv|Hv]]]; discriminate Hv.
Defined.

Lemma invalidate_all_run l : forall self,
  let after := (SecuritySessions.invalidate_all l self).2 in
  (forall user_id,
     SecuritySystem.user_sessions after !! user_id
     = if bool_decide (user_id ∈ l) then None
       else SecuritySystem.user_sessions self !! user_id) /\
  (forall user_id,
     SecuritySystem.session_timestamps after !! user_id
     = if bool_decide (user_id ∈ l) then None
       else SecuritySystem.session_timestamps self !! user_id) /\
  SecuritySystem.suspicious_users after
    = SecuritySystem.suspicious_users self /\
  SecuritySystem.failed_verifications after
    = SecuritySystem.failed_verifications self.
Proof.
  induction l as [|u l IH]; intros self; cbn zeta.
  - cbn. repeat split.
  - cbn [SecuritySessions.invalidate_all]. unfold mbind, M_bind.
    destruct (SecuritySessions.invalidate_session u self) as [[] mid] eqn:Hm.
    destruct (invalidate_session_run u self) as (Hs & Ht & Hsu & Hf).
    rewrite Hm in Hs, Ht, Hsu, Hf. cbn [snd] in *.
    destruct (IH mid) as (IHs & IHt & IHsu & IHf).
    split; [|split; [|split; congruence]].
    + intros user_id. rewrite IHs, Hs.
      destruct (decide (user_id = u)) as [->|Hne].
      * rewrite lookup_delete_eq.
        rewrite (bool_decide_eq_true_2 (u ∈ u :: l))
          by apply list_elem_of_here.
        destruct (bool_decide (u ∈ l)); reflexivity.
      * rewrite lookup_delete_ne by congruence.
        apply (f_equal (fun b : bool => if b then None else _)).
        apply bool_decide_ext. rewrite elem_of_cons. tauto.
    + intros user_id. rewrite IHt, Ht.
      destruct (decide (user_id = u)) as [->|Hne].
      * rewrite lookup_delete_eq.
        rewrite (bool_decide_eq_true_2 (u ∈ u :: l))
          by apply list_elem_of_here.
        destruct (bool_decide (u ∈ l)); reflexivity.
      * rewrite lookup_delete_ne by congruence.
        apply (f_equal (fun b : bool => if b then None else _)).
        apply bool_decide_ext. rewrite elem_of_cons. tauto.
Qed.

Lemma expired_users_spec now (timestamps : gmap Z Z) user_id :
  user_id ∈ (List.filter (fun kv => SecuritySessions.timed_out now kv.2)
               (map_to_list timestamps)).*1 <->
  exists timestamp,
    timestamps !! user_id = Some timestamp /\
    SecuritySessions.timed_out now timestamp = true.
Proof.
  rewrite list_elem_of_fmap. split.
  - intros ([k t] & -> & Hin). apply list_elem_of_In, filter_In in Hin.
    destruct Hin as [Hin Ht]. apply list_elem_of_In, elem_of_map_to_list in Hin.
    exists t. split; [exact Hin | exact Ht].
  - intros (t & Hl & Ht). exists (user_id, t). split; [reflexivity|].
    apply list_elem_of_In, filter_In. split; [|exact Ht].
    apply list_elem_of_In, elem_of_map_to_list, Hl.
Qed.

Lemma cleanup_old_sessions_run E self w :
  let now := clock E (reads w) in
  let after := (SecuritySessions.cleanup_old_sessions E (self, w)).2.1 in
  forall user_id,
    match SecuritySystem.session_timestamps self !! user_id with
    | Some timestamp =>
        if SecuritySessions.timed_out now timestamp
        then SecuritySystem.user_sessions after !! user_id = None /\
             SecuritySystem.session_timestamps after !! user_id = None
        else SecuritySystem.user_sessions after !! user_id
             = SecuritySystem.user_sessions self !! user_id /\
             SecuritySystem.session_timestamps after !! user_id
             = Some timestamp
    | None =>
        SecuritySystem.user_sessions after !! user_id
        = SecuritySystem.user_sessions self !! user_id /\
        SecuritySystem.session_timestamps after !! user_id = None
    end.
Proof.
  cbn zeta. intros user_id.
  unfold SecuritySessions.cleanup_old_sessions, in_world, on_self, zoom,
    gets, datetime_now, mbind, M_bind, mret, M_ret. cbn [fst snd].
  set (l := (List.filter _ _).*1).
  destruct (SecuritySessions.invalidate_all l self) as [[] after] eqn:Ha.
  destruct (invalidate_all_run l self) as (Hs & Ht & _).
  rewrite Ha in Hs, Ht. cbn [fst snd] in *. rewrite Hs, Ht.
  pose proof (expired_users_spec (clock E (reads w))
                (SecuritySystem.session_timestamps self) user_id) as Hin.
  fold l in Hin.
  destruct (SecuritySystem.session_timestamps self !! user_id) as [ts|].
  - destruct (SecuritySessions.timed_out (clock E (reads w)) ts) eqn:Hout.
    + rewrite bool_decide_eq_true_2 by (apply Hin; eauto). auto.
    + rewrite bool_decide_eq_false_2; [auto|].
      intros H. apply Hin in H. destruct H as (t & Ht' & Hout').
      congruence.
  - rewrite bool_decide_eq_false_2; [auto|].
    intros H. apply Hin in H. destruct H as (t & Ht' & _). discriminate.
Qed.

(** X13.  [cleanup_old_sessions] deletes the session and the start time
    of every user whose session started more than 24 hours ago, keeps
    every other session as it was, leaves only start times within the
    timeout, and does not touch suspicions or failure counts. *)
Theorem cleanup_old_sessions_outcome (E : Env) (self : SecuritySystem.t)
  (w : World) :
  let now := clock E (reads w) in
  let after := (SecuritySessions.cleanup_old_sessions E (self, w)).2.1 in
  (forall user_id timestamp,
     SecuritySystem.session_timestamps self !! user_id = Some timestamp ->
     86400000000 < now - timestamp ->
     SecuritySystem.user_sessions after !! user_id = None /\
     SecuritySystem.session_timestamps after !! user_id = None) /\
  (forall user_id timestamp,
     SecuritySystem.session_timestamps self !! user_id = Some timestamp ->
     now - timestamp <= 86400000000 ->
     SecuritySystem.user_sessions after !! user_id
     = SecuritySystem.user_sessions self !! user_id /\
     SecuritySystem.session_timestamps after !! user_id = Some timestamp) /\
  (forall user_id timestamp,
     SecuritySystem.session_timestamps after !! user_id = Some timestamp ->
     SecuritySystem.session_timestamps self !! user_id = Some timestamp /\
     now - timestamp <= 86400000000) /\
  SecuritySystem.suspicious_users after
    = SecuritySystem.suspicious_users self /\
  SecuritySystem.failed_verifications after
    = SecuritySystem.failed_verifications self.
Proof.
  cbn zeta. pose proof (cleanup_old_sessions_run E self w) as Hrun.
  cbn zeta in Hrun.
  split; [|split; [|split]].
  - intros user_id ts Hl Hlate. specialize (Hrun user_id). rewrite Hl in Hrun.
    destruct (SecuritySessions.timed_out (clock E (reads w)) ts) eqn:Hout;
      [exact Hrun|].
    apply timed_out_spec in Hout. lia.
  - intros user_id ts Hl Hfresh. specialize (Hrun user_id).
    rewrite Hl in Hrun. apply timed_out_spec in Hfresh.
    rewrite Hfresh in Hrun. exact Hrun.
  - intros user_id ts Hl. specialize (Hrun user_id).
    destruct (SecuritySystem.session_timestamps self !! user_id) as [t0|].
    + destruct (SecuritySessions.timed_out (clock E (reads w)) t0) eqn:Hout.
      * destruct Hrun as [_ Hrun]. congruence.
      * destruct Hrun as [_ Hrun]. rewrite Hrun in Hl. injection Hl as <-.
        split; [reflexivity|]. apply timed_out_spec, Hout.
    + destruct Hrun as [_ Hrun]. congruence.
  - unfold SecuritySessions.cleanup_old_sessions, in_world, on_self, zoom,
      gets, datetime_now, mbind, M_bind, mret, M_ret. cbn [fst snd].
    set (l := (List.filter _ _).*1).
    destruct (invalidate_all_run l self) as (_ & _ & Hsu & Hf).
    destruct (SecuritySessions.invalidate_all l self) as [[] after].
    cbn [fst snd] in *. auto.
Qed.

Lemma sessions_paired_lookup self user_id :
  sessions_paired self ->
  SecuritySystem.session_timestamps self !! user_id = None ->
  SecuritySystem.user_sessions self !! user_id = None.
Proof.
  intros Hp Hn. destruct (SecuritySystem.user_sessions self !! user_id) eqn:Hs;
    [|reflexivity].
  assert (H : is_Some (SecuritySystem.session_timestamps self !! user_id))
    by (apply Hp; rewrite Hs; eauto).
  rewrite Hn in H. destruct H. discriminate.
Qed.

Lemma invalidate_session_paired user_id self :
  sessions_paired self ->
  sessions_paired (SecuritySessions.invalidate_session user_id self).2.
Proof.
  intros Hp u. destruct (invalidate_session_run user_id self) as (Hs & Ht & _).
  cbn zeta in Hs, Ht. rewrite Hs, Ht.
  destruct (decide (u = user_id)) as [->|Hne].
  - rewrite !lookup_delete_eq. split; intros []; discriminate.
  - rewrite !lookup_delete_ne by congruence. apply Hp.
Qed.

(** X14.  The session methods keep sessions and start times paired:
    if every session has a start time and conversely, the same holds after
    any of them.  Under that pairing a session that validates has a start
    time at most 24 hours old. *)
Theorem sessions_stay_paired (E : Env) (token_urlsafe : nat -> string)
  (m : SecuritySessions.method) (self : SecuritySystem.t) (w : World) :
  sessions_paired self ->
  sessions_paired (SecuritySessions.invoke E token_urlsafe m (self, w)).2.1 /\
  (BotConfig.ENABLE_USER_VERIFICATION (config E) = true ->
   forall user_id token,
     (SecuritySessions.validate_session E user_id token (self, w)).1 = true ->
     exists timestamp,
       SecuritySystem.session_timestamps self !! user_id = Some timestamp /\
       clock E (reads w) - timestamp <= 86400000000).
Proof.
  intros Hp. split.
  - destruct m as [user_id|user_id token|user_id|];
      cbn [SecuritySessions.invoke].
    + unfold mbind at 1, M_bind at 1. rewrite generate_session_token_run.
      unfold mret, M_ret. cbn [fst snd]. intros u.
      cbn [SecuritySystem.user_sessions SecuritySystem.session_timestamps
             SecuritySessions.set_user_sessions
             SecuritySessions.set_session_timestamps].
      destruct (decide (u = user_id)) as [->|Hne].
      * rewrite !lookup_insert_eq. split; eauto.
      * rewrite !lookup_insert_ne by congruence. apply Hp.
    + unfold mbind at 1, M_bind at 1, mret, M_ret.
      destruct (BotConfig.ENABLE_USER_VERIFICATION (config E)) eqn:Hon.
      * rewrite validate_session_run by exact Hon.
        destruct (SecuritySystem.user_sessions self !! user_id) as [stored|];
          [|exact Hp].
        destruct (SecuritySystem.session_timestamps self !! user_id)
          as [ts|]; [|exact Hp].
        destruct (SecuritySessions.timed_out (clock E (reads w)) ts);
          [|exact Hp].
        apply (invalidate_session_paired user_id self Hp).
      * unfold SecuritySessions.validate_session. rewrite Hon. exact Hp.
    + apply (invalidate_session_paired user_id self Hp).
    + intros u. pose proof (cleanup_old_sessions_run E self w u) as Hrun.
      cbn zeta in Hrun.
      destruct (SecuritySystem.session_timestamps self !! u) as [ts|] eqn:Hts.
      * destruct (SecuritySessions.timed_out (clock E (reads w)) ts).
        -- destruct Hrun as [-> ->]. split; intros []; discriminate.
        -- destruct Hrun as [-> ->]. rewrite <- Hts. apply Hp.
      * destruct Hrun as [-> ->]. rewrite <- Hts. apply Hp.
  - intros Hon user_id token Hv.
    rewrite validate_session_run in Hv by exact Hon.
    destruct (SecuritySystem.session_timestamps self !! user_id) as [ts|]
      eqn:Hts.
    + exists ts. split; [reflexivity|].
      destruct (SecuritySystem.user_sessions self !! user_id);
        [|discriminate].
      destruct (SecuritySessions.timed_out (clock E (reads w)) ts) eqn:Hout;
        [discriminate|].
      apply timed_out_spec, Hout.
    + rewrite (sessions_paired_lookup self user_id Hp Hts) in Hv.
      discriminate.
Qed.

Lemma cleanup_old_sessions_outcome_witness :
  let after :=
    (SecuritySessions.cleanup_old_sessions sample_env
       (stale_sessions, world0)).2.1 in
  SecuritySystem.user_sessions after !! 7 = None /\
  SecuritySystem.user_sessions after !! 8 = Some "new".
Proof.
  pose proof (cleanup_old_sessions_outcome sample_env stale_sessions world0)
    as H.
  cbn zeta in H. destruct H as (Hgone & Hkept & _). cbn zeta. split.
  - apply (Hgone 7 (- Py.hours 25)); [reflexivity | vm_compute; reflexivity].
  - rewrite (proj1 (Hkept 8 0 eq_refl ltac:(vm_compute; discriminate))).
    reflexivity.
Defined.

Lemma sessions_stay_paired_witness :
  sessions_paired stale_sessions /\
  sessions_paired
    (SecuritySessions.invoke sample_env (fun _ => "s3cret")
       (SecuritySessions.GenerateSessionToken 9) (stale_sessions, world0)).2.1.
Proof.
  assert (H : sessions_paired stale_sessions).
  { intros u. cbn.
    rewrite !lookup_insert_is_Some', !lookup_singleton_is_Some. tauto. }
  split; [exact H|].
  exact (proj1 (sessions_stay_paired sample_env (fun _ => "s3cret")
                  (SecuritySessions.GenerateSessionToken 9) stale_sessions
                  world0 H)).
Defined.

(** ** Input validation *)

Lemma prefix_cons a p b s :
  String.prefix (String a p) (String b s) = true <->
  a = b /\ String.prefix p s = true.
Proof.
  cbn. destruct (ascii_dec a b) as [->|Hne]; [tauto|].
  split; [discriminate | tauto].
Qed.









(** ** The registry, continued *)

Lemma get_user_stats_run E user_id username self w :
  BotData.get_user_stats E user_id username (self, w) =
  match BotData.user_stats self !! user_id with
  | None =>
      (tt,
       (BotData.set_user_stats
          (<[user_id := {|
              UserStats.user_id := user_id;
              UserStats.username := username;
              UserStats.first_seen := clock E (reads w);
              UserStats.last_seen := clock E (S (reads w));
              UserStats.message_count := 0;
              UserStats.spam_score := 0;
              UserStats.warnings := 0;
              UserStats.verification_status := "unverified";
              UserStats.last_spam_check := None |}]>
             (BotData.user_stats self)) self,
        tick (tick w)))
  | Some known =>
      (tt,
       (BotData.set_user_stats
          (<[user_id :=
               let seen := UserStats.set_last_seen (clock E (reads w)) known
               in
               if String.eqb username "unknown" then seen
               else UserStats.set_username username seen]>
             (BotData.user_stats self)) self,
        tick w))
  end.
Proof.
  unfold BotData.get_user_stats. run.
  destruct (BotData.user_stats self !! user_id) as [known|] eqn:Hk;
    [|reflexivity].
  cbn. destruct (String.eqb username "unknown"); cbn.
  - f_equal. f_equal. unfold BotData.set_user_stats. f_equal.
    apply map_eq. intros k. destruct (decide (k = user_id)) as [->|Hne].
    + rewrite lookup_alter_eq, lookup_insert_eq, Hk. reflexivity.
    + rewrite lookup_alter_ne, lookup_insert_ne by congruence. reflexivity.
  - f_equal. f_equal. unfold BotData.set_user_stats. cbn. f_equal.
    apply map_eq. intros k. destruct (decide (k = user_id)) as [->|Hne].
    + rewrite !lookup_alter_eq, lookup_insert_eq, Hk. reflexivity.
    + rewrite !lookup_alter_ne, lookup_insert_ne by congruence. reflexivity.
Qed.

Lemma add_spam_violation_run E user_id violation_type self w :
  let now := clock E (reads w) in
  let log :=
    RateLimiter.newer_than (now - Py.days 1)
      (default [] (BotData.spam_violations self !! user_id) ++ [now])%list in
  let logged :=
    BotData.set_spam_violations
      (<[user_id := log]> (BotData.spam_violations self)) self in
  BotData.add_spam_violation E user_id violation_type (self, w) =
  match BotData.user_stats self !! user_id with
  | None =>
      (tt,
       (BotData.set_user_stats
          (<[user_id := {|
              UserStats.user_id := user_id;
              UserStats.username := "unknown";
              UserStats.first_seen := clock E (S (reads w));
              UserStats.last_seen := clock E (S (S (reads w)));
              UserStats.message_count := 0;
              UserStats.spam_score := 1;
              UserStats.warnings := 0;
              UserStats.verification_status := "unverified";
              UserStats.last_spam_check := None |}]>
             (BotData.user_stats self)) logged,
        tick (tick (tick w))))
  | Some known =>
      (tt,
       (BotData.set_user_stats
          (<[user_id :=
               UserStats.set_spam_score (UserStats.spam_score known + 1)
                 (UserStats.set_last_seen (clock E (S (reads w))) known)]>
             (BotData.user_stats self)) logged,
        tick (tick w)))
  end.
Proof.
  cbn zeta. unfold BotData.add_spam_violation.
  unfold in_world, on_self, zoom, modify, datetime_now, mbind, M_bind.
  cbn [fst snd].
  match goal with
  | |- context [BotData.get_user_stats E user_id "unknown" (?s, ?w0)] =>
      rewrite (get_user_stats_run E user_id "unknown" s w0)
  end.
  cbn [BotData.user_stats BotData.set_spam_violations].
  destruct (BotData.user_stats self !! user_id) as [known|] eqn:Hk;
    cbn [fst snd String.eqb Ascii.eqb Bool.eqb].
  - unfold tick. cbn [reads draws calls]. f_equal. f_equal.
    unfold BotData.set_user_stats, BotData.set_spam_violations.
    cbn [BotData.user_stats BotData.spam_violations BotData.session_id
         BotData.owner_id BotData.approved_users BotData.banned_users
         BotData.group_states BotData.chat_history BotData.message_hashes
         BotData.user_message_counts BotData.rate_limit_violations
         BotData.api_call_counts BotData.failed_verifications
         BotData.suspicious_users BotData.session_start_time
         BotData.last_backup_time].
    rewrite lookup_insert_eq. cbn [default from_option id].
    rewrite insert_insert_eq. f_equal.
    apply map_eq. intros k. destruct (decide (k = user_id)) as [->|Hne].
    + rewrite lookup_alter_eq, !lookup_insert_eq. reflexivity.
    + rewrite lookup_alter_ne, !lookup_insert_ne by congruence. reflexivity.
  - unfold tick. cbn [reads draws calls]. f_equal. f_equal.
    unfold BotData.set_user_stats, BotData.set_spam_violations.
    cbn [BotData.user_stats BotData.spam_violations BotData.session_id
         BotData.owner_id BotData.approved_users BotData.banned_users
         BotData.group_states BotData.chat_history BotData.message_hashes
         BotData.user_message_counts BotData.rate_limit_violations
         BotData.api_call_counts BotData.failed_verifications
         BotData.suspicious_users BotData.session_start_time
         BotData.last_backup_time].
    rewrite lookup_insert_eq. cbn [default from_option id].
    rewrite insert_insert_eq. f_equal.
    apply map_eq. intros k. destruct (decide (k = user_id)) as [->|Hne].
    + rewrite lookup_alter_eq, !lookup_insert_eq. reflexivity.
    + rewrite lookup_alter_ne, !lookup_insert_ne by congruence. reflexivity.
Qed.

Lemma add_spam_violation_score E user_id violation_type self w :
  UserStats.spam_score <$>
    (BotData.user_stats
       (BotData.add_spam_violation E user_id violation_type (self, w)).2.1
       !! user_id)
  = Some (default 0 (UserStats.spam_score <$>
                       BotData.user_stats self !! user_id) + 1).
Proof.
  rewrite add_spam_violation_run. cbn zeta.
  destruct (BotData.user_stats self !! user_id) as [known|];
    cbn [fst snd BotData.user_stats BotData.set_user_stats];
    rewrite lookup_insert_eq; reflexivity.
Qed.

Lemma add_spam_violation_other E user_id violation_type self w other :
  other <> user_id ->
  let after :=
    (BotData.add_spam_violation E user_id violation_type (self, w)).2.1 in
  BotData.user_stats after !! other = BotData.user_stats self !! other /\
  BotData.spam_violations after !! other
    = BotData.spam_violations self !! other.
Proof.
  intros Hne. cbn zeta. rewrite add_spam_violation_run. cbn zeta.
  destruct (BotData.user_stats self !! user_id) as [known|];
    cbn [fst snd BotData.user_stats BotData.set_user_stats
           BotData.spam_violations BotData.set_spam_violations];
    rewrite !lookup_insert_ne by congruence; split; reflexivity.
Qed.

Lemma newer_than_app bound l l' :
  RateLimiter.newer_than bound (l ++ l')
  = (RateLimiter.newer_than bound l ++ RateLimiter.newer_than bound l')%list.
Proof. unfold RateLimiter.newer_than. apply List.filter_app. Qed.

Lemma days_positive : 0 < Py.days 1.
Proof. reflexivity. Qed.

(** X16.  [add_spam_violation] appends the time of the call to the user's
    violation log after dropping the entries older than a day, so the log
    only holds times within the last 24 hours; it raises the user's spam
    score by exactly one, creating the record when there was none and
    otherwise keeping the message count, warnings, username, first-seen
    time and verification status; other users, bans and approvals are
    untouched. *)
Theorem spam_violation_recorded (E : Env) (user_id : Z)
  (violation_type : string) (self : BotData.t) (w : World) :
  let now := clock E (reads w) in
  let after :=
    (BotData.add_spam_violation E user_id violation_type (self, w)).2.1 in
  let earlier := default [] (BotData.spam_violations self !! user_id) in
  BotData.spam_violations after !! user_id
    = Some (RateLimiter.newer_than (now - Py.days 1) earlier ++ [now])%list /\
  Forall (fun t => now - Py.days 1 < t)
    (default [] (BotData.spam_violations after !! user_id)) /\
  (exists stats,
     BotData.user_stats after !! user_id = Some stats /\
     UserStats.spam_score stats
       = default 0 (UserStats.spam_score <$>
                      BotData.user_stats self !! user_id) + 1 /\
     forall known,
       BotData.user_stats self !! user_id = Some known ->
       UserStats.message_count stats = UserStats.message_count known /\
       UserStats.warnings stats = UserStats.warnings known /\
       UserStats.username stats = UserStats.username known /\
       UserStats.first_seen stats = UserStats.first_seen known /\
       UserStats.verification_status stats
         = UserStats.verification_status known) /\
  (forall other, other <> user_id ->
     BotData.user_stats after !! other = BotData.user_stats self !! other /\
     BotData.spam_violations after !! other
       = BotData.spam_violations self !! other) /\
  BotData.banned_users after = BotData.banned_users self /\
  BotData.approved_users after = BotData.approved_users self.
Proof.
  cbn zeta.
  assert (Hlog :
    BotData.spam_violations
      (BotData.add_spam_violation E user_id violation_type (self, w)).2.1
      !! user_id
    = Some (RateLimiter.newer_than (clock E (reads w) - Py.days 1)
              (default [] (BotData.spam_violations self !! user_id))
            ++ [clock E (reads w)])%list).
  { rewrite add_spam_violation_run. cbn zeta.
    destruct (BotData.user_stats self !! user_id);
      cbn [fst snd BotData.spam_violations BotData.set_user_stats
             BotData.set_spam_violations];
      rewrite lookup_insert_eq, newer_than_app; f_equal; f_equal;
      unfold RateLimiter.newer_than; cbn [List.filter];
      pose proof days_positive;
      destruct (Z.ltb_spec (clock E (reads w) - Py.days 1)
                  (clock E (reads w))); try lia; reflexivity. }
  split; [exact Hlog|]. split.
  { rewrite Hlog. cbn [default from_option id]. apply Forall_app. split.
    - unfold RateLimiter.newer_than. apply Forall_forall. intros t Hin.
      apply list_elem_of_In, filter_In in Hin. destruct Hin as [_ Hin]. lia.
    - constructor; [|constructor]. pose proof days_positive. lia. }
  split.
  { pose proof (add_spam_violation_score E user_id violation_type self w)
      as Hscore.
    rewrite add_spam_violation_run in Hscore |- *. cbn zeta in Hscore |- *.
    destruct (BotData.user_stats self !! user_id) as [known|] eqn:Hk;
      cbn [fst snd BotData.user_stats BotData.set_user_stats] in Hscore |- *;
      rewrite lookup_insert_eq in Hscore |- *;
      eexists; (split; [reflexivity|]); (split; [reflexivity|]).
    - intros known' [= <-]. repeat split.
    - intros known' [=]. }
  split; [intros other Hne;
          apply (add_spam_violation_other E user_id violation_type self w
                   other Hne)|].
  rewrite add_spam_violation_run. cbn zeta.
  destruct (BotData.user_stats self !! user_id); split; reflexivity.
Qed.

Lemma add_spam_violations_score E n user_id : forall self w,
  (0 < n)%nat ->
  UserStats.spam_score <$>
    (BotData.user_stats
       (BotDataOps.add_spam_violations E n user_id (self, w)).2.1 !! user_id)
  = Some (default 0 (UserStats.spam_score <$>
                       BotData.user_stats self !! user_id) + Z.of_nat n).
Proof.
  induction n as [|n IH]; intros self w Hn; [lia|].
  cbn [BotDataOps.add_spam_violations]. unfold mbind, M_bind.
  destruct (BotDataOps.add_spam_violations E n user_id (self, w))
    as [[] [mid w1]] eqn:Hmid.
  rewrite add_spam_violation_score.
  destruct n as [|n].
  - cbn in Hmid. injection Hmid as <- <-. f_equal.
  - specialize (IH self w ltac:(lia)). rewrite Hmid in IH. cbn [fst snd] in IH.
    rewrite IH. cbn [default from_option id]. f_equal. lia.
Qed.

(** X17.  After [n >= 1] spam violations of a user in a row the user's
    spam score is the earlier score (0 when there was no record) plus [n],
    and [should_auto_ban] answers true exactly when that sum has reached
    AUTO_BAN_SPAM_SCORE. *)
Theorem repeated_violations_reach_auto_ban (E : Env) (n : nat) (user_id : Z)
  (self : BotData.t) (w : World) :
  (0 < n)%nat ->
  let after := (BotDataOps.add_spam_violations E n user_id (self, w)).2.1 in
  let score :=
    default 0 (UserStats.spam_score <$> BotData.user_stats self !! user_id)
  in
  UserStats.spam_score <$> (BotData.user_stats after !! user_id)
    = Some (score + Z.of_nat n) /\
  AntiSpam.should_auto_ban E after user_id
    = (BotConfig.AUTO_BAN_SPAM_SCORE (config E) <=? score + Z.of_nat n).
Proof.
  intros Hn. cbn zeta.
  pose proof (add_spam_violations_score E n user_id self w Hn) as Hscore.
  split; [exact Hscore|]. unfold AntiSpam.should_auto_ban.
  destruct (BotData.user_stats
              (BotDataOps.add_spam_violations E n user_id (self, w)).2.1
              !! user_id) as [stats|]; [|discriminate].
  cbn in Hscore. injection Hscore as ->. reflexivity.
Qed.

Lemma spam_violation_recorded_witness :
  UserStats.spam_score <$>
    (BotData.user_stats
       (BotData.add_spam_violation sample_env 7 "flood"
          (fresh_data, world0)).2.1 !! 7) = Some 1.
Proof.
  destruct (spam_violation_recorded sample_env 7 "flood" fresh_data world0)
    as (_ & _ & (stats & Hs & Hscore & _) & _).
  rewrite Hs. cbn [fmap option_fmap option_map]. f_equal. exact Hscore.
Defined.

Lemma repeated_violations_reach_auto_ban_witness :
  (0 < 10)%nat /\
  AntiSpam.should_auto_ban sample_env
    (BotDataOps.add_spam_violations sample_env 10 7 (fresh_data, world0)).2.1
    7 = true.
Proof.
  assert (H : (0 < 10)%nat) by lia.
  split; [exact H|].
  rewrite (proj2 (repeated_violations_reach_auto_ban sample_env 10 7
                    fresh_data world0 H)).
  vm_compute. reflexivity.
Defined.

(** ** Cleaning and saving *)

Lemma clean_hash_lookup hour_ago hashes msg_hash h :
  BotDataOps.clean_hash hour_ago hashes msg_hash !! h
  = if decide (h = msg_hash)
    then fresh_bucket hour_ago (Some (default [] (hashes !! msg_hash)))
    else hashes !! h.
Proof.
  unfold BotDataOps.clean_hash, fresh_bucket. cbn zeta.
  rewrite lookup_insert_eq. cbn [default from_option id].
  destruct (RateLimiter.newer_than hour_ago (default [] (hashes !! msg_hash)))
    as [|t kept] eqn:Hk; destruct (decide (h = msg_hash)) as [->|Hne].
  - apply lookup_delete_eq.
  - rewrite lookup_delete_ne, lookup_insert_ne by congruence. reflexivity.
  - apply lookup_insert_eq.
  - rewrite lookup_insert_ne by congruence. reflexivity.
Qed.

Lemma fresh_bucket_default hour_ago bucket :
  fresh_bucket hour_ago (Some (default [] bucket))
  = fresh_bucket hour_ago bucket.
Proof. destruct bucket; reflexivity. Qed.

Lemma foldl_clean_hash hour_ago h keys : forall hashes,
  NoDup keys ->
  foldl (BotDataOps.clean_hash hour_ago) hashes keys !! h
  = if bool_decide (h ∈ keys) then fresh_bucket hour_ago (hashes !! h)
    else hashes !! h.
Proof.
  induction keys as [|k keys IH]; intros hashes Hnd; [reflexivity|].
  apply NoDup_cons in Hnd. destruct Hnd as [Hk Hnd].
  cbn [foldl]. rewrite IH by exact Hnd. rewrite !clean_hash_lookup.
  destruct (decide (h = k)) as [->|Hne].
  - rewrite (bool_decide_eq_false_2 (k ∈ keys)) by exact Hk.
    rewrite (bool_decide_eq_true_2 (k ∈ k :: keys))
      by apply list_elem_of_here.
    apply fresh_bucket_default.
  - destruct (bool_decide (h ∈ keys)) eqn:Hin.
    + rewrite (bool_decide_eq_true_2 (h ∈ k :: keys)); [reflexivity|].
      apply bool_decide_eq_true in Hin. apply list_elem_of_further, Hin.
    + rewrite (bool_decide_eq_false_2 (h ∈ k :: keys)); [reflexivity|].
      apply bool_decide_eq_false in Hin. intros H.
      apply elem_of_cons in H. tauto.
Qed.

Lemma clean_hashes_lookup hour_ago hashes h :
  BotDataOps.clean_hashes hour_ago hashes !! h
  = fresh_bucket hour_ago (hashes !! h).
Proof.
  unfold BotDataOps.clean_hashes.
  rewrite foldl_clean_hash by apply NoDup_fst_map_to_list.
  destruct (bool_decide (h ∈ (map_to_list hashes).*1)) eqn:Hin;
    [reflexivity|].
  apply bool_decide_eq_false in Hin.
  destruct (hashes !! h) as [times|] eqn:Hl; [|reflexivity].
  exfalso. apply Hin. apply list_elem_of_fmap. exists (h, times).
  split; [reflexivity|]. apply elem_of_map_to_list, Hl.
Qed.

Lemma foldl_delete_lookup (u : Z) users : forall banned : gmap Z Z,
  foldl (fun banned user_id => delete user_id banned) banned users !! u
  = if bool_decide (u ∈ users) then None else banned !! u.
Proof.
  induction users as [|k users IH]; intros banned; [reflexivity|].
  cbn [foldl]. rewrite IH.
  destruct (decide (u = k)) as [->|Hne].
  - rewrite lookup_delete_eq.
    rewrite (bool_decide_eq_true_2 (k ∈ k :: users))
      by apply list_elem_of_here.
    destruct (bool_decide (k ∈ users)); reflexivity.
  - rewrite lookup_delete_ne by congruence.
    apply (f_equal (fun b : bool => if b then None else _)).
    apply bool_decide_ext. rewrite elem_of_cons. tauto.
Qed.

Lemma clean_bans_lookup now banned u :
  BotDataOps.clean_bans now banned !! u
  = match banned !! u with
    | Some ban_end => if ban_end <? now then None else Some ban_end
    | None => None
    end.
Proof.
  unfold BotDataOps.clean_bans. rewrite foldl_delete_lookup.
  assert (Hin : u ∈ BotDataOps.expired_bans now banned <->
                exists ban_end, banned !! u = Some ban_end /\
                                (ban_end <? now) = true).
  { unfold BotDataOps.expired_bans. rewrite list_elem_of_fmap. split.
    - intros ([k t] & -> & Hin). apply list_elem_of_In, filter_In in Hin.
      destruct Hin as [Hin Ht].
      apply list_elem_of_In, elem_of_map_to_list in Hin. eauto.
    - intros (t & Hl & Ht). exists (u, t). split; [reflexivity|].
      apply list_elem_of_In, filter_In. split; [|exact Ht].
      apply list_elem_of_In, elem_of_map_to_list, Hl. }
  destruct (banned !! u) as [ban_end|].
  - destruct (ban_end <? now) eqn:Hexp.
    + rewrite bool_decide_eq_true_2 by (apply Hin; eauto). reflexivity.
    + rewrite bool_decide_eq_false_2; [reflexivity|].
      intros H. apply Hin in H. destruct H as (t & [= <-] & Ht). congruence.
  - rewrite bool_decide_eq_false_2; [reflexivity|].
    intros H. apply Hin in H. destruct H as (t & Hl & _). discriminate.
Qed.

Lemma clean_old_data_run E self w :
  BotDataOps.clean_old_data E (self, w) =
  let now := clock E (reads w) in
  let pruned :=
    BotDataOps.set_banned_users
      (BotDataOps.clean_bans now (BotData.banned_users self))
      (BotDataOps.set_message_hashes
         (BotDataOps.clean_hashes (now - Py.hours 1)
            (BotData.message_hashes self)) self) in
  (tt,
   (if 1000 <? Py.len_list (BotData.chat_history self)
    then BotData.set_chat_history
           (Py.last_n 1000 (BotData.chat_history self)) pruned
    else pruned,
    tick w)).
Proof. reflexivity. Qed.

(** X18.  [clean_old_data] leaves in every bucket of message hashes
    exactly the send times of the last hour and drops the buckets left
    empty; it drops exactly the bans that ended before now; it keeps the
    last 1000 entries of the chat history; and it changes nothing else. *)
Theorem clean_old_data_outcome (E : Env) (self : BotData.t) (w : World) :
  let now := clock E (reads w) in
  let after := (BotDataOps.clean_old_data E (self, w)).2.1 in
  (forall msg_hash,
     BotData.message_hashes after !! msg_hash
     = match BotData.message_hashes self !! msg_hash with
       | Some times =>
           match RateLimiter.newer_than (now - Py.hours 1) times with
           | [] => None
           | kept => Some kept
           end
       | None => None
       end) /\
  (forall user_id,
     BotData.banned_users after !! user_id
     = match BotData.banned_users self !! user_id with
       | Some ban_end => if ban_end <? now then None else Some ban_end
       | None => None
       end) /\
  BotData.chat_history after
    = drop (length (BotData.chat_history self) - 1000)
        (BotData.chat_history self) /\
  (length (BotData.chat_history after) <= 1000)%nat /\
  BotData.user_stats after = BotData.user_stats self /\
  BotData.approved_users after = BotData.approved_users self /\
  BotData.spam_violations after = BotData.spam_violations self /\
  BotData.suspicious_users after = BotData.suspicious_users self /\
  BotData.session_id after = BotData.session_id self.
Proof.
  cbn zeta. rewrite clean_old_data_run. cbn zeta. cbn [fst snd].
  assert (Hhist :
    BotData.chat_history
      (if 1000 <? Py.len_list (BotData.chat_history self)
       then BotData.set_chat_history
              (Py.last_n 1000 (BotData.chat_history self))
              (BotDataOps.set_banned_users
                 (BotDataOps.clean_bans (clock E (reads w))
                    (BotData.banned_users self))
                 (BotDataOps.set_message_hashes
                    (BotDataOps.clean_hashes
                       (clock E (reads w) - Py.hours 1)
                       (BotData.message_hashes self)) self))
       else BotDataOps.set_banned_users
              (BotDataOps.clean_bans (clock E (reads w))
                 (BotData.banned_users self))
              (BotDataOps.set_message_hashes
                 (BotDataOps.clean_hashes (clock E (reads w) - Py.hours 1)
                    (BotData.message_hashes self)) self))
    = drop (length (BotData.chat_history self) - 1000)
        (BotData.chat_history self)).
  { unfold Py.len_list.
    destruct (Z.ltb_spec 1000 (Z.of_nat (length (BotData.chat_history self))))
      as [Hlong|Hshort]; cbn; [reflexivity|].
    replace (length (BotData.chat_history self) - 1000)%nat with 0%nat
      by lia.
    reflexivity. }
  split; [|split; [|split; [|split]]].
  - intros msg_hash.
    destruct (1000 <? _);
      exact (clean_hashes_lookup (clock E (reads w) - Py.hours 1)
               (BotData.message_hashes self) msg_hash).
  - intros user_id.
    destruct (1000 <? _);
      exact (clean_bans_lookup (clock E (reads w))
               (BotData.banned_users self) user_id).
  - exact Hhist.
  - rewrite Hhist, length_drop. lia.
  - destruct (1000 <? _); repeat split.
Qed.

Lemma clean_old_data_outcome_witness :
  let after :=
    (BotDataOps.clean_old_data sample_env (banned_data, world0)).2.1 in
  BotData.banned_users after !! 7 = None /\
  BotData.banned_users after !! 8 = Some (Py.hours 1).
Proof.
  cbn zeta. split.
  - rewrite (proj1 (proj2 (clean_old_data_outcome sample_env banned_data
                             world0))).
    reflexivity.
  - rewrite (proj1 (proj2 (clean_old_data_outcome sample_env banned_data
                             world0))).
    reflexivity.
Defined.

Lemma length_append (s t : string) :
  String.length (s ++ t) = (String.length s + String.length t)%nat.
Proof.
  induction s as [|c s IH]; [reflexivity|].
  change (S (String.length (s ++ t))
          = S (String.length s + String.length t)%nat).
  rewrite IH. reflexivity.
Qed.

Lemma append_longer (s t : string) : t <> "" -> s <> s ++ t.
Proof.
  intros Ht Heq. apply (f_equal String.length) in Heq.
  rewrite length_append in Heq.
  destruct t; [congruence | cbn in Heq; lia].
Qed.

Lemma save_data_run E json_dumps bot_data files w :
  let cleaned := (BotDataOps.clean_old_data E (bot_data, w)).2.1 in
  let DATA_FILE := BotConfig.DATA_FILE (config E) in
  BotDataOps.save_data E json_dumps ((bot_data, files), w) =
  (tt,
   ((cleaned,
     <[DATA_FILE := json_dumps (BotData.to_dict E cleaned)]>
       match files !! DATA_FILE with
       | Some content => <[DATA_FILE ++ ".backup" := content]> files
       | None => files
       end),
    tick w)).
Proof.
  cbn zeta. unfold BotDataOps.save_data, zoom, modify, gets, mbind, M_bind,
    mret, M_ret.
  cbn [fst snd]. rewrite clean_old_data_run. cbn zeta. cbn [fst snd].
  destruct (files !! BotConfig.DATA_FILE (config E)); reflexivity.
Qed.

(** X19.  When [int] undoes [str], [fromisoformat] undoes [isoformat] and
    the JSON text written reads back as the snapshot, [load_data] after
    [save_data] returns the cleaned state as a snapshot keeps it and moves
    no file aside; the earlier content of the data file is kept under
    [.backup] and no other file is touched. *)
Theorem save_then_load (E : Env) (json_dumps : Snapshot.t -> string)
  (json_load : string -> option Snapshot.t) (strftime : Z -> string)
  (bot_data : BotData.t) (files : gmap string string) (w : World) :
  codec_laws E ->
  let cleaned := (BotDataOps.clean_old_data E (bot_data, w)).2.1 in
  json_load (json_dumps (BotData.to_dict E cleaned))
    = Some (BotData.to_dict E cleaned) ->
  let DATA_FILE := BotConfig.DATA_FILE (config E) in
  let saved := (BotDataOps.save_data E json_dumps ((bot_data, files), w)).2 in
  let loaded :=
    Storage.load_data E json_load strftime (saved.1.2, saved.2) in
  saved.1.1 = cleaned /\
  loaded.1 = BotData.persisted cleaned /\
  loaded.2.1 = saved.1.2 /\
  (forall content,
     files !! DATA_FILE = Some content ->
     saved.1.2 !! (DATA_FILE ++ ".backup") = Some content) /\
  (forall name,
     name <> DATA_FILE -> name <> DATA_FILE ++ ".backup" ->
     saved.1.2 !! name = files !! name).
Proof.
  intros Hcodec. cbn zeta. intros Hjson. rewrite save_data_run. cbn zeta.
  cbn [fst snd].
  set (cleaned := (BotDataOps.clean_old_data E (bot_data, w)).2.1) in *.
  set (DATA_FILE := BotConfig.DATA_FILE (config E)).
  set (stored := <[DATA_FILE := _]> _).
  assert (Hfile : stored !! DATA_FILE
                  = Some (json_dumps (BotData.to_dict E cleaned)))
    by apply lookup_insert_eq.
  assert (Hload :
    Storage.load_data E json_load strftime (stored, tick w)
    = (BotData.persisted cleaned,
       (stored,
        (BotData.from_dict E (BotData.to_dict E cleaned) (tick w)).2))).
  { unfold Storage.load_data, Storage.DATA_FILE, gets, in_world, zoom, mbind,
      M_bind, mret, M_ret. cbn [fst snd]. fold DATA_FILE.
    rewrite Hfile, Hjson.
    pose proof (from_dict_to_dict E Hcodec cleaned (tick w)) as Hrt.
    rewrite from_dict_run in Hrt |- *. cbn [fst snd] in Hrt |- *.
    rewrite Hrt. reflexivity. }
  split; [reflexivity|]. rewrite Hload. cbn [fst snd].
  split; [reflexivity|]. split; [reflexivity|]. split.
  - intros content Hc. subst stored. rewrite Hc.
    rewrite lookup_insert_ne by (apply append_longer; discriminate).
    apply lookup_insert_eq.
  - intros name Hn Hb. subst stored. rewrite lookup_insert_ne by congruence.
    destruct (files !! DATA_FILE); [|reflexivity].
    rewrite lookup_insert_ne by congruence. reflexivity.
Qed.

Lemma save_then_load_witness :
  let json_dumps := fun _ : Snapshot.t => "{}" in
  let json_load := fun _ : string =>
    Some (BotData.to_dict sample_env
            (BotDataOps.clean_old_data sample_env
               (banned_data, world0)).2.1) in
  let saved :=
    (BotDataOps.save_data sample_env json_dumps ((banned_data, ∅), world0)).2
  in
  codec_laws sample_env /\
  (Storage.load_data sample_env json_load Py.str (saved.1.2, saved.2)).1
  = BotData.persisted
      (BotDataOps.clean_old_data sample_env (banned_data, world0)).2.1.
Proof.
  cbn zeta. split; [exact sample_codec|].
  exact (proj1 (proj2 (save_then_load sample_env (fun _ => "{}")
    (fun _ => Some (BotData.to_dict sample_env
                      (BotDataOps.clean_old_data sample_env
                         (banned_data, world0)).2.1))
    Py.str banned_data ∅ world0 sample_codec eq_refl))).
Defined.

(** ** The scorer, continued *)

Lemma reset_hash_lookup user_id hashes message_hash h :
  AntiSpamOps.reset_hash user_id hashes message_hash !! h
  = if decide (h = message_hash)
    then others_of user_id (Some (default [] (hashes !! message_hash)))
    else hashes !! h.
Proof.
  unfold AntiSpamOps.reset_hash, others_of. cbn zeta.
  rewrite lookup_insert_eq. cbn [default from_option id].
  destruct (List.filter _ (default [] (hashes !! message_hash)))
    as [|e remaining] eqn:Hk; destruct (decide (h = message_hash)) as [->|Hne].
  - apply lookup_delete_eq.
  - rewrite lookup_delete_ne, lookup_insert_ne by congruence. reflexivity.
  - apply lookup_insert_eq.
  - rewrite lookup_insert_ne by congruence. reflexivity.
Qed.

Lemma others_of_default user_id bucket :
  others_of user_id (Some (default [] bucket)) = others_of user_id bucket.
Proof. destruct bucket; reflexivity. Qed.

Lemma foldl_reset_hash user_id h keys : forall hashes,
  NoDup keys ->
  foldl (AntiSpamOps.reset_hash user_id) hashes keys !! h
  = if bool_decide (h ∈ keys) then others_of user_id (hashes !! h)
    else hashes !! h.
Proof.
  induction keys as [|k keys IH]; intros hashes Hnd; [reflexivity|].
  apply NoDup_cons in Hnd. destruct Hnd as [Hk Hnd].
  cbn [foldl]. rewrite IH by exact Hnd. rewrite !reset_hash_lookup.
  destruct (decide (h = k)) as [->|Hne].
  - rewrite (bool_decide_eq_false_2 (k ∈ keys)) by exact Hk.
    rewrite (bool_decide_eq_true_2 (k ∈ k :: keys)) by apply list_elem_of_here.
    apply others_of_default.
  - destruct (bool_decide (h ∈ keys)) eqn:Hin.
    + rewrite (bool_decide_eq_true_2 (h ∈ k :: keys)); [reflexivity|].
      apply bool_decide_eq_true in Hin. apply list_elem_of_further, Hin.
    + rewrite (bool_decide_eq_false_2 (h ∈ k :: keys)); [reflexivity|].
      apply bool_decide_eq_false in Hin. intros H.
      apply elem_of_cons in H. tauto.
Qed.

Lemma reset_user_spam_data_run user_id self :
  let reset := (AntiSpamOps.reset_user_spam_data user_id self).2 in
  AntiSpam.user_message_intervals reset
    = delete user_id (AntiSpam.user_message_intervals self) /\
  forall h,
    AntiSpam.message_hashes reset !! h
    = others_of user_id (AntiSpam.message_hashes self !! h).
Proof.
  cbn zeta. split; [reflexivity|]. intros h.
  unfold AntiSpamOps.reset_user_spam_data, modify, mbind, M_bind.
  cbn [fst snd AntiSpam.message_hashes AntiSpam.set_message_hashes
         AntiSpam.set_user_message_intervals].
  rewrite foldl_reset_hash by apply NoDup_fst_map_to_list.
  destruct (bool_decide (h ∈ (map_to_list (AntiSpam.message_hashes self)).*1))
    eqn:Hin; [reflexivity|].
  apply bool_decide_eq_false in Hin.
  destruct (AntiSpam.message_hashes self !! h) as [bucket|] eqn:Hl;
    [|reflexivity].
  exfalso. apply Hin. apply list_elem_of_fmap. exists (h, bucket).
  split; [reflexivity|]. apply elem_of_map_to_list, Hl.
Qed.

Lemma own_others user_id other entries :
  other <> user_id ->
  own other (List.filter (fun e => negb (e.1 =? user_id)) entries)
  = own other entries.
Proof.
  intros Hne. unfold own. induction entries as [|e entries IH];
    [reflexivity|].
  cbn. destruct (Z.eqb_spec e.1 user_id) as [He|He]; cbn.
  - destruct (Z.eqb_spec e.1 other); [congruence | exact IH].
  - destruct (e.1 =? other); [f_equal|]; exact IH.
Qed.

Lemma own_others_self user_id entries :
  own user_id (List.filter (fun e => negb (e.1 =? user_id)) entries) = [].
Proof.
  unfold own. induction entries as [|e entries IH]; [reflexivity|].
  cbn. destruct (e.1 =? user_id) eqn:He; cbn; [exact IH|].
  rewrite He. exact IH.
Qed.

Lemma others_of_default_filter user_id bucket :
  default [] (others_of user_id bucket)
  = List.filter (fun e => negb (e.1 =? user_id)) (default [] bucket).
Proof.
  destruct bucket as [entries|]; [|reflexivity]. cbn.
  destruct (List.filter _ entries); reflexivity.
Qed.

(** X20.  [reset_user_spam_data] forgets the user: their message times
    are gone, no bucket holds an entry of theirs and no bucket is left
    empty, while the times and entries of every other user are as they
    were; the duplicate check and the frequency check that follow treat
    the user as never seen. *)
Theorem reset_user_spam_data_outcome (E : Env) (user_id : Z)
  (message : string) (self : AntiSpam.t) (w : World) :
  let reset := (AntiSpamOps.reset_user_spam_data user_id self).2 in
  AntiSpam.user_message_intervals reset !! user_id = None /\
  (forall h bucket,
     AntiSpam.message_hashes reset !! h = Some bucket ->
     bucket <> [] /\ own user_id bucket = []) /\
  (forall other, other <> user_id ->
     AntiSpam.user_message_intervals reset !! other
       = AntiSpam.user_message_intervals self !! other /\
     forall h,
       own other (default [] (AntiSpam.message_hashes reset !! h))
       = own other (default [] (AntiSpam.message_hashes self !! h))) /\
  (AntiSpam._check_duplicate_message E user_id message (reset, w)).1
    = penalty E 0 /\
  (AntiSpam._check_rapid_messaging E user_id (reset, w)).1 = false.
Proof.
  cbn zeta.
  destruct (reset_user_spam_data_run user_id self) as (Hint & Hhash).
  cbn zeta in Hint, Hhash.
  set (reset := (AntiSpamOps.reset_user_spam_data user_id self).2) in *.
  split; [rewrite Hint; apply lookup_delete_eq|].
  split; [|split; [|split]].
  - intros h bucket Hb. rewrite Hhash in Hb. unfold others_of in Hb.
    destruct (AntiSpam.message_hashes self !! h) as [entries|];
      [|discriminate].
    pose proof (own_others_self user_id entries) as Hown.
    destruct (List.filter _ entries) as [|e remaining]; [discriminate|].
    injection Hb as <-. split; [discriminate | exact Hown].
  - intros other Hne. split.
    + rewrite Hint. apply lookup_delete_ne. congruence.
    + intros h. rewrite Hhash, others_of_default_filter.
      apply own_others, Hne.
  - rewrite check_duplicate_message_run. cbn zeta. cbn [fst].
    rewrite Hhash, others_of_default_filter.
    assert (Hnone :
      own user_id
        (kept (clock E (reads w))
           (List.filter (fun e => negb (e.1 =? user_id))
              (default [] (AntiSpam.message_hashes self
                             !! md5_hexdigest E message)))) = []).
    { unfold kept, own.
      induction (default [] (AntiSpam.message_hashes self
                               !! md5_hexdigest E message)) as [|e l IH];
        [reflexivity|].
      cbn. destruct (e.1 =? user_id) eqn:He; cbn; [exact IH|].
      destruct (_ <? e.2); cbn; [rewrite He|]; exact IH. }
    rewrite Hnone. reflexivity.
  - rewrite check_rapid_messaging_run. cbn zeta. cbn [fst].
    rewrite Hint, lookup_delete_eq. cbn [default from_option id app].
    unfold Py.last_n. cbn [length Nat.sub drop].
    unfold RateLimiter.newer_than. cbn [List.filter].
    destruct (Z.ltb_spec (clock E (reads w) - Py.seconds 30)
                (clock E (reads w))) as [_|Hbad];
      [reflexivity | unfold Py.seconds in Hbad; lia].
Qed.

Lemma reset_user_spam_data_outcome_witness :
  (AntiSpam._check_rapid_messaging sample_env 7
     ((AntiSpamOps.reset_user_spam_data 7 busy_scorer).2, world0)).1 = false
  /\
  own 8 (default []
           (AntiSpam.message_hashes
              (AntiSpamOps.reset_user_spam_data 7 busy_scorer).2 !! "hello"))
  = [(8, 0)].
Proof.
  pose proof (reset_user_spam_data_outcome sample_env 7 "hello" busy_scorer
                world0) as H.
  cbn zeta in H. destruct H as (_ & _ & Hother & _ & Hrapid).
  split; [exact Hrapid|].
  rewrite (proj2 (Hother 8 ltac:(discriminate)) "hello"). reflexivity.
Defined.

Lemma last_n_short {A} (n : nat) (l : list A) :
  (length l <= n)%nat -> Py.last_n n l = l.
Proof.
  intros H. unfold Py.last_n.
  replace (length l - n)%nat with 0%nat by lia. reflexivity.
Qed.

Lemma last_n_length {A} (n : nat) (l : list A) :
  length (Py.last_n n l) = Nat.min (length l) n.
Proof. unfold Py.last_n. rewrite length_drop. lia. Qed.

Lemma last_n_snoc {A} (n : nat) (l : list A) (x : A) :
  (0 < n)%nat ->
  Py.last_n n (Py.last_n n l ++ [x]) = Py.last_n n (l ++ [x]).
Proof.
  intros Hn. destruct (Nat.le_gt_cases (length l) n) as [Hle|Hgt].
  - rewrite (last_n_short n l Hle). reflexivity.
  - unfold Py.last_n at 1 3. rewrite !length_app, last_n_length.
    cbn [length]. rewrite Nat.min_r by lia.
    replace (n + 1 - n)%nat with 1%nat by lia.
    unfold Py.last_n.
    rewrite !drop_app_le by (rewrite ?length_drop; lia).
    rewrite drop_drop. f_equal. f_equal. lia.
Qed.

Lemma rapid_messages_state E (n : nat) user_id self w :
  default [] (AntiSpam.user_message_intervals self !! user_id) = [] ->
  let r := AntiSpamOps.rapid_messages E n user_id (self, w) in
  default [] (AntiSpam.user_message_intervals r.2.1 !! user_id)
    = Py.last_n 10 ((fun k : nat => clock E (reads w + k)) <$> seq 0 n) /\
  AntiSpam.message_hashes r.2.1 = AntiSpam.message_hashes self /\
  (forall other, other <> user_id ->
     AntiSpam.user_message_intervals r.2.1 !! other
     = AntiSpam.user_message_intervals self !! other) /\
  r.2.2 = {| reads := reads w + n; draws := draws w; calls := calls w |}.
Proof.
  intros Hnone. induction n as [|k IH]; cbn zeta.
  - cbn [AntiSpamOps.rapid_messages]. unfold mret, M_ret. cbn [fst snd].
    rewrite Hnone, Nat.add_0_r. destruct w. auto.
  - cbn [AntiSpamOps.rapid_messages]. unfold mbind, M_bind, mret, M_ret.
    cbn zeta in IH.
    destruct (AntiSpamOps.rapid_messages E k user_id (self, w))
      as [[] [mid w1]].
    cbn [fst snd] in IH. destruct IH as (Hint & Hhash & Hother & ->).
    rewrite check_rapid_messaging_run. cbn zeta. cbn [fst snd].
    cbn [AntiSpam.user_message_intervals AntiSpam.message_hashes
           AntiSpam.set_user_message_intervals reads].
    rewrite lookup_insert_eq. cbn [default from_option id].
    rewrite Hint, last_n_snoc by lia. rewrite seq_S, fmap_app.
    split; [reflexivity|]. split; [exact Hhash|]. split.
    + intros other Hne. rewrite lookup_insert_ne by congruence.
      apply Hother, Hne.
    + unfold tick. cbn [reads draws calls]. f_equal. lia.
Qed.

(** X21.  For a user with no recorded times, when [n] messages and then
    one more all fall within 30 seconds, the frequency check of the last
    one answers true exactly when it is at least the fifth; the times kept
    for the user are never more than 10. *)
Theorem rapid_burst (E : Env) (n : nat) (user_id : Z) (self : AntiSpam.t)
  (w : World) :
  default [] (AntiSpam.user_message_intervals self !! user_id) = [] ->
  (forall i : nat, (i < n)%nat ->
     clock E (reads w + n) - Py.seconds 30 < clock E (reads w + i)) ->
  let earlier := (AntiSpamOps.rapid_messages E n user_id (self, w)).2 in
  let r := AntiSpam._check_rapid_messaging E user_id earlier in
  r.1 = (5 <=? Z.of_nat n + 1) /\
  length (default [] (AntiSpam.user_message_intervals r.2.1 !! user_id))
    = Nat.min (n + 1) 10.
Proof.
  intros Hnone Hwin. cbn zeta.
  destruct (rapid_messages_state E n user_id self w Hnone)
    as (Hint & _ & _ & Hw).
  destruct (AntiSpamOps.rapid_messages E n user_id (self, w))
    as [[] [mid w1]]. cbn [fst snd] in *. subst w1.
  rewrite check_rapid_messaging_run. cbn zeta. cbn [fst snd reads].
  cbn [AntiSpam.user_message_intervals AntiSpam.set_user_message_intervals].
  rewrite lookup_insert_eq. cbn [default from_option id].
  rewrite Hint, last_n_snoc by lia.
  set (times := ((fun k : nat => clock E (reads w + k)) <$> seq 0 n)).
  assert (Hlen : length (Py.last_n 10 (times ++ [clock E (reads w + n)]))
                 = Nat.min (n + 1) 10).
  { rewrite last_n_length, length_app. subst times.
    rewrite length_fmap, length_seq. reflexivity. }
  split; [|exact Hlen].
  rewrite newer_than_all.
  - unfold Py.len_list. rewrite Hlen.
    destruct (Z.leb_spec 5 (Z.of_nat (Nat.min (n + 1) 10)));
      destruct (Z.leb_spec 5 (Z.of_nat n + 1)); try reflexivity; lia.
  - unfold Py.last_n. apply Forall_drop, Forall_app. split.
    + subst times. apply Forall_fmap, Forall_forall. intros i Hi.
      apply elem_of_seq in Hi. cbn. apply Hwin. lia.
    + constructor; [|constructor]. unfold Py.seconds. lia.
Qed.

Lemma rapid_burst_witness :
  default [] (AntiSpam.user_message_intervals AntiSpam.__init__ !! 7) = [] /\
  (AntiSpam._check_rapid_messaging sample_env 7
     (AntiSpamOps.rapid_messages sample_env 4 7
        (AntiSpam.__init__, world0)).2).1 = true /\
  (AntiSpam._check_rapid_messaging sample_env 7
     (AntiSpamOps.rapid_messages sample_env 3 7
        (AntiSpam.__init__, world0)).2).1 = false.
Proof.
  split; [reflexivity|]. split.
  - etransitivity.
    + apply (rapid_burst sample_env 4 7 AntiSpam.__init__ world0);
        [reflexivity|].
      intros i Hi. cbn. unfold Py.seconds. lia.
    + reflexivity.
  - etransitivity.
    + apply (rapid_burst sample_env 3 7 AntiSpam.__init__ world0);
        [reflexivity|].
      intros i Hi. cbn. unfold Py.seconds. lia.
    + reflexivity.
Defined.

Lemma check_spam_tail E update m text self bot_data w :
  Update.message update = Some m ->
  Message.text m = Some text ->
  text <> "" ->
  exists self' is_spam reason score,
    AntiSpam.check_spam E update (self, bot_data, w) =
    AntiSpamOps.record_check E (Update.effective_user update) is_spam reason
      score (self', bot_data, tick (tick w)).
Proof.
  intros Hm Ht Hne.
  unfold AntiSpam.check_spam, AntiSpam.message_text.
  rewrite Hm, Ht. apply String.eqb_neq in Hne. rewrite Hne.
  cbv zeta.
  repeat (rewrite ?bump, ?bump_list; cbv beta iota zeta).
  unfold mbind at 1. unfold M_bind at 1.
  rewrite with_self_duplicate. cbv beta iota zeta.
  repeat (rewrite ?bump, ?bump_list; cbv beta iota zeta).
  unfold mbind at 1. unfold M_bind at 1.
  rewrite with_self_rapid. cbv beta iota zeta.
  repeat (rewrite ?bump, ?bump_list; cbv beta iota zeta).
  unfold AntiSpamOps.record_check.
  do 4 eexists. reflexivity.
Qed.

Lemma record_check_run E user is_spam reason score self bot_data w :
  let user_id := User.id user in
  let seen :=
    (BotData.get_user_stats E user_id (AntiSpam.display_name user)
       (bot_data, w)).2 in
  let checked :=
    BotData.set_user_stats
      (alter (UserStats.set_last_spam_check (Some (clock E (reads seen.2))))
         user_id (BotData.user_stats seen.1)) seen.1 in
  AntiSpamOps.record_check E user is_spam reason score (self, bot_data, w) =
  ((is_spam, reason, score),
   if is_spam
   then (self,
         (BotData.add_spam_violation E user_id reason
            (checked, tick seen.2)).2.1,
         (BotData.add_spam_violation E user_id reason
            (checked, tick seen.2)).2.2)
   else (self, checked, tick seen.2)).
Proof.
  cbn zeta. unfold AntiSpamOps.record_check, AntiSpam.with_bot_data,
    in_world, on_self.
  unfold zoom, modify, datetime_now, mbind, M_bind, mret, M_ret.
  cbn [fst snd].
  destruct (BotData.get_user_stats E (User.id user)
              (AntiSpam.display_name user) (bot_data, w)) as [[] [bd1 w1]].
  cbn [fst snd]. destruct is_spam; [|reflexivity].
  unfold tick.
  destruct (BotData.add_spam_violation E (User.id user) reason _)
    as [[] [bd2 w2]].
  reflexivity.
Qed.

Lemma get_user_stats_registry E user_id username bot_data w :
  let seen := (BotData.get_user_stats E user_id username (bot_data, w)).2.1 in
  (exists stats,
     BotData.user_stats seen !! user_id = Some stats /\
     UserStats.spam_score stats
       = default 0 (UserStats.spam_score <$>
                      BotData.user_stats bot_data !! user_id) /\
     forall known,
       BotData.user_stats bot_data !! user_id = Some known ->
       UserStats.message_count stats = UserStats.message_count known /\
       UserStats.warnings stats = UserStats.warnings known /\
       UserStats.first_seen stats = UserStats.first_seen known) /\
  (forall other, other <> user_id ->
     BotData.user_stats seen !! other
     = BotData.user_stats bot_data !! other) /\
  BotData.spam_violations seen = BotData.spam_violations bot_data /\
  BotData.banned_users seen = BotData.banned_users bot_data /\
  BotData.approved_users seen = BotData.approved_users bot_data.
Proof.
  cbn zeta. rewrite get_user_stats_run.
  destruct (BotData.user_stats bot_data !! user_id) as [known|] eqn:Hk;
    cbn [fst snd BotData.user_stats BotData.set_user_stats
           BotData.spam_violations BotData.banned_users
           BotData.approved_users].
  - split; [|split; [|auto]].
    + rewrite lookup_insert_eq. eexists. split; [reflexivity|].
      destruct (String.eqb username "unknown"); cbn;
        (split; [reflexivity|]); intros known' [= <-]; auto.
    + intros other Hne. apply lookup_insert_ne. congruence.
  - split; [|split; [|auto]].
    + rewrite lookup_insert_eq. eexists. split; [reflexivity|].
      split; [reflexivity|]. intros known' [=].
    + intros other Hne. apply lookup_insert_ne. congruence.
Qed.

Lemma spam_violation_recorded_parts E user_id violation_type self w :
  let after :=
    (BotData.add_spam_violation E user_id violation_type (self, w)).2.1 in
  (exists earlier now,
     BotData.spam_violations after !! user_id
     = Some (earlier ++ [now])%list) /\
  (exists stats,
     BotData.user_stats after !! user_id = Some stats /\
     UserStats.spam_score stats
       = default 0 (UserStats.spam_score <$>
                      BotData.user_stats self !! user_id) + 1 /\
     forall known,
       BotData.user_stats self !! user_id = Some known ->
       UserStats.message_count stats = UserStats.message_count known /\
       UserStats.warnings stats = UserStats.warnings known /\
       UserStats.first_seen stats = UserStats.first_seen known /\
       UserStats.last_spam_check stats = UserStats.last_spam_check known) /\
  (forall other, other <> user_id ->
     BotData.user_stats after !! other = BotData.user_stats self !! other /\
     BotData.spam_violations after !! other
       = BotData.spam_violations self !! other) /\
  BotData.banned_users after = BotData.banned_users self /\
  BotData.approved_users after = BotData.approved_users self.
Proof.
  cbn zeta. split; [|split; [|split]].
  - rewrite add_spam_violation_run. cbn zeta.
    destruct (BotData.user_stats self !! user_id);
      cbn [fst snd BotData.spam_violations BotData.set_user_stats
             BotData.set_spam_violations];
      rewrite lookup_insert_eq, newer_than_app;
      unfold RateLimiter.newer_than at 2; cbn [List.filter];
      pose proof days_positive;
      (destruct (Z.ltb_spec (clock E (reads w) - Py.days 1)
                   (clock E (reads w))); [|lia]); eauto.
  - rewrite add_spam_violation_run. cbn zeta.
    destruct (BotData.user_stats self !! user_id) as [known|] eqn:Hk;
      cbn [fst snd BotData.user_stats BotData.set_user_stats];
      rewrite lookup_insert_eq;
      eexists; (split; [reflexivity|]); (split; [reflexivity|]).
    + intros known' [= <-]. repeat split.
    + intros known' [=].
  - intros other Hne.
    apply (add_spam_violation_other E user_id violation_type self w other Hne).
  - rewrite add_spam_violation_run. cbn zeta.
    destruct (BotData.user_stats self !! user_id); split; reflexivity.
Qed.

Lemma get_user_stats_reads E user_id username bot_data w :
  reads (BotData.get_user_stats E user_id username (bot_data, w)).2.2
  = match BotData.user_stats bot_data !! user_id with
    | Some _ => S (reads w)
    | None => S (S (reads w))
    end.
Proof.
  rewrite get_user_stats_run.
  destruct (BotData.user_stats bot_data !! user_id); reflexivity.
Qed.

Lemma add_spam_violation_log E user_id violation_type self w :
  BotData.spam_violations
    (BotData.add_spam_violation E user_id violation_type (self, w)).2.1
  = <[user_id :=
        RateLimiter.newer_than (clock E (reads w) - Py.days 1)
          (default [] (BotData.spam_violations self !! user_id)
           ++ [clock E (reads w)])%list]>
      (BotData.spam_violations self).
Proof.
  rewrite add_spam_violation_run. cbn zeta.
  destruct (BotData.user_stats self !! user_id); reflexivity.
Qed.

(** X22.  For an update with a text, [check_spam] leaves the user with a
    record in the registry whose last spam check is the reading of the
    clock that follows the look-up of the record and whose spam score grew
    by one on a spam verdict and not at all otherwise, the message count,
    warnings and first-seen time of an existing record being kept; the
    violation log changes only on a spam verdict: then the user's log is
    its earlier entries and the next reading of the clock, less the
    entries a day or more older than that reading, and the logs of the
    other users are as they were; other users' records, bans and approvals
    are untouched. *)
Theorem check_spam_registry (E : Env) (update : Update.t) (m : Message.t)
  (text : string) (self : AntiSpam.t) (bot_data : BotData.t) (w : World) :
  Update.message update = Some m ->
  Message.text m = Some text ->
  text <> "" ->
  let user_id := User.id (Update.effective_user update) in
  let r := AntiSpam.check_spam E update (self, bot_data, w) in
  let is_spam := r.1.1.1 in
  let registry := r.2.1.2 in
  let checked :=
    clock E (match BotData.user_stats bot_data !! user_id with
             | Some _ => 3 + reads w
             | None => 4 + reads w
             end)%nat in
  let violated :=
    clock E (match BotData.user_stats bot_data !! user_id with
             | Some _ => 4 + reads w
             | None => 5 + reads w
             end)%nat in
  (exists stats,
     BotData.user_stats registry !! user_id = Some stats /\
     UserStats.spam_score stats
       = default 0 (UserStats.spam_score <$>
                      BotData.user_stats bot_data !! user_id)
         + (if is_spam then 1 else 0) /\
     UserStats.last_spam_check stats = Some checked /\
     forall known,
       BotData.user_stats bot_data !! user_id = Some known ->
       UserStats.message_count stats = UserStats.message_count known /\
       UserStats.warnings stats = UserStats.warnings known /\
       UserStats.first_seen stats = UserStats.first_seen known) /\
  (is_spam = false ->
   BotData.spam_violations registry = BotData.spam_violations bot_data) /\
  (is_spam = true ->
   BotData.spam_violations registry !! user_id
   = Some (RateLimiter.newer_than (violated - Py.days 1)
             (default [] (BotData.spam_violations bot_data !! user_id)
              ++ [violated])%list) /\
   forall other, other <> user_id ->
     BotData.spam_violations registry !! other
     = BotData.spam_violations bot_data !! other) /\
  (forall other, other <> user_id ->
     BotData.user_stats registry !! other
     = BotData.user_stats bot_data !! other) /\
  BotData.banned_users registry = BotData.banned_users bot_data /\
  BotData.approved_users registry = BotData.approved_users bot_data.
Proof.
  intros Hm Ht Hne. cbn zeta.
  destruct (check_spam_tail E update m text self bot_data w Hm Ht Hne)
    as (self' & is_spam & reason & score & ->).
  rewrite record_check_run. cbn zeta.
  set (user_id := User.id (Update.effective_user update)).
  set (w2 := tick (tick w)).
  destruct (get_user_stats_registry E user_id
              (AntiSpam.display_name (Update.effective_user update))
              bot_data w2)
    as ((stats & Hstats & Hscore & Hkept) & Hother & Hviol & Hban & Happ).
  cbn zeta in Hstats, Hother, Hviol, Hban, Happ.
  pose proof (get_user_stats_reads E user_id
                (AntiSpam.display_name (Update.effective_user update))
                bot_data w2) as Hreads.
  set (seen := (BotData.get_user_stats E user_id
                  (AntiSpam.display_name (Update.effective_user update))
                  (bot_data, w2)).2) in *.
  assert (Hat :
    reads seen.2
    = match BotData.user_stats bot_data !! user_id with
      | Some _ => (3 + reads w)%nat
      | None => (4 + reads w)%nat
      end).
  { rewrite Hreads. destruct (BotData.user_stats bot_data !! user_id);
      reflexivity. }
  assert (Hnext :
    reads (tick seen.2)
    = match BotData.user_stats bot_data !! user_id with
      | Some _ => (4 + reads w)%nat
      | None => (5 + reads w)%nat
      end).
  { cbn [reads tick]. rewrite Hat.
    destruct (BotData.user_stats bot_data !! user_id); reflexivity. }
  rewrite <- Hat, <- Hnext.
  set (checked :=
    BotData.set_user_stats
      (alter (UserStats.set_last_spam_check (Some (clock E (reads seen.2))))
         user_id (BotData.user_stats seen.1)) seen.1).
  assert (Hchecked :
    BotData.user_stats checked !! user_id
    = Some (UserStats.set_last_spam_check (Some (clock E (reads seen.2)))
              stats)).
  { subst checked. cbn [BotData.user_stats BotData.set_user_stats].
    rewrite lookup_alter_eq, Hstats. reflexivity. }
  assert (Hchecked_other : forall other, other <> user_id ->
    BotData.user_stats checked !! other = BotData.user_stats bot_data !! other).
  { intros other Ho. subst checked.
    cbn [BotData.user_stats BotData.set_user_stats].
    rewrite lookup_alter_ne by congruence. apply Hother, Ho. }
  assert (Hchecked_log :
    BotData.spam_violations checked = BotData.spam_violations bot_data).
  { subst checked. exact Hviol. }
  destruct is_spam; cbn [fst snd].
  - destruct (spam_violation_recorded_parts E user_id reason checked
                (tick seen.2))
      as (_ & (stats' & Hs' & Hscore' & Hkept') & Hother' & Hban' & Happ').
    split; [|split; [discriminate|split; [|split; [|split]]]].
    + exists stats'.
      split; [exact Hs'|]. rewrite Hchecked in Hscore', Hkept'.
      cbn in Hscore'. split; [lia|].
      destruct (Hkept' _ eq_refl) as (Hmc & Hw & Hfs & Hlc).
      split; [exact Hlc|]. intros known Hk.
      destruct (Hkept known Hk) as (? & ? & ?). cbn in Hmc, Hw, Hfs.
      repeat split; congruence.
    + intros _. rewrite add_spam_violation_log, Hchecked_log. split.
      * apply lookup_insert_eq.
      * intros other Ho. apply lookup_insert_ne. congruence.
    + intros other Ho. rewrite (proj1 (Hother' other Ho)).
      apply Hchecked_other, Ho.
    + rewrite Hban'. exact Hban.
    + rewrite Happ'. exact Happ.
  - split; [|split; [|split; [discriminate|split; [|split]]]].
    + exists (UserStats.set_last_spam_check (Some (clock E (reads seen.2)))
                stats).
      split; [exact Hchecked|]. cbn. split; [lia|]. split; [reflexivity|].
      exact Hkept.
    + intros _. exact Hviol.
    + exact Hchecked_other.
    + exact Hban.
    + exact Happ.
Qed.

Lemma check_spam_registry_witness :
  Message.text
    {| Message.message_id := 2;
       Message.text := Some "FREE MONEY at the CASINO http://bit.ly/x spam" |}
  = Some "FREE MONEY at the CASINO http://bit.ly/x spam" /\
  (exists stats,
     BotData.user_stats
       (AntiSpam.check_spam sample_env spam_update
          (AntiSpam.__init__, fresh_data, world0)).2.1.2 !! 6000000000
     = Some stats /\
     UserStats.spam_score stats = 1 /\
     UserStats.last_spam_check stats = Some (Py.seconds 4)) /\
  BotData.spam_violations
    (AntiSpam.check_spam sample_env spam_update
       (AntiSpam.__init__, fresh_data, world0)).2.1.2 !! 6000000000
  = Some [Py.seconds 5].
Proof.
  split; [reflexivity|].
  assert (Hspam : (AntiSpam.check_spam sample_env spam_update
                     (AntiSpam.__init__, fresh_data, world0)).1.1.1 = true)
    by (vm_compute; reflexivity).
  pose proof (check_spam_registry sample_env spam_update
                {| Message.message_id := 2;
                   Message.text :=
                     Some "FREE MONEY at the CASINO http://bit.ly/x spam" |}
                "FREE MONEY at the CASINO http://bit.ly/x spam"
                AntiSpam.__init__ fresh_data world0 eq_refl eq_refl
                ltac:(discriminate)) as H.
  cbn zeta in H.
  destruct H as ((stats & Hs & Hscore & Hlast & _) & _ & Hlog & _).
  split.
  - exists stats. split; [exact Hs|].
    rewrite Hspam in Hscore. split; [exact Hscore|].
    etransitivity; [exact Hlast|]. vm_compute. reflexivity.
  - etransitivity; [exact (proj1 (Hlog Hspam))|]. vm_compute. reflexivity.
Defined.

(** ** Text helpers *)

Lemma append_nil_r (s : string) : s ++ "" = s.
Proof.
  induction s as [|b s IH]; [reflexivity|].
  change (String b (s ++ "") = String b s). rewrite IH. reflexivity.
Qed.

Lemma append_assoc (s t u : string) : (s ++ t) ++ u = s ++ t ++ u.
Proof.
  induction s as [|b s IH]; [reflexivity|].
  change (String b ((s ++ t) ++ u) = String b (s ++ t ++ u)).
  rewrite IH. reflexivity.
Qed.

Lemma all_continue_app s t :
  all_continue (s ++ t) = all_continue s && all_continue t.
Proof.
  induction s as [|b s IH]; [reflexivity|].
  change (Str.continues b && all_continue (s ++ t)
          = Str.continues b && all_continue s && all_continue t).
  rewrite IH. apply andb_assoc.
Qed.

Lemma leads_trails c : leads c = true -> trails c = true.
Proof.
  destruct c as [|b rest]; [discriminate|]. cbn.
  intros H. apply andb_prop in H. tauto.
Qed.

Lemma leads_snoc c b :
  leads c = true -> Str.continues b = true -> leads (c ++ String b "") = true.
Proof.
  destruct c as [|a rest]; [discriminate|]. intros H Hb.
  change (negb (Str.continues a) && all_continue (rest ++ String b "")
          = true).
  cbn in H. apply andb_prop in H as [Ha Hrest].
  rewrite Ha, all_continue_app, Hrest. cbn. rewrite Hb. reflexivity.
Qed.

Lemma trails_snoc c b :
  trails c = true -> Str.continues b = true ->
  trails (c ++ String b "") = true.
Proof.
  destruct c as [|a rest]; [discriminate|]. intros H Hb.
  change (all_continue (rest ++ String b "") = true). cbn in H.
  rewrite all_continue_app, H. cbn. rewrite Hb. reflexivity.
Qed.

Lemma leads_nonempty c : leads c = true -> (c =? "")%string = false.
Proof. destruct c; [discriminate|reflexivity]. Qed.

Lemma trails_nonempty c : trails c = true -> (c =? "")%string = false.
Proof. destruct c; [discriminate|reflexivity]. Qed.

Lemma chars_from_leads s cur :
  leads cur = true ->
  Forall (fun c => leads c = true) (Str.chars_from cur s).
Proof.
  revert cur. induction s as [|b s IH]; intros cur Hcur; cbn [Str.chars_from].
  - rewrite (leads_nonempty _ Hcur). repeat constructor. exact Hcur.
  - destruct (Str.continues b) eqn:Hb.
    + apply IH, leads_snoc; assumption.
    + rewrite (leads_nonempty _ Hcur). cbn [app]. constructor; [exact Hcur|].
      apply IH. cbn. rewrite Hb. reflexivity.
Qed.

Lemma chars_from_trails s cur :
  trails cur = true -> well_formed (Str.chars_from cur s) /\
                       Str.chars_from cur s <> [].
Proof.
  revert cur. induction s as [|b s IH]; intros cur Hcur; cbn [Str.chars_from].
  - rewrite (trails_nonempty _ Hcur). cbn. split; [auto|discriminate].
  - destruct (Str.continues b) eqn:Hb.
    + apply IH, trails_snoc; assumption.
    + rewrite (trails_nonempty _ Hcur). cbn [app]. split; [|discriminate].
      cbn. split; [exact Hcur|].
      apply chars_from_leads. cbn. rewrite Hb. reflexivity.
Qed.

Lemma chars_well_formed s : well_formed (Str.chars s).
Proof.
  unfold Str.chars. destruct s as [|b s]; [exact I|].
  cbn [Str.chars_from]. change ("" ++ String b "") with (String b "").
  destruct (Str.continues b) eqn:Hb.
  - apply chars_from_trails. reflexivity.
  - cbn [String.eqb app].
    pose proof (chars_from_leads s (String b "")) as H.
    assert (Hl : leads (String b "") = true) by (cbn; rewrite Hb; reflexivity).
    specialize (H Hl).
    destruct (Str.chars_from (String b "") s) as [|c cs]; [exact I|].
    inversion H; subst. split; [apply leads_trails; assumption|assumption].
Qed.

Lemma chars_from_continue rest cur s :
  all_continue rest = true ->
  Str.chars_from cur (rest ++ s) = Str.chars_from (cur ++ rest) s.
Proof.
  revert cur. induction rest as [|b rest IH]; intros cur H.
  - rewrite append_nil_r. reflexivity.
  - cbn in H. apply andb_prop in H as [Hb Hrest].
    change (String b rest ++ s) with (String b (rest ++ s)).
    cbn [Str.chars_from]. rewrite Hb, IH by assumption.
    rewrite append_assoc. reflexivity.
Qed.

Lemma chars_from_join cs cur :
  (cur =? "")%string = false ->
  Forall (fun c => leads c = true) cs ->
  Str.chars_from cur (Str.join cs) = cur :: cs.
Proof.
  intros Hcur Hcs. revert cur Hcur.
  induction Hcs as [|c cs Hc Hcs IH]; intros cur Hcur.
  - cbn. rewrite Hcur. reflexivity.
  - destruct c as [|b rest]; [discriminate|]. cbn in Hc.
    apply andb_prop in Hc as [Hb Hrest]. apply negb_true_iff in Hb.
    change (Str.join (String b rest :: cs)) with (String b (rest ++ Str.join cs)).
    cbn [Str.chars_from]. rewrite Hb, Hcur.
    cbn [app]. f_equal.
    rewrite chars_from_continue by assumption.
    apply IH. reflexivity.
Qed.

Lemma chars_join cs : well_formed cs -> Str.chars (Str.join cs) = cs.
Proof.
  destruct cs as [|c cs]; [reflexivity|]. intros [Hc Hcs].
  destruct c as [|b rest]; [discriminate|]. cbn in Hc.
  unfold Str.chars.
  change (Str.join (String b rest :: cs)) with (String b (rest ++ Str.join cs)).
  cbn [Str.chars_from]. change ("" ++ String b "") with (String b "").
  assert (H : Str.chars_from (String b "") (rest ++ Str.join cs)
              = String b rest :: cs).
  { rewrite chars_from_continue by assumption. apply chars_from_join;
      [reflexivity|assumption]. }
  destruct (Str.continues b); [exact H|]. cbn [String.eqb app]. exact H.
Qed.

Lemma join_chars_from s cur :
  Str.join (Str.chars_from cur s) = cur ++ s.
Proof.
  revert cur. induction s as [|b s IH]; intros cur; cbn [Str.chars_from].
  - destruct (String.eqb_spec cur "") as [->|]; [reflexivity|].
    change (Str.join [cur]) with (cur ++ ""). reflexivity.
  - destruct (Str.continues b).
    + rewrite IH, append_assoc. reflexivity.
    + destruct (String.eqb_spec cur "") as [->|]; cbn [app].
      * rewrite IH. reflexivity.
      * change (Str.join (cur :: Str.chars_from (String b "") s))
          with (cur ++ Str.join (Str.chars_from (String b "") s)).
        rewrite IH. reflexivity.
Qed.

Lemma join_chars s : Str.join (Str.chars s) = s.
Proof. unfold Str.chars. rewrite join_chars_from. reflexivity. Qed.

Lemma join_app l1 l2 : Str.join (l1 ++ l2) = Str.join l1 ++ Str.join l2.
Proof.
  induction l1 as [|c l1 IH]; [reflexivity|].
  change (c ++ Str.join (l1 ++ l2) = (c ++ Str.join l1) ++ Str.join l2).
  rewrite IH, append_assoc. reflexivity.
Qed.

Lemma well_formed_take n cs : well_formed cs -> well_formed (take n cs).
Proof.
  destruct cs as [|c cs]; [destruct n; auto|]. intros [Hc Hcs].
  destruct n as [|n]; [exact I|]. cbn. split; [exact Hc|].
  apply Forall_take. exact Hcs.
Qed.

Lemma well_formed_app cs ds :
  well_formed cs -> Forall (fun c => leads c = true) ds ->
  well_formed (cs ++ ds).
Proof.
  destruct cs as [|c cs]; cbn [app].
  - intros _ Hds. destruct ds as [|d ds]; [exact I|].
    inversion Hds; subst. split; [apply leads_trails; assumption|assumption].
  - intros [Hc Hcs] Hds. split; [exact Hc|]. apply Forall_app. auto.
Qed.

Lemma prefix_append (p q : string) : String.prefix p (p ++ q) = true.
Proof.
  induction p as [|b p IH]; [destruct q; reflexivity|].
  change (String b p ++ q) with (String b (p ++ q)).
  apply prefix_cons. auto.
Qed.

Lemma take_prefix (n : nat) (s : string) :
  String.prefix (Str.join (take n (Str.chars s))) s = true.
Proof.
  rewrite <- (join_chars s) at 2.
  rewrite <- (take_drop n (Str.chars s)) at 2.
  rewrite join_app. apply prefix_append.
Qed.

Lemma take_len (n : nat) (s : string) :
  Str.len (Str.join (take n (Str.chars s)))
  = Z.min (Z.of_nat n) (Str.len s).
Proof.
  unfold Str.len, Py.len_list.
  rewrite chars_join by apply well_formed_take, chars_well_formed.
  rewrite length_take. lia.
Qed.

Lemma slice_to_len k s :
  Str.len (Utils.slice_to k s)
  = if 0 <=? k then Z.min k (Str.len s) else Z.max 0 (Str.len s + k).
Proof.
  unfold Utils.slice_to.
  destruct (Z.leb_spec 0 k); rewrite take_len;
    unfold Str.len, Py.len_list; lia.
Qed.

Lemma len_dots s : Str.len (s ++ "...") = Str.len s + 3.
Proof.
  unfold Str.len, Py.len_list.
  rewrite <- (join_chars s) at 1.
  change "..." with (Str.join ["."; "."; "."]).
  rewrite <- join_app, chars_join, length_app; [cbn [length]; lia|].
  apply well_formed_app; [apply chars_well_formed|].
  repeat constructor.
Qed.

(** X23.  [truncate_text] returns a text that fits unchanged and
    otherwise a prefix of the text followed by three dots; the result is
    exactly [max_length] long when the text is longer and [max_length] is at
    least 3, and it is within [max_length] exactly when the text fits or
    [max_length] is at least 3.  Lengths are in characters. *)
Theorem truncate_text_length (text : string) (max_length : Z) :
  let result := Utils.truncate_text text max_length in
  (Str.len text <= max_length -> result = text) /\
  (max_length < Str.len text ->
   exists head, result = head ++ "..." /\ String.prefix head text = true) /\
  (max_length < Str.len text -> 3 <= max_length ->
   Str.len result = max_length) /\
  (Str.len result <= max_length <->
   Str.len text <= max_length \/ 3 <= max_length).
Proof.
  cbn zeta. unfold Utils.truncate_text.
  destruct (Z.leb_spec (Str.len text) max_length) as [Hfit|Hlong].
  - split; [reflexivity|]. split; [lia|]. split; [lia|]. tauto.
  - assert (Hlen : Str.len (Utils.slice_to (max_length - 3) text ++ "...")
                   = (if 0 <=? max_length - 3
                      then Z.min (max_length - 3) (Str.len text)
                      else Z.max 0 (Str.len text + (max_length - 3))) + 3).
    { rewrite len_dots, slice_to_len. reflexivity. }
    split; [lia|]. split; [|split].
    + intros _. eexists. split; [reflexivity|].
      unfold Utils.slice_to. destruct (0 <=? max_length - 3);
        apply take_prefix.
    + intros _ H3. rewrite Hlen.
      destruct (Z.leb_spec 0 (max_length - 3)); lia.
    + rewrite Hlen. destruct (Z.leb_spec 0 (max_length - 3)); lia.
Qed.

Lemma truncate_text_length_witness :
  3 < Str.len "abcdefgh" /\ 3 <= 3 /\
  Str.len (Utils.truncate_text "abcdefgh" 3) = 3 /\
  ~ Str.len (Utils.truncate_text "abcdefgh" 2) <= 2 /\
  4 < Str.len accented_text /\ 3 <= 4 /\
  Str.len (Utils.truncate_text accented_text 4) = 4.
Proof.
  assert (H1 : 3 < Str.len "abcdefgh") by (vm_compute; reflexivity).
  assert (H2 : 3 <= 3) by lia.
  assert (H3 : 4 < Str.len accented_text) by (vm_compute; reflexivity).
  assert (H4 : 3 <= 4) by lia.
  split; [exact H1|]. split; [exact H2|]. split; [|split].
  - exact (proj1 (proj2 (proj2 (truncate_text_length "abcdefgh" 3))) H1 H2).
  - intros H.
    apply (proj2 (proj2 (proj2 (truncate_text_length "abcdefgh" 2)))) in H.
    vm_compute in H. destruct H as [H|H]; apply H; reflexivity.
  - split; [exact H3|]. split; [exact H4|].
    exact (proj1 (proj2 (proj2 (truncate_text_length accented_text 4))) H3 H4).
Defined.

Lemma each_char_app f s t :
  each_char f (s ++ t) = each_char f s ++ each_char f t.
Proof.
  induction s as [|c s IH]; [reflexivity|].
  change (f c ++ each_char f (s ++ t) = (f c ++ each_char f s) ++ each_char f t).
  rewrite IH. induction (f c) as [|a r IHr]; [reflexivity|].
  change (String a (r ++ each_char f s ++ each_char f t)
          = String a ((r ++ each_char f s) ++ each_char f t)).
  rewrite IHr. reflexivity.
Qed.

Lemma replace_each_char char by_ s :
  Utils.replace char by_ s
  = each_char (fun c => if Ascii.eqb c char then by_
                        else String c EmptyString) s.
Proof. induction s as [|c s IH]; [reflexivity|]. cbn. rewrite IH. reflexivity. Qed.

Lemma each_char_each_char f g s :
  each_char g (each_char f s) = each_char (fun c => each_char g (f c)) s.
Proof.
  induction s as [|c s IH]; [reflexivity|].
  change (each_char g (f c ++ each_char f s)
          = each_char g (f c) ++ each_char (fun c => each_char g (f c)) s).
  rewrite each_char_app, IH. reflexivity.
Qed.

Lemma each_char_ext f g s :
  (forall c, f c = g c) -> each_char f s = each_char g s.
Proof.
  intros H. induction s as [|c s IH]; [reflexivity|].
  cbn. rewrite H, IH. reflexivity.
Qed.

Lemma each_char_id s : each_char (fun c => String c EmptyString) s = s.
Proof. induction s as [|c s IH]; [reflexivity|]. cbn. rewrite IH. reflexivity. Qed.

Lemma len_append s t : Py.len (s ++ t) = Py.len s + Py.len t.
Proof. unfold Py.len. rewrite length_append. lia. Qed.

Lemma starts_append s t : starts (s ++ t) = (starts s + starts t)%nat.
Proof.
  induction s as [|b s IH]; [reflexivity|].
  change (((if Str.continues b then 0 else 1) + starts (s ++ t))%nat
          = ((if Str.continues b then 0 else 1) + starts s + starts t)%nat).
  rewrite IH. lia.
Qed.

Lemma chars_from_length s cur :
  length (Str.chars_from cur s)
  = ((if String.eqb cur "" then 0 else 1) + starts s
     + (if String.eqb cur "" && head_continues s then 1 else 0))%nat.
Proof.
  revert cur. induction s as [|b s IH]; intros cur;
    cbn [Str.chars_from starts head_continues].
  - destruct (String.eqb cur ""); reflexivity.
  - destruct (Str.continues b).
    + rewrite IH.
      assert (H : String.eqb (cur ++ String b "") "" = false)
        by (destruct cur; reflexivity).
      rewrite H. destruct (String.eqb cur ""); cbn [andb]; lia.
    + rewrite length_app, IH. cbn [String.eqb andb].
      rewrite andb_false_r.
      destruct (String.eqb cur ""); cbn [length]; lia.
Qed.

Lemma len_starts s :
  Str.len s
  = Z.of_nat (starts s) + (if head_continues s then 1 else 0).
Proof.
  unfold Str.len, Str.chars, Py.len_list. rewrite chars_from_length.
  cbn [String.eqb andb]. destruct (head_continues s); lia.
Qed.

Lemma ascii_starts (b : ascii) :
  (Py.code b <? 128) = true -> Str.continues b = false.
Proof.
  intros H. apply Z.ltb_lt in H. unfold Str.continues, Py.between.
  destruct (Z.leb_spec 128 (Py.code b)); [lia|reflexivity].
Qed.

(** On ASCII text the characters are the bytes. *)
Lemma len_ascii (s : string) : Str.is_ascii s = true -> Str.len s = Py.len s.
Proof.
  intros H. rewrite len_starts. unfold Py.len.
  assert (Hs : starts s = String.length s /\ head_continues s = false).
  { induction s as [|b s IH]; [split; reflexivity|].
    cbn [Str.is_ascii] in H. apply andb_prop in H as [Hb Hrest].
    destruct (IH Hrest) as [IHs _].
    cbn [starts head_continues String.length].
    rewrite (ascii_starts b Hb), IHs. split; reflexivity. }
  destruct Hs as [-> ->]. lia.
Qed.

Lemma escaped_starts (c : ascii) :
  if Str.continues c then escaped c = String c EmptyString
  else (1 <= starts (escaped c) <= 3)%nat /\
       head_continues (escaped c) = false.
Proof.
  destruct c as [[|] [|] [|] [|] [|] [|] [|] [|]]; vm_compute;
    try reflexivity; (split; [split|reflexivity]);
    repeat constructor.
Qed.

Lemma sanitized_starts (text : string) :
  (starts text <= starts (each_char escaped text) <= 3 * starts text)%nat /\
  head_continues (each_char escaped text) = head_continues text.
Proof.
  induction text as [|c text IH]; [split; [cbn; lia | reflexivity]|].
  cbn [each_char starts head_continues]. rewrite starts_append.
  pose proof (escaped_starts c) as Hc.
  destruct (Str.continues c) eqn:Hcont.
  - rewrite Hc. cbn [starts head_continues]. rewrite Hcont. split; [lia|].
    change (String c "" ++ each_char escaped text)
      with (String c (each_char escaped text)).
    exact Hcont.
  - destruct Hc as (Hn & Hh). split; [lia|].
    destruct (escaped c) as [|a rest]; [cbn in Hn; lia|].
    exact Hh.
Qed.

(** X24.  [sanitize_text] works character by character: because the
    backslash is replaced last, each of the characters < > ` * _ [ ] comes
    out preceded by two backslashes, each backslash comes out doubled, and
    every other character is unchanged; the result is between one and three
    times as long as the text, in bytes and in characters. *)
Theorem sanitize_text_escapes (text : string) :
  Utils.sanitize_text text = each_char escaped text /\
  (forall c,
     In c ["<"; ">"; "`"; "*"; "_"; "["; "]"]%char ->
     Utils.sanitize_text (String c EmptyString)
     = String "\" (String "\" (String c EmptyString))) /\
  Py.len text <= Py.len (Utils.sanitize_text text) <= 3 * Py.len text /\
  Str.len text <= Str.len (Utils.sanitize_text text) <= 3 * Str.len text.
Proof.
  assert (Heach : forall s, Utils.sanitize_text s = each_char escaped s).
  { intros s. unfold Utils.sanitize_text, Utils.dangerous_chars.
    cbn [foldl]. rewrite !replace_each_char, !each_char_each_char.
    apply each_char_ext. intros c.
    destruct c as [[|] [|] [|] [|] [|] [|] [|] [|]]; vm_compute;
      reflexivity. }
  split; [apply Heach|]. split; [|split].
  - intros c Hc. cbn [In] in Hc.
    destruct Hc as [<-|[<-|[<-|[<-|[<-|[<-|[<-|[]]]]]]]]; reflexivity.
  - rewrite Heach. induction text as [|c text IH].
    + change (0 <= 0 <= 3 * 0). lia.
    + cbn [each_char]. rewrite len_append.
      assert (Hc : 1 <= Py.len (escaped c) <= 3).
      { destruct c as [[|] [|] [|] [|] [|] [|] [|] [|]]; vm_compute;
          split; discriminate. }
      assert (Hcons : Py.len (String c text) = 1 + Py.len text)
        by (unfold Py.len;
            change (String.length (String c text))
              with (S (String.length text)); lia).
      lia.
  - rewrite Heach, !len_starts.
    destruct (sanitized_starts text) as (Hn & ->).
    destruct (head_continues text); lia.
Qed.

Lemma sanitize_text_escapes_witness :
  Utils.sanitize_text "a<b\" = each_char escaped "a<b\" /\
  each_char escaped "a<b\" = "a\\<b\\".
Proof.
  split; [exact (proj1 (sanitize_text_escapes "a<b\"))|].
  vm_compute. reflexivity.
Defined.

(** ** The access check *)

Ltac state_simpl :=
  cbn [fst snd negb Handlers.bot_data Handlers.files Handlers.rate_limiter
       Handlers.security Handlers.sent Handlers.world Handlers.set_bot_data
       Handlers.set_storage Handlers.set_limiter Handlers.set_security
       Handlers.set_world Handlers.set_sent] in *.

Lemma check_standing_run E json_dumps reply_ok update s :
  let user := Update.effective_user update in
  let user_id := User.id user in
  let lim :=
    RateLimiter.is_rate_limited E user_id "message"
      (Handlers.rate_limiter s, Handlers.world s) in
  let s1 := Handlers.set_limiter lim.2 s in
  Handlers.check_standing E json_dumps reply_ok update s =
  if lim.1 then
    let cd := RateLimiter.get_cooldown_remaining E user_id lim.2 in
    Handlers.reply_and_return reply_ok update (limit_reply cd.1) false
      (Handlers.set_limiter cd.2 s1)
  else if bool_decide
            (user_id ∈ SecuritySystem.suspicious_users (Handlers.security s))
  then Handlers.reply_and_return reply_ok update Handlers.SuspiciousReply
         false s1
  else if String.eqb (Chat.type (Update.effective_chat update)) "private"
          && negb (bool_decide
                     (user_id ∈ BotData.approved_users (Handlers.bot_data s)))
  then
    let v := SecuritySystem.verify_user_account E user (Handlers.security s)
    in
    if negb v.1.1 then
      Handlers.reply_and_return reply_ok update
        (Handlers.VerificationFailedReply v.1.2) false
        (Handlers.set_security
           (SecuritySystem.add_failed_verification user_id v.2).2 s1)
    else if BotConfig.ENABLE_USER_VERIFICATION (config E) then
      Handlers.reply_and_return reply_ok update Handlers.AutoVerifiedReply
        true
        (approve_and_save E json_dumps user_id (Handlers.set_security v.2 s1))
    else
      Handlers.reply_and_return reply_ok update Handlers.NoAccessReply false
        (Handlers.set_security v.2 s1)
  else (Handlers.Returned true, s1).
Proof.
  cbn zeta. unfold Handlers.check_standing, Handlers.on_limiter,
    Handlers.on_security, Handlers.on_storage.
  unfold zoom, gets, modify, mbind, M_bind, mret, M_ret.
  destruct (RateLimiter.is_rate_limited E
              (User.id (Update.effective_user update)) "message"
              (Handlers.rate_limiter s, Handlers.world s))
    as [[|] [lim w1]]; state_simpl.
  - destruct (RateLimiter.get_cooldown_remaining E
                (User.id (Update.effective_user update)) (lim, w1))
      as [[seconds|] [lim2 w2]]; cbn [fst snd limit_reply];
      [destruct (seconds =? 0)|]; reflexivity.
  - unfold SecuritySystem.is_user_suspicious at 1. unfold gets. state_simpl.
    destruct (bool_decide
                (User.id (Update.effective_user update)
                 ∈ SecuritySystem.suspicious_users (Handlers.security s)));
      state_simpl; [destruct s; reflexivity|].
    destruct (String.eqb (Chat.type (Update.effective_chat update))
                "private"
              && negb (bool_decide
                         (User.id (Update.effective_user update)
                          ∈ BotData.approved_users (Handlers.bot_data s))));
      state_simpl; [|destruct s; reflexivity].
    destruct (SecuritySystem.verify_user_account E
                (Update.effective_user update) (Handlers.security s))
      as [[verified reason] sec1].
    state_simpl. destruct verified; state_simpl.
    + destruct (BotConfig.ENABLE_USER_VERIFICATION (config E)); state_simpl.
      * unfold approve_and_save. state_simpl.
        destruct (BotDataOps.save_data E json_dumps _) as [[] saved].
        destruct s; reflexivity.
      * destruct s; reflexivity.
    + destruct (SecuritySystem.add_failed_verification _ sec1) as [[] sec2].
      destruct s; reflexivity.
Qed.

Lemma check_access_run E json_dumps reply_ok update s :
  let user_id := User.id (Update.effective_user update) in
  let w := Handlers.world s in
  Handlers.check_access E json_dumps reply_ok update s =
  if user_id =? BotConfig.OWNER_ID (config E)
  then (Handlers.Returned true, s)
  else
    match BotData.banned_users (Handlers.bot_data s) !! user_id with
    | Some ban_end =>
        if clock E (reads w) <? ban_end then
          let remaining := ban_end - clock E (S (reads w)) in
          Handlers.reply_and_return reply_ok update
            (Handlers.BannedReply (remaining / Py.days 1)
               (remaining mod Py.days 1 / Py.hours 1)) false
            (Handlers.set_world (tick (tick w)) s)
        else
          Handlers.check_standing E json_dumps reply_ok update
            (unban_and_save E json_dumps user_id
               (Handlers.set_world (tick w) s))
    | None => Handlers.check_standing E json_dumps reply_ok update s
    end.
Proof.
  cbn zeta. unfold Handlers.check_access.
  destruct (User.id (Update.effective_user update)
            =? BotConfig.OWNER_ID (config E)); [reflexivity|].
  unfold Handlers.on_clock, Handlers.on_storage.
  unfold zoom, gets, modify, datetime_now, mbind, M_bind, mret, M_ret.
  destruct (BotData.banned_users (Handlers.bot_data s)
              !! User.id (Update.effective_user update)) as [ban_end|];
    [|reflexivity].
  state_simpl.
  destruct (clock E (reads (Handlers.world s)) <? ban_end); state_simpl.
  - destruct s; reflexivity.
  - unfold unban_and_save. state_simpl.
    destruct (BotDataOps.save_data E json_dumps _) as [[] saved].
    destruct s; reflexivity.
Qed.

Lemma verify_user_account_state E user self :
  let r := SecuritySystem.verify_user_account E user self in
  (r.1.1 = true -> r.2 = self) /\
  (r.1.1 = false ->
   User.id user ∈ SecuritySystem.suspicious_users r.2 /\
   SecuritySystem.failed_verifications r.2
     = SecuritySystem.failed_verifications self).
Proof.
  cbn zeta. unfold SecuritySystem.verify_user_account.
  destruct (BotConfig.ENABLE_USER_VERIFICATION (config E)); cbn [negb];
    [|split; [reflexivity | discriminate]].
  destruct (SecuritySystem.no_username user);
    destruct (5000000000 <? User.id user);
    destruct (SecuritySystem._is_suspicious_username E
                (default "" (User.username user)));
    destruct (SecuritySystem._is_suspicious_name E (User.first_name user));
    cbn; (split; [try reflexivity; discriminate|]);
    try discriminate; intros _; (split; [set_solver | reflexivity]).
Qed.

Lemma reply_and_return_frame reply_ok update text allowed s :
  let r := Handlers.reply_and_return reply_ok update text allowed s in
  Handlers.bot_data r.2 = Handlers.bot_data s /\
  Handlers.files r.2 = Handlers.files s /\
  Handlers.rate_limiter r.2 = Handlers.rate_limiter s /\
  Handlers.security r.2 = Handlers.security s /\
  Handlers.world r.2 = Handlers.world s /\
  (forall b, r.1 = Handlers.Returned b -> b = allowed) /\
  match Update.message update with
  | Some _ =>
      r.1 = (if reply_ok (length (Handlers.sent s))
             then Handlers.Returned allowed else Handlers.Raised) /\
      Handlers.sent r.2
      = (Handlers.sent s
         ++ [(text, reply_ok (length (Handlers.sent s)))])%list
  | None => r = (Handlers.Raised, s)
  end.
Proof.
  cbn zeta. unfold Handlers.reply_and_return.
  destruct (Update.message update); cbn zeta; state_simpl.
  - repeat (split; [reflexivity|]). split; [|split; reflexivity].
    intros b. destruct (reply_ok _); congruence.
  - repeat (split; [reflexivity|]). split; [discriminate | reflexivity].
Qed.

Lemma saved_registry E json_dumps bot_data files w :
  let r := (BotDataOps.save_data E json_dumps ((bot_data, files), w)).2 in
  BotData.approved_users r.1.1 = BotData.approved_users bot_data /\
  (forall user_id,
     BotData.banned_users r.1.1 !! user_id
     = match BotData.banned_users bot_data !! user_id with
       | Some ban_end =>
           if ban_end <? clock E (reads w) then None else Some ban_end
       | None => None
       end) /\
  r.1.2 !! BotConfig.DATA_FILE (config E)
    = Some (json_dumps (BotData.to_dict E r.1.1)) /\
  r.2 = tick w.
Proof.
  cbn zeta. rewrite save_data_run. cbn zeta. cbn [fst snd].
  rewrite clean_old_data_run. cbn zeta. cbn [fst snd].
  split; [destruct (1000 <? _); reflexivity|].
  split; [|split; [apply lookup_insert_eq | reflexivity]].
  intros user_id.
  rewrite <- (clean_bans_lookup (clock E (reads w))
                (BotData.banned_users bot_data) user_id).
  destruct (1000 <? _); reflexivity.
Qed.

Lemma approve_and_save_state E json_dumps user_id s :
  let r := approve_and_save E json_dumps user_id s in
  user_id ∈ BotData.approved_users (Handlers.bot_data r) /\
  (BotData.banned_users (Handlers.bot_data s) !! user_id = None ->
   BotData.banned_users (Handlers.bot_data r) !! user_id = None) /\
  Handlers.files r !! BotConfig.DATA_FILE (config E)
    = Some (json_dumps (BotData.to_dict E (Handlers.bot_data r))) /\
  Handlers.security r = Handlers.security s /\
  Handlers.rate_limiter r = Handlers.rate_limiter s /\
  Handlers.sent r = Handlers.sent s.
Proof.
  cbn zeta. unfold approve_and_save. state_simpl.
  match goal with
  | |- context [BotDataOps.save_data E json_dumps ((?bd, ?f), ?w0)] =>
      destruct (saved_registry E json_dumps bd f w0)
        as (Happ & Hban & Hfile & _)
  end.
  cbn zeta in Happ, Hban, Hfile.
  split.
  { rewrite Happ.
    cbn [BotData.approved_users Handlers.set_approved_users].
    apply elem_of_union_l, elem_of_singleton. reflexivity. }
  split; [intros Hnone; rewrite Hban; cbn; rewrite Hnone; reflexivity|].
  split; [exact Hfile|]. auto.
Qed.

Lemma unban_and_save_state E json_dumps user_id s :
  let r := unban_and_save E json_dumps user_id s in
  BotData.banned_users (Handlers.bot_data r) !! user_id = None /\
  BotData.approved_users (Handlers.bot_data r)
    = BotData.approved_users (Handlers.bot_data s) /\
  Handlers.security r = Handlers.security s /\
  Handlers.rate_limiter r = Handlers.rate_limiter s /\
  Handlers.sent r = Handlers.sent s /\
  Handlers.world r = tick (Handlers.world s).
Proof.
  cbn zeta. unfold unban_and_save. state_simpl.
  match goal with
  | |- context [BotDataOps.save_data E json_dumps ((?bd, ?f), ?w0)] =>
      destruct (saved_registry E json_dumps bd f w0)
        as (Happ & Hban & _ & Hw)
  end.
  cbn zeta in Happ, Hban, Hw.
  split; [rewrite Hban; cbn; rewrite lookup_delete_eq; reflexivity|].
  split; [rewrite Happ; reflexivity|]. auto.
Qed.

Lemma check_standing_granted E json_dumps reply_ok update s :
  let user_id := User.id (Update.effective_user update) in
  let lim :=
    RateLimiter.is_rate_limited E user_id "message"
      (Handlers.rate_limiter s, Handlers.world s) in
  let r := Handlers.check_standing E json_dumps reply_ok update s in
  r.1 = Handlers.Returned true ->
  lim.1 = false /\
  (user_id ∉ SecuritySystem.suspicious_users (Handlers.security s)) /\
  Handlers.security r.2 = Handlers.security s /\
  Handlers.rate_limiter r.2 = lim.2.1 /\
  (Chat.type (Update.effective_chat update) = "private" ->
   user_id ∈ BotData.approved_users (Handlers.bot_data r.2)) /\
  (BotData.banned_users (Handlers.bot_data s) !! user_id = None ->
   BotData.banned_users (Handlers.bot_data r.2) !! user_id = None).
Proof.
  cbn zeta. rewrite check_standing_run. cbn zeta.
  set (user_id := User.id (Update.effective_user update)).
  set (lim := RateLimiter.is_rate_limited E user_id "message" _).
  destruct (lim.1) eqn:Hlim.
  { intros H.
    apply (proj1 (proj2 (proj2 (proj2 (proj2 (proj2
             (reply_and_return_frame _ _ _ _ _))))))) in H.
    discriminate. }
  destruct (bool_decide (user_id ∈ _)) eqn:Hsusp.
  { intros H.
    apply (proj1 (proj2 (proj2 (proj2 (proj2 (proj2
             (reply_and_return_frame _ _ _ _ _))))))) in H.
    discriminate. }
  apply bool_decide_eq_false in Hsusp.
  destruct (String.eqb_spec (Chat.type (Update.effective_chat update))
              "private") as [Hpriv|Hpub]; cbn [andb].
  - destruct (bool_decide (user_id ∈ BotData.approved_users _)) eqn:Happ;
      cbn [negb].
    + apply bool_decide_eq_true in Happ. cbn [fst snd]. intros _.
      state_simpl.
      split; [reflexivity|]. split; [exact Hsusp|]. split; [reflexivity|].
      split; [reflexivity|]. split; [intros _; exact Happ | auto].
    + destruct (verify_user_account_state E (Update.effective_user update)
                  (Handlers.security s)) as (Hgood & _).
      cbn zeta in Hgood.
      destruct (SecuritySystem.verify_user_account E
                  (Update.effective_user update) (Handlers.security s))
        as [[verified reason] sec1]. cbn [fst snd] in *.
      destruct verified; cbn [negb].
      * specialize (Hgood eq_refl). subst sec1.
        destruct (BotConfig.ENABLE_USER_VERIFICATION (config E)).
        -- intros _.
           match goal with
           | |- context [Handlers.reply_and_return ?ok ?u ?t ?a ?s0] =>
               destruct (reply_and_return_frame ok u t a s0)
                 as (Hbd & _ & Hrl & Hsec & _)
           end.
           cbn zeta in Hbd, Hrl, Hsec. rewrite Hbd, Hrl, Hsec.
           match goal with
           | |- context [approve_and_save E json_dumps user_id ?s0] =>
               destruct (approve_and_save_state E json_dumps user_id s0)
                 as (Happ' & Hban' & _ & Hsec' & Hrl' & _)
           end.
           cbn zeta in Happ', Hban', Hsec', Hrl'. rewrite Hsec', Hrl'.
           state_simpl.
           split; [reflexivity|]. split; [exact Hsusp|].
           split; [reflexivity|]. split; [reflexivity|].
           split; [intros _; exact Happ' | exact Hban'].
        -- intros H.
           apply (proj1 (proj2 (proj2 (proj2 (proj2 (proj2
                    (reply_and_return_frame _ _ _ _ _))))))) in H.
           discriminate.
      * intros H.
        apply (proj1 (proj2 (proj2 (proj2 (proj2 (proj2
                 (reply_and_return_frame _ _ _ _ _))))))) in H.
        discriminate.
  - cbn [fst snd]. intros _. state_simpl.
    split; [reflexivity|]. split; [exact Hsusp|]. split; [reflexivity|].
    split; [reflexivity|]. split; [intros; congruence | auto].
Qed.

(** X25.  When [check_access] lets a user other than the owner through,
    the user had no ban still running and has no ban entry left, was not
    marked suspicious, the rate limiter's check for a message answered
    false (and its state is the limiter's), the security state is
    unchanged, and in a private chat the user is approved. *)
Theorem access_granted_means_good_standing (E : Env)
  (json_dumps : Snapshot.t -> string) (reply_ok : nat -> bool)
  (update : Update.t) (s : Handlers.State) :
  let user_id := User.id (Update.effective_user update) in
  let r := Handlers.check_access E json_dumps reply_ok update s in
  user_id <> BotConfig.OWNER_ID (config E) ->
  r.1 = Handlers.Returned true ->
  (forall ban_end,
     BotData.banned_users (Handlers.bot_data s) !! user_id = Some ban_end ->
     ban_end <= clock E (reads (Handlers.world s))) /\
  BotData.banned_users (Handlers.bot_data r.2) !! user_id = None /\
  (user_id ∉ SecuritySystem.suspicious_users (Handlers.security s)) /\
  Handlers.security r.2 = Handlers.security s /\
  (exists w w',
     RateLimiter.is_rate_limited E user_id "message"
       (Handlers.rate_limiter s, w)
     = (false, (Handlers.rate_limiter r.2, w'))) /\
  (Chat.type (Update.effective_chat update) = "private" ->
   user_id ∈ BotData.approved_users (Handlers.bot_data r.2)).
Proof.
  cbn zeta. intros Howner. rewrite check_access_run. cbn zeta.
  apply Z.eqb_neq in Howner. rewrite Howner.
  set (user_id := User.id (Update.effective_user update)) in *.
  destruct (BotData.banned_users (Handlers.bot_data s) !! user_id)
    as [ban_end|] eqn:Hban.
  - destruct (Z.ltb_spec (clock E (reads (Handlers.world s))) ban_end)
      as [Hactive|Hexpired].
    { intros H.
      apply (proj1 (proj2 (proj2 (proj2 (proj2 (proj2
               (reply_and_return_frame _ _ _ _ _))))))) in H.
      discriminate. }
    intros Hret.
    destruct (unban_and_save_state E json_dumps user_id
                (Handlers.set_world (tick (Handlers.world s)) s))
      as (Hnone & _ & Hsec & Hrl & _ & Hw).
    cbn zeta in Hnone, Hsec, Hrl, Hw. state_simpl.
    destruct (check_standing_granted E json_dumps reply_ok update _ Hret)
      as (Hlim & Hsusp & Hsec' & Hrl' & Happ & Hban').
    fold user_id in Hlim, Hsusp, Hrl', Happ, Hban'.
    rewrite Hsec in Hsusp, Hsec'. rewrite Hrl, Hw in Hlim, Hrl'.
    split; [intros e [= <-]; exact Hexpired|].
    split; [exact (Hban' Hnone)|]. split; [exact Hsusp|].
    split; [exact Hsec'|]. split; [|exact Happ].
    exists (tick (tick (Handlers.world s))).
    destruct (RateLimiter.is_rate_limited E user_id "message"
                (Handlers.rate_limiter s, tick (tick (Handlers.world s))))
      as [limited [lim w']].
    cbn [fst snd] in *. subst. eauto.
  - intros Hret.
    destruct (check_standing_granted E json_dumps reply_ok update s Hret)
      as (Hlim & Hsusp & Hsec' & Hrl' & Happ & Hban').
    fold user_id in Hlim, Hsusp, Hrl', Happ, Hban'.
    split; [intros e [=]|]. split; [exact (Hban' Hban)|].
    split; [exact Hsusp|]. split; [exact Hsec'|]. split; [|exact Happ].
    exists (Handlers.world s).
    destruct (RateLimiter.is_rate_limited E user_id "message"
                (Handlers.rate_limiter s, Handlers.world s))
      as [limited [lim w']].
    cbn [fst snd] in *. subst. eauto.
Qed.

(** X26.  For a user other than the owner whose ban has not ended,
    [check_access] never lets the user through and touches neither the
    registry, the data file, the rate limiter nor the security state; with
    a message to reply to it attempts exactly one reply, giving the days
    and hours left, and returns false when that reply goes out; when the
    ban has not ended at the second reading of the clock either, the days
    are not negative and the hours lie between 0 and 23. *)
Theorem active_ban_denies (E : Env) (json_dumps : Snapshot.t -> string)
  (reply_ok : nat -> bool) (update : Update.t) (s : Handlers.State)
  (ban_end : Z) :
  let user_id := User.id (Update.effective_user update) in
  let w := Handlers.world s in
  let r := Handlers.check_access E json_dumps reply_ok update s in
  let remaining := ban_end - clock E (S (reads w)) in
  user_id <> BotConfig.OWNER_ID (config E) ->
  BotData.banned_users (Handlers.bot_data s) !! user_id = Some ban_end ->
  clock E (reads w) < ban_end ->
  r.1 <> Handlers.Returned true /\
  Handlers.bot_data r.2 = Handlers.bot_data s /\
  Handlers.files r.2 = Handlers.files s /\
  Handlers.rate_limiter r.2 = Handlers.rate_limiter s /\
  Handlers.security r.2 = Handlers.security s /\
  (forall m, Update.message update = Some m ->
     r.1 = (if reply_ok (length (Handlers.sent s))
            then Handlers.Returned false else Handlers.Raised) /\
     Handlers.sent r.2
     = (Handlers.sent s
        ++ [(Handlers.BannedReply (remaining / 86400000000)
               (remaining mod 86400000000 / 3600000000),
             reply_ok (length (Handlers.sent s)))])%list) /\
  (clock E (S (reads w)) <= ban_end ->
   0 <= remaining / 86400000000 /\
   0 <= remaining mod 86400000000 / 3600000000 < 24).
Proof.
  cbn zeta. intros Howner Hban Hactive. rewrite check_access_run. cbn zeta.
  apply Z.eqb_neq in Howner. rewrite Howner, Hban.
  apply Z.ltb_lt in Hactive. rewrite Hactive.
  match goal with
  | |- context [Handlers.reply_and_return ?ok ?u ?t ?a ?s0] =>
      destruct (reply_and_return_frame ok u t a s0)
        as (Hbd & Hfiles & Hrl & Hsec & _ & Hret & Hsent)
  end.
  cbn zeta in Hbd, Hfiles, Hrl, Hsec, Hret, Hsent. state_simpl.
  split; [intros H; apply Hret in H; discriminate|].
  split; [exact Hbd|]. split; [exact Hfiles|]. split; [exact Hrl|].
  split; [exact Hsec|]. split.
  - intros m Hm. rewrite Hm in Hsent. exact Hsent.
  - intros Hlate. split.
    + apply Z.div_pos; lia.
    + split.
      * apply Z.div_pos; [|lia]. apply Z.mod_pos_bound. lia.
      * apply Z.div_lt_upper_bound; [lia|].
        pose proof (Z.mod_pos_bound
                      (ban_end - clock E (S (reads (Handlers.world s))))
                      86400000000 ltac:(lia)).
        lia.
Qed.

(** X27.  A user other than the owner who is marked suspicious is never
    let through by [check_access], and the check leaves the security state
    as it is; and a check that answers with the verification-failed reply
    leaves the user marked suspicious with one more failed verification,
    so one failed verification already locks the user out. *)
Theorem suspicious_user_is_locked_out (E : Env)
  (json_dumps : Snapshot.t -> string) (reply_ok : nat -> bool)
  (update : Update.t) (s : Handlers.State) :
  let user_id := User.id (Update.effective_user update) in
  let r := Handlers.check_access E json_dumps reply_ok update s in
  user_id <> BotConfig.OWNER_ID (config E) ->
  (user_id ∈ SecuritySystem.suspicious_users (Handlers.security s) ->
   r.1 <> Handlers.Returned true /\
   Handlers.security r.2 = Handlers.security s) /\
  (forall reason delivered,
     Handlers.sent r.2
     = (Handlers.sent s
        ++ [(Handlers.VerificationFailedReply reason, delivered)])%list ->
     r.1 <> Handlers.Returned true /\
     user_id ∈ SecuritySystem.suspicious_users (Handlers.security r.2) /\
     default 0 (SecuritySystem.failed_verifications (Handlers.security r.2)
                  !! user_id)
     = default 0 (SecuritySystem.failed_verifications (Handlers.security s)
                    !! user_id) + 1).
Proof.
  cbn zeta. intros Howner.
  set (user_id := User.id (Update.effective_user update)) in *.
  assert (Hstanding : forall s0,
    let r0 := Handlers.check_standing E json_dumps reply_ok update s0 in
    (user_id ∈ SecuritySystem.suspicious_users (Handlers.security s0) ->
     r0.1 <> Handlers.Returned true /\
     Handlers.security r0.2 = Handlers.security s0) /\
    (forall reason delivered,
       Handlers.sent r0.2
       = (Handlers.sent s0
          ++ [(Handlers.VerificationFailedReply reason, delivered)])%list ->
       r0.1 <> Handlers.Returned true /\
       user_id ∈ SecuritySystem.suspicious_users (Handlers.security r0.2) /\
       default 0 (SecuritySystem.failed_verifications
                    (Handlers.security r0.2) !! user_id)
       = default 0 (SecuritySystem.failed_verifications
                      (Handlers.security s0) !! user_id) + 1)).
  { intros s0. cbn zeta. split.
    - intros Hsusp. split.
      + intros H. apply check_standing_granted in H.
        destruct H as (_ & Hnot & _). exact (Hnot Hsusp).
      + rewrite check_standing_run. cbn zeta. fold user_id.
        destruct ((RateLimiter.is_rate_limited E user_id "message"
                     (Handlers.rate_limiter s0, Handlers.world s0)).1).
        * match goal with
          | |- context [Handlers.reply_and_return ?ok ?u ?t ?a ?s1] =>
              destruct (reply_and_return_frame ok u t a s1)
                as (_ & _ & _ & Hsec & _)
          end.
          cbn zeta in Hsec. exact Hsec.
        * rewrite bool_decide_eq_true_2 by exact Hsusp.
          match goal with
          | |- context [Handlers.reply_and_return ?ok ?u ?t ?a ?s1] =>
              destruct (reply_and_return_frame ok u t a s1)
                as (_ & _ & _ & Hsec & _)
          end.
          cbn zeta in Hsec. exact Hsec.
    - intros reason delivered. rewrite check_standing_run. cbn zeta.
      fold user_id.
      assert (Hother : forall text allowed s1,
        Handlers.sent s1 = Handlers.sent s0 ->
        (forall why, text <> Handlers.VerificationFailedReply why) ->
        Handlers.sent
          (Handlers.reply_and_return reply_ok update text allowed s1).2
        <> (Handlers.sent s0
            ++ [(Handlers.VerificationFailedReply reason, delivered)])%list).
      { intros text allowed s1 Hs1 Htext Heq.
        unfold Handlers.reply_and_return in Heq.
        destruct (Update.message update); cbn [fst snd] in Heq; state_simpl.
        - rewrite Hs1 in Heq. apply app_inv_head in Heq.
          injection Heq as Heq _. exact (Htext _ Heq).
        - rewrite Hs1 in Heq.
          apply (f_equal (@length _)) in Heq. rewrite length_app in Heq.
          cbn in Heq. lia. }
      destruct ((RateLimiter.is_rate_limited E user_id "message"
                   (Handlers.rate_limiter s0, Handlers.world s0)).1).
      { intros H. exfalso. revert H. apply Hother; [reflexivity|].
        intros why. unfold limit_reply.
        destruct (RateLimiter.get_cooldown_remaining E user_id _).1
          as [seconds|]; [destruct (seconds =? 0)|]; discriminate. }
      destruct (bool_decide (user_id ∈ _)).
      { intros H. exfalso. revert H. apply Hother; [reflexivity|].
        discriminate. }
      destruct (_ && _).
      2:{ cbn [fst snd]. state_simpl. intros H.
          apply (f_equal (@length _)) in H. rewrite length_app in H.
          cbn in H. lia. }
      destruct (verify_user_account_state E (Update.effective_user update)
                  (Handlers.security s0)) as (_ & Hbad).
      cbn zeta in Hbad. fold user_id in Hbad.
      destruct (SecuritySystem.verify_user_account E
                  (Update.effective_user update) (Handlers.security s0))
        as [[verified why] sec1]. cbn [fst snd] in *.
      destruct verified; cbn [negb].
      + destruct (BotConfig.ENABLE_USER_VERIFICATION (config E)).
        * intros H. exfalso. revert H. apply Hother; [|discriminate].
          destruct (approve_and_save_state E json_dumps user_id
                      (Handlers.set_security sec1
                         (Handlers.set_limiter
                            (RateLimiter.is_rate_limited E user_id "message"
                               (Handlers.rate_limiter s0,
                                Handlers.world s0)).2 s0)))
            as (_ & _ & _ & _ & _ & Hsent).
          cbn zeta in Hsent. rewrite Hsent. reflexivity.
        * intros H. exfalso. revert H. apply Hother; [reflexivity|].
          discriminate.
      + intros _. destruct (Hbad eq_refl) as (Hin & Hfail).
        match goal with
        | |- context [Handlers.reply_and_return ?ok ?u ?t ?a ?s1] =>
            destruct (reply_and_return_frame ok u t a s1)
              as (_ & _ & _ & Hsec & _ & Hret & _)
        end.
        cbn zeta in Hsec, Hret. rewrite Hsec. state_simpl.
        split; [intros H; apply Hret in H; discriminate|].
        destruct (add_failed_verifications_run 1 user_id sec1)
          as (Hcount & Hsusp & _).
        cbn zeta in Hcount, Hsusp.
        change (SecuritySessions.add_failed_verifications 1 user_id sec1)
          with (SecuritySystem.add_failed_verification user_id sec1)
          in Hcount, Hsusp.
        split; [apply Hsusp; left; exact Hin|].
        rewrite Hcount, Hfail. reflexivity. }
  rewrite check_access_run. cbn zeta. fold user_id.
  apply Z.eqb_neq in Howner. rewrite Howner.
  destruct (BotData.banned_users (Handlers.bot_data s) !! user_id)
    as [ban_end|]; [|apply Hstanding].
  destruct (clock E (reads (Handlers.world s)) <? ban_end).
  - match goal with
    | |- context [Handlers.reply_and_return ?ok ?u ?t ?a ?s1] =>
        destruct (reply_and_return_frame ok u t a s1)
          as (_ & _ & _ & Hsec & _ & Hret & Hsent)
    end.
    cbn zeta in Hsec, Hret, Hsent. state_simpl. split.
    + intros _. split; [intros H; apply Hret in H; discriminate|exact Hsec].
    + intros reason delivered Heq. exfalso.
      destruct (Update.message update).
      * destruct Hsent as [_ Hsent]. rewrite Hsent in Heq.
        apply app_inv_head in Heq. discriminate.
      * rewrite Hsent in Heq. cbn [snd] in Heq.
        apply (f_equal (@length _)) in Heq. rewrite length_app in Heq.
        cbn in Heq. lia.
  - destruct (unban_and_save_state E json_dumps user_id
                (Handlers.set_world (tick (Handlers.world s)) s))
      as (_ & _ & Hsec & _ & Hsent & _).
    cbn zeta in Hsec, Hsent. state_simpl.
    specialize (Hstanding (unban_and_save E json_dumps user_id
                             (Handlers.set_world (tick (Handlers.world s)) s))).
    cbn zeta in Hstanding. rewrite Hsec, Hsent in Hstanding.
    exact Hstanding.
Qed.

(** X28.  A user other than the owner who writes in a private chat for
    the first time -- not banned, not rate limited, not suspicious, not yet
    approved -- and whose account verifies is approved: the user is added
    to the approved users and the data file holds the snapshot of the new
    registry, whether or not the confirmation is delivered; the check
    returns true when it is, and raises otherwise. *)
Theorem first_contact_is_approved (E : Env)
  (json_dumps : Snapshot.t -> string) (reply_ok : nat -> bool)
  (update : Update.t) (m : Message.t) (s : Handlers.State) :
  let user := Update.effective_user update in
  let user_id := User.id user in
  let r := Handlers.check_access E json_dumps reply_ok update s in
  let delivered := reply_ok (length (Handlers.sent s)) in
  user_id <> BotConfig.OWNER_ID (config E) ->
  Update.message update = Some m ->
  Chat.type (Update.effective_chat update) = "private" ->
  BotData.banned_users (Handlers.bot_data s) !! user_id = None ->
  (RateLimiter.is_rate_limited E user_id "message"
     (Handlers.rate_limiter s, Handlers.world s)).1 = false ->
  (user_id ∉ SecuritySystem.suspicious_users (Handlers.security s)) ->
  (user_id ∉ BotData.approved_users (Handlers.bot_data s)) ->
  (SecuritySystem.verify_user_account E user (Handlers.security s)).1.1
    = true ->
  BotConfig.ENABLE_USER_VERIFICATION (config E) = true ->
  r.1 = (if delivered then Handlers.Returned true else Handlers.Raised) /\
  Handlers.sent r.2
    = (Handlers.sent s ++ [(Handlers.AutoVerifiedReply, delivered)])%list /\
  user_id ∈ BotData.approved_users (Handlers.bot_data r.2) /\
  Handlers.files r.2 !! BotConfig.DATA_FILE (config E)
    = Some (json_dumps (BotData.to_dict E (Handlers.bot_data r.2))) /\
  Handlers.security r.2 = Handlers.security s.
Proof.
  cbn zeta. intros Howner Hm Hpriv Hban Hlim Hsusp Happ Hver Hon.
  rewrite check_access_run. cbn zeta.
  apply Z.eqb_neq in Howner. rewrite Howner, Hban.
  rewrite check_standing_run. cbn zeta. rewrite Hlim.
  rewrite bool_decide_eq_false_2 by exact Hsusp.
  rewrite Hpriv. rewrite bool_decide_eq_false_2 by exact Happ.
  cbn [String.eqb Ascii.eqb Bool.eqb andb negb].
  destruct (verify_user_account_state E (Update.effective_user update)
              (Handlers.security s)) as (Hgood & _).
  cbn zeta in Hgood. specialize (Hgood Hver).
  rewrite Hver, Hon, Hgood. cbn [negb].
  match goal with
  | |- context [Handlers.reply_and_return ?ok ?u ?t ?a ?s0] =>
      destruct (reply_and_return_frame ok u t a s0)
        as (Hbd & Hfiles & _ & Hsec & _ & _ & Hsent)
  end.
  cbn zeta in Hbd, Hfiles, Hsec, Hsent. rewrite Hm in Hsent.
  destruct Hsent as [Hret Hsent]. rewrite Hbd, Hfiles, Hsec, Hret, Hsent.
  match goal with
  | |- context [approve_and_save E json_dumps ?u ?s0] =>
      destruct (approve_and_save_state E json_dumps u s0)
        as (Happ' & _ & Hfile & Hsec' & _ & Hsent')
  end.
  cbn zeta in Happ', Hfile, Hsec', Hsent'. rewrite Hsent', Hsec'.
  state_simpl. auto.
Qed.

Lemma good_standing_parts E json_dumps reply_ok update s :
  let user_id := User.id (Update.effective_user update) in
  let lim :=
    RateLimiter.is_rate_limited E user_id "message"
      (Handlers.rate_limiter s, Handlers.world s) in
  (user_id = BotConfig.OWNER_ID (config E) ->
   Handlers.check_access E json_dumps reply_ok update s
   = (Handlers.Returned true, s)) /\
  (user_id <> BotConfig.OWNER_ID (config E) ->
   BotData.banned_users (Handlers.bot_data s) !! user_id = None ->
   lim.1 = false ->
   (user_id ∉ SecuritySystem.suspicious_users (Handlers.security s)) ->
   Chat.type (Update.effective_chat update) <> "private" \/
   user_id ∈ BotData.approved_users (Handlers.bot_data s) ->
   Handlers.check_access E json_dumps reply_ok update s
   = (Handlers.Returned true, Handlers.set_limiter lim.2 s)).
Proof.
  cbn zeta. split.
  - intros Howner. rewrite check_access_run. cbn zeta.
    apply Z.eqb_eq in Howner. rewrite Howner. reflexivity.
  - intros Howner Hban Hlim Hsusp Hok. rewrite check_access_run. cbn zeta.
    apply Z.eqb_neq in Howner. rewrite Howner, Hban.
    rewrite check_standing_run. cbn zeta. rewrite Hlim.
    rewrite bool_decide_eq_false_2 by exact Hsusp.
    destruct Hok as [Hpub|Happ].
    + apply String.eqb_neq in Hpub. rewrite Hpub. reflexivity.
    + rewrite (bool_decide_eq_true_2 _ Happ). cbn [negb].
      rewrite andb_false_r. reflexivity.
Qed.

(** X29.  [check_access] lets the owner through at once, with nothing
    read or changed, whatever bans or suspicions are recorded; and it lets
    through, with no reply and only the rate limiter's check as an effect,
    every other user who has no ban entry, is not rate limited, is not
    suspicious and either writes outside a private chat or is approved. *)
Theorem good_standing_passes_silently (E : Env)
  (json_dumps : Snapshot.t -> string) (reply_ok : nat -> bool)
  (update : Update.t) (s : Handlers.State) :
  let user_id := User.id (Update.effective_user update) in
  let lim :=
    RateLimiter.is_rate_limited E user_id "message"
      (Handlers.rate_limiter s, Handlers.world s) in
  (user_id = BotConfig.OWNER_ID (config E) ->
   Handlers.check_access E json_dumps reply_ok update s
   = (Handlers.Returned true, s)) /\
  (user_id <> BotConfig.OWNER_ID (config E) ->
   BotData.banned_users (Handlers.bot_data s) !! user_id = None ->
   lim.1 = false ->
   (user_id ∉ SecuritySystem.suspicious_users (Handlers.security s)) ->
   Chat.type (Update.effective_chat update) <> "private" \/
   user_id ∈ BotData.approved_users (Handlers.bot_data s) ->
   Handlers.check_access E json_dumps reply_ok update s
   = (Handlers.Returned true, Handlers.set_limiter lim.2 s)).
Proof. apply good_standing_parts. Qed.

Lemma access_granted_means_good_standing_witness :
  7 <> BotConfig.OWNER_ID (config sample_env) /\
  (Handlers.check_access sample_env (fun _ => "{}") (fun _ => true)
     group_update sample_state).1 = Handlers.Returned true /\
  (7 ∉ SecuritySystem.suspicious_users (Handlers.security sample_state)).
Proof.
  assert (H1 : 7 <> BotConfig.OWNER_ID (config sample_env))
    by (vm_compute; discriminate).
  assert (H2 : (Handlers.check_access sample_env (fun _ => "{}")
                  (fun _ => true) group_update sample_state).1
               = Handlers.Returned true)
    by (vm_compute; reflexivity).
  split; [exact H1|]. split; [exact H2|].
  exact (proj1 (proj2 (proj2 (access_granted_means_good_standing sample_env
           (fun _ => "{}") (fun _ => true) group_update sample_state
           H1 H2)))).
Defined.

Lemma active_ban_denies_witness :
  7 <> BotConfig.OWNER_ID (config sample_env) /\
  BotData.banned_users (Handlers.bot_data banned_state) !! 7
    = Some (Py.days 2) /\
  clock sample_env (reads (Handlers.world banned_state)) < Py.days 2 /\
  (Handlers.check_access sample_env (fun _ => "{}") (fun _ => true)
     group_update banned_state).1 = Handlers.Returned false.
Proof.
  assert (H1 : 7 <> BotConfig.OWNER_ID (config sample_env))
    by (vm_compute; discriminate).
  assert (H2 : BotData.banned_users (Handlers.bot_data banned_state) !! 7
               = Some (Py.days 2)) by reflexivity.
  assert (H3 : clock sample_env (reads (Handlers.world banned_state))
               < Py.days 2) by (vm_compute; reflexivity).
  split; [exact H1|]. split; [exact H2|]. split; [exact H3|].
  exact (proj1 (proj1 (proj2 (proj2 (proj2 (proj2 (proj2
           (active_ban_denies sample_env (fun _ => "{}") (fun _ => true)
              group_update banned_state (Py.days 2) H1 H2 H3))))))
           _ eq_refl)).
Defined.

Lemma suspicious_user_is_locked_out_witness :
  6000000000 <> BotConfig.OWNER_ID (config sample_env) /\
  let first :=
    Handlers.check_access sample_env (fun _ => "{}") (fun _ => true)
      shady_private_update sample_state in
  first.1 <> Handlers.Returned true /\
  (Handlers.check_access sample_env (fun _ => "{}") (fun _ => true)
     shady_private_update first.2).1 <> Handlers.Returned true.
Proof.
  assert (H1 : 6000000000 <> BotConfig.OWNER_ID (config sample_env))
    by (vm_compute; discriminate).
  split; [exact H1|]. cbn zeta.
  destruct (proj2 (suspicious_user_is_locked_out sample_env (fun _ => "{}")
                     (fun _ => true) shady_private_update sample_state H1)
              "potentially_new_account, suspicious_username, suspicious_name"
              true ltac:(vm_compute; reflexivity))
    as (Hdenied & Hsusp & _).
  split; [exact Hdenied|].
  exact (proj1 (proj1 (suspicious_user_is_locked_out sample_env
                         (fun _ => "{}") (fun _ => true)
                         shady_private_update _ H1) Hsusp)).
Defined.

Lemma first_contact_is_approved_witness :
  7 <> BotConfig.OWNER_ID (config sample_env) /\
  (7 ∉ BotData.approved_users (Handlers.bot_data sample_state)) /\
  let r :=
    Handlers.check_access sample_env (fun _ => "{}") (fun _ => true)
      private_update sample_state in
  r.1 = Handlers.Returned true /\
  7 ∈ BotData.approved_users (Handlers.bot_data r.2).
Proof.
  assert (H1 : 7 <> BotConfig.OWNER_ID (config sample_env))
    by (vm_compute; discriminate).
  assert (H2 : 7 ∉ BotData.approved_users (Handlers.bot_data sample_state))
    by (apply not_elem_of_empty).
  assert (H3 : 7 ∉ SecuritySystem.suspicious_users
                     (Handlers.security sample_state))
    by (apply not_elem_of_empty).
  split; [exact H1|]. split; [exact H2|]. cbn zeta.
  destruct (first_contact_is_approved sample_env (fun _ => "{}")
              (fun _ => true) private_update
              {| Message.message_id := 3; Message.text := Some "hi" |}
              sample_state H1 eq_refl eq_refl eq_refl
              ltac:(vm_compute; reflexivity) H3 H2
              ltac:(vm_compute; reflexivity) eq_refl)
    as (Hret & _ & Happ & _).
  split; [exact Hret | exact Happ].
Defined.

Lemma good_standing_passes_silently_witness :
  7 <> BotConfig.OWNER_ID (config sample_env) /\
  Chat.type (Update.effective_chat group_update) <> "private" /\
  (Handlers.check_access sample_env (fun _ => "{}") (fun _ => true)
     group_update sample_state).1 = Handlers.Returned true.
Proof.
  assert (H1 : 7 <> BotConfig.OWNER_ID (config sample_env))
    by (vm_compute; discriminate).
  assert (H2 : Chat.type (Update.effective_chat group_update) <> "private")
    by discriminate.
  split; [exact H1|]. split; [exact H2|].
  rewrite (proj2 (good_standing_passes_silently sample_env (fun _ => "{}")
                    (fun _ => true) group_update sample_state)
             H1 eq_refl ltac:(vm_compute; reflexivity)
             ltac:(apply not_elem_of_empty) (or_introl H2)).
  reflexivity.
Defined.

(** ** Granting access *)

Lemma reply_text_frame reply_ok update text s :
  let r := Admin.reply_text reply_ok update text s in
  Handlers.bot_data r.2 = Handlers.bot_data s /\
  Handlers.files r.2 = Handlers.files s /\
  Handlers.rate_limiter r.2 = Handlers.rate_limiter s /\
  Handlers.security r.2 = Handlers.security s /\
  Handlers.world r.2 = Handlers.world s.
Proof.
  cbn zeta. unfold Admin.reply_text.
  destruct (Update.message update); cbn zeta; state_simpl; auto.
Qed.

Lemma grant_access_run E json_dumps reply_ok update arg rest user_id s :
  User.id (Update.effective_user update) = BotConfig.OWNER_ID (config E) ->
  int_of_str E arg = Some user_id ->
  Admin.grant_access E json_dumps reply_ok update (arg :: rest) s =
  let approved :=
    Handlers.set_approved_users
      ({[user_id]} ∪ BotData.approved_users (Handlers.bot_data s))
      (Handlers.bot_data s) in
  let cleared :=
    BotDataOps.set_banned_users
      (delete user_id (BotData.banned_users approved)) approved in
  let safe :=
    Handlers.set_security
      (SecuritySystem.mark_user_safe user_id (Handlers.security s)).2
      (Handlers.set_bot_data cleared s) in
  Admin.reply_text reply_ok update (Handlers.AccessGrantedReply user_id)
    (Handlers.set_storage
       (BotDataOps.save_data E json_dumps
          ((cleared, Handlers.files s), Handlers.world s)).2 safe).
Proof.
  intros Howner Harg. unfold Admin.grant_access.
  apply Z.eqb_eq in Howner. rewrite Howner, Harg. cbn [negb].
  unfold Handlers.on_security, Handlers.on_storage.
  unfold zoom, modify, mbind, M_bind. state_simpl.
  destruct (SecuritySystem.mark_user_safe user_id (Handlers.security s))
    as [[] sec1]. state_simpl.
  destruct (BotDataOps.save_data E json_dumps _) as [[] saved].
  reflexivity.
Qed.

(** X30.  [grant_access] called by anyone but the owner changes neither
    the registry, the data file nor the security state.  Called by the
    owner with a user id, it leaves that user approved, without a ban,
    without suspicion or failed verifications, and the data file holding
    the snapshot of the new registry; from then on [check_access] lets the
    user through whenever the rate limiter does not hold them back. *)
Theorem granted_user_gets_access (E : Env)
  (json_dumps : Snapshot.t -> string) (reply_ok : nat -> bool)
  (update : Update.t) (args : list string) (s : Handlers.State) :
  let g := Admin.grant_access E json_dumps reply_ok update args s in
  (User.id (Update.effective_user update) <> BotConfig.OWNER_ID (config E) ->
   Handlers.bot_data g.2 = Handlers.bot_data s /\
   Handlers.files g.2 = Handlers.files s /\
   Handlers.security g.2 = Handlers.security s) /\
  (forall arg rest user_id,
     User.id (Update.effective_user update) = BotConfig.OWNER_ID (config E) ->
     args = arg :: rest ->
     int_of_str E arg = Some user_id ->
     user_id ∈ BotData.approved_users (Handlers.bot_data g.2) /\
     BotData.banned_users (Handlers.bot_data g.2) !! user_id = None /\
     (user_id ∉ SecuritySystem.suspicious_users (Handlers.security g.2)) /\
     SecuritySystem.failed_verifications (Handlers.security g.2) !! user_id
       = None /\
     Handlers.files g.2 !! BotConfig.DATA_FILE (config E)
       = Some (json_dumps (BotData.to_dict E (Handlers.bot_data g.2))) /\
     Handlers.rate_limiter g.2 = Handlers.rate_limiter s /\
     forall request,
       User.id (Update.effective_user request) = user_id ->
       (RateLimiter.is_rate_limited E user_id "message"
          (Handlers.rate_limiter g.2, Handlers.world g.2)).1 = false ->
       (Handlers.check_access E json_dumps reply_ok request g.2).1
       = Handlers.Returned true).
Proof.
  cbn zeta. split.
  - intros Hnot. unfold Admin.grant_access.
    apply Z.eqb_neq in Hnot. rewrite Hnot. cbn [negb].
    destruct (reply_text_frame reply_ok update Handlers.AdminOnlyReply s)
      as (Hbd & Hfiles & _ & Hsec & _).
    auto.
  - intros arg rest user_id Howner -> Harg.
    rewrite (grant_access_run E json_dumps reply_ok update arg rest user_id s
               Howner Harg).
    cbn zeta.
    match goal with
    | |- context [Admin.reply_text reply_ok update ?t ?s0] =>
        destruct (reply_text_frame reply_ok update t s0)
          as (Hbd & Hfiles & Hrl & Hsec & Hw);
        set (g := Admin.reply_text reply_ok update t s0) in *
    end.
    cbn zeta in Hbd, Hfiles, Hrl, Hsec, Hw. state_simpl.
    match type of Hbd with
    | context [BotDataOps.save_data E json_dumps ((?bd, ?f), ?w0)] =>
        destruct (saved_registry E json_dumps bd f w0)
          as (Happ & Hban & Hfile & _)
    end.
    cbn zeta in Happ, Hban, Hfile.
    assert (Happroved :
      user_id ∈ BotData.approved_users (Handlers.bot_data g.2)).
    { rewrite Hbd, Happ. cbn. apply elem_of_union_l, elem_of_singleton.
      reflexivity. }
    assert (Hunbanned :
      BotData.banned_users (Handlers.bot_data g.2) !! user_id = None).
    { rewrite Hbd, Hban. cbn. rewrite lookup_delete_eq. reflexivity. }
    assert (Hsafe :
      user_id ∉ SecuritySystem.suspicious_users (Handlers.security g.2)).
    { rewrite Hsec. state_simpl. intros H.
      apply elem_of_difference in H. destruct H as [_ H].
      apply H, elem_of_singleton. reflexivity. }
    split; [exact Happroved|]. split; [exact Hunbanned|].
    split; [exact Hsafe|].
    split; [rewrite Hsec; cbn; apply lookup_delete_eq|].
    split; [rewrite Hbd, Hfiles; exact Hfile|].
    split; [exact Hrl|].
    intros request Hid Hlim.
    destruct (Z.eq_dec user_id (BotConfig.OWNER_ID (config E))) as [Hown|Hown].
    + rewrite (proj1 (good_standing_parts E json_dumps reply_ok request g.2));
        [reflexivity | congruence].
    + rewrite (proj2 (good_standing_parts E json_dumps reply_ok request g.2));
        rewrite ?Hid; auto.
Qed.

Lemma granted_user_gets_access_witness :
  User.id (Update.effective_user owner_update)
    = BotConfig.OWNER_ID (config sample_env) /\
  int_of_str sample_env "7" = Some 7 /\
  let g :=
    Admin.grant_access sample_env (fun _ => "{}") (fun _ => true)
      owner_update ["7"] banned_state in
  7 ∈ BotData.approved_users (Handlers.bot_data g.2) /\
  BotData.banned_users (Handlers.bot_data g.2) !! 7 = None.
Proof.
  assert (H1 : User.id (Update.effective_user owner_update)
               = BotConfig.OWNER_ID (config sample_env)) by reflexivity.
  assert (H2 : int_of_str sample_env "7" = Some 7) by reflexivity.
  split; [exact H1|]. split; [exact H2|]. cbn zeta.
  destruct (proj2 (granted_user_gets_access sample_env (fun _ => "{}")
                     (fun _ => true) owner_update ["7"] banned_state)
              "7" [] 7 H1 eq_refl H2) as (Happ & Hban & _).
  split; [exact Happ | exact Hban].
Defined.
